(* ===== verification/_CoqProject ===== *)
-Q . S2P
Prelude.v
Logic.v
Sched.v
Merge.v
PyStr.v
FormatSpec.v
Format.v
Config.v
Provider.v
Summarize.v
Batch.v
Lifecycle.v
Typing.v
Template.v
Spec.v
Isolation.v
Race.v
Concurrent.v
Jobs.v
Linear.v
Reconfigure.v
Imports.v
EndToEnd.v
