(* ===== verification/Prelude.v ===== *)
(** * Verification of [rss_reader.summarizer]

    ** The program

    [src/rss_reader/summarizer.py] is one class, [Summarizer].  It is built from
    a configuration [dict] ([__init__], with [dict.get] defaults), lazily
    creates one SDK client and caches it in [self._client]
    ([_get_claude_client], [_get_openai_client]), sends a prompt to the provider
    ([_summarize_with_claude], [_summarize_with_openai]), and offers two entry
    points: [summarize] (short-circuit on short content, prompt rendering with
    [str.format], provider dispatch inside [try/except Exception]) and
    [summarize_batch] (a sequential loop over [articles[:max_articles]] that
    prints a progress line and calls [summarize]).

    ** The files, in the order of their dependencies

    - [Prelude] (this file): the outcome type and the state-and-exception
      monad [PyM] in which the methods are written (notation in [py_scope]),
      the [for ... in enumerate(...)] loop combinator, Python's prefix slice
      [l[:n]] for an arbitrary integer [n], the monad laws, and the tactics
      and hint databases the other files share.
    - [Logic]: predicates on computations with one rule per operation of the
      monad: [extends] (the state only moves along a preorder), [stable] (an
      invariant is kept), [raises_only] (which exceptions can leave),
      [costs] (a measure of the state grows by a bounded amount),
      [refines] (two computations on related states agree) and [hoare]
      (triples with a postcondition on the value returned and one on the
      exception raised).
    - [Sched]: threads that run on one shared state, one statement at a
      time, picked by a scheduler.  The interface [Machine] says what a
      kind of thread provides (its next statement, whether it is running,
      a bound on the statements it has left); the scheduler ([turn],
      [schedule]), the step relation of a pool of threads ([interleave])
      and their lemmas are proved once for every machine.
    - [PyStr]: Python values as the program uses them.  A [str] is a list of
      Unicode code points ([len] counts code points, not bytes), string
      literals of the source are written as Rocq literals and decoded from
      UTF-8 by [lit]; [str(int)]; the value of a configuration entry
      ([None], a [str], or an object of another class given by the name of
      its class and its [str()]); exceptions with their class and the
      [except Exception] test; [repr] and [ascii] of a [str] after
      CPython's [unicode_repr] ([py_repr], [py_ascii]: the choice of the
      quote, the escapes, the hexadecimal digits); the interface
      [PyRuntime] of what the model takes from the interpreter's Unicode
      tables (decimal digits, printable code points).
    - [FormatSpec]: [str.__format__], the format specification of a field
      whose object is a [str], after CPython's [formatter_unicode.c]:
      fill, alignment, width, precision, and every [ValueError] of a
      specification ([parse_spec], [format_string_internal],
      [format_str]).
    - [Format]: [template.format] called with keyword arguments of type
      [str], after CPython's [MarkupIterator_next], [parse_field],
      [FieldNameIterator_next], [get_field_object] and [output_markup]:
      literal text, the escapes [{{] and [}}], replacement fields with
      their conversion and format specification, fields inside a
      specification, the index and attribute accessors of a field name
      applied to a [str] ([accessor_next], [follow]: a character or
      [IndexError] for an index, [TypeError] for a key that is no
      integer, [AttributeError] for a name that no [str] has), and
      every [ValueError], [KeyError] and [IndexError] of the scanner and
      of the field lookup; the theorem that [format] implements
      substitution in a template ([py_format_unparse]).
    - [Config]: the [Summarizer] record (one field per attribute), [__init__],
      [_default_prompt], and the invariant [client_ok] of the client slot.
    - [Provider]: the world the methods act on (lines printed, calls made to
      the SDKs), the environment [Env] that answers these calls, the two
      client getters and the two provider calls, with their equations on a
      filled and on an empty slot, and the three measures of the world
      (requests sent, clients constructed, lines printed).
    - [Summarize]: [summarize], with its functional theorems on every
      branch: short content, rendering, unknown provider, cached client,
      empty slot, unavailable SDK, exceptions caught and not caught.
    - [Batch]: [summarize_batch], the same batch written as a map
      ([batch_ref]), and its theorems: order, length, totality, abortion,
      bounds on the requests.
    - [Lifecycle]: the life of an instance as a step relation ([step],
      [reachable]): construction, then any sequence of calls; the invariants
      of all reachable states.
    - [Typing]: the types the module needs where Python checks none: the
      type of each configuration key ([config_typed]), of the attributes
      ([instance_typed]), well-formed calls ([call_wf]) and states
      ([wf_state]), and the annotations of the results.
    - [Template]: the scan of [format] with its parts kept: [parse] reads
      a configured string into literal texts and plain fields and the way
      the string ends, [instantiate] renders a parse, [check_template] and
      [check_config] decide from the configuration whether prompt
      rendering raises, and which exception, fields with a conversion or
      a format specification included.
    - [Spec]: the contract of the module, written without a client slot
      ([summarize_spec], [summarize_batch_spec]), the simulation relation
      [sim], and the theorems that the methods refine the contract.
    - [Isolation]: for providers that keep no memory, the summary of an
      article as a function of the configuration and the article
      ([summary], [summaries]), which the methods compute in every state.
    - [Race]: calls of a client getter that run at the same time on one
      instance, interleaved at the statements of the getter
      ([thread_step], the machine [thread_machine]).
    - [Concurrent]: calls of [summarize] that run at the same time on one
      instance.  A call is at one of its statements ([call]): the length
      test with the rendering of the prompt, a statement of the getter,
      the request, the [print] of the warning or of the error line;
      [call_step] runs one statement, [call_rest] is the rest of the
      method from a statement on, and the machine [call_machine] puts the
      calls under the scheduler of [Sched].
    - [Jobs]: calls of both public methods that run at the same time.  A
      job ([job]) is a call of [summarize] or a batch, which is at the
      head of its loop or inside the call of [summarize] for an article;
      [job_step] runs one statement, [job_rest] is the rest of the method,
      [job_machine] the machine.
    - [Merge]: the logs that interleave the logs of several calls, each
      in its order ([merges], decided by [is_merge]), with the theorem
      that the log of an interleaving of threads is a merge of what the
      threads have left to add ([interleave_merges]).
    - [Linear]: what a call prints and sends as a function of the
      configuration and of its arguments ([op_trace], [job_trace]), and
      the theorems that concurrent calls print and send a merge of what
      each prints and sends alone.
    - [Reconfigure]: the public attributes ([attribute], [get_attr],
      [set_attr]), sessions of calls, assignments to attributes and
      [s._client = None] ([action], [act]), the attributes a call reads
      ([reads]) and the state a change of provider leaves ([stale]).
    - [Imports]: the load of the module ([load_module]: the two imports
      at its top and the class statement), a session with the result of
      each call ([session]) and a program from the load on ([program]).
    - [EndToEnd]: the components put together: the check of a deployment
      ([deployable]) and the theorem that a deployment that passes it is
      correct ([program_correct]).

    ** State and effects

    A method is a computation [PyM State exn A]: a function from the state
    (the object's attributes and the world) to an outcome ([Ok a] for
    [return a], [Raise e] for an exception that leaves the method) and the
    new state.  [try: ... except Exception as e: ...] is [try_except]; it
    lets [KeyboardInterrupt] and [SystemExit] through, as Python does.
    Provider calls are answered by an environment that sees the whole
    history of calls, so a theorem quantified over the environment holds for
    every behaviour of the network.  [print] asks the environment too
    ([env_print]): the line is appended to the world's [stdout], or the
    write raises and nothing is printed (a standard output whose encoding
    lacks the characters of the line, a closed pipe).  The theorems that
    say what is printed assume a standard output that takes every line
    ([writable]); the others hold for every standard output.

    ** What the theorems show

    - the short-circuit: content of fewer than 100 code points is returned
      as it is (the placeholder for empty content) and leaves the state
      untouched: no call, no line printed, no client created;
    - prompt rendering: the built-in template renders to its three literal
      parts around the title and the content, which are inserted verbatim and
      never scanned again; for every configured string, rendering is
      parsing followed by instantiation ([render_prompt_parse]), and parsing
      inverts the printing of a template ([template_roundtrip]); a template
      that fails to render makes [summarize] raise, because [format] runs
      before the [try]; what rendering does is decided by the check of the
      template, for every article ([check_template_sound]) and for the
      whole life of the instance ([check_config_sound]); a field
      [{k[i]}] renders to the character of its argument at the index or
      raises [IndexError] ([render_prompt_indexed], with the index read
      back from its digits by [get_integer_str_of_int]), so a template
      that indexes the title is left undecided by the check
      ([ex_initial_check]); [repr]
      only adds the apostrophes to text of plain characters
      ([py_repr_plain]) and [ascii] yields ASCII text whatever the
      tables ([py_ascii_is_ascii], [py_ascii_repr]);
    - dispatch: one request per call with the configured model, [max_tokens]
      500 and one user message holding the rendered prompt; an unknown
      provider prints one warning and calls nothing; every [Exception] of the
      provider path becomes [None] with one error line; summaries are never
      cached; the one exception of the provider path that is not absorbed is
      that of the [print] of the [except] clause
      ([summarize_handler_raises]);
    - the client slot: on an empty slot the client is constructed from the
      credentials of the instance and stored; a failed construction leaves
      the slot empty; a filled slot is never emptied or refilled; in the life
      of an instance one client at most is constructed with success;
    - the batch: order, length for every integer [max_articles] (negative
      ones included), totality when rendering succeeds, abortion when
      [summarize] raises, one request at most per long article;
    - types: [__init__] reads each attribute from its own key; a
      configuration of the types of the defaults gives a well-typed
      instance; every call of a public method keeps the state well formed,
      so every request carries the configured provider's client and model,
      [max_tokens] 500 and one user message, also when the calls run at
      the same time ([jobs_wf]); [summarize] returns a [str] or [None]
      when the SDK does;
    - concurrent calls: a getter run without interruption is the getter of
      [Provider], and a call of a public method run without interruption
      is the method ([run_call_alone], [job_alone]); two interleaved
      calls can both construct a client, which no sequence of calls does;
      however they interleave, the getters return the same client, built
      from the credentials of the instance; every call returns
      ([jobs_all_return]), the calls send, construct and print no more
      than in sequence ([jobs_budget]: [n] calls of [summarize] send [n]
      requests, construct [n] clients and print [n] lines at most,
      [calls_budget]), and with providers that keep no memory every call
      returns what it returns alone, a batch the summaries of its
      articles in order ([jobs_isolated], [calls_isolated]);
    - logs of concurrent calls: with providers that keep no memory, the
      lines printed and the requests sent by calls that run at the same
      time are a merge of the lines and requests of each call run alone,
      in the order of each call, none lost and none added ([jobs_merge]);
      they are a permutation of what the same calls print and send one
      after the other ([jobs_session]);
    - assignments between calls: a call depends on the attributes it
      reads and on the slot only, so an assignment to another attribute
      commutes with it and credentials assigned after the first request
      are ignored ([assign_commutes]); when the provider and the
      credentials are assigned only while the slot is empty, a session
      of calls and assignments implements the contract of the
      configuration as assigned ([reconfigure_refines]) and a call
      returns what a fresh instance of that configuration returns
      ([reconfigured_result]); a change of provider with a client in the
      slot leaves an instance that sends no request again
      ([switch_provider_stale]);
    - imports: the module loads when [typing] and [rss_reader.fetcher]
      can be imported and the interpreter evaluates [list[Article]]
      ([load_module_ok]); an SDK is imported only inside the getter of
      the configured provider, so a program does the same whether the
      other SDK is installed or not ([program_one_sdk]);
    - the whole program: when the module loads, the configuration is
      typed and the template passes its check, then, with providers that
      keep no memory and raise only [Exception]s and a standard output
      that takes every line, every call of a session returns the summary
      the configuration prescribes, none raises, the lines and requests
      are those of the contract and the instance stays well formed
      ([program_correct]);
    - refinement: for an environment that does not look at the constructor
      calls, [summarize], [summarize_batch] and every sequence of calls on a
      fresh instance return, print and send what the contract of [Spec]
      says, so the cache cannot be observed by any sequence of calls
      ([cache_unobservable], through the [Proper] instances of the methods
      for the relation [obs_equiv]);
    - isolation: for providers that keep no memory, a call of [summarize]
      depends on nothing the instance did before, and the result of an
      item of a batch on no other item ([batch_isolation]).

    Each theorem with a hypothesis is applied to a concrete input in a lemma
    named after it with the suffix [_witness]; the inputs ([ex_short],
    [ex_long], [ex_env], ...) are those of the specification's examples.

    ** Bounds and fuel

    Two definitions use fuel: [build_string] of [Format], the loop of the
    renderer, called by [py_format] with the length of the template plus
    one, and [parse_template] of [Template], the same loop with the parts
    kept, called by [parse] with the same fuel.  Every round of the loop
    consumes at least one character of the template
    ([markup_next_shorter]), so this fuel is never used up and the result
    is the same for any larger fuel ([build_string_fuel],
    [render_prompt_fuel], [parse_terminates]).  The loop over the
    accessors of a field name ([follow]) is called with the length of the
    rest of the name plus one; every accessor consumes a character
    ([accessor_next_shorter]), so this fuel is not used up either
    ([follow_fuel]).  All other recursion is structural.  In [Race] a
    call of a getter is five statements at most ([remaining]), so five
    turns of the scheduler per call are enough for every call to return
    ([race_all_return]); in [Concurrent] a call of [summarize] is eight
    statements at most ([call_remaining]: the first statement, five of
    the getter, the request and the [print] of the error line), so eight
    turns per call are enough ([calls_all_return]) and an interleaving
    of [n] calls has [8 n] steps at most; in [Jobs] a round of a batch
    is ten statements at most (the progress line, the eight of the call
    and the append) and the return one more ([job_remaining]).  The
    check of a template ([check_string]) uses
    the same fuel as the renderer and goes on with a shorter string in
    every round ([check_string_fuel]).  Integers are
    unbounded ([Z]), as Python's are; the only machine bound modelled is
    [PY_SSIZE_T_MAX] in the tests for too many digits of a field index, a
    width or a precision, which keep the accumulated value within
    [Py_ssize_t] ([spec_integer_bound], [parse_spec_bound]).  [max_tokens]
    is the constant 500 of the source.  The version of Python is the
    minor number of a Python 3; the one bound on it is 9
    ([GENERIC_BUILTINS]), from which the annotations of
    [summarize_batch] can be evaluated.

    ** Not modelled

    The SDKs ([anthropic], [openai]) and the network are an environment, not
    code.  [Article] comes from [rss_reader.fetcher], which is not part of
    the sources: it is a record of the two fields the module reads, both of
    type [str].  A configuration value that is neither [None] nor a [str]
    is an object of a class without [format] and unequal to every [str], as
    the numbers, booleans, lists and dictionaries of a configuration file
    are.  Of
    [str.format], the text of a field that goes through an attribute a
    [str] has ([{title.upper}]) is delegated to the interface
    [FieldRuntime] (such an attribute is a method object, whose text
    holds the address of the object: it is not a function of the
    template and the article), with the names of these attributes; the
    Unicode tables (the decimal digits, the printable code points that
    [repr] shows as they are) and the success of the allocation of a
    padded [str] to [PyRuntime]; every theorem holds for all instances
    of both.  The model of [str.format], [repr] and [ascii] follows
    CPython 3.11, whose error messages differ from those of earlier
    versions; surrogate code points, which a [str] read from a feed or a
    configuration file does not hold, are escaped like other code points
    that are not printable.  Memory exhaustion elsewhere
    than in the padding of a field is not modelled.
    Of the changes a caller can make to an instance, assignment to the
    seven public attributes and [s._client = None] between calls are
    modelled ([Reconfigure]); deleting or adding attributes, storing an
    object of the caller's in [_client], and assignments made while a
    call runs are not.  Of concurrent use of one instance, calls of the
    getters ([Race]), of [summarize] ([Concurrent]) and of both public
    methods ([Jobs]) are interleaved at their statements: a statement is
    atomic, the interpreter's switches inside a statement are not
    modelled (the calls share the slot [_client] and the world, and each
    statement reads or writes them once); the list of articles passed
    to a batch is a value, which no other thread changes. *)

From Stdlib Require Import ZArith List Lia.
From stdpp Require Import base tactics option list.


(** ** Outcomes and the state-and-exception monad *)

(** What a Python call produces: a returned value or an exception that
    propagates to the caller. *)
Inductive outcome (E A : Type) : Type :=
| Ok (a : A)
| Raise (e : E).
Arguments Ok {E A} a.
Arguments Raise {E A} e.

Definition is_ok {E A} (o : outcome E A) : bool :=
  match o with Ok _ => true | Raise _ => false end.

(** The returned value, or [d] for an exception. *)
Definition outcome_default {E A} (d : A) (o : outcome E A) : A :=
  match o with Ok a => a | Raise _ => d end.

Definition outcome_map {E A B} (f : A -> B) (o : outcome E A) : outcome E B :=
  match o with Ok a => Ok (f a) | Raise e => Raise e end.

(** A computation over a state [S] that may raise an [E]. *)
Definition PyM (S E A : Type) : Type := S -> outcome E A * S.

Section Monad.
Context {S E : Type}.

Definition ret {A} (a : A) : PyM S E A := fun s => (Ok a, s).

Definition bind {A B} (m : PyM S E A) (k : A -> PyM S E B) : PyM S E B :=
  fun s =>
    match m s with
    | (Ok a, s') => k a s'
    | (Raise e, s') => (Raise e, s')
    end.

Definition raise {A} (e : E) : PyM S E A := fun s => (Raise e, s).

(** [lift_outcome o]: a pure step that may fail. *)
Definition lift_outcome {A} (o : outcome E A) : PyM S E A := fun s => (o, s).

(** [try: m  except C as e: h e], where [catches] decides membership in the
    class [C].  State changes made by [m] before it raised are kept. *)
Definition try_except {A} (catches : E -> bool) (m : PyM S E A)
    (h : E -> PyM S E A) : PyM S E A :=
  fun s =>
    match m s with
    | (Ok a, s') => (Ok a, s')
    | (Raise e, s') => if catches e then h e s' else (Raise e, s')
    end.

Definition get : PyM S E S := fun s => (Ok s, s).
Definition gets {A} (f : S -> A) : PyM S E A := fun s => (Ok (f s), s).
Definition put (s : S) : PyM S E unit := fun _ => (Ok tt, s).
Definition modify (f : S -> S) : PyM S E unit := fun s => (Ok tt, f s).
End Monad.

Declare Scope py_scope.
Delimit Scope py_scope with py.
Notation "x <- m ;; k" := (bind m (fun x => k))
  (at level 100, m at next level, right associativity) : py_scope.
Notation "m ;; k" := (bind m (fun _ => k))
  (at level 100, right associativity) : py_scope.
Open Scope py_scope.

(** [for i, x in enumerate(l, start): acc = body i x acc], returning the last
    [acc].  An exception in the body ends the loop and propagates. *)
Fixpoint for_enumerate {S E A R} (body : Z -> A -> R -> PyM S E R)
    (start : Z) (l : list A) (acc : R) : PyM S E R :=
  match l with
  | [] => ret acc
  | x :: l' =>
      acc' <- body start x acc ;;
      for_enumerate body (start + 1) l' acc'
  end.

(** ** Python's prefix slice *)

(** [l[:n]] for an integer [n]: the first [n] items when [n >= 0], all but
    the last [-n] when [n < 0]; never an error. *)
Definition py_slice_to {A} (l : list A) (n : Z) : list A :=
  if (0 <=? n)%Z then take (Z.to_nat n) l
  else take (Z.to_nat (Z.of_nat (length l) + n)) l.

(** ** Automation *)

Create HintDb py discriminated.
#[export] Hint Unfold ret bind raise lift_outcome try_except get gets put modify : py.

(** Unfold the monad's operations and compute. *)
Ltac py_unfold := autounfold with py in *; cbn beta iota in *.

(** Case analysis on the first [match] or [if] scrutinee that blocks the goal. *)
Ltac py_case :=
  match goal with
  | |- context [match ?x with _ => _ end] =>
      lazymatch x with
      | context [match _ with _ => _ end] => fail
      | _ => let H := fresh "E" in destruct x eqn:H
      end
  end.

Ltac py_cases := repeat (py_case; simplify_eq/=; try done).

(** ** Outcomes *)

Lemma outcome_map_map {E A B C} (f : A -> B) (g : B -> C) (o : outcome E A) :
  outcome_map g (outcome_map f o) = outcome_map (fun a => g (f a)) o.
Proof. by destruct o. Qed.

Lemma outcome_map_ext {E A B} (f g : A -> B) (o : outcome E A) :
  (forall a, f a = g a) -> outcome_map f o = outcome_map g o.
Proof. intros Hfg. destruct o; simpl; [by rewrite Hfg | done]. Qed.

Lemma outcome_map_ok {E A B} (f : A -> B) (o : outcome E A) b :
  outcome_map f o = Ok b <-> exists a, o = Ok a /\ b = f a.
Proof. destruct o; simpl; split; [intros [= <-]|intros (?&[= <-]&->)|intros [=]|intros (?&[=]&_)]; eauto. Qed.

Lemma outcome_map_raise {E A B} (f : A -> B) (o : outcome E A) e :
  outcome_map f o = Raise e <-> o = Raise e.
Proof. destruct o; simpl; split; intros [=]; by subst. Qed.

Lemma is_ok_outcome_map {E A B} (f : A -> B) (o : outcome E A) :
  is_ok (outcome_map f o) = is_ok o.
Proof. by destruct o. Qed.

(** ** Monad laws, pointwise *)

Section MonadLaws.
Context {S E : Type}.
Implicit Types s : S.

Lemma bind_ret_l {A B} (a : A) (k : A -> PyM S E B) s :
  bind (ret a) k s = k a s.
Proof. reflexivity. Qed.

Lemma bind_ret_r {A} (m : PyM S E A) s : bind m ret s = m s.
Proof. unfold bind, ret. by destruct (m s) as [[a|e] s']. Qed.

Lemma bind_assoc {A B C} (m : PyM S E A) (k : A -> PyM S E B)
    (h : B -> PyM S E C) s :
  bind (bind m k) h s = bind m (fun a => bind (k a) h) s.
Proof. unfold bind. by destruct (m s) as [[a|e] s']. Qed.

Lemma bind_raise {A B} (e : E) (k : A -> PyM S E B) s :
  bind (raise e) k s = (Raise e, s).
Proof. reflexivity. Qed.

Lemma bind_ok {A B} (m : PyM S E A) (k : A -> PyM S E B) s a s' :
  m s = (Ok a, s') -> bind m k s = k a s'.
Proof. unfold bind. by intros ->. Qed.

Lemma bind_raises {A B} (m : PyM S E A) (k : A -> PyM S E B) s e s' :
  m s = (Raise e, s') -> bind m k s = (Raise e, s').
Proof. unfold bind. by intros ->. Qed.

(** Inversion of a [bind] that returned. *)
Lemma bind_ok_inv {A B} (m : PyM S E A) (k : A -> PyM S E B) s b s2 :
  bind m k s = (Ok b, s2) ->
  exists a s1, m s = (Ok a, s1) /\ k a s1 = (Ok b, s2).
Proof. unfold bind. destruct (m s) as [[a|e] s1]; [eauto | intros [=]]. Qed.

(** Inversion of a [bind] that raised: the first or the second part did. *)
Lemma bind_raise_inv {A B} (m : PyM S E A) (k : A -> PyM S E B) s e s2 :
  bind m k s = (Raise e, s2) ->
  m s = (Raise e, s2) \/ exists a s1, m s = (Ok a, s1) /\ k a s1 = (Raise e, s2).
Proof. unfold bind. destruct (m s) as [[a|e'] s1]; [eauto | intros [= <- <-]; by left]. Qed.

Lemma try_except_ok {A} c (m : PyM S E A) h s a s' :
  m s = (Ok a, s') -> try_except c m h s = (Ok a, s').
Proof. unfold try_except. by intros ->. Qed.

Lemma try_except_caught {A} c (m : PyM S E A) h s e s' :
  m s = (Raise e, s') -> c e = true -> try_except c m h s = h e s'.
Proof. unfold try_except. by intros -> ->. Qed.

Lemma try_except_passed {A} c (m : PyM S E A) h s e s' :
  m s = (Raise e, s') -> c e = false -> try_except c m h s = (Raise e, s').
Proof. unfold try_except. by intros -> ->. Qed.

(** A handler that returns makes the whole [try] return, whenever every
    exception the body raises is caught. *)
Lemma try_except_ext {A} c (m : PyM S E A) h h' s :
  (forall e s', h e s' = h' e s') -> try_except c m h s = try_except c m h' s.
Proof. intros Hh. unfold try_except. destruct (m s) as [[a|e] s']; by rewrite ?Hh. Qed.

Lemma try_except_total {A} c (m : PyM S E A) h s :
  (forall e s', m s = (Raise e, s') -> c e = true) ->
  (forall e s', is_ok (h e s').1 = true) ->
  is_ok (try_except c m h s).1 = true.
Proof.
  intros Hc Hh. unfold try_except.
  destruct (m s) as [[a|e] s'] eqn:Hm; [done |].
  rewrite (Hc e s'); [apply Hh | done].
Qed.
End MonadLaws.

Create Rewrite HintDb pyrw.
#[export] Hint Rewrite @bind_ret_l @bind_raise : pyrw.

(** ** The loop *)

Section Loop.
Context {S E A R : Type}.
Implicit Types (body : Z -> A -> R -> PyM S E R) (l : list A) (s : S).

Lemma for_enumerate_app body i l1 l2 acc s :
  for_enumerate body i (l1 ++ l2) acc s =
  bind (for_enumerate body i l1 acc)
       (for_enumerate body (i + Z.of_nat (length l1)) l2) s.
Proof.
  revert i acc s. induction l1 as [|x l1 IH]; intros i acc s; simpl.
  - rewrite Z.add_0_r. reflexivity.
  - rewrite bind_assoc.
    replace (i + Z.of_nat (Datatypes.S (length l1)))%Z
      with (i + 1 + Z.of_nat (length l1))%Z by lia.
    destruct (body i x acc s) as [[acc'|e] s'] eqn:Hb.
    + rewrite !(bind_ok _ _ _ _ _ Hb). apply IH.
    + by rewrite !(bind_raises _ _ _ _ _ Hb).
Qed.

(** A loop whose body always returns, returns. *)
Lemma for_enumerate_total body :
  (forall i x acc s, is_ok (body i x acc s).1 = true) ->
  forall l i acc s, is_ok (for_enumerate body i l acc s).1 = true.
Proof.
  intros Hb l. induction l as [|x l IH]; intros i acc s; simpl; [done |].
  unfold bind. specialize (Hb i x acc s).
  destruct (body i x acc s) as [[acc'|e] s']; [apply IH | done].
Qed.

(** Invariant rule: a state predicate and an accumulator relation kept by
    every iteration that returns hold after a loop that returns. *)
Lemma for_enumerate_ind (I : Z -> list A -> R -> S -> Prop) body :
  (forall i x l acc s acc' s',
      I i (x :: l) acc s -> body i x acc s = (Ok acc', s') ->
      I (i + 1)%Z l acc' s') ->
  forall l i acc s acc' s',
    I i l acc s -> for_enumerate body i l acc s = (Ok acc', s') ->
    I (i + Z.of_nat (length l))%Z [] acc' s'.
Proof.
  intros Hstep l. induction l as [|x l IH]; intros i acc s acc' s' HI; simpl.
  - intros [= <- <-]. by rewrite Z.add_0_r.
  - intros (acc1 & s1 & Hb & Hrest)%bind_ok_inv.
    replace (i + Z.of_nat (Datatypes.S (length l)))%Z
      with (i + 1 + Z.of_nat (length l))%Z by lia.
    eapply IH; [|exact Hrest]. eapply Hstep; eauto.
Qed.
End Loop.

(** ** The slice *)

Section Slice.
Context {A : Type}.
Implicit Types (l : list A) (n : Z).

Lemma py_slice_to_nonneg l n :
  (0 <= n)%Z -> py_slice_to l n = take (Z.to_nat n) l.
Proof. intros Hn. unfold py_slice_to. by rewrite (proj2 (Z.leb_le 0 n) Hn). Qed.

Lemma py_slice_to_neg l n :
  (n < 0)%Z -> py_slice_to l n = take (length l - Z.to_nat (- n)) l.
Proof.
  intros Hn. unfold py_slice_to. rewrite (proj2 (Z.leb_gt 0 n) Hn).
  f_equal. lia.
Qed.

(** The slice is a prefix of the list. *)
Lemma py_slice_to_prefix l n : py_slice_to l n `prefix_of` l.
Proof. unfold py_slice_to. destruct (0 <=? n)%Z; apply prefix_take. Qed.

Lemma py_slice_to_length l n :
  Z.of_nat (length (py_slice_to l n)) =
  if (0 <=? n)%Z then Z.min (Z.of_nat (length l)) n
  else Z.max 0 (Z.of_nat (length l) + n).
Proof.
  unfold py_slice_to. destruct (Z.leb_spec 0 n); rewrite length_take; lia.
Qed.

Lemma py_slice_to_all l n :
  (Z.of_nat (length l) <= n)%Z -> py_slice_to l n = l.
Proof.
  intros Hn. rewrite py_slice_to_nonneg; [|lia]. apply take_ge. lia.
Qed.

Lemma py_slice_to_app l1 l2 :
  py_slice_to (l1 ++ l2) (Z.of_nat (length l1)) = l1.
Proof.
  rewrite py_slice_to_nonneg; [|lia]. rewrite Nat2Z.id. by rewrite take_app_length.
Qed.
End Slice.
