(* ===== verification/Logic.v ===== *)
(** Predicates on computations of [PyM] and their rules, one per operation
    of the monad:
    - [extends R m], [stable I m], [raises_only P m]: what every run of [m]
      does to the state and which exceptions leave it;
    - [costs f k m]: a run of [m] raises the measure [f] of the state, by
      [k] at most;
    - [refines R m1 m2]: from [R]-related states, [m1] and [m2] have the
      same outcome and leave [R]-related states;
    - [hoare P m Q X]: from a state in [P], [m] returns a value and a
      state in [Q] or raises an exception and leaves a state in [X]. *)

From Stdlib Require Import ZArith List Lia.
From stdpp Require Import base tactics option list.
From S2P Require Import Prelude.


(** ** State relations kept by a computation *)

(** [extends R m]: whatever [m] returns or raises, the state it leaves is
    [R]-related to the state it started from.  For a preorder [R] this is
    closed under the monad's operations, the loop included. *)
Definition extends {S E A} (R : relation S) (m : PyM S E A) : Prop :=
  forall s, R s (m s).2.

(** [stable I m]: [m] keeps the state predicate [I], on every outcome. *)
Definition stable {S E A} (I : S -> Prop) (m : PyM S E A) : Prop :=
  forall s, I s -> I (m s).2.

(** [raises_only P m]: every exception that leaves [m] satisfies [P]. *)
Definition raises_only {S E A} (P : E -> Prop) (m : PyM S E A) : Prop :=
  forall s e s', m s = (Raise e, s') -> P e.

(** [costs f k m]: the measure [f] of the state never decreases in a run of
    [m] and grows by [k] at most, on every outcome. *)
Definition costs {S E A} (f : S -> nat) (k : nat) (m : PyM S E A) : Prop :=
  forall s, f s <= f (m s).2 <= f s + k.

(** [refines R m1 m2]: started in [R]-related states, [m1] and [m2] return
    the same value or raise the same exception, and the states they leave
    are [R]-related. *)
Definition refines {S1 S2 E A} (R : S1 -> S2 -> Prop)
    (m1 : PyM S1 E A) (m2 : PyM S2 E A) : Prop :=
  forall s1 s2, R s1 s2 -> (m1 s1).1 = (m2 s2).1 /\ R (m1 s1).2 (m2 s2).2.

(** [hoare P m Q X]: a run of [m] from a state that satisfies [P] returns
    [a] in a state that satisfies [Q a], or raises [e] in a state that
    satisfies [X e].  The runs are total, so this is total correctness. *)
Definition hoare {S E A} (P : S -> Prop) (m : PyM S E A)
    (Q : A -> S -> Prop) (X : E -> S -> Prop) : Prop :=
  forall s, P s ->
    match m s with
    | (Ok a, s') => Q a s'
    | (Raise e, s') => X e s'
    end.

(** ** Rules for [extends] and [stable] *)

Section Extends.
Context {S E : Type} (R : relation S) `{!PreOrder R}.

Lemma extends_ret {A} (a : A) : extends R (ret (E:=E) a).
Proof. intros s. reflexivity. Qed.

Lemma extends_raise {A} (e : E) : extends R (raise (A:=A) e).
Proof. intros s. reflexivity. Qed.

Lemma extends_lift_outcome {A} (o : outcome E A) : extends R (lift_outcome o).
Proof. intros s. reflexivity. Qed.

Lemma extends_gets {A} (f : S -> A) : extends R (gets (E:=E) f).
Proof. intros s. reflexivity. Qed.

Lemma extends_modify (f : S -> S) :
  (forall s, R s (f s)) -> extends R (modify (E:=E) f).
Proof. intros Hf s. apply Hf. Qed.

Lemma extends_bind {A B} (m : PyM S E A) (k : A -> PyM S E B) :
  extends R m -> (forall a, extends R (k a)) -> extends R (bind m k).
Proof.
  intros Hm Hk s. unfold bind. specialize (Hm s).
  destruct (m s) as [[a|e] s']; simpl in *; [|done].
  etransitivity; [exact Hm | apply Hk].
Qed.

Lemma extends_try_except {A} c (m : PyM S E A) h :
  extends R m -> (forall e, extends R (h e)) -> extends R (try_except c m h).
Proof.
  intros Hm Hh s. unfold try_except. specialize (Hm s).
  destruct (m s) as [[a|e] s']; simpl in *; [done |].
  destruct (c e); [|done]. etransitivity; [exact Hm | apply Hh].
Qed.

Lemma extends_for_enumerate {A B} (body : Z -> A -> B -> PyM S E B) :
  (forall i x acc, extends R (body i x acc)) ->
  forall l i acc, extends R (for_enumerate body i l acc).
Proof.
  intros Hb l. induction l as [|x l IH]; intros i acc; simpl.
  - apply extends_ret.
  - apply extends_bind; [apply Hb | intros acc'; apply IH].
Qed.
End Extends.

Section Stable.
Context {S E : Type} (I : S -> Prop).

Lemma stable_ret {A} (a : A) : stable I (ret (E:=E) a).
Proof. by intros s. Qed.

Lemma stable_raise {A} (e : E) : stable I (raise (A:=A) e).
Proof. by intros s. Qed.

Lemma stable_lift_outcome {A} (o : outcome E A) : stable I (lift_outcome o).
Proof. by intros s. Qed.

Lemma stable_gets {A} (f : S -> A) : stable I (gets (E:=E) f).
Proof. by intros s. Qed.

Lemma stable_modify (f : S -> S) :
  (forall s, I s -> I (f s)) -> stable I (modify (E:=E) f).
Proof. intros Hf s. apply Hf. Qed.

Lemma stable_bind {A B} (m : PyM S E A) (k : A -> PyM S E B) :
  stable I m -> (forall a, stable I (k a)) -> stable I (bind m k).
Proof.
  intros Hm Hk s Hs. unfold bind. specialize (Hm s Hs).
  destruct (m s) as [[a|e] s']; simpl in *; [by apply Hk | done].
Qed.

Lemma stable_try_except {A} c (m : PyM S E A) h :
  stable I m -> (forall e, stable I (h e)) -> stable I (try_except c m h).
Proof.
  intros Hm Hh s Hs. unfold try_except. specialize (Hm s Hs).
  destruct (m s) as [[a|e] s']; simpl in *; [done |].
  destruct (c e); [by apply Hh | done].
Qed.

Lemma stable_for_enumerate {A B} (body : Z -> A -> B -> PyM S E B) :
  (forall i x acc, stable I (body i x acc)) ->
  forall l i acc, stable I (for_enumerate body i l acc).
Proof.
  intros Hb l. induction l as [|x l IH]; intros i acc; simpl.
  - apply stable_ret.
  - apply stable_bind; [apply Hb | intros acc'; apply IH].
Qed.
End Stable.

#[export] Hint Resolve extends_ret extends_raise extends_lift_outcome extends_gets
  extends_bind extends_try_except extends_for_enumerate : py.
#[export] Hint Resolve stable_ret stable_raise stable_lift_outcome stable_gets
  stable_bind stable_try_except stable_for_enumerate : py.

Section RaisesOnly.
Context {S E : Type} (P : E -> Prop).

Lemma raises_only_ret {A} (a : A) : raises_only P (ret (S:=S) a).
Proof. intros s e s' [=]. Qed.

Lemma raises_only_gets {A} (f : S -> A) : raises_only P (gets f).
Proof. intros s e s' [=]. Qed.

Lemma raises_only_modify (f : S -> S) : raises_only P (modify f).
Proof. intros s e s' [=]. Qed.

Lemma raises_only_raise {A} (e : E) : P e -> raises_only P (raise (S:=S) (A:=A) e).
Proof. intros He s e' s' [= <- _]. exact He. Qed.

Lemma raises_only_bind {A B} (m : PyM S E A) (k : A -> PyM S E B) :
  raises_only P m -> (forall a, raises_only P (k a)) -> raises_only P (bind m k).
Proof.
intros Hm Hk s e s' [Hr|(a & s1 & _ & Hr)]%bind_raise_inv; [by eapply Hm | by eapply Hk].
Qed.

Lemma raises_only_for_enumerate {A B} (body : Z -> A -> B -> PyM S E B) :
  (forall i x acc, raises_only P (body i x acc)) ->
  forall l i acc, raises_only P (for_enumerate body i l acc).
Proof.
intros Hb l. induction l as [|x l IH]; intros i acc; simpl.
- apply raises_only_ret.
- apply raises_only_bind; [apply Hb | intros acc'; apply IH].
Qed.

(** A [try] whose handler returns lets through exactly what its clause
    does not catch. *)
Lemma raises_only_try_except {A} c (m : PyM S E A) h :
  (forall e st, is_ok (h e st).1 = true) ->
  raises_only (fun e => c e = false) (try_except c m h).
Proof.
intros Hh s e s'. unfold try_except.
destruct (m s) as [[a|e0] s0]; [done |].
destruct (c e0) eqn:Hc; [|by intros [= <- _]].
intros Hr. specialize (Hh e0 s0). by rewrite Hr in Hh.
Qed.
End RaisesOnly.

(** ** Rules for [costs] *)

Section Costs.
Context {S E : Type} (f : S -> nat).

Lemma costs_weaken {A} k k' (m : PyM S E A) : k <= k' -> costs f k m -> costs f k' m.
Proof. intros Hk Hm s. specialize (Hm s). lia. Qed.

Lemma costs_ret {A} (a : A) : costs f 0 (ret (E:=E) a).
Proof. intros s. simpl. lia. Qed.

Lemma costs_raise {A} (e : E) : costs f 0 (raise (A:=A) e).
Proof. intros s. simpl. lia. Qed.

Lemma costs_lift_outcome {A} (o : outcome E A) : costs f 0 (lift_outcome o).
Proof. intros s. simpl. lia. Qed.

Lemma costs_gets {A} (g : S -> A) : costs f 0 (gets (E:=E) g).
Proof. intros s. simpl. lia. Qed.

Lemma costs_modify k (g : S -> S) :
  (forall s, f s <= f (g s) <= f s + k) -> costs f k (modify (E:=E) g).
Proof. intros Hg s. apply Hg. Qed.

Lemma costs_bind {A B} k1 k2 (m : PyM S E A) (k : A -> PyM S E B) :
  costs f k1 m -> (forall a, costs f k2 (k a)) -> costs f (k1 + k2) (bind m k).
Proof.
intros Hm Hk s. unfold bind. specialize (Hm s).
destruct (m s) as [[a|e] s']; simpl in *; [|lia].
specialize (Hk a s'). lia.
Qed.

Lemma costs_try_except {A} k1 k2 c (m : PyM S E A) h :
  costs f k1 m -> (forall e, costs f k2 (h e)) -> costs f (k1 + k2) (try_except c m h).
Proof.
intros Hm Hh s. unfold try_except. specialize (Hm s).
destruct (m s) as [[a|e] s']; simpl in *; [lia |].
destruct (c e); simpl; [|lia]. specialize (Hh e s'). lia.
Qed.

(** Case analyses cost what their dearest branch costs. *)
Lemma costs_option_match {A B} k1 k2 (o : option B) (m1 : B -> PyM S E A) m2 :
  (forall b, costs f k1 (m1 b)) -> costs f k2 m2 ->
  costs f (Nat.max k1 k2) (match o with Some b => m1 b | None => m2 end).
Proof.
intros H1 H2. destruct o as [b|];
  [apply (costs_weaken k1) | apply (costs_weaken k2)]; auto; lia.
Qed.

Lemma costs_if {A} k1 k2 (b : bool) (m1 m2 : PyM S E A) :
  costs f k1 m1 -> costs f k2 m2 -> costs f (Nat.max k1 k2) (if b then m1 else m2).
Proof.
intros H1 H2. destruct b;
  [apply (costs_weaken k1) | apply (costs_weaken k2)]; auto; lia.
Qed.

(** A loop costs the sum of what its rounds cost, each round by the weight
    [w] of its item. *)
Lemma costs_for_enumerate {A B} (w : A -> nat) (body : Z -> A -> B -> PyM S E B) :
  (forall i x acc, costs f (w x) (body i x acc)) ->
  forall l i acc, costs f (list_sum (map w l)) (for_enumerate body i l acc).
Proof.
intros Hb l. induction l as [|x l IH]; intros i acc; simpl.
- apply costs_ret.
- apply costs_bind; [apply Hb | intros acc'; apply IH].
Qed.

Lemma list_sum_const {A} (k : nat) (l : list A) :
  list_sum (map (fun _ => k) l) = length l * k.
Proof. induction l as [|x l IH]; simpl; [done | by rewrite IH]. Qed.

Lemma costs_for_enumerate_const {A B} k (body : Z -> A -> B -> PyM S E B) :
  (forall i x acc, costs f k (body i x acc)) ->
  forall l i acc, costs f (length l * k) (for_enumerate body i l acc).
Proof.
intros Hb l i acc. rewrite <- list_sum_const.
by apply (costs_for_enumerate (fun _ => k)).
Qed.
End Costs.

(** ** Rules for [refines] *)

Section Refines.
Context {S1 S2 E : Type} (R : S1 -> S2 -> Prop).

Lemma refines_ret {A} (a : A) : refines R (ret (E:=E) a) (ret a).
Proof. by intros s1 s2 HR. Qed.

Lemma refines_raise {A} (e : E) : refines R (raise (A:=A) e) (raise e).
Proof. by intros s1 s2 HR. Qed.

Lemma refines_lift_outcome {A} (o : outcome E A) :
  refines R (lift_outcome o) (lift_outcome o).
Proof. by intros s1 s2 HR. Qed.

Lemma refines_gets {A} (g1 : S1 -> A) (g2 : S2 -> A) :
  (forall s1 s2, R s1 s2 -> g1 s1 = g2 s2) -> refines R (gets (E:=E) g1) (gets g2).
Proof. intros Hg s1 s2 HR. simpl. by rewrite (Hg s1 s2 HR). Qed.

Lemma refines_modify (g1 : S1 -> S1) (g2 : S2 -> S2) :
  (forall s1 s2, R s1 s2 -> R (g1 s1) (g2 s2)) ->
  refines R (modify (E:=E) g1) (modify g2).
Proof. intros Hg s1 s2 HR. simpl. auto. Qed.

Lemma refines_bind {A B} (m1 : PyM S1 E A) (m2 : PyM S2 E A)
    (k1 : A -> PyM S1 E B) (k2 : A -> PyM S2 E B) :
  refines R m1 m2 -> (forall a, refines R (k1 a) (k2 a)) ->
  refines R (bind m1 k1) (bind m2 k2).
Proof.
intros Hm Hk s1 s2 HR. unfold bind. destruct (Hm s1 s2 HR) as [Ho Hs].
destruct (m1 s1) as [[a|e] s1'], (m2 s2) as [[a'|e'] s2']; simplify_eq/=; auto.
by apply Hk.
Qed.

Lemma refines_try_except {A} c (m1 : PyM S1 E A) (m2 : PyM S2 E A) h1 h2 :
  refines R m1 m2 -> (forall e, refines R (h1 e) (h2 e)) ->
  refines R (try_except c m1 h1) (try_except c m2 h2).
Proof.
intros Hm Hh s1 s2 HR. unfold try_except. destruct (Hm s1 s2 HR) as [Ho Hs].
destruct (m1 s1) as [[a|e] s1'], (m2 s2) as [[a'|e'] s2']; simplify_eq/=; auto.
destruct (c e'); [by apply Hh | done].
Qed.

Lemma refines_for_enumerate {A B} (b1 : Z -> A -> B -> PyM S1 E B)
    (b2 : Z -> A -> B -> PyM S2 E B) :
  (forall i x acc, refines R (b1 i x acc) (b2 i x acc)) ->
  forall l i acc, refines R (for_enumerate b1 i l acc) (for_enumerate b2 i l acc).
Proof.
intros Hb l. induction l as [|x l IH]; intros i acc; simpl.
- apply refines_ret.
- apply refines_bind; [apply Hb | intros acc'; apply IH].
Qed.

(** The rule of [bind] at one pair of states. *)
Lemma refines_bind_at {A B} (m1 : PyM S1 E A) (m2 : PyM S2 E A)
    (k1 : A -> PyM S1 E B) (k2 : A -> PyM S2 E B) s1 s2 :
  (m1 s1).1 = (m2 s2).1 /\ R (m1 s1).2 (m2 s2).2 ->
  (forall a, refines R (k1 a) (k2 a)) ->
  (bind m1 k1 s1).1 = (bind m2 k2 s2).1 /\ R (bind m1 k1 s1).2 (bind m2 k2 s2).2.
Proof.
intros [Ho Hs] Hk. unfold bind.
destruct (m1 s1) as [[a|e] s1'], (m2 s2) as [[a'|e'] s2']; simplify_eq/=; auto.
by apply Hk.
Qed.

(** Two computations that agree pointwise refine the same computations. *)
Lemma refines_ext {A} (m1 m1' : PyM S1 E A) (m2 m2' : PyM S2 E A) :
  (forall s, m1 s = m1' s) -> (forall s, m2 s = m2' s) ->
  refines R m1' m2' -> refines R m1 m2.
Proof. intros H1 H2 Hm s1 s2 HR. rewrite H1, H2. by apply Hm. Qed.
End Refines.

(** ** Rules for [hoare] *)

Section Hoare.
Context {S E : Type}.
Implicit Types (P : S -> Prop) (X : E -> S -> Prop).

Lemma hoare_ret {A} (a : A) P (Q : A -> S -> Prop) X :
  (forall s, P s -> Q a s) -> hoare P (ret a) Q X.
Proof. intros H s Hs. by apply H. Qed.

Lemma hoare_raise {A} (e : E) P (Q : A -> S -> Prop) X :
  (forall s, P s -> X e s) -> hoare P (raise e) Q X.
Proof. intros H s Hs. by apply H. Qed.

Lemma hoare_lift_outcome {A} (o : outcome E A) P (Q : A -> S -> Prop) X :
  (forall s, P s -> match o with Ok a => Q a s | Raise e => X e s end) ->
  hoare P (lift_outcome o) Q X.
Proof. intros H s Hs. specialize (H s Hs). by destruct o. Qed.

Lemma hoare_gets {A} (f : S -> A) P (Q : A -> S -> Prop) X :
  (forall s, P s -> Q (f s) s) -> hoare P (gets f) Q X.
Proof. intros H s Hs. by apply H. Qed.

Lemma hoare_modify (f : S -> S) P (Q : unit -> S -> Prop) X :
  (forall s, P s -> Q tt (f s)) -> hoare P (modify f) Q X.
Proof. intros H s Hs. by apply H. Qed.

Lemma hoare_bind {A B} (m : PyM S E A) (k : A -> PyM S E B) P
    (Q : A -> S -> Prop) (R : B -> S -> Prop) X :
  hoare P m Q X -> (forall a, hoare (Q a) (k a) R X) -> hoare P (bind m k) R X.
Proof.
intros Hm Hk s Hs. specialize (Hm s Hs). unfold bind.
destruct (m s) as [[a|e] s']; [by apply Hk | done].
Qed.

(** The handler runs from the states the body raises a caught exception
    in; an exception that is not caught leaves as it is. *)
Lemma hoare_try_except {A} c (m : PyM S E A) h P (Q : A -> S -> Prop) X Y :
  hoare P m Q Y ->
  (forall e, c e = true -> hoare (Y e) (h e) Q X) ->
  (forall e s, c e = false -> Y e s -> X e s) ->
  hoare P (try_except c m h) Q X.
Proof.
intros Hm Hh Hx s Hs. specialize (Hm s Hs). unfold try_except.
destruct (m s) as [[a|e] s']; [done |].
destruct (c e) eqn:Hc; [by apply Hh | by apply Hx].
Qed.

Lemma hoare_conseq {A} (m : PyM S E A) P P' (Q Q' : A -> S -> Prop) X X' :
  hoare P m Q X ->
  (forall s, P' s -> P s) -> (forall a s, Q a s -> Q' a s) ->
  (forall e s, X e s -> X' e s) ->
  hoare P' m Q' X'.
Proof.
intros Hm HP HQ HX s Hs. specialize (Hm s (HP s Hs)).
destruct (m s) as [[a|e] s']; auto.
Qed.

(** A property of the initial state that does not depend on the state can
    be assumed. *)
Lemma hoare_assume {A} (m : PyM S E A) (H : Prop) P (Q : A -> S -> Prop) X :
  (H -> hoare P m Q X) -> hoare (fun s => H /\ P s) m Q X.
Proof. intros Hm s [HH Hs]. by apply Hm. Qed.

Lemma hoare_pure {A} (m : PyM S E A) (H : Prop) (Q : A -> S -> Prop) X :
  (H -> hoare (fun _ => True) m Q X) -> hoare (fun _ => H) m Q X.
Proof. intros Hm s HH. by apply Hm. Qed.

(** Every run satisfies the trivial postconditions. *)
Lemma hoare_true {A} (m : PyM S E A) P : hoare P m (fun _ _ => True) (fun _ _ => True).
Proof. intros s _. by destruct (m s) as [[a|e] s']. Qed.

(** The loop, with an invariant of the accumulator and the state. *)
Lemma hoare_for_enumerate {A B} (body : Z -> A -> B -> PyM S E B)
    (J : B -> S -> Prop) X :
  (forall i x acc, hoare (J acc) (body i x acc) J X) ->
  forall l i acc, hoare (J acc) (for_enumerate body i l acc) J X.
Proof.
intros Hb l. induction l as [|x l IH]; intros i acc; simpl.
- by apply hoare_ret.
- eapply hoare_bind; [apply Hb | intros acc'; apply IH].
Qed.

(** [stable] and [raises_only] are triples. *)
Lemma hoare_stable {A} (m : PyM S E A) (I : S -> Prop) :
  stable I m <-> hoare I m (fun _ => I) (fun _ => I).
Proof.
split; intros H s Hs; specialize (H s Hs); by destruct (m s) as [[a|e] s'].
Qed.

Lemma hoare_raises_only {A} (m : PyM S E A) (C : E -> Prop) :
  raises_only C m <-> hoare (fun _ => True) m (fun _ _ => True) (fun e _ => C e).
Proof.
split.
- intros H s _. destruct (m s) as [[a|e] s'] eqn:Hm; [done | by eapply H].
- intros H s e s' Hm. specialize (H s I). by rewrite Hm in H.
Qed.
End Hoare.
