(* ===== verification/Sched.v ===== *)
(** Interleavings.  Threads that run on one shared state, one statement
    at a time, picked by a scheduler.  What a kind of thread has to
    provide is the interface [Machine]: the statement a thread runs next,
    whether it is still running, and a bound on the statements it has
    left.  The scheduler, the step relation of the pool of threads and
    their lemmas are proved once, for every machine: a schedule is a
    sequence of steps, a step changes the thread it picks and no other,
    every statement a thread runs is one less to run, and a schedule that
    gives every thread its bound leaves no thread running. *)

From Stdlib Require Import List Lia.
From stdpp Require Import base tactics option list numbers relations.
From S2P Require Import Prelude.


(** ** Machines *)

(** A kind of thread [T] over a shared state [S]. *)
Class Machine (T S : Type) : Type := MkMachine {
  mstep : T -> S -> T * S;
  mrunning : T -> bool;
  mremaining : T -> nat;
  (** a thread that has returned does nothing *)
  mstep_done : forall t s, mrunning t = false -> mstep t s = (t, s);
  (** a statement is one statement less to run *)
  mstep_remaining : forall t s,
    mrunning t = true -> mremaining (mstep t s).1 < mremaining t;
  (** a thread with statements left is running *)
  mremaining_running : forall t, mrunning t = false -> mremaining t = 0;
}.
Arguments mstep {T S} _ _ _.
Arguments mrunning {T S} _ _.
Arguments mremaining {T S} _ _.

Section Sched.
Context {T S : Type} (m : Machine T S).

(** The threads and the state they share. *)
Definition pool : Type := list T * S.

(** The scheduler lets thread [i] run one statement. *)
Definition turn (i : nat) (sys : pool) : pool :=
  match sys.1 !! i with
  | Some t => (<[i := (mstep m t sys.2).1]> sys.1, (mstep m t sys.2).2)
  | None => sys
  end.

(** The pool after a schedule, the list of the threads picked. *)
Definition schedule (sch : list nat) (sys : pool) : pool :=
  foldl (fun sys i => turn i sys) sys sch.

(** One step of the pool: a thread that has not returned runs one
    statement. *)
Inductive interleave : pool -> pool -> Prop :=
| interleave_thread ts st i t :
    ts !! i = Some t -> mrunning m t = true ->
    interleave (ts, st) (<[i := (mstep m t st).1]> ts, (mstep m t st).2).

(** A measure summed over the threads. *)
Definition total (f : T -> nat) (ts : list T) : nat := list_sum (map f ts).

(** A thread that runs [n] statements without interruption. *)
Fixpoint mrun (n : nat) (t : T) (s : S) : T * S :=
  match n with
  | 0 => (t, s)
  | Datatypes.S n => mrun n (mstep m t s).1 (mstep m t s).2
  end.

(** The threads run one after the other, each to its end. *)
Fixpoint mrun_all (ts : list T) (s : S) : list T * S :=
  match ts with
  | [] => ([], s)
  | t :: ts' =>
      let r := mrun (mremaining m t) t s in
      let rs := mrun_all ts' r.2 in
      (r.1 :: rs.1, rs.2)
  end.

(** An invariant of a pool: [P] of the shared state, and [Q] of every
    thread in the shared state. *)
Definition pool_inv (P : S -> Prop) (Q : S -> T -> Prop) (sys : pool) : Prop :=
  P sys.2 /\ Forall (Q sys.2) sys.1.

(** An invariant that relates every thread to what it was started for:
    [R] of the item of [xs] at the position of the thread. *)
Definition pool_rel {X} (P : S -> Prop) (R : S -> X -> T -> Prop) (xs : list X)
    (sys : pool) : Prop :=
  P sys.2 /\ Forall2 (R sys.2) xs sys.1.
End Sched.

(** The schedule that gives the threads from position [k] on [ns]
    statements each, one thread after the other. *)
Fixpoint serial (k : nat) (ns : list nat) : list nat :=
  match ns with
  | [] => []
  | n :: ns' => replicate n k ++ serial (Datatypes.S k) ns'
  end.

(** How often a schedule picks thread [i]. *)
Definition picks (i : nat) (sch : list nat) : nat := length (List.filter (Nat.eqb i) sch).

(** ** Lemmas *)

Section SchedLemmas.
Context {T S : Type} (m : Machine T S).
Implicit Types (t : T) (ts : list T) (st : S) (sys : pool (T:=T) (S:=S)).

Lemma total_insert (f : T -> nat) ts i t t' :
  ts !! i = Some t -> total f (<[i := t']> ts) + f t = total f ts + f t'.
Proof.
unfold total. revert i. induction ts as [|x ts IH]; intros [|i] Hi; simplify_eq/=.
- lia.
- specialize (IH i Hi). lia.
Qed.

Lemma total_replicate (f : T -> nat) n t : total f (replicate n t) = n * f t.
Proof. unfold total. induction n as [|n IH]; simpl; [done | rewrite IH; lia]. Qed.

Lemma picks_cons_eq i sch : picks i (i :: sch) = Datatypes.S (picks i sch).
Proof. unfold picks. simpl. by rewrite Nat.eqb_refl. Qed.

Lemma picks_cons_ne i j sch : i <> j -> picks i (j :: sch) = picks i sch.
Proof. intros Hij. unfold picks. simpl. by rewrite (proj2 (Nat.eqb_neq i j) Hij). Qed.

(** A statement of one thread changes a sum over the threads by what it
    changes for this thread. *)
Lemma interleave_total (f : T -> nat) (g : S -> nat) sys sys' :
  (forall t st, g (mstep m t st).2 + f (mstep m t st).1 <= g st + f t) ->
  interleave m sys sys' -> g sys'.2 + total f sys'.1 <= g sys.2 + total f sys.1.
Proof.
intros Hstep [ts st i t Hi Hr]. simpl.
pose proof (total_insert f ts i t (mstep m t st).1 Hi).
pose proof (Hstep t st). lia.
Qed.

Lemma interleave_remaining sys sys' :
  interleave m sys sys' -> total (mremaining m) sys'.1 < total (mremaining m) sys.1.
Proof.
intros [ts st i t Hi Hr]. simpl.
pose proof (total_insert (mremaining m) ts i t (mstep m t st).1 Hi).
pose proof (mstep_remaining t st Hr). lia.
Qed.

(** The number of steps of an interleaving is bounded by the statements
    the threads have left. *)
Lemma interleave_steps_remaining k sys sys' :
  nsteps (interleave m) k sys sys' ->
  k + total (mremaining m) sys'.1 <= total (mremaining m) sys.1.
Proof.
induction 1 as [sys|k sys1 sys2 sys3 Hs _ IH]; [lia |].
apply interleave_remaining in Hs. lia.
Qed.

Lemma interleave_steps_total (f : T -> nat) (g : S -> nat) sys sys' :
  (forall t st, g (mstep m t st).2 + f (mstep m t st).1 <= g st + f t) ->
  rtc (interleave m) sys sys' -> g sys'.2 + total f sys'.1 <= g sys.2 + total f sys.1.
Proof.
intros Hstep. induction 1 as [sys|sys1 sys2 sys3 Hs _ IH]; [lia |].
apply (interleave_total f g _ _ Hstep) in Hs. lia.
Qed.

(** What every step keeps, every interleaving keeps. *)
Lemma interleave_invariant (I : pool -> Prop) sys sys' :
  (forall sys1 sys2, interleave m sys1 sys2 -> I sys1 -> I sys2) ->
  rtc (interleave m) sys sys' -> I sys -> I sys'.
Proof. intros Hstep. induction 1; eauto. Qed.

(** A schedule is a sequence of steps: picking a thread that has
    returned, or a thread that does not exist, changes nothing. *)
Lemma turn_steps i sys : turn m i sys = sys \/ interleave m sys (turn m i sys).
Proof.
destruct sys as [ts st]. unfold turn. simpl.
destruct (ts !! i) as [t|] eqn:Hi; [|by left].
destruct (mrunning m t) eqn:Hr; [right; by econstructor |].
left. rewrite (mstep_done t st Hr). simpl. by rewrite list_insert_id.
Qed.

Lemma turn_length i sys : length (turn m i sys).1 = length sys.1.
Proof. unfold turn. destruct (sys.1 !! i); [apply length_insert | done]. Qed.

Lemma schedule_length sch sys : length (schedule m sch sys).1 = length sys.1.
Proof.
revert sys. induction sch as [|i sch IH]; intros sys; simpl; [done |].
by rewrite IH, turn_length.
Qed.

(** A step of the scheduler changes the thread it picks and no other. *)
Lemma turn_other i j sys : i <> j -> (turn m j sys).1 !! i = sys.1 !! i.
Proof.
intros Hij. unfold turn.
destruct (sys.1 !! j); [simpl; by apply list_lookup_insert_ne | done].
Qed.

Lemma turn_picked i sys t :
  sys.1 !! i = Some t -> (turn m i sys).1 !! i = Some (mstep m t sys.2).1.
Proof.
intros Hi. unfold turn. rewrite Hi. simpl.
apply list_lookup_insert_eq. by eapply lookup_lt_Some.
Qed.

Lemma turn_at i ts st t :
  ts !! i = Some t ->
  turn m i (ts, st) = (<[i := (mstep m t st).1]> ts, (mstep m t st).2).
Proof. intros Hi. unfold turn. simpl. by rewrite Hi. Qed.

(** Every statement a thread is given is one statement less to run. *)
Lemma schedule_remaining sch sys i t :
  sys.1 !! i = Some t ->
  exists t', (schedule m sch sys).1 !! i = Some t' /\
             mremaining m t' <= mremaining m t - picks i sch.
Proof.
revert sys t. induction sch as [|j sch IH]; intros sys t Hi; simpl.
{ exists t. split; [done | unfold picks; simpl; lia]. }
destruct (decide (i = j)) as [<-|Hij].
- destruct (IH _ _ (turn_picked i sys t Hi)) as (t' & Ht' & Hr).
  exists t'. split; [done |]. rewrite picks_cons_eq.
  destruct (mrunning m t) eqn:Hrun.
  + pose proof (mstep_remaining t sys.2 Hrun). lia.
  + rewrite (mstep_done t sys.2 Hrun) in Hr. simpl in Hr.
    pose proof (mremaining_running t Hrun). lia.
- destruct (IH (turn m j sys) t) as (t' & Ht' & Hr).
  { by rewrite turn_other. }
  exists t'. split; [done |]. by rewrite picks_cons_ne.
Qed.

Lemma schedule_steps sch sys : rtc (interleave m) sys (schedule m sch sys).
Proof.
revert sys. induction sch as [|i sch IH]; intros sys; simpl; [done |].
destruct (turn_steps i sys) as [-> | Hs]; [apply IH |].
eapply rtc_l; [exact Hs | apply IH].
Qed.

(** A schedule takes as many steps as it picks running threads. *)
Lemma schedule_nsteps sch sys :
  exists k, k <= length sch /\ nsteps (interleave m) k sys (schedule m sch sys).
Proof.
revert sys. induction sch as [|i sch IH]; intros sys; simpl.
{ exists 0. split; [lia | constructor]. }
destruct (IH (turn m i sys)) as (k & Hk & Hs).
destruct (turn_steps i sys) as [Heq | Hstep].
- exists k. split; [lia |]. by rewrite Heq in Hs |- *.
- exists (Datatypes.S k). split; [lia |]. by eapply nsteps_l.
Qed.

(** A running thread has statements left. *)
Lemma running_remaining t st : mrunning m t = true -> 0 < mremaining m t.
Proof. intros Hr. pose proof (mstep_remaining t st Hr). lia. Qed.

(** A schedule that gives every thread the statements it has left leaves
    no thread running. *)
Lemma schedule_all_done ts st sch :
  (forall i t, ts !! i = Some t -> mremaining m t <= picks i sch) ->
  Forall (fun t => mrunning m t = false) (schedule m sch (ts, st)).1.
Proof.
intros Hfair. apply Forall_lookup_2. intros i t' Hi.
destruct (lookup_lt_is_Some_2 ts i) as [t0 Ht0].
{ apply lookup_lt_Some in Hi. by rewrite schedule_length in Hi. }
destruct (schedule_remaining sch (ts, st) i t0 Ht0) as (t & Ht & Hr).
rewrite Hi in Ht. injection Ht as <-. specialize (Hfair i t0 Ht0).
destruct (mrunning m t') eqn:Hrun; [|done].
pose proof (running_remaining t' st Hrun). lia.
Qed.

(** What no statement changes of a thread, no interleaving changes of
    the threads. *)
Lemma interleave_map {A} (f : T -> A) sys sys' :
  (forall t st, f (mstep m t st).1 = f t) ->
  rtc (interleave m) sys sys' -> map f sys'.1 = map f sys.1.
Proof.
intros Hf Hs.
apply (interleave_invariant (fun sys' => map f sys'.1 = map f sys.1) sys sys'); [|done..].
intros _ _ [ts st i t Hi Hr] <-. simpl.
by rewrite list_fmap_insert, Hf, list_insert_id by (by rewrite list_lookup_fmap, Hi).
Qed.

(** ** A thread alone *)

Lemma mrun_remaining n t st : mremaining m (mrun m n t st).1 <= mremaining m t - n.
Proof.
revert t st. induction n as [|n IH]; intros t st; simpl; [lia |].
specialize (IH (mstep m t st).1 (mstep m t st).2).
destruct (mrunning m t) eqn:Hr.
- pose proof (mstep_remaining t st Hr). lia.
- rewrite (mstep_done t st Hr) in *. simpl in *.
  pose proof (mremaining_running t Hr). lia.
Qed.

(** A thread that runs as many statements as it has left has returned. *)
Lemma mrun_done n t st : mremaining m t <= n -> mrunning m (mrun m n t st).1 = false.
Proof.
intros Hn. pose proof (mrun_remaining n t st).
destruct (mrunning m _) eqn:Hr; [|done].
pose proof (running_remaining _ st Hr). lia.
Qed.

(** What every statement keeps, a run keeps. *)
Lemma mrun_invariant (I : T -> S -> Prop) n t st :
  (forall t st, I t st -> I (mstep m t st).1 (mstep m t st).2) ->
  I t st -> I (mrun m n t st).1 (mrun m n t st).2.
Proof. intros Hstep. revert t st. induction n; simpl; auto. Qed.

(** A pool of one thread runs this thread. *)
Lemma schedule_alone n t st :
  schedule m (replicate n 0) ([t], st) = ([(mrun m n t st).1], (mrun m n t st).2).
Proof.
revert t st. induction n as [|n IH]; intros t st; simpl; [done |].
by rewrite (turn_at 0 [t] st t), <- IH.
Qed.

(** ** Threads in sequence *)

Lemma schedule_app sch1 sch2 sys :
  schedule m (sch1 ++ sch2) sys = schedule m sch2 (schedule m sch1 sys).
Proof. apply foldl_app. Qed.

(** A thread that is given [n] statements in a row runs them. *)
Lemma schedule_thread n i ts st t :
  ts !! i = Some t ->
  schedule m (replicate n i) (ts, st) = (<[i := (mrun m n t st).1]> ts, (mrun m n t st).2).
Proof.
revert ts st t. induction n as [|n IH]; intros ts st t Hi; simpl.
{ by rewrite list_insert_id. }
rewrite (turn_at i ts st t Hi).
rewrite (IH _ _ (mstep m t st).1)
  by (apply list_lookup_insert_eq; by eapply lookup_lt_Some).
by rewrite list_insert_insert_eq.
Qed.

(** The serial schedule runs the threads one after the other. *)
Lemma schedule_serial pre ts st :
  schedule m (serial (length pre) (map (mremaining m) ts)) (pre ++ ts, st)
    = (pre ++ (mrun_all m ts st).1, (mrun_all m ts st).2).
Proof.
revert pre st. induction ts as [|t ts IH]; intros pre st; simpl; [done |].
rewrite schedule_app, (schedule_thread _ (length pre) _ st t)
  by (by rewrite lookup_app_r, Nat.sub_diag).
rewrite insert_app_r_alt, Nat.sub_diag by done. simpl.
rewrite (cons_middle _ pre), app_assoc.
replace (Datatypes.S (length pre)) with (length (pre ++ [(mrun m (mremaining m t) t st).1]))
  by (rewrite length_app; simpl; lia).
rewrite IH. by rewrite <- app_assoc.
Qed.

(** Threads that have run one after the other have returned, and their
    run is an interleaving. *)
Lemma mrun_all_done ts st : Forall (fun t => mrunning m t = false) (mrun_all m ts st).1.
Proof.
revert st. induction ts as [|t ts IH]; intros st; simpl; constructor; [|apply IH].
by apply mrun_done.
Qed.

Lemma mrun_all_steps ts st : rtc (interleave m) (ts, st) (mrun_all m ts st).
Proof.
pose proof (schedule_steps (serial 0 (map (mremaining m) ts)) (ts, st)) as Hs.
pose proof (schedule_serial [] ts st) as He. simpl in He. rewrite He in Hs.
by destruct (mrun_all m ts st).
Qed.

(** ** Invariants of a pool *)

(** A pool keeps an invariant when a statement of a thread keeps the
    invariant of the state and its own, and changes the state only in a
    way [G] that the invariants of the other threads stand. *)
Lemma interleave_pool_inv (P : S -> Prop) (Q : S -> T -> Prop) (G : S -> S -> Prop) sys sys' :
  (forall t st, P st -> Q st t ->
     P (mstep m t st).2 /\ Q (mstep m t st).2 (mstep m t st).1 /\ G st (mstep m t st).2) ->
  (forall st st' t, G st st' -> Q st t -> Q st' t) ->
  rtc (interleave m) sys sys' -> pool_inv P Q sys -> pool_inv P Q sys'.
Proof.
intros Hstep Hstable. apply interleave_invariant.
intros _ _ [ts st i t Hi Hr] [HP HQ]. simpl in *.
destruct (Hstep t st HP (Forall_lookup_1 _ _ _ _ HQ Hi)) as (HP' & HQ' & HG).
split; [done |]. simpl. apply Forall_insert; [|done].
eapply Forall_impl; [exact HQ |]. intros t'. by apply Hstable.
Qed.

Lemma interleave_pool_rel {X} (P : S -> Prop) (R : S -> X -> T -> Prop)
    (G : S -> S -> Prop) (xs : list X) sys sys' :
  (forall x t st, P st -> R st x t ->
     P (mstep m t st).2 /\ R (mstep m t st).2 x (mstep m t st).1 /\ G st (mstep m t st).2) ->
  (forall st st' x t, G st st' -> R st x t -> R st' x t) ->
  rtc (interleave m) sys sys' -> pool_rel P R xs sys -> pool_rel P R xs sys'.
Proof.
intros Hstep Hstable. apply interleave_invariant.
intros _ _ [ts st i t Hi Hr] [HP HR]. simpl in *.
destruct (Forall2_lookup_r _ _ _ _ _ HR Hi) as (x & Hx & Hxt).
destruct (Hstep x t st HP Hxt) as (HP' & HR' & HG).
split; [done |]. simpl. rewrite <- (list_insert_id xs i x Hx).
apply Forall2_insert; [|done].
eapply Forall2_impl; [exact HR |]. intros x' t'. by apply Hstable.
Qed.

(** An interleaving of [n] threads has no more steps than the threads
    have statements. *)
Lemma interleave_steps_bound ts st k sys :
  nsteps (interleave m) k (ts, st) sys -> k <= total (mremaining m) ts.
Proof. intros Hs%interleave_steps_remaining. simpl in Hs. lia. Qed.
End SchedLemmas.
