(* ===== verification/Merge.v ===== *)
(** Merges.  Threads that write to one log, a list, each write the items
    of their own in their own order; what the log shows is a merge of
    what the threads wrote.  [merges ls l]: the list [l] is a merge of the
    lists [ls], made by taking the first item of one of them at a time.
    A merge keeps the order of every list, has the items of all of them
    and no other, and the lists one after the other are one of the
    merges.  [is_merge] decides the relation.  For the threads of
    [Sched]: when every statement adds to the log what it takes from the
    front of what its thread has left to write, the log of every
    interleaving is a merge. *)

From Stdlib Require Import List Lia.
From stdpp Require Import base tactics option list numbers relations.
From S2P Require Import Prelude Sched.


(** ** The relation *)

Inductive merges {A} : list (list A) -> list A -> Prop :=
| merges_done ls : Forall (fun l => l = []) ls -> merges ls []
| merges_next ls i x r l :
    ls !! i = Some (x :: r) -> merges (<[i := r]> ls) l -> merges ls (x :: l).

(** Whether [l] is a merge of [ls]: try every list that starts with the
    first item of [l]. *)
Fixpoint is_merge {A} `{EqDecision A} (ls : list (list A)) (l : list A) : bool :=
  match l with
  | [] => forallb (fun m => bool_decide (m = [])) ls
  | x :: l' =>
      existsb
        (fun i =>
           match ls !! i with
           | Some (y :: r) => bool_decide (x = y) && is_merge (<[i := r]> ls) l'
           | _ => false
           end)
        (seq 0 (length ls))
  end.

(** ** Lemmas *)

Section Merges.
Context {A : Type}.
Implicit Types (l m d r : list A) (ls : list (list A)) (x : A).

(** A list may give several items in a row. *)
Lemma merges_app ls i d r l :
  ls !! i = Some (d ++ r) -> merges (<[i := r]> ls) l -> merges ls (d ++ l).
Proof.
revert ls. induction d as [|x d IH]; intros ls Hi Hm; simpl in *.
- by rewrite list_insert_id in Hm.
- apply (merges_next ls i x (d ++ r)); [done |]. apply IH.
  + apply list_lookup_insert_eq. by eapply lookup_lt_Some.
  + by rewrite list_insert_insert_eq.
Qed.

Lemma merges_nil_inv ls : merges ls [] -> Forall (fun l => l = []) ls.
Proof. by inversion 1. Qed.

(** An empty list changes nothing. *)
Lemma merges_cons_nil ls l : merges ls l -> merges ([] :: ls) l.
Proof.
induction 1 as [ls Hls|ls i x r l Hi _ IH]; [by apply merges_done; constructor |].
by apply (merges_next ([] :: ls) (S i) x r).
Qed.

Lemma merges_single l : merges [l] l.
Proof.
rewrite <- (app_nil_r l) at 2. apply (merges_app [l] 0 l []); [by rewrite app_nil_r |].
apply merges_done. by repeat constructor.
Qed.

(** The lists one after the other are a merge: what threads write when
    they run in sequence. *)
Lemma merges_concat ls : merges ls (concat ls).
Proof.
induction ls as [|m ls IH]; simpl; [by apply merges_done |].
apply (merges_app (m :: ls) 0 m []); [by rewrite app_nil_r |]. by apply merges_cons_nil.
Qed.

Lemma concat_insert_perm ls i x r :
  ls !! i = Some (x :: r) -> concat ls ≡ₚ x :: concat (<[i := r]> ls).
Proof.
intros Hi. rewrite <- (take_drop_middle ls i (x :: r) Hi) at 1.
rewrite insert_take_drop by (by eapply lookup_lt_Some).
rewrite !concat_app. simpl. by rewrite <- Permutation_middle.
Qed.

(** A merge has the items of the lists, as often as they have them. *)
Lemma merges_Permutation ls l : merges ls l -> l ≡ₚ concat ls.
Proof.
induction 1 as [ls Hls|ls i x r l Hi _ IH].
- induction Hls as [|m ls -> _ IH]; [done | by simpl].
- by rewrite (concat_insert_perm ls i x r Hi), IH.
Qed.

(** A merge keeps the order of each list. *)
Lemma merges_sublist ls l i m : merges ls l -> ls !! i = Some m -> m `sublist_of` l.
Proof.
intros Hm. revert i m. induction Hm as [ls Hls|ls j x r l Hj _ IH]; intros i m Hi.
- rewrite (Forall_lookup_1 _ _ _ _ Hls Hi). constructor.
- destruct (decide (i = j)) as [->|Hij].
  + rewrite Hj in Hi. injection Hi as <-. apply sublist_skip, (IH j).
    apply list_lookup_insert_eq. by eapply lookup_lt_Some.
  + apply sublist_cons, (IH i). by rewrite list_lookup_insert_ne.
Qed.

(** The only merge of one list is the list. *)
Lemma merges_single_inv m l : merges [m] l -> l = m.
Proof.
revert m. induction l as [|x l IH]; intros m Hm; inversion Hm as [? Hls|? i ? r ? Hi Hr]; subst.
- by inversion Hls.
- destruct i as [|i]; [|by destruct i]. injection Hi as ->. f_equal. by apply IH.
Qed.

(** [is_merge] decides [merges]. *)
Lemma is_merge_spec `{EqDecision A} ls l : is_merge ls l = true <-> merges ls l.
Proof.
revert ls. induction l as [|x l IH]; intros ls; simpl.
- rewrite forallb_forall, <- List.Forall_forall. split.
  + intros H. apply merges_done. eapply Forall_impl; [exact H |].
    intros m. by apply bool_decide_eq_true_1.
  + intros H%merges_nil_inv. eapply Forall_impl; [exact H |].
    intros m. by apply bool_decide_eq_true_2.
- rewrite existsb_exists. split.
  + intros (i & _ & Hi). destruct (ls !! i) as [[|y r]|] eqn:Hl; try done.
    apply andb_true_iff in Hi as [->%bool_decide_eq_true_1 Hr%IH].
    by apply (merges_next ls i y r).
  + inversion 1 as [|? i ? r ? Hi Hr]; subst. exists i. split.
    * apply in_seq. apply lookup_lt_Some in Hi. lia.
    * rewrite Hi, bool_decide_eq_true_2 by done. by apply IH.
Qed.

#[export] Instance merges_dec `{EqDecision A} ls l : Decision (merges ls l).
Proof.
refine (cast_if (decide (is_merge ls l = true))); by rewrite <- is_merge_spec.
Defined.
End Merges.

(** ** The log of an interleaving *)

Section Log.
Context {T S A : Type} (m : Machine T S).
Context (obs : S -> list A) (rest : T -> list A) (I : pool (T:=T) (S:=S) -> Prop).

(** [obs] is the log in the shared state, [rest t] what the thread [t]
    has left to write, [I] an invariant of the pool.  When every
    statement adds to the log what it takes from the front of what its
    thread has left to write, what an interleaving adds to the log,
    followed by a merge of what the threads have left to write, is a
    merge of what they had left to write before. *)
Lemma interleave_merges sys sys' :
  (forall sys1 sys2, interleave m sys1 sys2 -> I sys1 -> I sys2) ->
  (forall ts st i t, I (ts, st) -> ts !! i = Some t ->
     exists d, obs (mstep m t st).2 = obs st ++ d /\ rest t = d ++ rest (mstep m t st).1) ->
  rtc (interleave m) sys sys' -> I sys ->
  forall l, merges (map rest sys'.1) l ->
  exists d, obs sys'.2 = obs sys.2 ++ d /\ merges (map rest sys.1) (d ++ l).
Proof.
intros Hinv Hstep Hs. induction Hs as [sys|sys1 sys2 sys3 Hs12 _ IH]; intros HI l Hl.
{ exists []. by rewrite app_nil_r. }
destruct (IH (Hinv _ _ Hs12 HI) l Hl) as (d2 & Hobs & Hm). clear IH.
destruct Hs12 as [ts st i t Hi Hr]. simpl in *.
destruct (Hstep ts st i t HI Hi) as (d1 & Hd1 & Hrest).
exists (d1 ++ d2). split; [by rewrite Hobs, Hd1, app_assoc |].
rewrite <- app_assoc. apply (merges_app _ i d1 (rest (mstep m t st).1)).
- by rewrite list_lookup_fmap, Hi, <- Hrest.
- by rewrite <- list_fmap_insert.
Qed.

(** When the threads of an interleaving have returned, what it added to
    the log is a merge of what the threads had to write. *)
Lemma interleave_merges_done sys sys' :
  (forall sys1 sys2, interleave m sys1 sys2 -> I sys1 -> I sys2) ->
  (forall ts st i t, I (ts, st) -> ts !! i = Some t ->
     exists d, obs (mstep m t st).2 = obs st ++ d /\ rest t = d ++ rest (mstep m t st).1) ->
  (forall t, mrunning m t = false -> rest t = []) ->
  rtc (interleave m) sys sys' -> I sys ->
  Forall (fun t => mrunning m t = false) sys'.1 ->
  exists d, obs sys'.2 = obs sys.2 ++ d /\ merges (map rest sys.1) d.
Proof.
intros Hinv Hstep Hdone Hs HI Hall.
destruct (interleave_merges sys sys' Hinv Hstep Hs HI []) as (d & Hobs & Hm).
- apply merges_done, Forall_fmap. eapply Forall_impl; [exact Hall |]. by intros t Ht%Hdone.
- exists d. by rewrite app_nil_r in Hm.
Qed.
End Log.
