(* ===== verification/PyStr.v ===== *)
(** Python values as [rss_reader.summarizer] uses them: [str] as a list of
    Unicode code points, the literals of the source, [len], truth of a
    [str], [str(int)], configuration values ([None], a [str], or an object
    of another class), exceptions, [repr] and [ascii] of a [str] after
    CPython's [unicode_repr], and the interface [PyRuntime] to the
    interpreter's Unicode tables. *)

From Stdlib Require Import ZArith NArith Ascii String List Lia.
From Stdlib Require Import HexadecimalString.
From Stdlib Require Import DecimalString DecimalZ DecimalPos.
From stdpp Require Import base tactics option list numbers.
From S2P Require Import Prelude.


(** ** Strings *)

(** A code point, and a [str]: Python's [len], indexing and slicing count
    code points. *)
#[warnings="-notation-for-abbreviation"]
Notation char := N (only parsing).
#[warnings="-notation-for-abbreviation"]
Notation pystr := (list N) (only parsing).

(** One code point from a lead byte and its continuation bytes. *)
Definition utf8_cont (acc b : N) : N := N.lor (N.shiftl acc 6) (N.land b 63).

(** The [str] a UTF-8 byte sequence denotes, as the compiler reads a string
    literal of a source file.  A truncated sequence yields U+FFFD. *)
Fixpoint utf8_decode (bs : list N) : pystr :=
  match bs with
  | [] => []
  | b0 :: r0 =>
      if (b0 <? 128)%N then b0 :: utf8_decode r0
      else
        match r0 with
        | [] => [65533%N]
        | b1 :: r1 =>
            if (b0 <? 224)%N then utf8_cont (N.land b0 31) b1 :: utf8_decode r1
            else
              match r1 with
              | [] => [65533%N]
              | b2 :: r2 =>
                  if (b0 <? 240)%N
                  then utf8_cont (utf8_cont (N.land b0 15) b1) b2 :: utf8_decode r2
                  else
                    match r2 with
                    | [] => [65533%N]
                    | b3 :: r3 =>
                        utf8_cont (utf8_cont (utf8_cont (N.land b0 7) b1) b2) b3
                          :: utf8_decode r3
                    end
              end
        end
  end.

Definition bytes_of_string (s : string) : list N :=
  map N_of_ascii (list_ascii_of_string s).

(** A string literal of the source. *)
Definition lit (s : string) : pystr := utf8_decode (bytes_of_string s).

(** [len(s)] *)
Definition py_len {A} (s : list A) : Z := Z.of_nat (length s).

(** Truth value of a [str] or a [list]: non-empty. *)
Definition py_truthy {A} (s : list A) : bool :=
  match s with [] => false | _ :: _ => true end.

(** [str(i)] for an [int]. *)
Definition str_of_int (i : Z) : pystr :=
  bytes_of_string (NilZero.string_of_int (Z.to_int i)).

(** [format(c, 'x')] for a code point, as [%x] of C prints it. *)
Definition hex_of_N (c : N) : pystr :=
  bytes_of_string (HexadecimalString.NilZero.string_of_uint (N.to_hex_uint c)).

(** ** Configuration values *)

(** What a configuration entry, an attribute copied from it or a field of
    a response holds: [None], a [str], or an object of another class of
    those a configuration file yields ([int], [float], [bool], [list],
    [dict]), given by the name of its class and by its [str()].  Such an
    object is equal to no [str] and has no method [format]. *)
Inductive value : Type :=
| VNone
| VStr (s : pystr)
| VOther (cls : pystr) (text : pystr).

#[export] Instance value_eq_dec : EqDecision value.
Proof. solve_decision. Defined.

(** [str(v)], as an f-string renders [{v}]. *)
Definition py_str (v : value) : pystr :=
  match v with
  | VNone => lit "None"
  | VStr s => s
  | VOther _ text => text
  end.

(** [type(v).__name__] *)
Definition type_name (v : value) : pystr :=
  match v with
  | VNone => lit "NoneType"
  | VStr _ => lit "str"
  | VOther cls _ => cls
  end.

(** [isinstance(v, str)], and the values of type [Optional[str]]. *)
Definition is_str (v : value) : bool :=
  match v with VStr _ => true | _ => false end.

Definition is_optional_str (v : value) : bool :=
  match v with VOther _ _ => false | _ => true end.

(** [v == 'literal'] *)
Definition value_eqb (v : value) (s : pystr) : bool := bool_decide (v = VStr s).

(** ** Exceptions *)

(** The exception classes the model distinguishes.  [ExternalError name]
    stands for any other subclass of [Exception], such as the SDKs' own
    error classes; [KeyboardInterrupt] and [SystemExit] derive from
    [BaseException] only. *)
Inductive exn_class : Type :=
| KeyError
| IndexError
| ValueError
| AttributeError
| TypeError
| ImportError
| ExternalError (name : pystr)
| KeyboardInterrupt
| SystemExit.

#[export] Instance exn_class_eq_dec : EqDecision exn_class.
Proof. solve_decision. Defined.

(** An exception: its class and its argument [args[0]]. *)
Record exn : Type := MkExn { exn_cls : exn_class; exn_arg : pystr }.

#[export] Instance exn_eq_dec : EqDecision exn.
Proof. solve_decision. Defined.

(** [isinstance(e, Exception)]: what [except Exception] catches. *)
Definition is_Exception (e : exn) : bool :=
  match exn_cls e with
  | KeyboardInterrupt | SystemExit => false
  | _ => true
  end.

(** ** The interpreter's Unicode tables *)

(** What the model takes from the interpreter: the decimal value of a code
    point ([Py_UNICODE_TODECIMAL]), whether a code point beyond ASCII is
    printable ([Py_UNICODE_ISPRINTABLE]), and whether a [str] of a given
    length can be allocated.  On ASCII the decimal digits are ['0'] to
    ['9'], and a decimal value is a digit. *)
Class PyRuntime : Type := {
  to_decimal : N -> option Z;
  is_printable : N -> bool;
  can_allocate : Z -> bool;
  to_decimal_ascii : forall c : N,
    (c < 128)%N ->
    to_decimal c =
      if ((48 <=? c) && (c <=? 57))%N then Some (Z.of_N c - 48)%Z else None;
  to_decimal_range : forall (c : N) (d : Z), to_decimal c = Some d -> (0 <= d <= 9)%Z;
}.

(** ** [repr] and [ascii] of a [str] *)

(** A hexadecimal digit in lower case, and the [n] last hexadecimal digits
    of a code point. *)
Definition hex_digit (d : N) : N := if (d <? 10)%N then (48 + d)%N else (87 + d)%N.

Fixpoint hex_fixed (n : nat) (c : N) : pystr :=
  match n with
  | O => []
  | S n' => hex_fixed n' (c / 16) ++ [hex_digit (c mod 16)]
  end.

(** The escape of a code point that is not shown as it is: [\xhh],
    [\uhhhh] or [\Uhhhhhhhh] by its size. *)
Definition escape_char (c : N) : pystr :=
  if (c <? 256)%N then [92; 120]%N ++ hex_fixed 2 c
  else if (c <? 65536)%N then [92; 117]%N ++ hex_fixed 4 c
  else [92; 85]%N ++ hex_fixed 8 c.

(** The quote of the [repr] of a [str]: the apostrophe, or the double
    quote when the [str] holds apostrophes and no double quote. *)
Definition repr_quote (s : pystr) : N :=
  if existsb (N.eqb 39) s && negb (existsb (N.eqb 34) s) then 34%N else 39%N.

(** One code point of a [repr], as the loop of [unicode_repr] writes it. *)
Definition repr_char {RT : PyRuntime} (quote c : N) : pystr :=
  if ((c =? quote) || (c =? 92))%N then [92; c]%N
  else if (c =? 9)%N then [92; 116]%N
  else if (c =? 10)%N then [92; 110]%N
  else if (c =? 13)%N then [92; 114]%N
  else if ((c <? 32) || (c =? 127))%N then [92; 120]%N ++ hex_fixed 2 c
  else if (c <? 127)%N then [c]
  else if is_printable c then [c]
  else escape_char c.

(** [repr(s)] for a [str] *)
Definition py_repr {RT : PyRuntime} (s : pystr) : pystr :=
  let quote := repr_quote s in
  quote :: flat_map (repr_char quote) s ++ [quote].

(** [ascii(s)] for a [str]: the [repr] with every code point beyond ASCII
    escaped. *)
Definition py_ascii {RT : PyRuntime} (s : pystr) : pystr :=
  flat_map (fun c => if (c <? 128)%N then [c] else escape_char c) (py_repr s).

(** [str(e)]: the argument, which [KeyError] shows through [repr]. *)
Definition exn_str {RT : PyRuntime} (e : exn) : pystr :=
  match exn_cls e with
  | KeyError => py_repr (exn_arg e)
  | _ => exn_arg e
  end.

(** The tables restricted to ASCII: only ['0'..'9'] are decimal digits,
    no code point beyond ASCII is printable, and memory never runs out.
    It agrees with CPython on ASCII text. *)
Definition ascii_to_decimal (c : N) : option Z :=
  if ((48 <=? c) && (c <=? 57))%N then Some (Z.of_N c - 48)%Z else None.

Lemma ascii_to_decimal_range c d : ascii_to_decimal c = Some d -> (0 <= d <= 9)%Z.
Proof.
  unfold ascii_to_decimal. destruct (_ && _) eqn:H; [|done]. intros [= <-].
  apply andb_true_iff in H as [H1%N.leb_le H2%N.leb_le]. lia.
Qed.

Definition ascii_runtime : PyRuntime := {|
  to_decimal := ascii_to_decimal;
  is_printable _ := false;
  can_allocate _ := true;
  to_decimal_ascii := fun _ _ => eq_refl;
  to_decimal_range := ascii_to_decimal_range;
|}.

(** ** Lemmas *)

Lemma utf8_decode_ascii (bs : list N) :
  Forall (fun b => (b < 128)%N) bs -> utf8_decode bs = bs.
Proof.
  induction 1 as [|b bs Hb _ IH]; simpl; [done |].
  apply N.ltb_lt in Hb. by rewrite Hb, IH.
Qed.

Lemma py_len_nonneg {A} (s : list A) : (0 <= py_len s)%Z.
Proof. unfold py_len. lia. Qed.

Lemma py_len_app {A} (s t : list A) : py_len (s ++ t) = (py_len s + py_len t)%Z.
Proof. unfold py_len. rewrite length_app. lia. Qed.

Lemma py_truthy_len {A} (s : list A) : py_truthy s = true <-> (0 < py_len s)%Z.
Proof. unfold py_len. destruct s; simpl; split; (done || lia). Qed.

Lemma py_truthy_false {A} (s : list A) : py_truthy s = false <-> s = [].
Proof. by destruct s. Qed.

Lemma value_eqb_true v s : value_eqb v s = true <-> v = VStr s.
Proof. unfold value_eqb. apply bool_decide_eq_true. Qed.

Lemma value_eqb_false v s : value_eqb v s = false <-> v <> VStr s.
Proof. unfold value_eqb. apply bool_decide_eq_false. Qed.

Lemma value_eqb_None s : value_eqb VNone s = false.
Proof. by apply value_eqb_false. Qed.

Lemma value_eqb_is_str v s : value_eqb v s = true -> is_str v = true.
Proof. by intros ->%value_eqb_true. Qed.

Lemma is_str_optional v : is_str v = true -> is_optional_str v = true.
Proof. by destruct v. Qed.

Lemma is_str_VStr v : is_str v = true <-> exists s, v = VStr s.
Proof. destruct v; split; (done || eauto || by intros [? ?]). Qed.

Lemma is_Exception_cases e :
  is_Exception e = false <->
  exn_cls e = KeyboardInterrupt \/ exn_cls e = SystemExit.
Proof.
  unfold is_Exception.
  destruct (exn_cls e); split; intros H; try done; auto; by destruct H.
Qed.

(** [str(i)] determines [i]. *)
Lemma bytes_of_string_inj s t : bytes_of_string s = bytes_of_string t -> s = t.
Proof.
  unfold bytes_of_string. intros H.
  rewrite <- (string_of_list_ascii_of_string s), <- (string_of_list_ascii_of_string t).
  f_equal. revert H. generalize (list_ascii_of_string t).
  induction (list_ascii_of_string s) as [|a l IH]; intros [|b l'] [=]; [done |].
  f_equal; [|by apply IH].
  rewrite <- (ascii_N_embedding a), <- (ascii_N_embedding b). by f_equal.
Qed.

Lemma str_of_int_inj i j : str_of_int i = str_of_int j -> i = j.
Proof.
  unfold str_of_int. intros H%bytes_of_string_inj.
  assert (Hn : forall z, NilZero.int_of_string (NilZero.string_of_int (Z.to_int z))
                         = Some (Z.to_int z)).
  { intros z. apply NilZero.isi; destruct z; simpl; try done;
      intros [=Hp]; by destruct (Unsigned.to_uint_nonnil p). }
  apply (f_equal NilZero.int_of_string) in H. rewrite !Hn in H.
  injection H as H. by apply DecimalZ.to_int_inj.
Qed.

#[export] Hint Rewrite @py_len_app : pyrw.

(** ** Decimal digits *)

(** The code points of a decimal number, and the value of its digits read
    from the left, as the loops that parse an index, a width or a
    precision accumulate it. *)
Definition digits_of_uint (d : Decimal.uint) : pystr :=
  bytes_of_string (NilEmpty.string_of_uint d).

Fixpoint uint_value (acc : Z) (d : Decimal.uint) : Z :=
  match d with
  | Decimal.Nil => acc
  | Decimal.D0 l => uint_value (10 * acc) l
  | Decimal.D1 l => uint_value (10 * acc + 1) l
  | Decimal.D2 l => uint_value (10 * acc + 2) l
  | Decimal.D3 l => uint_value (10 * acc + 3) l
  | Decimal.D4 l => uint_value (10 * acc + 4) l
  | Decimal.D5 l => uint_value (10 * acc + 5) l
  | Decimal.D6 l => uint_value (10 * acc + 6) l
  | Decimal.D7 l => uint_value (10 * acc + 7) l
  | Decimal.D8 l => uint_value (10 * acc + 8) l
  | Decimal.D9 l => uint_value (10 * acc + 9) l
  end.

Lemma uint_value_ge d acc : (0 <= acc -> acc <= uint_value acc d)%Z.
Proof.
revert acc. induction d as [|d IH|d IH|d IH|d IH|d IH|d IH|d IH|d IH|d IH|d IH];
  intros acc Hacc; simpl; [lia | etrans; [| apply IH]; lia ..].
Qed.

Lemma uint_value_pos d acc : uint_value (Z.pos acc) d = Z.pos (Pos.of_uint_acc d acc).
Proof.
revert acc. induction d as [|d IH|d IH|d IH|d IH|d IH|d IH|d IH|d IH|d IH|d IH];
  intros acc; simpl; [done | rewrite <- IH; f_equal; lia ..].
Qed.

Lemma uint_value_0 d : uint_value 0 d = Z.of_N (Pos.of_uint d).
Proof.
induction d as [|d IH|d IH|d IH|d IH|d IH|d IH|d IH|d IH|d IH|d IH];
  simpl; [done | exact IH | apply uint_value_pos ..].
Qed.

(** [str(i)] of an [int] that is not negative is the digits of a decimal
    number of value [i]. *)
Lemma str_of_int_digits i :
  (0 <= i)%Z ->
  exists d, str_of_int i = digits_of_uint d /\ uint_value 0 d = i /\ d <> Decimal.Nil.
Proof.
intros Hi. destruct i as [|p|p]; [| | lia].
- by exists (Decimal.D0 Decimal.Nil).
- exists (Pos.to_uint p). pose proof (Unsigned.to_uint_nonnil p) as Hn.
  split_and!; [| | done].
  + unfold str_of_int, digits_of_uint. simpl. by destruct (Pos.to_uint p).
  + by rewrite uint_value_0, DecimalPos.Unsigned.of_to.
Qed.

(** A decimal digit, and the digits of a number. *)
Definition is_digit (c : N) : bool := ((48 <=? c) && (c <=? 57))%N.

Lemma digits_of_uint_digits d : forallb is_digit (digits_of_uint d) = true.
Proof. induction d; simpl; by rewrite ?IHd. Qed.

(** ** [repr] and [ascii] *)

(** A character that [repr] shows as it is whatever the tables say:
    printable ASCII other than the quotes and the backslash. *)
Definition plain_char (c : N) : bool :=
  (32 <=? c)%N && (c <? 127)%N && negb (c =? 39)%N && negb (c =? 34)%N && negb (c =? 92)%N.

(** Turns the boolean tests on code points among the hypotheses into
    propositions that [lia] reads. *)
Ltac char_tests :=
  repeat match goal with
  | H : (_ =? _)%N = true |- _ => apply N.eqb_eq in H
  | H : (_ =? _)%N = false |- _ => apply N.eqb_neq in H
  | H : (_ <? _)%N = true |- _ => apply N.ltb_lt in H
  | H : (_ <? _)%N = false |- _ => apply N.ltb_ge in H
  | H : (_ <=? _)%N = true |- _ => apply N.leb_le in H
  | H : (_ <=? _)%N = false |- _ => apply N.leb_gt in H
  | H : _ || _ = true |- _ => apply orb_true_iff in H as [H | H]
  | H : _ || _ = false |- _ => apply orb_false_iff in H as [? ?]
  | H : _ && _ = true |- _ => apply andb_true_iff in H as [? ?]
  | H : negb _ = true |- _ => apply negb_true_iff in H
  | H : negb _ = false |- _ => apply negb_false_iff in H
  end.

Section Repr.
Context {RT : PyRuntime}.

Lemma hex_digit_ascii d : (d < 16)%N -> (48 <= hex_digit d < 128)%N.
Proof. unfold hex_digit. case_match; lia. Qed.

Lemma hex_fixed_length n c : length (hex_fixed n c) = n.
Proof. revert c. induction n as [|n IH]; intros c; simpl; [done|]. rewrite length_app, IH. simpl. lia. Qed.

Lemma hex_fixed_ascii n c : Forall (fun d => (d < 128)%N) (hex_fixed n c).
Proof.
  revert c. induction n as [|n IH]; intros c; simpl; [constructor|].
  apply Forall_app. split; [apply IH|]. repeat constructor.
  apply hex_digit_ascii, N.mod_lt. lia.
Qed.

Lemma escape_char_ascii c : Forall (fun d => (d < 128)%N) (escape_char c).
Proof.
  unfold escape_char.
  repeat case_match; (apply Forall_app; split; [repeat constructor; lia | apply hex_fixed_ascii]).
Qed.

Lemma escape_char_length c : (4 <= length (escape_char c) <= 10)%nat.
Proof. unfold escape_char. repeat case_match; rewrite length_app, hex_fixed_length; simpl; lia. Qed.

(** What [repr] writes for a character is the character or an escape of
    two to ten ASCII characters. *)
Lemma repr_char_cases quote c :
  repr_char quote c = [c] \/
  (Forall (fun d => (d < 128)%N) (repr_char quote c) /\
   (2 <= length (repr_char quote c) <= 10)%nat /\ c <> quote \/
   repr_char quote c = [92; c]%N /\ (c = quote \/ c = 92%N)).
Proof.
  unfold repr_char.
  destruct ((c =? quote) || (c =? 92))%N eqn:Hq.
  { right; right. split; [done|]. apply orb_true_iff in Hq. rewrite !N.eqb_eq in Hq. exact Hq. }
  apply orb_false_iff in Hq as [Hq%N.eqb_neq _].
  pose proof (escape_char_length c). pose proof (escape_char_ascii c).
  repeat case_match; try (by left); right; left;
    (split_and!; [| | | exact Hq]); try done; try (simpl; lia);
    by repeat first [apply Forall_nil | apply hex_fixed_ascii | apply Forall_cons; [lia|]].
Qed.

Lemma repr_char_plain quote c :
  plain_char c = true -> c <> quote -> repr_char quote c = [c].
Proof.
  unfold plain_char, repr_char. intros Hc Hq.
  repeat case_match; try done; char_tests; lia.
Qed.

Lemma repr_quote_cases s : repr_quote s = 39%N \/ repr_quote s = 34%N.
Proof. unfold repr_quote. case_match; auto. Qed.

Lemma repr_quote_plain s : forallb plain_char s = true -> repr_quote s = 39%N.
Proof.
  unfold repr_quote. intros Hs.
  replace (existsb (N.eqb 39) s) with false; [done|].
  symmetry. apply not_true_is_false. intros [c [Hin Hc]]%existsb_exists.
  apply N.eqb_eq in Hc. subst c.
  rewrite forallb_forall in Hs. specialize (Hs _ Hin). unfold plain_char in Hs.
  char_tests. lia.
Qed.

Lemma flat_map_singletons {A} (f : A -> list A) (l : list A) :
  (forall x, In x l -> f x = [x]) -> flat_map f l = l.
Proof.
  induction l as [|x l IH]; intros Hf; simpl; [done|].
  rewrite Hf by (by left). simpl. f_equal. apply IH. intros y Hy. apply Hf. by right.
Qed.

(** On text of plain characters [repr] only adds the apostrophes. *)
Lemma py_repr_plain s :
  forallb plain_char s = true -> py_repr s = 39%N :: s ++ [39%N].
Proof.
  intros Hs. unfold py_repr. rewrite (repr_quote_plain s Hs). cbv zeta.
  rewrite flat_map_singletons; [done|].
  intros c Hc. rewrite forallb_forall in Hs. specialize (Hs c Hc).
  apply repr_char_plain; [done|]. unfold plain_char in Hs. char_tests. lia.
Qed.

(** [ascii] yields ASCII text, whatever the [str] and the tables. *)
Lemma py_ascii_is_ascii s : Forall (fun c => (c < 128)%N) (py_ascii s).
Proof.
  unfold py_ascii. induction (py_repr s) as [|c l IH]; simpl; [constructor|].
  apply Forall_app. split; [|exact IH].
  destruct (c <? 128)%N eqn:Hc; [|apply escape_char_ascii].
  char_tests. by apply Forall_cons.
Qed.

(** [repr] of ASCII text is ASCII text, and [ascii] is [repr] on it. *)
Lemma py_repr_ascii s :
  Forall (fun c => (c < 128)%N) s -> Forall (fun c => (c < 128)%N) (py_repr s).
Proof.
  intros Hs. unfold py_repr.
  assert (Hq : (repr_quote s < 128)%N) by (destruct (repr_quote_cases s) as [-> | ->]; lia).
  revert Hq. generalize (repr_quote s). intros q Hq.
  apply Forall_cons; [done|]. apply Forall_app. split; [|by apply Forall_cons].
  induction Hs as [|c l Hc _ IH]; simpl; [constructor|].
  apply Forall_app. split; [|exact IH].
  destruct (repr_char_cases q c) as [-> | [[H _] | [-> _]]];
    [by apply Forall_cons | exact H | by repeat (apply Forall_cons; [lia|])].
Qed.

Lemma py_ascii_repr s : Forall (fun c => (c < 128)%N) s -> py_ascii s = py_repr s.
Proof.
  intros Hs%py_repr_ascii. unfold py_ascii. apply flat_map_singletons.
  intros c Hc. rewrite Forall_forall in Hs. specialize (Hs c Hc).
  by apply N.ltb_lt in Hs as ->.
Qed.
End Repr.
