(* ===== verification/FormatSpec.v ===== *)
(** [str.__format__]: the format specification of a replacement field whose
    object is a [str], as in [{title:>20}] or [{content:.500}].

    The definitions follow CPython 3.11's [Python/formatter_unicode.c]:
    [spec_integer] is [get_integer], [parse_spec] is
    [parse_internal_render_format_spec] called with the default type [s]
    and the default alignment [<], [format_string_internal] keeps its name
    with [calc_padding] in it, and [format_str] is
    [_PyUnicode_FormatAdvancedWriter].  The specification is
    [[[fill]align][sign][z][#][0][width][,][_][.precision][type]]; for a
    [str] the only type is [s], a sign, [z], [#] and the alignment [=] are
    refused, the precision truncates, and the width pads with the fill
    character. *)

From Stdlib Require Import ZArith NArith String List Lia.
From stdpp Require Import base tactics option list numbers.
From S2P Require Import Prelude PyStr.


(** ** Characters of the syntax *)

Definition SPACE : N := 32.
Definition HASH : N := 35.
Definition PLUS : N := 43.
Definition COMMA : N := 44.
Definition MINUS : N := 45.
Definition DOT : N := 46.
Definition ZERO : N := 48.
Definition LESS : N := 60.
Definition EQUALS : N := 61.
Definition GREATER : N := 62.
Definition CARET : N := 94.
Definition UNDERSCORE : N := 95.
Definition LETTER_s : N := 115.
Definition LETTER_z : N := 122.

(** [PY_SSIZE_T_MAX] of a 64-bit build. *)
Definition PY_SSIZE_T_MAX : Z := 2 ^ 63 - 1.

Definition value_error (msg : string) : exn := MkExn ValueError (lit msg).

(** [MemoryError], a subclass of [Exception]. *)
Definition memory_error : exn := MkExn (ExternalError (lit "MemoryError")) [].

(** A character in an error message: itself when it is printable ASCII
    below [limit], its code in hexadecimal otherwise. *)
Definition show_char (limit : N) (c : N) : pystr :=
  if ((32 <? c) && (c <? limit))%N then [c] else lit "\x" ++ hex_of_N c.

(** ** The parsed specification *)

(** [InternalFormatSpec]; an absent width or precision is the [-1] of the
    C code, an absent separator is [LT_NO_LOCALE]. *)
Record spec : Type := MkSpec {
  fill_char : N;
  align : N;
  sign : option N;
  no_neg_0 : bool;
  alternate : bool;
  width : option Z;
  thousands_separators : option N;
  precision : option Z;
  type : N;
}.

Definition is_alignment_token (c : N) : bool :=
  ((c =? LESS) || (c =? GREATER) || (c =? EQUALS) || (c =? CARET))%N.

Definition is_sign_element (c : N) : bool :=
  ((c =? SPACE) || (c =? PLUS) || (c =? MINUS))%N.

(** The types with which a thousands separator may stand: those of
    numbers, and the binary, octal and hexadecimal ones for [_]. *)
Definition separator_allowed (sep : N) (t : N) : bool :=
  bool_decide (t ∈ [100; 101; 102; 103; 69; 71; 37; 70; 0]%N)
  || (bool_decide (t ∈ [98; 111; 120; 88]%N) && (sep =? UNDERSCORE)%N).

Definition invalid_comma_and_underscore : exn :=
  value_error "Cannot specify both ',' and '_'.".

Definition invalid_thousands_separator_type (sep t : N) : exn :=
  MkExn ValueError
    (lit "Cannot specify '" ++ [sep] ++ lit "' with '" ++ show_char 128 t ++ lit "'.").

Definition unknown_presentation_type (t : N) : exn :=
  MkExn ValueError
    (lit "Unknown format code '" ++ show_char 128 t ++ lit "' for object of type 'str'").

Definition invalid_format_specifier (s : pystr) : exn :=
  MkExn ValueError
    (lit "Invalid format specifier '" ++ s ++ lit "' for object of type 'str'").

(** One optional character: whether the text starts with [c], and the
    text after it. *)
Definition eat (c : N) (s : pystr) : bool * pystr :=
  match s with
  | c' :: r => if (c' =? c)%N then (true, r) else (false, s)
  | [] => (false, [])
  end.

Section Spec.
Context {RT : PyRuntime}.

(** [get_integer]: the decimal digits at the start of the text, their
    value, how many they are, and the text after them. *)
Fixpoint spec_integer (acc : Z) (n : nat) (s : pystr) : outcome exn (Z * nat * pystr) :=
  match s with
  | [] => Ok (acc, n, [])
  | c :: r =>
      match to_decimal c with
      | None => Ok (acc, n, s)
      | Some d =>
          if (acc >? (PY_SSIZE_T_MAX - d) / 10)%Z
          then Raise (value_error "Too many decimal digits in format string")
          else spec_integer (acc * 10 + d) (S n) r
      end
  end.

(** The fill character and the alignment: [(fill, align, fill given,
    rest)]. *)
Definition parse_align (s : pystr) : N * N * bool * pystr :=
  match s with
  | f :: a :: r =>
      if is_alignment_token a then (f, a, true, r)
      else if is_alignment_token f then (SPACE, f, false, a :: r)
      else (SPACE, LESS, false, s)
  | [a] => if is_alignment_token a then (SPACE, a, false, []) else (SPACE, LESS, false, s)
  | [] => (SPACE, LESS, false, [])
  end.

Definition parse_sign (s : pystr) : option N * pystr :=
  match s with
  | c :: r => if is_sign_element c then (Some c, r) else (None, s)
  | [] => (None, [])
  end.

(** The separators after the width: [,], then [_], which do not go
    together. *)
Definition parse_separators (s : pystr) : outcome exn (option N * pystr) :=
  let '(comma, s1) := eat COMMA s in
  let '(under, s2) := eat UNDERSCORE s1 in
  if comma && under then Raise invalid_comma_and_underscore
  else if under && (eat COMMA s2).1 then Raise invalid_comma_and_underscore
  else Ok (if comma then Some COMMA else if under then Some UNDERSCORE else None, s2).

(** The precision after a dot. *)
Definition parse_precision (s : pystr) : outcome exn (option Z * pystr) :=
  match eat DOT s with
  | (false, _) => Ok (None, s)
  | (true, r) =>
      match spec_integer 0 0 r with
      | Raise e => Raise e
      | Ok (_, O, _) => Raise (value_error "Format specifier missing precision")
      | Ok (p, S _, r') => Ok (Some p, r')
      end
  end.

(** [parse_internal_render_format_spec] with default type [s] and default
    alignment [<]. *)
Definition parse_spec (s : pystr) : outcome exn spec :=
  let '(fill, algn, fill_given, s1) := parse_align s in
  let '(sgn, s2) := parse_sign s1 in
  let '(z, s3) := eat LETTER_z s2 in
  let '(alt, s4) := eat HASH s3 in
  let '(zero, s5) := if fill_given then (false, s4) else eat ZERO s4 in
  match spec_integer 0 0 s5 with
  | Raise e => Raise e
  | Ok (w, digits, s6) =>
      match parse_separators s6 with
      | Raise e => Raise e
      | Ok (sep, s7) =>
          match parse_precision s7 with
          | Raise e => Raise e
          | Ok (prec, s8) =>
              match s8 with
              | _ :: _ :: _ => Raise (invalid_format_specifier s)
              | _ =>
                  let t := match s8 with [c] => c | _ => LETTER_s end in
                  let sp := MkSpec (if zero then ZERO else fill) algn sgn z alt
                              (match digits with O => None | S _ => Some w end)
                              sep prec t in
                  match sep with
                  | Some c =>
                      if separator_allowed c t then Ok sp
                      else Raise (invalid_thousands_separator_type c t)
                  | None => Ok sp
                  end
              end
          end
      end
  end.

(** [calc_padding]: the fill characters on the left and on the right of
    [nchars] characters in a field of the given width. *)
Definition calc_padding (nchars : nat) (w : option Z) (algn : N) : nat * nat :=
  let total := Nat.max nchars (Z.to_nat (default 0%Z w)) in
  let lpad :=
    if (algn =? GREATER)%N then total - nchars
    else if (algn =? CARET)%N then (total - nchars) / 2
    else 0 in
  (lpad, total - nchars - lpad).

(** The checks of [format_string_internal] that do not look at the
    value: what a [str] refuses in a specification. *)
Definition refused (sp : spec) : option exn :=
  match sign sp with
  | Some c =>
      if (c =? SPACE)%N
      then Some (value_error "Space not allowed in string format specifier")
      else Some (value_error "Sign not allowed in string format specifier")
  | None =>
      if no_neg_0 sp then
        Some (value_error
                "Negative zero coercion (z) not allowed in string format specifier")
      else if alternate sp then
        Some (value_error "Alternate form (#) not allowed in string format specifier")
      else if (align sp =? EQUALS)%N then
        Some (value_error "'=' alignment not allowed in string format specifier")
      else None
  end.

(** The value cut to the precision. *)
Definition truncate (p : option Z) (v : pystr) : pystr :=
  match p with
  | Some p => take (Z.to_nat p) v
  | None => v
  end.

(** The value cut to the precision and padded to the width; a value that
    needs neither is written as it is. *)
Definition pad (v : pystr) (sp : spec) : outcome exn pystr :=
  let fits_width :=
    match width sp with None => true | Some w => (w <=? py_len v)%Z end in
  let fits_precision :=
    match precision sp with None => true | Some p => (py_len v <=? p)%Z end in
  if fits_width && fits_precision then Ok v
  else
    let v' := truncate (precision sp) v in
    let '(lpad, rpad) := calc_padding (length v') (width sp) (align sp) in
    if can_allocate (Z.of_nat (lpad + length v' + rpad))
    then Ok (replicate lpad (fill_char sp) ++ v' ++ replicate rpad (fill_char sp))
    else Raise memory_error.

(** [format_string_internal] *)
Definition format_string_internal (v : pystr) (sp : spec) : outcome exn pystr :=
  match refused sp with
  | Some e => Raise e
  | None => pad v sp
  end.

(** Whether a specification has a width or a precision, so that formatting
    may allocate a new [str]. *)
Definition needs_room (s : pystr) : bool :=
  match parse_spec s with
  | Ok sp =>
      match width sp, precision sp with
      | None, None => false
      | _, _ => true
      end
  | Raise _ => false
  end.

(** The error of a specification, which does not depend on the value:
    that of its syntax, of a type other than [s], or of what a [str]
    refuses. *)
Definition spec_error (s : pystr) : option exn :=
  match s with
  | [] => None
  | _ :: _ =>
      match parse_spec s with
      | Raise e => Some e
      | Ok sp =>
          if (type sp =? LETTER_s)%N then refused sp
          else Some (unknown_presentation_type (type sp))
      end
  end.

(** [format(v, s)] for a [str]: an empty specification is [str(v)]. *)
Definition format_str (v : pystr) (s : pystr) : outcome exn pystr :=
  match s with
  | [] => Ok v
  | _ :: _ =>
      match parse_spec s with
      | Raise e => Raise e
      | Ok sp =>
          if (type sp =? LETTER_s)%N then format_string_internal v sp
          else Raise (unknown_presentation_type (type sp))
      end
  end.
End Spec.

(** ** Lemmas *)

Section SpecLemmas.
Context {RT : PyRuntime}.
Implicit Types (v s : pystr) (sp : spec).

Lemma format_str_empty v : format_str v [] = Ok v.
Proof. reflexivity. Qed.

(** A specification with an error raises it for every value. *)
Lemma format_str_error v s e : spec_error s = Some e -> format_str v s = Raise e.
Proof.
unfold spec_error, format_str, format_string_internal.
destruct s as [|c s]; [done |]. destruct (parse_spec _) as [sp|e']; [|by intros [= ->]].
destruct (type sp =? LETTER_s)%N; [by intros -> | by intros [= ->]].
Qed.

(** A specification without error pads the value. *)
Lemma format_str_pad v s :
  spec_error s = None ->
  s = [] /\ format_str v s = Ok v \/
  exists sp, parse_spec s = Ok sp /\ format_str v s = pad v sp.
Proof.
unfold spec_error, format_str, format_string_internal.
destruct s as [|c s]; [by left |]. intros Hs. right. revert Hs.
destruct (parse_spec _) as [sp|e']; [|done].
destruct (type sp =? LETTER_s)%N; [|done]. intros ->. by exists sp.
Qed.

Lemma truncate_length p v :
  length (truncate p v) = match p with Some p => Nat.min (Z.to_nat p) (length v) | None => length v end.
Proof. destruct p; simpl; [apply length_take | done]. Qed.

Lemma truncate_prefix p v : truncate p v `prefix_of` v.
Proof. destruct p; simpl; [apply prefix_take | done]. Qed.

Lemma calc_padding_total n w a :
  (calc_padding n w a).1 + n + (calc_padding n w a).2 = Nat.max n (Z.to_nat (default 0%Z w)).
Proof.
unfold calc_padding. cbn [fst snd].
set (total := Nat.max n _). assert (n <= total) by lia.
repeat case_match; try lia.
pose proof (Nat.Div0.mul_div_le (total - n) 2). lia.
Qed.

(** What padding yields: the value cut to the precision, between fill
    characters, as long as the width when the width is larger. *)
Lemma pad_shape v sp r :
  pad v sp = Ok r ->
  exists lpad rpad,
    r = replicate lpad (fill_char sp) ++ truncate (precision sp) v
          ++ replicate rpad (fill_char sp) /\
    length r = Nat.max (length (truncate (precision sp) v))
                 (Z.to_nat (default 0%Z (width sp))).
Proof.
unfold pad. destruct (_ && _) eqn:Hfit.
- intros [= <-]. exists 0, 0. apply andb_true_iff in Hfit as [Hw Hp].
  assert (Ht : truncate (precision sp) v = v).
  { destruct (precision sp) as [p|]; simpl; [|done]. apply take_ge.
    apply Z.leb_le in Hp. unfold py_len in Hp. lia. }
  rewrite Ht. simpl. rewrite app_nil_r. split; [done |].
  destruct (width sp) as [w|]; simpl; [|lia].
  apply Z.leb_le in Hw. unfold py_len in Hw. lia.
- pose proof (calc_padding_total (length (truncate (precision sp) v)) (width sp) (align sp)) as Ht.
  destruct (calc_padding _ _ _) as [lpad rpad]. simpl in Ht.
  destruct (can_allocate _); [|done]. intros [= <-]. exists lpad, rpad.
  split; [done |]. rewrite !length_app, !length_replicate. lia.
Qed.

Lemma pad_plain v sp : width sp = None -> precision sp = None -> pad v sp = Ok v.
Proof. unfold pad. by intros -> ->. Qed.

(** With memory to allocate, padding succeeds. *)
Lemma pad_room v sp : (forall n, can_allocate n = true) -> is_ok (pad v sp) = true.
Proof.
intros Hroom. unfold pad. destruct (_ && _); [done |].
destruct (calc_padding _ _ _) as [lpad rpad]. by rewrite Hroom.
Qed.

Lemma calc_padding_none n a : calc_padding n None a = (0, 0).
Proof.
unfold calc_padding. cbn [default Z.to_nat]. rewrite Nat.max_0_r, Nat.sub_diag.
by repeat case_match.
Qed.

(** A precision without a width cuts the value and pads nothing. *)
Lemma pad_precision v sp p :
  width sp = None -> precision sp = Some p -> (forall n, can_allocate n = true) ->
  pad v sp = Ok (take (Z.to_nat p) v).
Proof.
intros Hw Hp Hroom. unfold pad. rewrite Hw, Hp. cbn [truncate andb].
destruct (Z.leb_spec (py_len v) p) as [Hle|Hgt].
- rewrite take_ge; [done |]. unfold py_len in Hle. lia.
- rewrite calc_padding_none, Hroom. simpl. by rewrite app_nil_r.
Qed.

Lemma format_str_plain v s :
  spec_error s = None -> needs_room s = false -> format_str v s = Ok v.
Proof.
intros [[-> ?]|(sp & Hp & ->)]%(format_str_pad v); [done |].
unfold needs_room. rewrite Hp. intros Hn. apply pad_plain; by repeat case_match.
Qed.

Lemma format_str_room v s :
  spec_error s = None -> (forall n, can_allocate n = true) ->
  is_ok (format_str v s) = true.
Proof.
intros [[-> ->]|(sp & Hp & ->)]%(format_str_pad v) Hroom; [done | by apply pad_room].
Qed.

(** *** No overflow *)

(** The accumulator of [get_integer] stays within [Py_ssize_t]: the test
    before each digit refuses the digit that would take it over
    [PY_SSIZE_T_MAX]. *)
Lemma spec_integer_bound acc n s w k r :
  (0 <= acc <= PY_SSIZE_T_MAX)%Z -> spec_integer acc n s = Ok (w, k, r) ->
  (acc <= w <= PY_SSIZE_T_MAX)%Z /\ n <= k /\ length r <= length s.
Proof.
revert acc n. induction s as [|c s IH]; intros acc n Hacc; simpl.
- intros [= <- <- <-]. simpl. lia.
- destruct (to_decimal c) as [d|] eqn:Hd; [|intros [= <- <- <-]; simpl; lia].
  apply to_decimal_range in Hd. destruct (Z.gtb_spec acc ((PY_SSIZE_T_MAX - d) / 10)); [done |].
  assert (10 * ((PY_SSIZE_T_MAX - d) / 10) <= PY_SSIZE_T_MAX - d)%Z
    by (apply Z.mul_div_le; lia).
  intros Hr. apply IH in Hr; lia.
Qed.

(** The width and the precision of a parsed specification fit in
    [Py_ssize_t]. *)
Lemma parse_precision_bound s p r :
  parse_precision s = Ok (Some p, r) -> (0 <= p <= PY_SSIZE_T_MAX)%Z.
Proof.
unfold parse_precision. destruct (eat DOT s) as [[] r0]; [|done].
destruct (spec_integer 0 0 r0) as [[[p' k] r']|e] eqn:Hi; [|done].
apply spec_integer_bound in Hi; [|unfold PY_SSIZE_T_MAX; lia].
destruct k; [done |]. intros [= <- _]. lia.
Qed.

Lemma parse_spec_bound s sp :
  parse_spec s = Ok sp ->
  (forall w, width sp = Some w -> (0 <= w <= PY_SSIZE_T_MAX)%Z) /\
  (forall p, precision sp = Some p -> (0 <= p <= PY_SSIZE_T_MAX)%Z).
Proof.
unfold parse_spec. destruct (parse_align s) as [[[fill algn] given] s1].
destruct (parse_sign s1) as [sgn s2]. destruct (eat LETTER_z s2) as [z s3].
destruct (eat HASH s3) as [alt s4].
destruct (if given then _ else _) as [zero s5].
destruct (spec_integer 0 0 s5) as [[[w k] s6]|e] eqn:Hw; [|done].
apply spec_integer_bound in Hw; [|unfold PY_SSIZE_T_MAX; lia].
destruct (parse_separators s6) as [[sep s7]|e]; [|done].
destruct (parse_precision s7) as [[prec s8]|e] eqn:Hp; [|done].
intros Hsp.
assert (Hsp' : width sp = match k with O => None | S _ => Some w end /\ precision sp = prec).
{ destruct s8 as [|c [|c' s8]]; [| |done]; destruct sep as [c0|];
    repeat case_match; simplify_eq/=; done. }
destruct Hsp' as [-> ->]. split.
- intros w'. destruct k; [done |]. intros [= <-]. lia.
- intros p ->. by apply parse_precision_bound in Hp.
Qed.
End SpecLemmas.
