(* ===== verification/Format.v ===== *)
(** [template.format] called with keyword arguments of type [str], as
    [Summarizer.summarize] calls it on the prompt template.

    The definitions follow CPython's [Objects/stringlib/unicode_format.h]:
    [markup_next] is [MarkupIterator_next], [parse_field] is [parse_field],
    [get_integer], [field_name_split] and [get_field_object] keep their
    names, [build_loop] is the loop of [do_markup], [render_with] is
    [output_markup] with [do_conversion] and [render_field], and
    [build_string] is [build_string] at the recursion depth 2 of a call of
    [format].  The call passes no positional argument, so every field
    whose name is empty or an integer raises [IndexError].  The object of
    a field is converted ([!s], [!r], [!a]) and formatted by its format
    specification ([format_str] of [FormatSpec]), in which fields are
    expanded one level deep.  The accessors of a field name are followed
    ([accessor_next] is [FieldNameIterator_next], [follow] the loop of
    [get_field_object]): an index gives the character at that place, and
    a field that goes through an attribute of a [str] is rendered by
    [format_attribute] of the interface [FieldRuntime]. *)

From Stdlib Require Import ZArith NArith String List Lia.
From stdpp Require Import base tactics option list numbers gmap.
From S2P Require Import Prelude PyStr FormatSpec.


(** ** Characters of the syntax *)

Definition LBRACE : N := 123.
Definition RBRACE : N := 125.
Definition LBRACKET : N := 91.
Definition RBRACKET : N := 93.
Definition COLON : N := 58.
Definition BANG : N := 33.

(** ** Replacement fields *)

(** A replacement field as [parse_field] splits it: the field name, the
    conversion character after [!], the format specification after [:], and
    whether the specification holds a brace. *)
Record field : Type := MkField {
  field_name : pystr;
  conversion : option N;
  format_spec : pystr;
  spec_needs_expanding : bool;
}.

(** What one call of the markup iterator yields: the end of the template, a
    syntax error, or a run of literal text, the field that follows it if
    any, and the text left to scan. *)
Variant markup : Type :=
| MEnd
| MErr (e : exn)
| MItem (literal : pystr) (fld : option field) (rest : pystr).

(** What the scan of a field name yields: the name, the character that ended
    it and the text after that character. *)
Variant name_scan : Type :=
| NameEnd (name : pystr) (c : N) (rest : pystr)
| NameBrace
| NameOpen.

Definition name_scan_cons (c : N) (r : name_scan) : name_scan :=
  match r with
  | NameEnd name t rest => NameEnd (c :: name) t rest
  | other => other
  end.

Definition is_brace (c : N) : bool := ((c =? LBRACE) || (c =? RBRACE))%N.

(** The literal text up to the first brace, and the brace with the text
    after it. *)
Fixpoint scan_text (s : pystr) : pystr * option (N * pystr) :=
  match s with
  | [] => ([], None)
  | c :: r =>
      if is_brace c then ([], Some (c, r))
      else let '(text, after) := scan_text r in (c :: text, after)
  end.

(** The field name: up to the first [}], [:] or [!] outside brackets.  A
    [{] outside brackets is an error; inside [[...]] every character
    belongs to the name. *)
Fixpoint scan_field_name (in_bracket : bool) (s : pystr) : name_scan :=
  match s with
  | [] => NameOpen
  | c :: r =>
      if in_bracket then
        name_scan_cons c (scan_field_name (negb (c =? RBRACKET)%N) r)
      else if (c =? LBRACE)%N then NameBrace
      else if (c =? LBRACKET)%N then name_scan_cons c (scan_field_name true r)
      else if ((c =? RBRACE) || (c =? COLON) || (c =? BANG))%N then NameEnd [] c r
      else name_scan_cons c (scan_field_name false r)
  end.

(** The format specification: up to the [}] that closes the field, counting
    nested braces from [count].  [None]: the template ended first. *)
Fixpoint scan_format_spec (count : nat) (s : pystr) : option (pystr * bool * pystr) :=
  match s with
  | [] => None
  | c :: r =>
      if (c =? LBRACE)%N then
        '(spec, _, rest) ← scan_format_spec (S count) r; Some (c :: spec, true, rest)
      else if (c =? RBRACE)%N then
        match count with
        | 0 | 1 => Some ([], false, r)
        | S n => '(spec, nested, rest) ← scan_format_spec n r; Some (c :: spec, nested, rest)
        end
      else
        '(spec, nested, rest) ← scan_format_spec count r; Some (c :: spec, nested, rest)
  end.

Definition parse_format_spec (name : pystr) (conv : option N) (s : pystr)
    : outcome exn (field * pystr) :=
  match scan_format_spec 1 s with
  | Some (spec, nested, rest) => Ok (MkField name conv spec nested, rest)
  | None => Raise (value_error "unmatched '{' in format spec")
  end.

(** [parse_field] on the text after the opening brace. *)
Definition parse_field (s : pystr) : outcome exn (field * pystr) :=
  match scan_field_name false s with
  | NameBrace => Raise (value_error "unexpected '{' in field name")
  | NameOpen => Raise (value_error "expected '}' before end of string")
  | NameEnd name c rest =>
      if (c =? BANG)%N then
        match rest with
        | [] => Raise (value_error "end of string while looking for conversion specifier")
        | conv :: [] => parse_format_spec name (Some conv) []
        | conv :: c' :: rest' =>
            if (c' =? RBRACE)%N then Ok (MkField name (Some conv) [] false, rest')
            else if (c' =? COLON)%N then parse_format_spec name (Some conv) rest'
            else Raise (value_error "expected ':' after conversion specifier")
        end
      else if (c =? COLON)%N then parse_format_spec name None rest
      else Ok (MkField name None [] false, rest)
  end.

(** [MarkupIterator_next] *)
Definition markup_next (s : pystr) : markup :=
  match s with
  | [] => MEnd
  | _ :: _ =>
      match scan_text s with
      | (text, None) => MItem text None []
      | (text, Some (c, [])) =>
          if (c =? RBRACE)%N
          then MErr (value_error "Single '}' encountered in format string")
          else MErr (value_error "Single '{' encountered in format string")
      | (text, Some (c, (c' :: r') as r)) =>
          if (c =? c')%N then MItem (text ++ [c]) None r'
          else if (c =? RBRACE)%N
          then MErr (value_error "Single '}' encountered in format string")
          else
            match parse_field r with
            | Ok (fld, rest) => MItem text (Some fld) rest
            | Raise e => MErr e
            end
      end
  end.

(** ** Field lookup *)

(** A part of a field name after its first part: [.name], [[i]] with an
    integer [i], or [[key]]. *)
Variant accessor : Type :=
| Attribute (name : pystr)
| Index (i : Z)
| Key (key : pystr).

(** Where the lookup of a field name on a [str] ends: at the [str] it
    reaches through index accessors, or at the first attribute, with the
    [str] reached so far, the name of the attribute and the rest of the
    field name. *)
Variant lookup : Type :=
| Found (obj : pystr)
| AtAttribute (obj name rest : pystr).

Section Lookup.
Context {RT : PyRuntime}.

(** The loop of [get_integer]: [Ok None] stands for the C function's
    [-1] without an exception. *)
Fixpoint get_integer_loop (acc : Z) (s : pystr) : outcome exn (option Z) :=
  match s with
  | [] => Ok (Some acc)
  | c :: r =>
      match to_decimal c with
      | None => Ok None
      | Some d =>
          if (acc >? (PY_SSIZE_T_MAX - d) / 10)%Z
          then Raise (value_error "Too many decimal digits in format string")
          else get_integer_loop (acc * 10 + d) r
      end
  end.

Definition get_integer (s : pystr) : outcome exn (option Z) :=
  match s with
  | [] => Ok None
  | _ :: _ => get_integer_loop 0 s
  end.

(** The part of a field name before the first [.] or [[], and the rest. *)
Fixpoint field_name_split (name : pystr) : pystr * pystr :=
  match name with
  | [] => ([], [])
  | c :: r =>
      if ((c =? LBRACKET) || (c =? DOT))%N then ([], name)
      else let '(first, rest) := field_name_split r in (c :: first, rest)
  end.

Definition index_error (i : Z) : exn :=
  MkExn IndexError
    (lit "Replacement index " ++ str_of_int i
       ++ lit " out of range for positional args tuple").

(** The object a field name starts from, for a call with keyword arguments
    only: a name that is empty (automatic numbering, index 0) or an integer
    indexes the empty tuple of positional arguments. *)
Definition get_field_object (kwargs : gmap pystr pystr) (first : pystr)
    : outcome exn pystr :=
  match get_integer first with
  | Raise e => Raise e
  | Ok (Some i) => Raise (index_error i)
  | Ok None =>
      match first with
      | [] => Raise (index_error 0)
      | _ :: _ =>
          match kwargs !! first with
          | Some v => Ok v
          | None => Raise (MkExn KeyError first)
          end
      end
  end.

(** [_FieldNameIterator_item]: the text up to the first []] and the text
    after it; [None] when there is no []]. *)
Fixpoint item_split (s : pystr) : option (pystr * pystr) :=
  match s with
  | [] => None
  | c :: r =>
      if (c =? RBRACKET)%N then Some ([], r)
      else '(key, rest) ← item_split r; Some (c :: key, rest)
  end.

(** [FieldNameIterator_next] on the rest of a field name: [None] at its
    end, or the next accessor with the text after it, or the
    [ValueError] of the iterator. *)
Definition accessor_next (s : pystr) : option (outcome exn (accessor * pystr)) :=
  match s with
  | [] => None
  | c :: r =>
      Some
        (if (c =? DOT)%N then
           let '(name, rest) := field_name_split r in
           match name with
           | [] => Raise (value_error "Empty attribute in format string")
           | _ :: _ => Ok (Attribute name, rest)
           end
         else if (c =? LBRACKET)%N then
           match item_split r with
           | None => Raise (value_error "Missing ']' in format string")
           | Some (key, rest) =>
               match get_integer key with
               | Raise e => Raise e
               | Ok (Some i) => Ok (Index i, rest)
               | Ok None =>
                   match key with
                   | [] => Raise (value_error "Empty attribute in format string")
                   | _ :: _ => Ok (Key key, rest)
                   end
               end
           end
         else
           Raise (value_error
                    "Only '.' or '[' may follow ']' in format field specifier"))
  end.
End Lookup.

(** [obj[i]] on a [str], for an index that is not negative. *)
Definition str_getitem (obj : pystr) (i : Z) : outcome exn pystr :=
  match obj !! Z.to_nat i with
  | Some c => Ok [c]
  | None => Raise (MkExn IndexError (lit "string index out of range"))
  end.

(** [obj[key]] on a [str], for a key that is a [str]. *)
Definition str_getitem_key (obj key : pystr) : exn :=
  MkExn TypeError (lit "string indices must be integers, not 'str'").

(** [getattr(obj, name)] on a [str] that has no such attribute. *)
Definition no_attribute (name : pystr) : exn :=
  MkExn AttributeError (lit "'str' object has no attribute '" ++ name ++ lit "'").

(** What the model takes from the interpreter for the fields it does not
    render itself, those that go through an attribute of a [str]: which
    names are attributes of a [str], and the text or the exception of a
    field from the keyword arguments, the [str] whose attribute is taken,
    the name of the attribute, the rest of the field name and the field. *)
Class FieldRuntime : Type := {
  is_str_attribute : pystr -> bool;
  format_attribute :
    gmap pystr pystr -> pystr -> pystr -> pystr -> field -> outcome exn pystr;
}.

Section Render.
Context {RT : PyRuntime} {FR : FieldRuntime}.

(** A field that inserts its argument as it is: no accessor, no conversion
    or [!s], an empty format specification. *)
Definition is_plain (rest : pystr) (fld : field) : bool :=
  match rest, conversion fld, format_spec fld with
  | [], None, [] => true
  | [], Some c, [] => (c =? 115)%N
  | _, _, _ => false
  end.

(** [do_conversion]: [!r] is [repr], [!s] is [str], [!a] is [ascii]. *)
Definition do_conversion (conv : option N) (obj : pystr) : outcome exn pystr :=
  match conv with
  | None => Ok obj
  | Some c =>
      if (c =? 114)%N then Ok (py_repr obj)
      else if (c =? 115)%N then Ok obj
      else if (c =? 97)%N then Ok (py_ascii obj)
      else Raise (MkExn ValueError (lit "Unknown conversion specifier " ++ show_char 127 c))
  end.

(** The loop of [do_markup]: literal text and rendered fields are appended
    in order; the first error ends it.  Every round consumes at least one
    character, so [fuel] above the template's length is never used up. *)
Fixpoint build_loop (render : field -> outcome exn pystr) (fuel : nat) (s : pystr)
    : outcome exn pystr :=
  match fuel with
  | O => Ok []
  | S fuel' =>
      match markup_next s with
      | MEnd => Ok []
      | MErr e => Raise e
      | MItem text None rest =>
          outcome_map (app text) (build_loop render fuel' rest)
      | MItem text (Some fld) rest =>
          match render fld with
          | Raise e => Raise e
          | Ok v => outcome_map (app (text ++ v)) (build_loop render fuel' rest)
          end
      end
  end.

(** The loop of [get_field_object] on a [str]: the accessors of the rest
    of the field name are applied in order, an index to the [str] reached
    so far, up to the first attribute that the [str] has.  Every round
    consumes a character of the name, so [fuel] above its length is never
    used up. *)
Fixpoint follow (fuel : nat) (obj rest : pystr) : outcome exn lookup :=
  match fuel with
  | O => Ok (Found obj)
  | S fuel' =>
      match accessor_next rest with
      | None => Ok (Found obj)
      | Some (Raise e) => Raise e
      | Some (Ok (Index i, rest')) =>
          match str_getitem obj i with
          | Raise e => Raise e
          | Ok c => follow fuel' c rest'
          end
      | Some (Ok (Key key, _)) => Raise (str_getitem_key obj key)
      | Some (Ok (Attribute name, rest')) =>
          if is_str_attribute name then Ok (AtAttribute obj name rest')
          else Raise (no_attribute name)
      end
  end.

(** The rest of [output_markup] on the [str] found: convert it, expand
    the fields of the format specification with [expand], and format. *)
Definition format_object (expand : pystr -> outcome exn pystr) (fld : field)
    (obj : pystr) : outcome exn pystr :=
  match do_conversion (conversion fld) obj with
  | Raise e => Raise e
  | Ok v =>
      match (if spec_needs_expanding fld then expand (format_spec fld)
             else Ok (format_spec fld)) with
      | Raise e => Raise e
      | Ok s => format_str v s
      end
  end.

(** [output_markup]: look the object up, follow the accessors, convert,
    expand the format specification and format. *)
Definition render_with (expand : pystr -> outcome exn pystr)
    (kwargs : gmap pystr pystr) (fld : field) : outcome exn pystr :=
  let '(first, rest) := field_name_split (field_name fld) in
  match get_field_object kwargs first with
  | Raise e => Raise e
  | Ok obj =>
      match follow (S (length rest)) obj rest with
      | Raise e => Raise e
      | Ok (Found o) => format_object expand fld o
      | Ok (AtAttribute o name rest') => format_attribute kwargs o name rest' fld
      end
  end.

(** A field inside a format specification, at recursion depth 1: its own
    specification cannot hold fields. *)
Definition render_nested (kwargs : gmap pystr pystr) : field -> outcome exn pystr :=
  render_with (fun _ => Raise (value_error "Max string recursion exceeded")) kwargs.

(** The format specification with its fields rendered. *)
Definition expand_spec (kwargs : gmap pystr pystr) (s : pystr) : outcome exn pystr :=
  build_loop (render_nested kwargs) (S (length s)) s.

(** A field of the template, at recursion depth 2. *)
Definition render_field (kwargs : gmap pystr pystr) : field -> outcome exn pystr :=
  render_with (expand_spec kwargs) kwargs.

Definition build_string (fuel : nat) (kwargs : gmap pystr pystr) (s : pystr)
    : outcome exn pystr :=
  build_loop (render_field kwargs) fuel s.

(** [template.format] with keyword arguments *)
Definition py_format (template : pystr) (kwargs : gmap pystr pystr)
    : outcome exn pystr :=
  build_string (S (length template)) kwargs template.
End Render.

(** The attributes of a [str] in CPython 3.11: the names of [dir("")]. *)
Definition STR_ATTRIBUTES : list string :=
  ["__add__"; "__class__"; "__contains__"; "__delattr__"; "__dir__"; "__doc__"; "__eq__";
   "__format__"; "__ge__"; "__getattribute__"; "__getitem__"; "__getnewargs__";
   "__getstate__"; "__gt__"; "__hash__"; "__init__"; "__init_subclass__"; "__iter__";
   "__le__"; "__len__"; "__lt__"; "__mod__"; "__mul__"; "__ne__"; "__new__";
   "__reduce__"; "__reduce_ex__"; "__repr__"; "__rmod__"; "__rmul__"; "__setattr__";
   "__sizeof__"; "__str__"; "__subclasshook__"; "capitalize"; "casefold"; "center";
   "count"; "encode"; "endswith"; "expandtabs"; "find"; "format"; "format_map"; "index";
   "isalnum"; "isalpha"; "isascii"; "isdecimal"; "isdigit"; "isidentifier"; "islower";
   "isnumeric"; "isprintable"; "isspace"; "istitle"; "isupper"; "join"; "ljust"; "lower";
   "lstrip"; "maketrans"; "partition"; "removeprefix"; "removesuffix"; "replace";
   "rfind"; "rindex"; "rjust"; "rpartition"; "rsplit"; "rstrip"; "split"; "splitlines";
   "startswith"; "strip"; "swapcase"; "title"; "translate"; "upper"; "zfill"]%string.

(** The least instance: a [str] has the attributes of CPython 3.11, and a
    field that goes through one of them is refused.  It serves to run the
    model on templates that have none. *)
Definition no_special : FieldRuntime := {|
  is_str_attribute name := bool_decide (name ∈ map lit STR_ATTRIBUTES);
  format_attribute _ _ _ _ _ :=
    Raise (MkExn (ExternalError (lit "NotImplementedError")) (lit "field not modelled"));
|}.

(** ** The template a format string denotes *)

(** A template as a sequence of literal text and named fields, the format
    string that denotes it (braces of the text doubled), and its
    instantiation: the texts and the arguments concatenated, [KeyError] at
    the first name without an argument. *)
Variant part : Type :=
| PText (t : pystr)
| PField (key : pystr).

Definition escape (t : pystr) : pystr :=
  flat_map (fun c => if is_brace c then [c; c] else [c]) t.

Fixpoint unparse (ps : list part) : pystr :=
  match ps with
  | [] => []
  | PText t :: ps' => escape t ++ unparse ps'
  | PField k :: ps' => LBRACE :: k ++ RBRACE :: unparse ps'
  end.

Fixpoint substitute (kwargs : gmap pystr pystr) (ps : list part) : outcome exn pystr :=
  match ps with
  | [] => Ok []
  | PText t :: ps' => outcome_map (app t) (substitute kwargs ps')
  | PField k :: ps' =>
      match kwargs !! k with
      | Some v => outcome_map (app v) (substitute kwargs ps')
      | None => Raise (MkExn KeyError k)
      end
  end.

(** A character that may stand in a plain field name. *)
Definition key_char (c : N) : bool :=
  negb ((c =? LBRACE) || (c =? RBRACE) || (c =? LBRACKET) || (c =? DOT)
        || (c =? COLON) || (c =? BANG))%N.

(** A name that the scanner reads as one keyword: not empty, no character
    of the field syntax, and not starting with a decimal digit. *)
Definition simple_key {RT : PyRuntime} (k : pystr) : bool :=
  match k with
  | [] => false
  | c :: _ => bool_decide (to_decimal c = None) && forallb key_char k
  end.

Definition part_ok {RT : PyRuntime} (p : part) : bool :=
  match p with
  | PText _ => true
  | PField k => simple_key k
  end.

(** ** The scanners consume what they return *)

Lemma name_scan_cons_end a r name c rest :
  name_scan_cons a r = NameEnd name c rest ->
  exists name', name = a :: name' /\ r = NameEnd name' c rest.
Proof. destruct r; simpl; intros [=]; subst; eauto. Qed.

Lemma scan_text_length s text c r :
  scan_text s = (text, Some (c, r)) -> length s = length text + S (length r).
Proof.
  revert text. induction s as [|a s IH]; intros text; simpl; [done |].
  destruct (is_brace a).
  - intros [= <- <- <-]. simpl. lia.
  - destruct (scan_text s) as [t' o]. intros [= <- ->].
    simpl. rewrite (IH t' eq_refl). lia.
Qed.

Lemma scan_field_name_length b s name c rest :
  scan_field_name b s = NameEnd name c rest ->
  length s = length name + S (length rest).
Proof.
  revert b name. induction s as [|a s IH]; intros b name; simpl; [done |].
  destruct b; [|repeat case_match; try done].
  all: try (intros (n' & -> & Hs)%name_scan_cons_end; simpl;
            by rewrite (IH _ _ Hs)).
  intros [= <- <- <-]. simpl. lia.
Qed.

Lemma scan_format_spec_length n s spec nested rest :
  scan_format_spec n s = Some (spec, nested, rest) ->
  length s = length spec + S (length rest).
Proof.
  revert n spec nested. induction s as [|a s IH]; intros n spec nested; simpl; [done |].
  repeat case_match; subst; simpl;
    try (intros [= <- <- <-]; simpl; lia);
    intros Hs; apply bind_Some in Hs as ([[sp ne] re] & Hs & [= <- <- <-]);
    simpl; by rewrite (IH _ _ _ Hs).
Qed.

Lemma parse_format_spec_shorter name conv s f rest :
  parse_format_spec name conv s = Ok (f, rest) -> length rest < length s.
Proof.
  unfold parse_format_spec.
  destruct (scan_format_spec 1 s) as [[[sp ne] re]|] eqn:Hs; [|done].
  intros [= <- <-]. apply scan_format_spec_length in Hs. lia.
Qed.

Lemma parse_field_shorter s f rest :
  parse_field s = Ok (f, rest) -> length rest < length s.
Proof.
  unfold parse_field.
  destruct (scan_field_name false s) as [name c r| |] eqn:Hs; [|done..].
  apply scan_field_name_length in Hs.
  repeat case_match; subst; try done;
    try (intros [= <- <-]; simpl in *; lia);
    intros Hp%parse_format_spec_shorter; simpl in *; lia.
Qed.

(** Every round of the markup iterator consumes at least one character. *)
Lemma markup_next_shorter s text fld rest :
  markup_next s = MItem text fld rest -> length rest < length s.
Proof.
  unfold markup_next. destruct s as [|a s]; [done |].
  destruct (scan_text (a :: s)) as [t [[c [|c' r']]|]] eqn:Hs.
  - by case_match.
  - apply scan_text_length in Hs.
    repeat case_match; try done; intros [= <- <- <-]; simpl in *; try lia.
    match goal with Hp : parse_field _ = _ |- _ =>
      apply parse_field_shorter in Hp; simpl in *; lia end.
  - intros [= <- <- <-]. simpl. lia.
Qed.

(** ** Equations of the markup iterator *)

Lemma is_brace_eq c : is_brace c = true <-> c = LBRACE \/ c = RBRACE.
Proof.
  unfold is_brace. rewrite orb_true_iff, !N.eqb_eq. tauto.
Qed.

(** A character that is no brace joins the literal text that follows. *)
Lemma markup_next_cons c s :
  is_brace c = false ->
  markup_next (c :: s) =
    match markup_next s with
    | MEnd => MItem [c] None []
    | MErr e => MErr e
    | MItem text fld rest => MItem (c :: text) fld rest
    end.
Proof.
  intros Hc. unfold markup_next. simpl scan_text. rewrite Hc.
  destruct s as [|a s]; [done |].
  destruct (scan_text (a :: s)) as [t [[b [|b' r']]|]]; [| |done].
  - by destruct (b =? RBRACE)%N.
  - destruct (b =? b')%N; [done |]. destruct (b =? RBRACE)%N; [done |].
    by destruct (parse_field (b' :: r')) as [[f r]|e].
Qed.

(** A doubled brace is one brace of literal text. *)
Lemma markup_next_escape c s :
  is_brace c = true -> markup_next (c :: c :: s) = MItem [c] None s.
Proof.
  intros Hc. unfold markup_next. simpl scan_text. rewrite Hc.
  by rewrite N.eqb_refl.
Qed.

Lemma key_char_spec c :
  key_char c = true ->
  c <> LBRACE /\ c <> RBRACE /\ c <> LBRACKET /\ c <> DOT /\ c <> COLON /\ c <> BANG.
Proof.
  unfold key_char. rewrite negb_true_iff, !orb_false_iff, !N.eqb_neq. tauto.
Qed.

Lemma key_char_not_brace c : key_char c = true -> is_brace c = false.
Proof.
  intros (? & ? & _)%key_char_spec. unfold is_brace.
  apply orb_false_iff. by rewrite !N.eqb_neq.
Qed.

(** A run of name characters closed by [}] is a field name. *)
Lemma scan_field_name_key k s :
  forallb key_char k = true ->
  scan_field_name false (k ++ RBRACE :: s) = NameEnd k RBRACE s.
Proof.
  induction k as [|c k IH]; simpl; [done |].
  intros [Hc Hk]%andb_true_iff. rewrite (IH Hk).
  apply key_char_spec in Hc as (? & ? & ? & ? & ? & ?).
  by rewrite !(proj2 (N.eqb_neq c _)).
Qed.

Lemma field_name_split_key k :
  forallb key_char k = true -> field_name_split k = (k, []).
Proof.
  induction k as [|c k IH]; simpl; [done |].
  intros [Hc Hk]%andb_true_iff. rewrite (IH Hk).
  apply key_char_spec in Hc as (? & ? & ? & ? & ? & ?).
  by rewrite !(proj2 (N.eqb_neq c _)).
Qed.

(** A named field between braces is read as a field without conversion or
    format specification. *)
Lemma markup_next_field k s :
  k <> [] -> forallb key_char k = true ->
  markup_next (LBRACE :: k ++ RBRACE :: s) = MItem [] (Some (MkField k None [] false)) s.
Proof.
  intros Hne Hk. destruct k as [|c k]; [done |].
  unfold markup_next. simpl scan_text. change (is_brace LBRACE) with true. cbn iota.
  change ((c :: k) ++ RBRACE :: s) with (c :: (k ++ RBRACE :: s)).
  assert (Hc : key_char c = true) by (simpl in Hk; by apply andb_true_iff in Hk as [? _]).
  apply key_char_spec in Hc as (Hc & _).
  rewrite (proj2 (N.eqb_neq LBRACE c)) by done.
  change (LBRACE =? RBRACE)%N with false. cbn iota.
  change (c :: (k ++ RBRACE :: s)) with ((c :: k) ++ RBRACE :: s).
  unfold parse_field. by rewrite scan_field_name_key.
Qed.

(** A run of name characters followed by [:] is a field name that a
    format specification follows. *)
Lemma scan_field_name_colon k s :
  forallb key_char k = true ->
  scan_field_name false (k ++ COLON :: s) = NameEnd k COLON s.
Proof.
  induction k as [|c k IH]; simpl; [done |].
  intros [Hc Hk]%andb_true_iff. rewrite (IH Hk).
  apply key_char_spec in Hc as (? & ? & ? & ? & ? & ?).
  by rewrite !(proj2 (N.eqb_neq c _)).
Qed.

(** A format specification without braces ends at the first [}]. *)
Lemma scan_format_spec_plain spec s :
  forallb (fun c => negb (is_brace c)) spec = true ->
  scan_format_spec 1 (spec ++ RBRACE :: s) = Some (spec, false, s).
Proof.
  induction spec as [|c spec IH]; simpl; [done |].
  intros [Hc Hs]%andb_true_iff. rewrite (IH Hs).
  apply negb_true_iff, orb_false_iff in Hc as [H1 H2]. by rewrite H1, H2.
Qed.

(** A named field with a format specification without braces. *)
Lemma markup_next_field_spec k spec s :
  k <> [] -> forallb key_char k = true ->
  forallb (fun c => negb (is_brace c)) spec = true ->
  markup_next (LBRACE :: k ++ COLON :: spec ++ RBRACE :: s)
    = MItem [] (Some (MkField k None spec false)) s.
Proof.
  intros Hne Hk Hs. destruct k as [|c k]; [done |].
  unfold markup_next. simpl scan_text. change (is_brace LBRACE) with true. cbn iota.
  change ((c :: k) ++ COLON :: spec ++ RBRACE :: s)
    with (c :: (k ++ COLON :: spec ++ RBRACE :: s)).
  assert (Hc : key_char c = true) by (simpl in Hk; by apply andb_true_iff in Hk as [? _]).
  apply key_char_spec in Hc as (Hc & _).
  rewrite (proj2 (N.eqb_neq LBRACE c)) by done.
  change (LBRACE =? RBRACE)%N with false. cbn iota.
  change (c :: (k ++ COLON :: spec ++ RBRACE :: s))
    with ((c :: k) ++ COLON :: spec ++ RBRACE :: s).
  unfold parse_field. rewrite scan_field_name_colon by done.
  change (COLON =? BANG)%N with false. change (COLON =? COLON)%N with true. cbn iota.
  unfold parse_format_spec. by rewrite scan_format_spec_plain.
Qed.

(** ** Equations of [py_format] *)

Section FormatLemmas.
Context {RT : PyRuntime} {FR : FieldRuntime}.
Implicit Types (kwargs : gmap pystr pystr) (s t k : pystr).

Lemma get_integer_nondigit c r :
  to_decimal c = None -> get_integer (c :: r) = Ok None.
Proof. intros Hc. simpl. by rewrite Hc. Qed.

Lemma simple_key_spec k :
  simple_key k = true ->
  exists c r, k = c :: r /\ to_decimal c = None /\ forallb key_char k = true.
Proof.
  destruct k as [|c r]; [done |]. unfold simple_key.
  intros [Hc Hk]%andb_true_iff. apply bool_decide_eq_true in Hc. eauto.
Qed.

Lemma get_field_object_key kwargs k :
  simple_key k = true ->
  get_field_object kwargs k =
    match kwargs !! k with
    | Some v => Ok v
    | None => Raise (MkExn KeyError k)
    end.
Proof.
  intros (c & r & -> & Hc & _)%simple_key_spec.
  unfold get_field_object. by rewrite (get_integer_nondigit _ _ Hc).
Qed.

(** A plain field renders to the object found for its name. *)
Lemma render_field_is_plain kwargs fld first :
  field_name_split (field_name fld) = (first, []) -> is_plain [] fld = true ->
  render_field kwargs fld = get_field_object kwargs first.
Proof.
intros Hs Hp. unfold render_field, render_with. rewrite Hs.
destruct (get_field_object kwargs first) as [obj|e]; [|done].
cbn [length follow accessor_next]. unfold format_object, is_plain in *. destruct (format_spec fld) as [|c r] eqn:Hf; [|by destruct (conversion fld)].
assert (Hc : do_conversion (conversion fld) obj = Ok obj).
{ destruct (conversion fld) as [c|]; [|done]. apply N.eqb_eq in Hp as ->. done. }
rewrite Hc. by destruct (spec_needs_expanding fld).
Qed.

Lemma render_field_key kwargs k :
  simple_key k = true ->
  render_field kwargs (MkField k None [] false) =
    match kwargs !! k with
    | Some v => Ok v
    | None => Raise (MkExn KeyError k)
    end.
Proof.
intros Hk. pose proof Hk as (c & r & _ & _ & Hf)%simple_key_spec.
rewrite (render_field_is_plain _ _ k) by (by rewrite ?field_name_split_key).
by apply get_field_object_key.
Qed.

(** ** Indices *)

Lemma get_integer_loop_digit (k acc : Z) r :
  (0 <= k <= 9)%Z -> (0 <= acc)%Z -> (10 * acc + k <= PY_SSIZE_T_MAX)%Z ->
  get_integer_loop acc ((48 + Z.to_N k)%N :: r) = get_integer_loop (10 * acc + k) r.
Proof.
intros Hk Hacc Hmax. cbn [get_integer_loop]. rewrite to_decimal_ascii by lia.
replace ((48 <=? 48 + Z.to_N k) && (48 + Z.to_N k <=? 57))%N with true
  by (symmetry; apply andb_true_iff; split; apply N.leb_le; lia).
replace (Z.of_N (48 + Z.to_N k) - 48)%Z with k by lia.
replace (acc >? (PY_SSIZE_T_MAX - k) / 10)%Z with false.
- f_equal. lia.
- symmetry. rewrite Z.gtb_ltb. apply Z.ltb_ge. apply Z.div_le_lower_bound; lia.
Qed.

(** The loop of [get_integer] reads the digits of a decimal number to
    its value, when the value is within [Py_ssize_t]. *)
Lemma get_integer_loop_digits d acc :
  (0 <= acc)%Z -> (uint_value acc d <= PY_SSIZE_T_MAX)%Z ->
  get_integer_loop acc (digits_of_uint d) = Ok (Some (uint_value acc d)).
Proof.
revert acc. induction d as [|d IH|d IH|d IH|d IH|d IH|d IH|d IH|d IH|d IH|d IH];
  intros acc Hacc Hmax; [done | ..]; cbn [uint_value] in *;
  match goal with
  | |- context [uint_value ?a d] =>
      pose proof (uint_value_ge d a ltac:(lia)); rewrite <- (IH a) by lia;
      match a with
      | (10 * acc)%Z =>
          replace a with (10 * acc + 0)%Z by lia;
          apply (get_integer_loop_digit 0 acc (digits_of_uint d)); lia
      | (10 * acc + ?k)%Z => apply (get_integer_loop_digit k acc (digits_of_uint d)); lia
      end
  end.
Qed.

(** Reading inverts printing: the index printed by [str] is read back. *)
Lemma get_integer_str_of_int i :
  (0 <= i <= PY_SSIZE_T_MAX)%Z -> get_integer (str_of_int i) = Ok (Some i).
Proof.
intros [Hi Hmax]. destruct (str_of_int_digits i Hi) as (d & -> & Hv & Hd).
unfold get_integer. destruct (digits_of_uint d) eqn:Hs; [by destruct d |].
rewrite <- Hs, get_integer_loop_digits by lia. by rewrite Hv.
Qed.

Lemma is_digit_key_char c : is_digit c = true -> key_char c = true /\ c <> RBRACKET.
Proof.
unfold is_digit, key_char, LBRACE, RBRACE, LBRACKET, RBRACKET, DOT, COLON, BANG.
intros [?%N.leb_le ?%N.leb_le]%andb_true_iff.
rewrite negb_true_iff, !orb_false_iff, !N.eqb_neq. lia.
Qed.

(** Name characters before the end of a field name belong to the name. *)
Lemma scan_field_name_prefix k s name c rest :
  forallb key_char k = true -> scan_field_name false s = NameEnd name c rest ->
  scan_field_name false (k ++ s) = NameEnd (k ++ name) c rest.
Proof.
intros Hk Hs. induction k as [|a k IH]; simpl; [done |].
apply andb_true_iff in Hk as [Ha Hk]. rewrite (IH Hk).
apply key_char_spec in Ha as (? & ? & ? & ? & ? & ?).
by rewrite !(proj2 (N.eqb_neq a _)).
Qed.

(** Inside brackets the digits of an index belong to the name, up to the
    closing bracket. *)
Lemma scan_field_name_index ds s name c rest :
  forallb is_digit ds = true -> scan_field_name false s = NameEnd name c rest ->
  scan_field_name true (ds ++ RBRACKET :: s) = NameEnd (ds ++ RBRACKET :: name) c rest.
Proof.
intros Hd Hs. induction ds as [|a ds IH]; simpl; [by rewrite Hs |].
apply andb_true_iff in Hd as [Ha Hd]. apply is_digit_key_char in Ha as [_ Ha].
rewrite (proj2 (N.eqb_neq a _) Ha). simpl. by rewrite (IH Hd).
Qed.

Lemma field_name_split_bracket k r :
  forallb key_char k = true -> field_name_split (k ++ LBRACKET :: r) = (k, LBRACKET :: r).
Proof.
induction k as [|c k IH]; simpl; [done |].
intros [Hc Hk]%andb_true_iff. rewrite (IH Hk).
apply key_char_spec in Hc as (? & ? & ? & ? & ? & ?).
by rewrite !(proj2 (N.eqb_neq c _)).
Qed.

Lemma item_split_digits ds rest :
  forallb is_digit ds = true -> item_split (ds ++ RBRACKET :: rest) = Some (ds, rest).
Proof.
induction ds as [|a ds IH]; simpl; [done |].
intros [[_ Ha]%is_digit_key_char Hd]%andb_true_iff.
by rewrite (proj2 (N.eqb_neq a _) Ha), (IH Hd).
Qed.

Lemma str_of_int_is_digits i : (0 <= i)%Z -> forallb is_digit (str_of_int i) = true.
Proof. intros (d & -> & _)%str_of_int_digits. apply digits_of_uint_digits. Qed.

(** The accessor [[i]] with the index printed by [str]. *)
Lemma accessor_next_index i rest :
  (0 <= i <= PY_SSIZE_T_MAX)%Z ->
  accessor_next (LBRACKET :: str_of_int i ++ RBRACKET :: rest) = Some (Ok (Index i, rest)).
Proof.
intros Hi. unfold accessor_next. change (LBRACKET =? DOT)%N with false.
change (LBRACKET =? LBRACKET)%N with true. cbn iota.
rewrite item_split_digits by (apply str_of_int_is_digits; lia).
by rewrite get_integer_str_of_int.
Qed.

(** A field [{k[i]}] is read as a field whose name is the key and the
    index. *)
Lemma markup_next_index k ds s :
  k <> [] -> forallb key_char k = true -> forallb is_digit ds = true ->
  markup_next (LBRACE :: k ++ LBRACKET :: ds ++ RBRACKET :: RBRACE :: s)
  = MItem [] (Some (MkField (k ++ LBRACKET :: ds ++ [RBRACKET]) None [] false)) s.
Proof.
intros Hne Hk Hd. destruct k as [|c k]; [done |].
unfold markup_next. simpl scan_text. change (is_brace LBRACE) with true. cbn iota.
change ((c :: k) ++ ?r) with (c :: (k ++ r)).
assert (Hc : key_char c = true) by (simpl in Hk; by apply andb_true_iff in Hk as [? _]).
apply key_char_spec in Hc as (Hc & _).
rewrite (proj2 (N.eqb_neq LBRACE c)) by done.
change (LBRACE =? RBRACE)%N with false. cbn iota.
change (c :: (k ++ ?r)) with ((c :: k) ++ r).
unfold parse_field.
rewrite (scan_field_name_prefix (c :: k) _ (LBRACKET :: ds ++ [RBRACKET]) RBRACE s Hk); [done |].
cbn [scan_field_name]. change (LBRACKET =? LBRACE)%N with false.
change (LBRACKET =? LBRACKET)%N with true. cbn iota.
by rewrite (scan_field_name_index ds _ [] RBRACE s Hd).
Qed.

Lemma field_name_split_length name :
  length (field_name_split name).2 <= length name.
Proof.
induction name as [|c r IH]; simpl; [done |].
destruct ((c =? LBRACKET) || (c =? DOT))%N; simpl; [done |].
destruct (field_name_split r). simpl in *. lia.
Qed.

Lemma item_split_length s key rest :
  item_split s = Some (key, rest) -> length rest < length s.
Proof.
revert key. induction s as [|c r IH]; intros key Hs; simpl in *; [done |].
destruct (c =? RBRACKET)%N; [simplify_eq; lia |].
destruct (item_split r) as [[key' rest']|]; simplify_eq/=.
specialize (IH _ eq_refl). lia.
Qed.

(** An accessor consumes at least one character of the field name. *)
Lemma accessor_next_shorter s a rest :
  accessor_next s = Some (Ok (a, rest)) -> length rest < length s.
Proof.
destruct s as [|c r]; [done |]. unfold accessor_next. intros [= Ha].
destruct (c =? DOT)%N.
- pose proof (field_name_split_length r) as Hl.
  destruct (field_name_split r) as [[|] rest']; simplify_eq/=. lia.
- destruct (c =? LBRACKET)%N; [| done].
  destruct (item_split r) as [[key rest']|] eqn:Hi; [| done].
  apply item_split_length in Hi.
  destruct (get_integer key) as [[i|]|]; [| destruct key |]; simplify_eq/=; lia.
Qed.

(** Fuel above the length of the rest of the field name is never used
    up: the object found does not depend on it. *)
Lemma follow_fuel f1 f2 obj rest :
  length rest < f1 -> length rest < f2 -> follow f1 obj rest = follow f2 obj rest.
Proof.
revert f2 obj rest. induction f1 as [|f1 IH]; intros [|f2] obj rest Hf1 Hf2; [lia.. |].
cbn [follow]. destruct (accessor_next rest) as [[[[name|i|key] rest']|e]|] eqn:Ha; try done.
apply accessor_next_shorter in Ha.
destruct (str_getitem obj i); [| done]. apply IH; lia.
Qed.

(** With fuel left, the object found at the end of the name is a [str]
    reached by indices, or the first attribute of a [str]: the fuel
    never stops the loop before the end of the name. *)
Lemma follow_found fuel obj rest o :
  length rest < fuel -> follow fuel obj rest = Ok (Found o) ->
  length o <= 1 \/ (rest = [] /\ o = obj).
Proof.
revert obj rest. induction fuel as [|fuel IH]; intros obj rest Hf; [lia |].
cbn [follow]. destruct (accessor_next rest) as [[[[name|i|key] rest']|e]|] eqn:Ha; try done.
- by destruct (is_str_attribute name).
- apply accessor_next_shorter in Ha. unfold str_getitem.
  destruct (obj !! Z.to_nat i) as [c|]; [| done].
  intros [H | [_ ->]]%IH; [by left | left; simpl; lia | lia].
- intros [= <-]. right. split; [| done]. by destruct rest.
Qed.

Lemma build_loop_S render fuel s :
  build_loop render (S fuel) s =
    match markup_next s with
    | MEnd => Ok []
    | MErr e => Raise e
    | MItem text None rest => outcome_map (app text) (build_loop render fuel rest)
    | MItem text (Some fld) rest =>
        match render fld with
        | Raise e => Raise e
        | Ok v => outcome_map (app (text ++ v)) (build_loop render fuel rest)
        end
    end.
Proof. reflexivity. Qed.

(** Fuel above the length of the text is never used up: the result does
    not depend on it. *)
Lemma build_loop_fuel render f1 f2 s :
  length s < f1 -> length s < f2 -> build_loop render f1 s = build_loop render f2 s.
Proof.
revert f2 s. induction f1 as [|f1 IH]; intros [|f2] s Hf1 Hf2; [lia.. |].
rewrite !build_loop_S. destruct (markup_next s) as [|e|text fld rest] eqn:Hm; [done.. |].
apply markup_next_shorter in Hm. by rewrite (IH f2 rest) by lia.
Qed.

Lemma build_string_nil fuel kwargs : build_string fuel kwargs [] = Ok [].
Proof. by destruct fuel. Qed.

Lemma build_string_S fuel kwargs s :
  build_string (S fuel) kwargs s =
    match markup_next s with
    | MEnd => Ok []
    | MErr e => Raise e
    | MItem text None rest =>
        outcome_map (app text) (build_string fuel kwargs rest)
    | MItem text (Some fld) rest =>
        match render_field kwargs fld with
        | Raise e => Raise e
        | Ok v => outcome_map (app (text ++ v)) (build_string fuel kwargs rest)
        end
    end.
Proof. reflexivity. Qed.

Lemma build_string_fuel f1 f2 kwargs s :
  length s < f1 -> length s < f2 ->
  build_string f1 kwargs s = build_string f2 kwargs s.
Proof. apply build_loop_fuel. Qed.

Lemma py_format_fuel fuel kwargs s :
  length s < fuel -> build_string fuel kwargs s = py_format s kwargs.
Proof. intros Hf. unfold py_format. apply build_string_fuel; lia. Qed.

Lemma py_format_nil kwargs : py_format [] kwargs = Ok [].
Proof. reflexivity. Qed.

Lemma py_format_cons c s kwargs :
  is_brace c = false ->
  py_format (c :: s) kwargs = outcome_map (cons c) (py_format s kwargs).
Proof.
  intros Hc. unfold py_format. rewrite !build_string_S.
  rewrite (markup_next_cons _ _ Hc).
  destruct (markup_next s) as [|e|text fld rest] eqn:Hm; [| done |].
  - by rewrite build_string_nil.
  - pose proof (markup_next_shorter _ _ _ _ Hm) as Hlen.
    rewrite (build_string_fuel (length (c :: s)) (length s) kwargs rest)
      by (simpl; lia).
    destruct fld as [fld|]; [destruct (render_field kwargs fld); [|done] |];
      by rewrite outcome_map_map.
Qed.

Lemma py_format_escape c s kwargs :
  is_brace c = true ->
  py_format (c :: c :: s) kwargs = outcome_map (cons c) (py_format s kwargs).
Proof.
  intros Hc. unfold py_format at 1. rewrite build_string_S.
  rewrite (markup_next_escape _ _ Hc). by rewrite py_format_fuel by (simpl; lia).
Qed.

Lemma py_format_field k s kwargs :
  simple_key k = true ->
  py_format (LBRACE :: k ++ RBRACE :: s) kwargs =
    match kwargs !! k with
    | Some v => outcome_map (app v) (py_format s kwargs)
    | None => Raise (MkExn KeyError k)
    end.
Proof.
  intros Hk. pose proof Hk as (c & r & Hcr & _ & Hf)%simple_key_spec.
  unfold py_format at 1. rewrite build_string_S.
  rewrite markup_next_field by (done || by rewrite Hcr).
  rewrite (render_field_key _ _ Hk). destruct (kwargs !! k); [|done].
  rewrite py_format_fuel; [done |]. simpl. rewrite length_app. simpl. lia.
Qed.

(** A field [{k[i]}] renders to the character of its argument at the
    index, and raises [IndexError] when the argument is too short. *)
Lemma render_field_index kwargs k i :
  simple_key k = true -> (0 <= i <= PY_SSIZE_T_MAX)%Z ->
  render_field kwargs (MkField (k ++ LBRACKET :: str_of_int i ++ [RBRACKET]) None [] false) =
    match kwargs !! k with
    | Some v => str_getitem v i
    | None => Raise (MkExn KeyError k)
    end.
Proof.
intros Hk Hi. pose proof Hk as (c & r & _ & _ & Hf)%simple_key_spec.
unfold render_field, render_with. cbn [field_name].
rewrite field_name_split_bracket, get_field_object_key by done.
destruct (kwargs !! k) as [v|]; [| done].
cbn [follow length]. rewrite accessor_next_index by done.
destruct (str_getitem v i) as [ch|e]; [| done].
cbn [follow accessor_next]. unfold format_object. simpl. apply format_str_empty.
Qed.

Lemma py_format_index k i s kwargs :
  simple_key k = true -> (0 <= i <= PY_SSIZE_T_MAX)%Z ->
  py_format (LBRACE :: k ++ LBRACKET :: str_of_int i ++ RBRACKET :: RBRACE :: s) kwargs =
    match kwargs !! k with
    | Some v =>
        match str_getitem v i with
        | Ok ch => outcome_map (app ch) (py_format s kwargs)
        | Raise e => Raise e
        end
    | None => Raise (MkExn KeyError k)
    end.
Proof.
intros Hk Hi. pose proof Hk as (c & r & Hcr & _ & Hf)%simple_key_spec.
unfold py_format at 1. rewrite build_string_S.
rewrite markup_next_index by (done || by rewrite Hcr || (apply str_of_int_is_digits; lia)).
rewrite (render_field_index _ _ _ Hk Hi). destruct (kwargs !! k) as [v|]; [| done].
destruct (str_getitem v i) as [ch|e]; [| done].
rewrite py_format_fuel; [done |]. simpl. rewrite !length_app. simpl. rewrite length_app. simpl. lia.
Qed.

(** A field with a format specification without fields renders to its
    argument, formatted. *)
Lemma render_field_spec kwargs k spec :
  simple_key k = true ->
  render_field kwargs (MkField k None spec false) =
    match kwargs !! k with
    | Some v => format_str v spec
    | None => Raise (MkExn KeyError k)
    end.
Proof.
  intros Hk. pose proof Hk as (c & r & _ & _ & Hf)%simple_key_spec.
  unfold render_field, render_with. simpl field_name.
  rewrite (field_name_split_key _ Hf), (get_field_object_key _ _ Hk).
  by destruct (kwargs !! k).
Qed.

Lemma py_format_field_spec k spec s kwargs :
  simple_key k = true -> forallb (fun c => negb (is_brace c)) spec = true ->
  py_format (LBRACE :: k ++ COLON :: spec ++ RBRACE :: s) kwargs =
    match kwargs !! k with
    | Some v =>
        match format_str v spec with
        | Ok w => outcome_map (app w) (py_format s kwargs)
        | Raise e => Raise e
        end
    | None => Raise (MkExn KeyError k)
    end.
Proof.
  intros Hk Hs. pose proof Hk as (c & r & Hcr & _ & Hf)%simple_key_spec.
  unfold py_format at 1. rewrite build_string_S.
  rewrite markup_next_field_spec by (done || by rewrite Hcr).
  rewrite (render_field_spec _ _ _ Hk). destruct (kwargs !! k) as [v|]; [|done].
  destruct (format_str v spec) as [w|e]; [|done].
  rewrite py_format_fuel; [done |]. simpl. rewrite !length_app. simpl.
  rewrite length_app. simpl. lia.
Qed.

(** Literal text with its braces doubled renders as the text. *)
Lemma py_format_escape_text t s kwargs :
  py_format (escape t ++ s) kwargs = outcome_map (app t) (py_format s kwargs).
Proof.
  induction t as [|c t IH]; simpl.
  - by destruct (py_format s kwargs).
  - destruct (is_brace c) eqn:Hc; simpl.
    + rewrite (py_format_escape _ _ _ Hc), IH. by rewrite outcome_map_map.
    + rewrite (py_format_cons _ _ _ Hc), IH. by rewrite outcome_map_map.
Qed.

(** [format] implements substitution: on the format string of a template
    whose field names are simple keys it yields the instantiation of the
    template, [KeyError] included.  The arguments are inserted as they
    are, whatever characters they hold. *)
Theorem py_format_unparse ps kwargs :
  forallb part_ok ps = true ->
  py_format (unparse ps) kwargs = substitute kwargs ps.
Proof.
  induction ps as [|[t|k] ps IH]; simpl; [done | |].
  - intros Hps. by rewrite py_format_escape_text, IH.
  - intros [Hk Hps]%andb_true_iff. rewrite (py_format_field _ _ _ Hk).
    destruct (kwargs !! k); [by rewrite IH | done].
Qed.

(** The format string of a template, followed by more: the instantiation
    of the template, then what the rest renders to. *)
Lemma py_format_unparse_app ps s kwargs :
  forallb part_ok ps = true ->
  py_format (unparse ps ++ s) kwargs =
    match substitute kwargs ps with
    | Ok u => outcome_map (app u) (py_format s kwargs)
    | Raise e => Raise e
    end.
Proof.
  induction ps as [|[t|k] ps IH]; simpl.
  - intros _. by destruct (py_format s kwargs).
  - intros Hps. rewrite <- app_assoc, py_format_escape_text, (IH Hps).
    destruct (substitute kwargs ps); simpl; [|done].
    rewrite outcome_map_map. apply outcome_map_ext. intros w. by rewrite app_assoc.
  - intros [Hk Hps]%andb_true_iff. rewrite <- app_assoc.
    change (LBRACE :: k ++ (RBRACE :: unparse ps) ++ s)
      with (LBRACE :: k ++ RBRACE :: unparse ps ++ s).
    rewrite (py_format_field _ _ _ Hk). destruct (kwargs !! k) as [v|]; [|done].
    rewrite (IH Hps). destruct (substitute kwargs ps); simpl; [|done].
    rewrite outcome_map_map. apply outcome_map_ext. intros w. by rewrite app_assoc.
Qed.

(** Text without braces is its own format string. *)
Lemma escape_plain t : forallb (fun c => negb (is_brace c)) t = true -> escape t = t.
Proof.
  induction t as [|c t IH]; simpl; [done |].
  intros [Hc Ht]%andb_true_iff. apply negb_true_iff in Hc. by rewrite Hc, IH.
Qed.

Lemma py_format_plain t kwargs :
  forallb (fun c => negb (is_brace c)) t = true -> py_format t kwargs = Ok t.
Proof.
  intros Ht. rewrite <- (escape_plain t Ht) at 1. rewrite <- (app_nil_r (escape t)).
  rewrite py_format_escape_text, py_format_nil. simpl. by rewrite app_nil_r.
Qed.
End FormatLemmas.
