(* ===== verification/Config.v ===== *)
(** The data of [rss_reader.summarizer]: the article it reads, the SDK
    client it caches, the [Summarizer] object with one field per attribute,
    its constructor [__init__] over a configuration [dict], and the
    built-in prompt template [_default_prompt]. *)

From Stdlib Require Import ZArith NArith String List Lia.
From stdpp Require Import base tactics option list numbers gmap strings.
From S2P Require Import Prelude PyStr Format.


(** ** Data *)

(** [fetcher.Article], of which the module reads [title] and [content]. *)
Record Article : Type := MkArticle {
  title : pystr;
  content : pystr;
}.

#[export] Instance Article_eq_dec : EqDecision Article.
Proof. solve_decision. Defined.

(** The object cached in [self._client]: the SDK client with the arguments
    it was constructed from, [anthropic.Anthropic(api_key=...)] or
    [openai.OpenAI(api_key=..., base_url=...)]. *)
Inductive Client : Type :=
| AnthropicClient (key : value)
| OpenAIClient (key : value) (base_url : value).

#[export] Instance Client_eq_dec : EqDecision Client.
Proof. solve_decision. Defined.

(** The attributes of a [Summarizer] instance. *)
Record Summarizer : Type := MkSummarizer {
  provider : value;
  model : value;
  api_key : value;
  openai_api_key : value;
  openai_api_base : value;
  openai_model : value;
  prompt_template : value;
  _client : option Client;
}.

(** [self._client = c] *)
Definition set_client (c : option Client) (s : Summarizer) : Summarizer :=
  MkSummarizer (provider s) (model s) (api_key s) (openai_api_key s)
    (openai_api_base s) (openai_model s) (prompt_template s) c.

(** ** Construction *)

(** [config.get(key, default)]; [config.get(key)] is [dict_get config key VNone]. *)
Definition dict_get (config : gmap string value) (key : string) (dflt : value) : value :=
  default dflt (config !! key).

(** [Summarizer._default_prompt] *)
Definition _default_prompt : pystr :=
  lit "请用中文为以下文章生成简洁摘要（3-5句话）：
标题：{title}
内容：{content}

要求：突出核心观点，帮助读者快速判断是否值得阅读原文。".

(** [Summarizer.__init__] *)
Definition __init__ (config : gmap string value) : Summarizer := {|
  provider := dict_get config "provider" (VStr (lit "claude"));
  model := dict_get config "model" (VStr (lit "claude-sonnet-4-20250514"));
  api_key := dict_get config "api_key" VNone;
  openai_api_key := dict_get config "openai_api_key" VNone;
  openai_api_base := dict_get config "openai_api_base" (VStr (lit "https://api.openai.com/v1"));
  openai_model := dict_get config "openai_model" (VStr (lit "gpt-4o-mini"));
  prompt_template := dict_get config "summary_prompt" (VStr _default_prompt);
  _client := None;
|}.

(** The configuration that spells out the attributes of an instance: each
    key [__init__] reads, with the value of the attribute read from it. *)
Definition to_config (s : Summarizer) : gmap string value :=
  <["provider" := provider s]> (
  <["model" := model s]> (
  <["api_key" := api_key s]> (
  <["openai_api_key" := openai_api_key s]> (
  <["openai_api_base" := openai_api_base s]> (
  <["openai_model" := openai_model s]> (
  <["summary_prompt" := prompt_template s]> ∅)))))).

(** ** The provider a client belongs to *)

(** The client the getters construct for this instance. *)
Definition claude_client_of (s : Summarizer) : Client := AnthropicClient (api_key s).
Definition openai_client_of (s : Summarizer) : Client :=
  OpenAIClient (openai_api_key s) (openai_api_base s).

(** The client of the configured provider, if the provider is one of the
    two that [summarize] knows. *)
Definition client_of (s : Summarizer) : option Client :=
  if value_eqb (provider s) (lit "claude") then Some (claude_client_of s)
  else if value_eqb (provider s) (lit "openai") then Some (openai_client_of s)
  else None.

(** The slot is empty or holds the client of the configured provider, built
    from this instance's credentials. *)
Definition client_ok (s : Summarizer) : Prop :=
  match _client s with
  | None => True
  | Some c =>
      (provider s = VStr (lit "claude") /\ c = claude_client_of s) \/
      (provider s = VStr (lit "openai") /\ c = openai_client_of s)
  end.

#[export] Instance client_ok_dec s : Decision (client_ok s).
Proof. unfold client_ok. destruct (_client s); apply _. Defined.

(** The literal parts of the built-in prompt. *)
Definition PROMPT_HEAD : pystr := lit "请用中文为以下文章生成简洁摘要（3-5句话）：
标题：".
Definition PROMPT_MID : pystr := lit "
内容：".
Definition PROMPT_TAIL : pystr := lit "

要求：突出核心观点，帮助读者快速判断是否值得阅读原文。".

(** The built-in template as a template: its literal parts around the two
    fields [title] and [content]. *)
Definition default_parts : list part :=
  [PText PROMPT_HEAD; PField (lit "title"); PText PROMPT_MID;
   PField (lit "content"); PText PROMPT_TAIL].

(** ** Construction: lemmas *)

Lemma dict_get_present config key dflt v :
  config !! key = Some v -> dict_get config key dflt = v.
Proof. unfold dict_get. by intros ->. Qed.

Lemma dict_get_absent config key dflt :
  config !! key = None -> dict_get config key dflt = dflt.
Proof. unfold dict_get. by intros ->. Qed.

Lemma dict_get_insert_ne config key key' v dflt :
  key <> key' -> dict_get (<[key := v]> config) key' dflt = dict_get config key' dflt.
Proof. intros Hne. unfold dict_get. by rewrite lookup_insert_ne. Qed.

Lemma dict_get_insert config key v dflt :
  dict_get (<[key := v]> config) key dflt = v.
Proof. unfold dict_get. by rewrite lookup_insert_eq. Qed.

Lemma set_client_client c s : _client (set_client c s) = c.
Proof. reflexivity. Qed.

Lemma set_client_same s : set_client (_client s) s = s.
Proof. by destruct s. Qed.

Lemma set_client_set c c' s : set_client c (set_client c' s) = set_client c s.
Proof. reflexivity. Qed.

Lemma claude_ne_openai : VStr (lit "claude") <> VStr (lit "openai").
Proof. vm_compute. discriminate. Qed.

Lemma client_of_claude s :
  provider s = VStr (lit "claude") -> client_of s = Some (claude_client_of s).
Proof. intros Hp. unfold client_of. by rewrite (proj2 (value_eqb_true _ _) Hp). Qed.

Lemma client_of_openai s :
  provider s = VStr (lit "openai") -> client_of s = Some (openai_client_of s).
Proof.
intros Hp. unfold client_of. rewrite (proj2 (value_eqb_true _ (lit "openai")) Hp).
rewrite (proj2 (value_eqb_false _ (lit "claude"))); [done |].
rewrite Hp. vm_compute. discriminate.
Qed.

Lemma client_of_Some s c :
  client_of s = Some c <->
  (provider s = VStr (lit "claude") /\ c = claude_client_of s) \/
  (provider s = VStr (lit "openai") /\ c = openai_client_of s).
Proof.
split.
- unfold client_of. repeat case_match; intros [=]; subst;
    [left | right]; split; try done; by apply value_eqb_true.
- intros [[Hp ->]|[Hp ->]]; [by apply client_of_claude | by apply client_of_openai].
Qed.

(** The invariant of the slot says that a cached client is the client of
    the configured provider. *)
Lemma client_ok_client_of s :
  client_ok s <-> forall c, _client s = Some c -> client_of s = Some c.
Proof.
unfold client_ok. destruct (_client s) as [c|]; [|by split].
rewrite <- client_of_Some. split; [by intros H c' [= <-] | auto].
Qed.

(** A fresh instance has no client. *)
Lemma init_client_ok config : client_ok (__init__ config).
Proof. exact I. Qed.

Lemma default_prompt_unparse : _default_prompt = unparse default_parts.
Proof. vm_compute. reflexivity. Qed.

Lemma default_prompt_length : py_len _default_prompt = 76%Z.
Proof. vm_compute. reflexivity. Qed.

(** ** Construction: theorems *)

(** Each attribute is read from its own key, and from no other: the
    instance constructed from the configuration that spells out the
    attributes of an instance has these attributes, whatever their values,
    and an empty slot. *)
Theorem init_to_config s : __init__ (to_config s) = set_client None s.
Proof.
unfold __init__, to_config, set_client, dict_get.
by rewrite ?lookup_insert_eq, ?(lookup_insert_ne _ _ _ _ ltac:(discriminate)).
Qed.
