(* ===== verification/Provider.v ===== *)
(** The provider side of [rss_reader.summarizer]: the world the methods act
    on, the environment that stands for the SDKs, the network and the
    standard output, [print], the lazy client getters [_get_claude_client]
    and [_get_openai_client] with the construction of a client on an empty
    slot ([construct]), the two provider calls [_summarize_with_claude] and
    [_summarize_with_openai], and the measures of the world (requests sent,
    clients constructed, lines printed) with what each step costs. *)

From Stdlib Require Import ZArith NArith String List Lia.
From stdpp Require Import base tactics option list numbers gmap strings.
From S2P Require Import Prelude Logic PyStr Format Config.


(** ** Requests and responses *)

(** One element of [messages]: [{"role": ..., "content": ...}]. *)
Record message : Type := MkMessage {
  msg_role : pystr;
  msg_content : pystr;
}.

#[export] Instance message_eq_dec : EqDecision message.
Proof. solve_decision. Defined.

(** A call that leaves the program: the construction of a client, or a
    request sent through one with its keyword arguments. *)
Inductive Call : Type :=
| NewClient (c : Client)
| MessagesCreate (c : Client) (mdl : value) (max_tokens : Z) (messages : list message)
| ChatCompletionsCreate (c : Client) (mdl : value) (max_tokens : Z) (messages : list message).

#[export] Instance Call_eq_dec : EqDecision Call.
Proof. solve_decision. Defined.

(** A call that reaches the network. *)
Definition is_request (c : Call) : bool :=
  match c with
  | NewClient _ => false
  | MessagesCreate _ _ _ _ | ChatCompletionsCreate _ _ _ _ => true
  end.

(** A block of [message.content] in a Claude response: a text block with its
    [text], or a block of another class, which has no such attribute. *)
Inductive content_block : Type :=
| TextBlock (text : pystr)
| OtherBlock (class_name : pystr).

(** [response.choices] of an OpenAI response, each choice reduced to its
    [message.content], which is [None] or a [str]. *)
Record chat_completion : Type := MkChat { choices : list value }.

(** ** The world and the environment *)

(** What the methods change outside the object: the lines printed and the
    calls made, oldest first. *)
Record World : Type := MkWorld {
  stdout : list pystr;
  calls : list Call;
}.

(** The state a method runs in: the instance and the world. *)
Record State : Type := MkState {
  self : Summarizer;
  world : World;
}.

(** The SDKs and the network.  Every answer may depend on the calls made so
    far; [None] and [Ok] are success.
    - [env_import name]: [import name];
    - [env_new_client]: the client's constructor;
    - [env_messages_create]: [client.messages.create(...)];
    - [env_chat_create]: [client.chat.completions.create(...)];
    - [env_print out line]: [print(line)] after the lines [out]; standard
      output may refuse a line, for instance one that its encoding cannot
      represent. *)
Record Env : Type := MkEnv {
  env_import : string -> option exn;
  env_new_client : list Call -> Client -> option exn;
  env_messages_create :
    list Call -> Client -> value -> Z -> list message -> outcome exn (list content_block);
  env_chat_create :
    list Call -> Client -> value -> Z -> list message -> outcome exn chat_completion;
  env_print : list pystr -> pystr -> option exn;
}.

#[warnings="-notation-for-abbreviation"]
Notation M := (PyM State exn).

(** ** Steps *)

Definition with_self (f : Summarizer -> Summarizer) (st : State) : State :=
  MkState (f (self st)) (world st).

Definition log_line (line : pystr) (st : State) : State :=
  MkState (self st) (MkWorld (stdout (world st) ++ [line]) (calls (world st))).

Definition record_call (c : Call) (st : State) : State :=
  MkState (self st) (MkWorld (stdout (world st)) (calls (world st) ++ [c])).

(** [print(line)]: the line is written, or the write raises and nothing is
    written. *)
Definition print (env : Env) (line : pystr) : M unit :=
  fun st =>
    match env_print env (stdout (world st)) line with
    | None => (Ok tt, log_line line st)
    | Some e => (Raise e, st)
    end.

(** [xs[0]] *)
Definition index0 {A} (xs : list A) : M A :=
  match xs with
  | x :: _ => ret x
  | [] => raise (MkExn IndexError (lit "list index out of range"))
  end.

Section Provider.
Context (env : Env).

(** [import name] *)
Definition import_module (name : string) : M unit :=
  match env_import env name with
  | None => ret tt
  | Some e => raise e
  end.

(** The constructor of a client: the call is made, then it returns the
    client or raises. *)
Definition new_client (c : Client) : M Client :=
  fun st =>
    match env_new_client env (calls (world st)) c with
    | None => (Ok c, record_call (NewClient c) st)
    | Some e => (Raise e, record_call (NewClient c) st)
    end.

(** [client.messages.create(model=..., max_tokens=..., messages=...)]: only
    an Anthropic client has the attribute [messages]. *)
Definition messages_create (c : Client) (mdl : value) (max_tokens : Z)
    (msgs : list message) : M (list content_block) :=
  match c with
  | AnthropicClient _ =>
      fun st =>
        (env_messages_create env (calls (world st)) c mdl max_tokens msgs,
         record_call (MessagesCreate c mdl max_tokens msgs) st)
  | OpenAIClient _ _ =>
      raise (MkExn AttributeError (lit "'OpenAI' object has no attribute 'messages'"))
  end.

(** [client.chat.completions.create(model=..., max_tokens=..., messages=...)]:
    only an OpenAI client has the attribute [chat]. *)
Definition chat_completions_create (c : Client) (mdl : value) (max_tokens : Z)
    (msgs : list message) : M chat_completion :=
  match c with
  | OpenAIClient _ _ =>
      fun st =>
        (env_chat_create env (calls (world st)) c mdl max_tokens msgs,
         record_call (ChatCompletionsCreate c mdl max_tokens msgs) st)
  | AnthropicClient _ =>
      raise (MkExn AttributeError (lit "'Anthropic' object has no attribute 'chat'"))
  end.

(** [block.text] *)
Definition block_text (b : content_block) : M pystr :=
  match b with
  | TextBlock t => ret t
  | OtherBlock cls =>
      raise (MkExn AttributeError
               (lit "'" ++ cls ++ lit "' object has no attribute 'text'"))
  end.

(** ** Client acquisition *)

(** [Summarizer._get_claude_client] *)
Definition _get_claude_client : M Client :=
  s <- gets self ;;
  match _client s with
  | Some c => ret c
  | None =>
      import_module "anthropic" ;;
      c <- new_client (AnthropicClient (api_key s)) ;;
      modify (with_self (set_client (Some c))) ;;
      ret c
  end.

(** [Summarizer._get_openai_client] *)
Definition _get_openai_client : M Client :=
  s <- gets self ;;
  match _client s with
  | Some c => ret c
  | None =>
      import_module "openai" ;;
      c <- new_client (OpenAIClient (openai_api_key s) (openai_api_base s)) ;;
      modify (with_self (set_client (Some c))) ;;
      ret c
  end.

(** ** Provider calls *)

(** The one user message of a request. *)
Definition user_message (prompt : pystr) : list message :=
  [MkMessage (lit "user") prompt].

(** [Summarizer._summarize_with_claude] *)
Definition _summarize_with_claude (prompt : pystr) : M pystr :=
  client <- _get_claude_client ;;
  mdl <- gets (fun st => model (self st)) ;;
  blocks <- messages_create client mdl 500 (user_message prompt) ;;
  b <- index0 blocks ;;
  block_text b.

(** [Summarizer._summarize_with_openai]: the content of the first choice,
    which may be [None]. *)
Definition _summarize_with_openai (prompt : pystr) : M value :=
  client <- _get_openai_client ;;
  mdl <- gets (fun st => openai_model (self st)) ;;
  response <- chat_completions_create client mdl 500 (user_message prompt) ;;
  index0 (choices response).
End Provider.

(** ** What a response yields *)

(** [message.content[0].text] and [response.choices[0].message.content] as
    functions of the response. *)
Definition first_text (blocks : list content_block) : outcome exn pystr :=
  match blocks with
  | [] => Raise (MkExn IndexError (lit "list index out of range"))
  | TextBlock t :: _ => Ok t
  | OtherBlock cls :: _ =>
      Raise (MkExn AttributeError (lit "'" ++ cls ++ lit "' object has no attribute 'text'"))
  end.

Definition first_choice (r : chat_completion) : outcome exn value :=
  match choices r with
  | [] => Raise (MkExn IndexError (lit "list index out of range"))
  | v :: _ => Ok v
  end.

(** ** How a state continues another *)

(** [evolves st st']: the configuration is the same, a client once cached
    is still cached, and the output and the calls have only grown. *)
Record evolves (st st' : State) : Prop := MkEvolves {
  ev_config : set_client None (self st) = set_client None (self st');
  ev_client : forall c, _client (self st) = Some c -> _client (self st') = Some c;
  ev_stdout : stdout (world st) `prefix_of` stdout (world st');
  ev_calls : calls (world st) `prefix_of` calls (world st');
}.

(** The invariant of the client slot while the provider is [claude], resp.
    [openai]. *)
Definition claude_inv (st : State) : Prop :=
  provider (self st) = VStr (lit "claude") /\ client_ok (self st).

Definition openai_inv (st : State) : Prop :=
  provider (self st) = VStr (lit "openai") /\ client_ok (self st).

(** [keeps_self m]: [m] does not assign to an attribute of the instance. *)
Definition keeps_self {A} (m : M A) : Prop := forall st, self (m st).2 = self st.

(** Every exception the environment raises is an [Exception]: no
    [KeyboardInterrupt], no [SystemExit]. *)
Record env_catchable (env : Env) : Prop := MkCatchable {
  catch_import : forall name e, env_import env name = Some e -> is_Exception e = true;
  catch_new : forall h c e, env_new_client env h c = Some e -> is_Exception e = true;
  catch_messages : forall h c m k ms e,
    env_messages_create env h c m k ms = Raise e -> is_Exception e = true;
  catch_chat : forall h c m k ms e,
    env_chat_create env h c m k ms = Raise e -> is_Exception e = true;
  catch_print : forall out line e, env_print env out line = Some e -> is_Exception e = true;
}.

(** Standard output takes every line. *)
Definition writable (env : Env) : Prop := forall out line, env_print env out line = None.

(** ** Measures of the world *)

(** A call that constructs a client. *)
Definition is_new_client (c : Call) : bool := negb (is_request c).

(** The requests sent so far, oldest first. *)
Definition requests_of (st : State) : list Call := List.filter is_request (calls (world st)).

(** How many of the calls made so far satisfy [P]. *)
Definition count_calls (P : Call -> bool) (st : State) : nat :=
  length (List.filter P (calls (world st))).

(** How many requests were sent, how many clients were constructed and how
    many lines were printed so far. *)
Definition requests_made : State -> nat := count_calls is_request.
Definition clients_made : State -> nat := count_calls is_new_client.
Definition lines_printed (st : State) : nat := length (stdout (world st)).

(** The three measures under one name. *)
Variant measure : Type := Requests | Clients | Lines.

Definition measure_of (mu : measure) : State -> nat :=
  match mu with
  | Requests => requests_made
  | Clients => clients_made
  | Lines => lines_printed
  end.

(** The module a client's class is imported from. *)
Definition sdk_module (c : Client) : string :=
  match c with
  | AnthropicClient _ => "anthropic"
  | OpenAIClient _ _ => "openai"
  end.

(** The import of the SDK and the construction of the client [c], as a
    getter does them on an empty slot: the exception raised, if any, and the
    state left. *)
Definition construct (env : Env) (c : Client) (st : State) : option exn * State :=
  match env_import env (sdk_module c) with
  | Some e => (Some e, st)
  | None => (env_new_client env (calls (world st)) c, record_call (NewClient c) st)
  end.

(** ** Lemmas *)

#[export] Instance evolves_preorder : PreOrder evolves.
Proof.
split.
- intros st. by split.
- intros st1 st2 st3 [H1 H2 H3 H4] [H1' H2' H3' H4']. split.
  + congruence.
  + auto.
  + by etransitivity.
  + by etransitivity.
Qed.

Lemma evolves_log_line line st : evolves st (log_line line st).
Proof. split; simpl; try done. by apply prefix_app_r. Qed.

Lemma evolves_record_call c st : evolves st (record_call c st).
Proof. split; simpl; try done. by apply prefix_app_r. Qed.

Lemma evolves_set_client c st :
  _client (self st) = None -> evolves st (with_self (set_client (Some c)) st).
Proof. intros Hc. split; simpl; try done. intros c'. by rewrite Hc. Qed.

#[export] Hint Resolve evolves_log_line evolves_record_call : py.

Lemma requests_of_record_call c st :
  requests_of (record_call c st) = requests_of st ++ (if is_request c then [c] else []).
Proof. unfold requests_of. simpl. by rewrite List.filter_app. Qed.

Lemma print_extends env line : extends evolves (print env line).
Proof.
intros st. unfold print. destruct (env_print _ _ _); [done | apply evolves_log_line].
Qed.

Lemma index0_extends {A} (xs : list A) : extends evolves (index0 xs).
Proof. destruct xs; simpl; [apply extends_raise | apply extends_ret]; apply _. Qed.

Lemma print_run env line st :
  writable env -> print env line st = (Ok tt, log_line line st).
Proof. intros Hw. unfold print. by rewrite Hw. Qed.

(** Prove that a computation built from the monad's operations and the
    steps of this file only lets the state evolve. *)
Ltac py_extends :=
  repeat first
    [ progress intros
    | apply extends_ret | apply extends_raise | apply extends_gets
    | apply extends_lift_outcome | apply print_extends | apply index0_extends
    | apply extends_bind | apply extends_try_except
    | apply evolves_preorder ].

Section ProviderLemmas.
Context (env : Env).
Implicit Types (st : State) (c : Client) (prompt : pystr).

Lemma import_module_extends name : extends evolves (import_module env name).
Proof. unfold import_module. destruct (env_import env name); py_extends. Qed.

Lemma new_client_extends c : extends evolves (new_client env c).
Proof.
intros st. unfold new_client.
destruct (env_new_client _ _ _); apply evolves_record_call.
Qed.

Lemma messages_create_extends c m k ms : extends evolves (messages_create env c m k ms).
Proof.
destruct c; simpl; [|py_extends]. intros st. apply evolves_record_call.
Qed.

Lemma chat_completions_create_extends c m k ms :
  extends evolves (chat_completions_create env c m k ms).
Proof.
destruct c; simpl; [py_extends |]. intros st. apply evolves_record_call.
Qed.

Lemma block_text_extends b : extends evolves (block_text b).
Proof. destruct b; py_extends. Qed.

(** *** The getters *)

(** A cached client is returned as it is: no import, no call, no change. *)
Lemma get_claude_client_cached st c :
  _client (self st) = Some c -> _get_claude_client env st = (Ok c, st).
Proof. intros Hc. unfold _get_claude_client, bind, gets. simpl. by rewrite Hc. Qed.

Lemma get_openai_client_cached st c :
  _client (self st) = Some c -> _get_openai_client env st = (Ok c, st).
Proof. intros Hc. unfold _get_openai_client, bind, gets. simpl. by rewrite Hc. Qed.

(** With an empty slot the client is constructed from the instance's
    credentials and cached. *)
Lemma get_claude_client_fresh st :
  _client (self st) = None ->
  _get_claude_client env st =
    match env_import env "anthropic" with
    | Some e => (Raise e, st)
    | None =>
        let c := claude_client_of (self st) in
        let st1 := record_call (NewClient c) st in
        match env_new_client env (calls (world st)) c with
        | Some e => (Raise e, st1)
        | None => (Ok c, with_self (set_client (Some c)) st1)
        end
    end.
Proof.
intros Hc. unfold _get_claude_client, bind, gets, import_module. simpl. rewrite Hc.
destruct (env_import env "anthropic"); [done |]. simpl. unfold new_client, claude_client_of.
by destruct (env_new_client _ _ _).
Qed.

Lemma get_openai_client_fresh st :
  _client (self st) = None ->
  _get_openai_client env st =
    match env_import env "openai" with
    | Some e => (Raise e, st)
    | None =>
        let c := openai_client_of (self st) in
        let st1 := record_call (NewClient c) st in
        match env_new_client env (calls (world st)) c with
        | Some e => (Raise e, st1)
        | None => (Ok c, with_self (set_client (Some c)) st1)
        end
    end.
Proof.
intros Hc. unfold _get_openai_client, bind, gets, import_module. simpl. rewrite Hc.
destruct (env_import env "openai"); [done |]. simpl. unfold new_client, openai_client_of.
by destruct (env_new_client _ _ _).
Qed.

Lemma get_claude_client_extends : extends evolves (_get_claude_client env).
Proof.
intros st. destruct (_client (self st)) as [c|] eqn:Hc.
- by rewrite (get_claude_client_cached _ _ Hc).
- rewrite (get_claude_client_fresh _ Hc). cbv zeta. repeat case_match; simpl; try done.
  + apply evolves_record_call.
  + etransitivity; [apply evolves_record_call | by apply evolves_set_client].
Qed.

Lemma get_openai_client_extends : extends evolves (_get_openai_client env).
Proof.
intros st. destruct (_client (self st)) as [c|] eqn:Hc.
- by rewrite (get_openai_client_cached _ _ Hc).
- rewrite (get_openai_client_fresh _ Hc). cbv zeta. repeat case_match; simpl; try done.
  + apply evolves_record_call.
  + etransitivity; [apply evolves_record_call | by apply evolves_set_client].
Qed.

(** A getter that returns leaves its client in the slot. *)
Lemma get_claude_client_caches st c st' :
  _get_claude_client env st = (Ok c, st') -> _client (self st') = Some c.
Proof.
destruct (_client (self st)) as [c0|] eqn:Hc.
- rewrite (get_claude_client_cached _ _ Hc). by intros [= <- <-].
- rewrite (get_claude_client_fresh _ Hc). cbv zeta. repeat case_match; try done. by intros [= <- <-].
Qed.

Lemma get_openai_client_caches st c st' :
  _get_openai_client env st = (Ok c, st') -> _client (self st') = Some c.
Proof.
destruct (_client (self st)) as [c0|] eqn:Hc.
- rewrite (get_openai_client_cached _ _ Hc). by intros [= <- <-].
- rewrite (get_openai_client_fresh _ Hc). cbv zeta. repeat case_match; try done. by intros [= <- <-].
Qed.

Lemma get_claude_client_stable : stable claude_inv (_get_claude_client env).
Proof.
intros st [Hp Hok]. destruct (_client (self st)) as [c|] eqn:Hc.
- by rewrite (get_claude_client_cached _ _ Hc).
- rewrite (get_claude_client_fresh _ Hc). cbv zeta. repeat case_match; simpl; try done.
  split; [done |]. unfold client_ok. simpl. by left.
Qed.

Lemma get_openai_client_stable : stable openai_inv (_get_openai_client env).
Proof.
intros st [Hp Hok]. destruct (_client (self st)) as [c|] eqn:Hc.
- by rewrite (get_openai_client_cached _ _ Hc).
- rewrite (get_openai_client_fresh _ Hc). cbv zeta. repeat case_match; simpl; try done.
  split; [done |]. unfold client_ok. simpl. by right.
Qed.

(** *** Steps that leave the instance alone *)

Lemma stable_keeps_self {A} (P : Summarizer -> Prop) (m : M A) :
  keeps_self m -> stable (fun st => P (self st)) m.
Proof. intros Hm st. by rewrite Hm. Qed.

Lemma claude_inv_keeps_self {A} (m : M A) : keeps_self m -> stable claude_inv m.
Proof. intros Hm st. unfold claude_inv. by rewrite Hm. Qed.

Lemma openai_inv_keeps_self {A} (m : M A) : keeps_self m -> stable openai_inv m.
Proof. intros Hm st. unfold openai_inv. by rewrite Hm. Qed.

Lemma print_keeps_self line : keeps_self (print env line).
Proof. intros st. unfold print. by destruct (env_print _ _ _). Qed.

Lemma index0_keeps_self {A} (xs : list A) : keeps_self (index0 xs).
Proof. by destruct xs. Qed.

Lemma block_text_keeps_self b : keeps_self (block_text b).
Proof. by destruct b. Qed.

Lemma messages_create_keeps_self c m k ms : keeps_self (messages_create env c m k ms).
Proof. by destruct c. Qed.

Lemma chat_completions_create_keeps_self c m k ms :
  keeps_self (chat_completions_create env c m k ms).
Proof. by destruct c. Qed.

(** *** The provider calls *)

Lemma index0_block_text bs st : bind (index0 bs) block_text st = (first_text bs, st).
Proof. by destruct bs as [|[t|cls] bs]. Qed.

Lemma index0_choices r st : index0 (choices r) st = (first_choice r, st).
Proof. unfold first_choice. by destruct (choices r). Qed.

(** What [_summarize_with_claude] does once it holds an Anthropic client:
    one request with the configured model, [max_tokens] 500 and the prompt
    as the one user message; the text of the first block is the result. *)
Lemma summarize_with_claude_cached st k prompt :
  _client (self st) = Some (AnthropicClient k) ->
  _summarize_with_claude env prompt st =
    (match env_messages_create env (calls (world st)) (AnthropicClient k)
             (model (self st)) 500 (user_message prompt) with
     | Ok blocks => first_text blocks
     | Raise e => Raise e
     end,
     record_call (MessagesCreate (AnthropicClient k) (model (self st)) 500
                    (user_message prompt)) st).
Proof.
intros Hc. unfold _summarize_with_claude.
rewrite (bind_ok _ _ _ _ _ (get_claude_client_cached _ _ Hc)).
unfold bind at 1. unfold gets. cbn beta iota. unfold bind at 1. simpl messages_create.
cbn beta iota. destruct (env_messages_create _ _ _ _ _ _) as [bs|e]; [|done].
apply index0_block_text.
Qed.

Lemma summarize_with_openai_cached st k b prompt :
  _client (self st) = Some (OpenAIClient k b) ->
  _summarize_with_openai env prompt st =
    (match env_chat_create env (calls (world st)) (OpenAIClient k b)
             (openai_model (self st)) 500 (user_message prompt) with
     | Ok r => first_choice r
     | Raise e => Raise e
     end,
     record_call (ChatCompletionsCreate (OpenAIClient k b) (openai_model (self st)) 500
                    (user_message prompt)) st).
Proof.
intros Hc. unfold _summarize_with_openai.
rewrite (bind_ok _ _ _ _ _ (get_openai_client_cached _ _ Hc)).
unfold bind at 1. unfold gets. cbn beta iota. unfold bind at 1.
simpl chat_completions_create. cbn beta iota.
destruct (env_chat_create _ _ _ _ _ _) as [r|e]; [|done].
apply index0_choices.
Qed.

(** With an empty slot, [_summarize_with_claude] imports the SDK and
    constructs the client; once the client is in the slot it goes on as it
    does with a cached client. *)
Lemma summarize_with_claude_fresh st prompt :
  _client (self st) = None ->
  _summarize_with_claude env prompt st =
    match env_import env "anthropic" with
    | Some e => (Raise e, st)
    | None =>
        let c := claude_client_of (self st) in
        let st1 := record_call (NewClient c) st in
        match env_new_client env (calls (world st)) c with
        | Some e => (Raise e, st1)
        | None => _summarize_with_claude env prompt (with_self (set_client (Some c)) st1)
        end
    end.
Proof.
intros Hc. unfold _summarize_with_claude at 1. unfold bind at 1.
rewrite (get_claude_client_fresh _ Hc). cbv zeta.
destruct (env_import env "anthropic"); [done |].
destruct (env_new_client _ _ _); [done |].
unfold _summarize_with_claude.
by rewrite (bind_ok _ _ _ _ _
      (get_claude_client_cached (with_self (set_client (Some _)) _) _ eq_refl)).
Qed.

Lemma summarize_with_openai_fresh st prompt :
  _client (self st) = None ->
  _summarize_with_openai env prompt st =
    match env_import env "openai" with
    | Some e => (Raise e, st)
    | None =>
        let c := openai_client_of (self st) in
        let st1 := record_call (NewClient c) st in
        match env_new_client env (calls (world st)) c with
        | Some e => (Raise e, st1)
        | None => _summarize_with_openai env prompt (with_self (set_client (Some c)) st1)
        end
    end.
Proof.
intros Hc. unfold _summarize_with_openai at 1. unfold bind at 1.
rewrite (get_openai_client_fresh _ Hc). cbv zeta.
destruct (env_import env "openai"); [done |].
destruct (env_new_client _ _ _); [done |].
unfold _summarize_with_openai.
by rewrite (bind_ok _ _ _ _ _
      (get_openai_client_cached (with_self (set_client (Some _)) _) _ eq_refl)).
Qed.

(** The same with [construct]. *)
Lemma summarize_with_claude_construct st prompt :
  _client (self st) = None ->
  _summarize_with_claude env prompt st =
    match construct env (claude_client_of (self st)) st with
    | (Some e, st1) => (Raise e, st1)
    | (None, st1) =>
        _summarize_with_claude env prompt
          (with_self (set_client (Some (claude_client_of (self st)))) st1)
    end.
Proof.
intros Hc. rewrite (summarize_with_claude_fresh _ _ Hc). unfold construct. simpl.
destruct (env_import env "anthropic"); [done |]. by destruct (env_new_client _ _ _).
Qed.

Lemma summarize_with_openai_construct st prompt :
  _client (self st) = None ->
  _summarize_with_openai env prompt st =
    match construct env (openai_client_of (self st)) st with
    | (Some e, st1) => (Raise e, st1)
    | (None, st1) =>
        _summarize_with_openai env prompt
          (with_self (set_client (Some (openai_client_of (self st)))) st1)
    end.
Proof.
intros Hc. rewrite (summarize_with_openai_fresh _ _ Hc). unfold construct. simpl.
destruct (env_import env "openai"); [done |]. by destruct (env_new_client _ _ _).
Qed.

Lemma construct_self c st : self (construct env c st).2 = self st.
Proof. unfold construct. by destruct (env_import _ _). Qed.

Lemma construct_stdout c st : stdout (world (construct env c st).2) = stdout (world st).
Proof. unfold construct. by destruct (env_import _ _). Qed.

Lemma construct_requests c st : requests_of (construct env c st).2 = requests_of st.
Proof.
unfold construct. destruct (env_import _ _); [done |]. simpl.
rewrite requests_of_record_call. simpl. apply app_nil_r.
Qed.

(** A client of the other provider in the slot is returned as it is, and
    the request fails on it before it is sent. *)
Lemma summarize_with_claude_stale st k b prompt :
  _client (self st) = Some (OpenAIClient k b) ->
  _summarize_with_claude env prompt st =
    (Raise (MkExn AttributeError (lit "'OpenAI' object has no attribute 'messages'")), st).
Proof.
intros Hc. unfold _summarize_with_claude.
by rewrite (bind_ok _ _ _ _ _ (get_claude_client_cached _ _ Hc)).
Qed.

Lemma summarize_with_openai_stale st k prompt :
  _client (self st) = Some (AnthropicClient k) ->
  _summarize_with_openai env prompt st =
    (Raise (MkExn AttributeError (lit "'Anthropic' object has no attribute 'chat'")), st).
Proof.
intros Hc. unfold _summarize_with_openai.
by rewrite (bind_ok _ _ _ _ _ (get_openai_client_cached _ _ Hc)).
Qed.

Lemma summarize_with_claude_extends prompt :
  extends evolves (_summarize_with_claude env prompt).
Proof.
unfold _summarize_with_claude.
apply extends_bind; [apply _ | apply get_claude_client_extends | intros c].
apply extends_bind; [apply _ | apply extends_gets, _ | intros m].
apply extends_bind; [apply _ | apply messages_create_extends | intros bs].
apply extends_bind; [apply _ | apply index0_extends | intros b].
apply block_text_extends.
Qed.

Lemma summarize_with_openai_extends prompt :
  extends evolves (_summarize_with_openai env prompt).
Proof.
unfold _summarize_with_openai.
apply extends_bind; [apply _ | apply get_openai_client_extends | intros c].
apply extends_bind; [apply _ | apply extends_gets, _ | intros m].
apply extends_bind; [apply _ | apply chat_completions_create_extends | intros r].
apply index0_extends.
Qed.

Lemma summarize_with_claude_stable prompt :
  stable claude_inv (_summarize_with_claude env prompt).
Proof.
unfold _summarize_with_claude.
apply stable_bind; [apply get_claude_client_stable | intros c].
apply stable_bind; [apply stable_gets | intros m].
apply stable_bind; [|intros bs; apply stable_bind; [|intros b]];
  apply claude_inv_keeps_self.
- apply messages_create_keeps_self.
- apply index0_keeps_self.
- apply block_text_keeps_self.
Qed.

Lemma summarize_with_openai_stable prompt :
  stable openai_inv (_summarize_with_openai env prompt).
Proof.
unfold _summarize_with_openai.
apply stable_bind; [apply get_openai_client_stable | intros c].
apply stable_bind; [apply stable_gets | intros m].
apply stable_bind; [|intros r]; apply openai_inv_keeps_self.
- apply chat_completions_create_keeps_self.
- apply index0_keeps_self.
Qed.
End ProviderLemmas.

(** *** What the provider path can raise *)

Section Catchable.
Context (env : Env) (Hcatch : env_catchable env).

#[warnings="-notation-for-abbreviation"]
Notation catchable := (raises_only (fun e => is_Exception e = true)).

Lemma print_catchable line : catchable (print env line).
Proof.
intros st e st'. unfold print. destruct (env_print _ _ _) eqn:He; intros [= <- _].
by eapply catch_print.
Qed.

Lemma index0_catchable {A} (xs : list A) : catchable (index0 xs).
Proof. destruct xs; [by apply raises_only_raise | apply raises_only_ret]. Qed.

Lemma block_text_catchable b : catchable (block_text b).
Proof. destruct b; [apply raises_only_ret | by apply raises_only_raise]. Qed.

Lemma import_module_catchable name : catchable (import_module env name).
Proof.
unfold import_module. destruct (env_import env name) as [e|] eqn:He.
- apply raises_only_raise. by eapply catch_import.
- apply raises_only_ret.
Qed.

Lemma new_client_catchable c : catchable (new_client env c).
Proof.
intros st e st'. unfold new_client.
destruct (env_new_client _ _ _) eqn:He; intros [= <- _]. by eapply catch_new.
Qed.

Lemma messages_create_catchable c m k ms : catchable (messages_create env c m k ms).
Proof.
destruct c; simpl; [|by apply raises_only_raise].
intros st e st' [= He _]. by eapply catch_messages.
Qed.

Lemma chat_completions_create_catchable c m k ms :
  catchable (chat_completions_create env c m k ms).
Proof.
destruct c; simpl; [by apply raises_only_raise |].
intros st e st' [= He _]. by eapply catch_chat.
Qed.

Lemma get_claude_client_catchable : catchable (_get_claude_client env).
Proof.
unfold _get_claude_client. apply raises_only_bind; [apply raises_only_gets | intros s].
destruct (_client s); [apply raises_only_ret |].
apply raises_only_bind; [apply import_module_catchable | intros _].
apply raises_only_bind; [apply new_client_catchable | intros c].
apply raises_only_bind; [apply raises_only_modify | intros _; apply raises_only_ret].
Qed.

Lemma get_openai_client_catchable : catchable (_get_openai_client env).
Proof.
unfold _get_openai_client. apply raises_only_bind; [apply raises_only_gets | intros s].
destruct (_client s); [apply raises_only_ret |].
apply raises_only_bind; [apply import_module_catchable | intros _].
apply raises_only_bind; [apply new_client_catchable | intros c].
apply raises_only_bind; [apply raises_only_modify | intros _; apply raises_only_ret].
Qed.

Lemma summarize_with_claude_catchable prompt : catchable (_summarize_with_claude env prompt).
Proof.
unfold _summarize_with_claude.
apply raises_only_bind; [apply get_claude_client_catchable | intros c].
apply raises_only_bind; [apply raises_only_gets | intros m].
apply raises_only_bind; [apply messages_create_catchable | intros bs].
apply raises_only_bind; [apply index0_catchable | intros b; apply block_text_catchable].
Qed.

Lemma summarize_with_openai_catchable prompt : catchable (_summarize_with_openai env prompt).
Proof.
unfold _summarize_with_openai.
apply raises_only_bind; [apply get_openai_client_catchable | intros c].
apply raises_only_bind; [apply raises_only_gets | intros m].
apply raises_only_bind; [apply chat_completions_create_catchable | intros r].
apply index0_catchable.
Qed.
End Catchable.

(** *** What a run adds to the world *)

Lemma count_calls_record_call P c st :
  count_calls P (record_call c st) = count_calls P st + Nat.b2n (P c).
Proof.
unfold count_calls. simpl. rewrite List.filter_app, length_app. simpl.
by destruct (P c).
Qed.

Lemma count_calls_log_line P line st : count_calls P (log_line line st) = count_calls P st.
Proof. reflexivity. Qed.

Lemma count_calls_with_self P f st : count_calls P (with_self f st) = count_calls P st.
Proof. reflexivity. Qed.

Lemma lines_printed_log_line line st : lines_printed (log_line line st) = S (lines_printed st).
Proof. unfold lines_printed. simpl. rewrite length_app. simpl. lia. Qed.

Lemma lines_printed_record_call c st : lines_printed (record_call c st) = lines_printed st.
Proof. reflexivity. Qed.

Lemma lines_printed_with_self f st : lines_printed (with_self f st) = lines_printed st.
Proof. reflexivity. Qed.

Create Rewrite HintDb measure.
#[export] Hint Rewrite count_calls_record_call count_calls_log_line count_calls_with_self
  lines_printed_log_line lines_printed_record_call lines_printed_with_self : measure.

(** Close a goal [costs (measure_of mu) k m] for a step [m] that is a case
    analysis over states written with [record_call], [log_line] and
    [with_self]. *)
Ltac py_measure :=
  let st := fresh "st" in
  match goal with mu : measure |- _ => destruct mu | _ => idtac end;
  intros st; repeat case_match; simpl;
  unfold requests_made, clients_made; autorewrite with measure; simpl; lia.

Section Counting.
Context (env : Env) (mu : measure).
Implicit Types (st : State) (c : Client) (prompt : pystr).

Lemma print_costs line :
  costs (measure_of mu) (match mu with Lines => 1 | _ => 0 end) (print env line).
Proof. unfold print. py_measure. Qed.

Lemma index0_costs {A} (xs : list A) : costs (measure_of mu) 0 (index0 xs).
Proof. destruct xs; py_measure. Qed.

Lemma block_text_costs b : costs (measure_of mu) 0 (block_text b).
Proof. destruct b; py_measure. Qed.

Lemma import_module_costs name : costs (measure_of mu) 0 (import_module env name).
Proof. unfold import_module. py_measure. Qed.

Lemma new_client_costs c :
  costs (measure_of mu) (match mu with Clients => 1 | _ => 0 end) (new_client env c).
Proof. unfold new_client. py_measure. Qed.

Lemma messages_create_costs c m k ms :
  costs (measure_of mu) (match mu with Requests => 1 | _ => 0 end)
    (messages_create env c m k ms).
Proof. destruct c; py_measure. Qed.

Lemma chat_completions_create_costs c m k ms :
  costs (measure_of mu) (match mu with Requests => 1 | _ => 0 end)
    (chat_completions_create env c m k ms).
Proof. destruct c; py_measure. Qed.

Lemma set_client_costs oc :
  costs (measure_of mu) 0 (modify (E:=exn) (with_self (set_client oc))).
Proof. py_measure. Qed.
End Counting.

(** Reduce a goal [costs f k m] to the steps of [m] with the rules of the
    monad and [tac] for the steps; the bound found is compared with [k] at
    the end. *)
Ltac py_costs_with tac :=
  try change requests_made with (measure_of Requests);
  try change clients_made with (measure_of Clients);
  try change lines_printed with (measure_of Lines);
  eapply costs_weaken;
  [ | repeat first
        [ progress intros
        | apply costs_ret | apply costs_raise | apply costs_gets | apply costs_lift_outcome
        | apply print_costs | apply index0_costs | apply block_text_costs
        | apply import_module_costs | apply new_client_costs
        | apply messages_create_costs | apply chat_completions_create_costs
        | apply set_client_costs
        | tac
        | eapply costs_bind | eapply costs_try_except
        | eapply costs_option_match | eapply costs_if ] ];
  [ simpl; lia ].

Ltac py_costs := py_costs_with fail.

Section CountingCalls.
Context (env : Env).
Implicit Types (st : State) (prompt : pystr).

(** A getter sends no request, constructs one client at most and prints
    nothing. *)
Lemma get_claude_client_costs mu :
  costs (measure_of mu) (match mu with Clients => 1 | _ => 0 end) (_get_claude_client env).
Proof. unfold _get_claude_client. destruct mu; py_costs. Qed.

Lemma get_openai_client_costs mu :
  costs (measure_of mu) (match mu with Clients => 1 | _ => 0 end) (_get_openai_client env).
Proof. unfold _get_openai_client. destruct mu; py_costs. Qed.

(** A provider call sends one request at most, constructs one client at
    most and prints nothing. *)
Lemma summarize_with_claude_costs mu prompt :
  costs (measure_of mu) (match mu with Lines => 0 | _ => 1 end)
    (_summarize_with_claude env prompt).
Proof.
unfold _summarize_with_claude.
destruct mu; py_costs_with ltac:(apply get_claude_client_costs).
Qed.

Lemma summarize_with_openai_costs mu prompt :
  costs (measure_of mu) (match mu with Lines => 0 | _ => 1 end)
    (_summarize_with_openai env prompt).
Proof.
unfold _summarize_with_openai.
destruct mu; py_costs_with ltac:(apply get_openai_client_costs).
Qed.

(** A provider call prints nothing. *)
Lemma summarize_with_claude_stdout prompt st :
  stdout (world (_summarize_with_claude env prompt st).2) = stdout (world st).
Proof.
symmetry. apply prefix_length_eq.
- apply summarize_with_claude_extends.
- pose proof (summarize_with_claude_costs Lines prompt st) as [_ H].
  simpl in H. unfold lines_printed in H. lia.
Qed.

Lemma summarize_with_openai_stdout prompt st :
  stdout (world (_summarize_with_openai env prompt st).2) = stdout (world st).
Proof.
symmetry. apply prefix_length_eq.
- apply summarize_with_openai_extends.
- pose proof (summarize_with_openai_costs Lines prompt st) as [_ H].
  simpl in H. unfold lines_printed in H. lia.
Qed.
End CountingCalls.
