(* ===== verification/Summarize.v ===== *)
(** [Summarizer.summarize]: the short-circuit on short content, prompt
    rendering, the dispatch on the provider inside [try], the [except]
    clause, and the theorems about them. *)

From Stdlib Require Import ZArith NArith String List Lia.
From stdpp Require Import base tactics option list numbers gmap strings.
From S2P Require Import Prelude Logic PyStr Format Config Provider.


(** ** Texts *)

(** The summary of an article without content. *)
Definition NO_CONTENT : pystr := lit "暂无内容摘要".

(** The content length below which no provider is called. *)
Definition SHORT_CONTENT : Z := 100.

(** [f"[警告] 未知的 LLM provider: {self.provider}"] *)
Definition warning_line (p : value) : pystr :=
  lit "[警告] 未知的 LLM provider: " ++ py_str p.

(** [f"[错误] LLM 摘要失败 ({article.title}): {e}"] *)
Definition error_line {RT : PyRuntime} (article : Article) (e : exn) : pystr :=
  lit "[错误] LLM 摘要失败 (" ++ title article ++ lit "): " ++ exn_str e.


Section Summarize.
Context {RT : PyRuntime} {FR : FieldRuntime} (env : Env).

(** ** Prompt rendering *)

(** The keyword arguments of the [format] call. *)
Definition prompt_kwargs (article : Article) : gmap pystr pystr :=
  <[lit "title" := title article]> (<[lit "content" := content article]> ∅).

(** [self.prompt_template.format(title=article.title, content=article.content)];
    only a [str] has the method [format]. *)
Definition render_prompt (template : value) (article : Article) : outcome exn pystr :=
  match template with
  | VStr t => py_format t (prompt_kwargs article)
  | other =>
      Raise (MkExn AttributeError
               (lit "'" ++ type_name other ++ lit "' object has no attribute 'format'"))
  end.

(** A part of a template that the call of [format] can fill: literal text,
    or a field named [title] or [content]. *)
Definition known_part (p : part) : bool :=
  match p with
  | PText _ => true
  | PField k => bool_decide (k = lit "title" \/ k = lit "content")
  end.

(** ** [summarize] *)

(** The body of the [try]: the dispatch on [self.provider]. *)
Definition dispatch (prompt : pystr) : M value :=
  p <- gets (fun st => provider (self st)) ;;
  if value_eqb p (lit "claude") then
    text <- _summarize_with_claude env prompt ;;
    ret (VStr text)
  else if value_eqb p (lit "openai") then
    _summarize_with_openai env prompt
  else
    print env (warning_line p) ;;
    ret VNone.

(** The [except Exception as e] clause. *)
Definition on_error (article : Article) (e : exn) : M value :=
  print env (error_line article e) ;;
  ret VNone.

(** [Summarizer.summarize] *)
Definition summarize (article : Article) : M value :=
  if (py_len (content article) <? SHORT_CONTENT)%Z then
    ret (VStr (if py_truthy (content article) then content article else NO_CONTENT))
  else
    template <- gets (fun st => prompt_template (self st)) ;;
    prompt <- lift_outcome (render_prompt template article) ;;
    try_except is_Exception (dispatch prompt) (on_error article).

End Summarize.

(** ** Concrete inputs *)

(** The articles of the specification's examples: no content, 50
    characters, 200 characters. *)
Definition ex_empty : Article := MkArticle (lit "A") [].
Definition ex_short : Article := MkArticle (lit "B") (replicate 50 120%N).
Definition ex_long : Article := MkArticle (lit "C") (replicate 200 120%N).

(** An environment in which imports and constructors succeed, Claude
    answers with one text block and OpenAI fails with a rate-limit error. *)
Definition ex_env : Env := {|
  env_import _ := None;
  env_new_client _ _ := None;
  env_messages_create _ _ _ _ _ := Ok [TextBlock (lit "summary")];
  env_chat_create _ _ _ _ _ :=
    Raise (MkExn (ExternalError (lit "RateLimitError")) (lit "429"));
  env_print _ _ := None;
|}.

(** A fresh instance for a configuration, in an empty world. *)
Definition ex_state (config : gmap string value) : State :=
  MkState (__init__ config) (MkWorld [] []).

(** Configurations: all defaults, another provider, an unknown provider, a
    prompt template holding a JSON object. *)
Definition ex_openai : gmap string value := {["provider" := VStr (lit "openai")]}.
Definition ex_mystery : gmap string value := {["provider" := VStr (lit "mystery")]}.
Definition ex_json_prompt : gmap string value :=
  {["summary_prompt" := VStr (lit "{'summary': '{content}'}")]}.

(** The same instance after a first call to Claude: the client is cached. *)
Definition ex_warm : State :=
  MkState (set_client (Some (AnthropicClient VNone)) (__init__ ∅)) (MkWorld [] []).

(** The prompt of [ex_long] under the built-in template. *)
Definition ex_prompt : pystr :=
  PROMPT_HEAD ++ title ex_long ++ PROMPT_MID ++ content ex_long ++ PROMPT_TAIL.

(** An environment without the SDKs: every import fails. *)
Definition ex_env_no_sdk : Env := {|
  env_import name := Some (MkExn ImportError (lit "No module named 'anthropic'"));
  env_new_client _ _ := None;
  env_messages_create _ _ _ _ _ := Ok [TextBlock (lit "summary")];
  env_chat_create _ _ _ _ _ := Ok (MkChat [VStr (lit "summary")]);
  env_print _ _ := None;
|}.

(** An environment whose standard output is encoded in ASCII: a line with
    another code point raises [UnicodeEncodeError].  OpenAI fails as in
    [ex_env]. *)
Definition ex_env_ascii : Env := {|
  env_import _ := None;
  env_new_client _ _ := None;
  env_messages_create _ _ _ _ _ := Ok [TextBlock (lit "summary")];
  env_chat_create _ _ _ _ _ :=
    Raise (MkExn (ExternalError (lit "RateLimitError")) (lit "429"));
  env_print _ line :=
    if forallb (fun c => (c <? 128)%N) line then None
    else Some (MkExn (ExternalError (lit "UnicodeEncodeError"))
                 (lit "'ascii' codec can't encode characters"));
|}.

(** An instance for OpenAI after a first call, and an instance whose
    provider was changed to [openai] after a first call to Claude. *)
Definition ex_warm_openai : State :=
  MkState (set_client (Some (openai_client_of (__init__ ex_openai))) (__init__ ex_openai))
    (MkWorld [] []).

Definition ex_stale : State :=
  MkState (set_client (Some (AnthropicClient VNone)) (__init__ ex_openai)) (MkWorld [] []).

(** A template with a field that [format] is not given. *)
Definition ex_parts_author : list part :=
  [PText (lit "By "); PField (lit "author"); PText (lit ": "); PField (lit "title")].

(** ** Prompt rendering *)

Section RenderLemmas.
Context {RT : PyRuntime} {FR : FieldRuntime}.
Implicit Types (a : Article).

Lemma prompt_kwargs_title a : prompt_kwargs a !! lit "title" = Some (title a).
Proof. unfold prompt_kwargs. apply lookup_insert_eq. Qed.

Lemma prompt_kwargs_content a : prompt_kwargs a !! lit "content" = Some (content a).
Proof.
unfold prompt_kwargs. rewrite lookup_insert_ne by (vm_compute; discriminate).
apply lookup_insert_eq.
Qed.

Lemma prompt_kwargs_other a k :
  k <> lit "title" -> k <> lit "content" -> prompt_kwargs a !! k = None.
Proof.
intros Ht Hc. unfold prompt_kwargs. by rewrite !lookup_insert_ne, lookup_empty.
Qed.

(** A name of ASCII characters that does not start with a digit and holds
    no character of the field syntax is a simple key, whatever the Unicode
    tables say of other characters. *)
Lemma simple_key_ascii c r :
  (c < 128)%N -> ((48 <=? c) && (c <=? 57))%N = false ->
  forallb key_char (c :: r) = true -> simple_key (c :: r) = true.
Proof.
intros Hc Hd Hk. unfold simple_key. rewrite Hk, andb_true_r.
apply bool_decide_eq_true. by rewrite (to_decimal_ascii c Hc), Hd.
Qed.

Lemma default_parts_ok : forallb part_ok default_parts = true.
Proof.
unfold default_parts. cbn [forallb part_ok]. rewrite !andb_true_l, andb_true_r.
apply andb_true_iff. split; by apply simple_key_ascii.
Qed.
(** The instantiation of a template succeeds exactly when every field is
    one of the two keyword arguments; the first other field is the
    [KeyError]. *)
Lemma substitute_known a ps :
  is_ok (substitute (prompt_kwargs a) ps) = forallb known_part ps.
Proof.
induction ps as [|[t|k] ps IH]; simpl; [done | by rewrite is_ok_outcome_map |].
destruct (decide (k = lit "title")) as [->|Ht].
- rewrite prompt_kwargs_title, is_ok_outcome_map, IH.
  by rewrite bool_decide_eq_true_2 by (by left).
- destruct (decide (k = lit "content")) as [->|Hc].
  + rewrite prompt_kwargs_content, is_ok_outcome_map, IH.
    by rewrite bool_decide_eq_true_2 by (by right).
  + rewrite (prompt_kwargs_other _ _ Ht Hc).
    by rewrite bool_decide_eq_false_2 by (by intros [?|?]).
Qed.

Lemma substitute_unknown a ps1 k ps2 :
  forallb known_part ps1 = true -> k <> lit "title" -> k <> lit "content" ->
  substitute (prompt_kwargs a) (ps1 ++ PField k :: ps2) = Raise (MkExn KeyError k).
Proof.
intros Hk Ht Hc. induction ps1 as [|p ps1 IH]; simpl.
- by rewrite (prompt_kwargs_other _ _ Ht Hc).
- simpl in Hk. apply andb_true_iff in Hk as [Hp Hk]. specialize (IH Hk).
  destruct p as [t|k']; simpl; [by rewrite IH |].
  apply bool_decide_eq_true in Hp as [-> | ->];
    [rewrite prompt_kwargs_title | rewrite prompt_kwargs_content]; by rewrite IH.
Qed.

(** The built-in prompt is the format string of [default_parts]. *)
Lemma render_default a :
  render_prompt (VStr _default_prompt) a = substitute (prompt_kwargs a) default_parts.
Proof.
unfold render_prompt. rewrite default_prompt_unparse.
apply py_format_unparse, default_parts_ok.
Qed.

(** It renders for every article. *)
Lemma render_default_ok a : is_ok (render_prompt (VStr _default_prompt) a) = true.
Proof.
rewrite render_default. unfold default_parts. cbn [substitute].
by rewrite prompt_kwargs_title, prompt_kwargs_content.
Qed.
End RenderLemmas.

(** ** [summarize] *)

Section SummarizeLemmas.
Context {RT : PyRuntime} {FR : FieldRuntime} (env : Env).
Implicit Types (a : Article) (st : State) (prompt : pystr).

(** Long content: the prompt is rendered, then the provider is called
    inside the [try]. *)
Lemma summarize_long a st :
  (SHORT_CONTENT <= py_len (content a))%Z ->
  summarize env a st =
    match render_prompt (prompt_template (self st)) a with
    | Raise e => (Raise e, st)
    | Ok prompt => try_except is_Exception (dispatch env prompt) (on_error env a) st
    end.
Proof.
intros Hlen. unfold summarize. rewrite (proj2 (Z.ltb_ge _ _) Hlen).
unfold bind at 1. unfold gets. cbn beta iota. unfold bind, lift_outcome.
by destruct (render_prompt _ _).
Qed.

(** Long content, with the template read from the instance. *)
Lemma summarize_long_bind a st :
  (SHORT_CONTENT <= py_len (content a))%Z ->
  summarize env a st =
    (prompt <- lift_outcome (render_prompt (prompt_template (self st)) a) ;;
     try_except is_Exception (dispatch env prompt) (on_error env a)) st.
Proof. intros Hlen. rewrite (summarize_long _ _ Hlen). unfold bind, lift_outcome.
by destruct (render_prompt _ _). Qed.

(** Long content whose prompt renders: the [try] statement runs. *)
Lemma summarize_rendered a st prompt :
  (SHORT_CONTENT <= py_len (content a))%Z ->
  render_prompt (prompt_template (self st)) a = Ok prompt ->
  summarize env a st = try_except is_Exception (dispatch env prompt) (on_error env a) st.
Proof. intros Hlen Hr. by rewrite (summarize_long _ _ Hlen), Hr. Qed.

Lemma dispatch_claude prompt st :
  provider (self st) = VStr (lit "claude") ->
  dispatch env prompt st =
    bind (_summarize_with_claude env prompt) (fun text => ret (VStr text)) st.
Proof.
intros Hp. unfold dispatch. unfold bind at 1. unfold gets. cbn beta iota.
by rewrite (proj2 (value_eqb_true _ _) Hp).
Qed.

Lemma dispatch_openai prompt st :
  provider (self st) = VStr (lit "openai") ->
  dispatch env prompt st = _summarize_with_openai env prompt st.
Proof.
intros Hp. unfold dispatch. unfold bind at 1. unfold gets. cbn beta iota.
rewrite (proj2 (value_eqb_false _ (lit "claude"))) by (rewrite Hp; vm_compute; discriminate).
by rewrite (proj2 (value_eqb_true _ _) Hp).
Qed.

Lemma dispatch_unknown_bind prompt st :
  provider (self st) <> VStr (lit "claude") ->
  provider (self st) <> VStr (lit "openai") ->
  dispatch env prompt st =
    bind (print env (warning_line (provider (self st)))) (fun _ => ret VNone) st.
Proof.
intros Hc Ho. unfold dispatch. unfold bind at 1. unfold gets. cbn beta iota.
by rewrite (proj2 (value_eqb_false _ _) Hc), (proj2 (value_eqb_false _ _) Ho).
Qed.

Lemma dispatch_unknown prompt st :
  writable env ->
  provider (self st) <> VStr (lit "claude") ->
  provider (self st) <> VStr (lit "openai") ->
  dispatch env prompt st = (Ok VNone, log_line (warning_line (provider (self st))) st).
Proof.
intros Hw Hc Ho. rewrite (dispatch_unknown_bind _ _ Hc Ho). unfold bind.
by rewrite (print_run _ _ _ Hw).
Qed.

Lemma on_error_run a e st :
  writable env -> on_error env a e st = (Ok VNone, log_line (error_line a e) st).
Proof. intros Hw. unfold on_error, bind. by rewrite (print_run _ _ _ Hw). Qed.

(** With a standard output that takes every line, the [except] clause is
    the function that logs the error line. *)
Lemma try_writable (m : M value) a st :
  writable env ->
  try_except is_Exception m (on_error env a) st =
    try_except is_Exception m (fun e st' => (Ok VNone, log_line (error_line a e) st')) st.
Proof. intros Hw. apply try_except_ext. intros e st'. by apply on_error_run. Qed.

(** The warning of the dispatch, in the terms of the rules. *)
Lemma warn_extends p : extends evolves (bind (print env (warning_line p)) (fun _ => ret VNone)).
Proof.
apply extends_bind; [apply _ | apply print_extends | intros _; apply extends_ret, _].
Qed.

(** The cases of the provider, as a case analysis. *)
Lemma provider_cases st :
  provider (self st) = VStr (lit "claude") \/
  provider (self st) = VStr (lit "openai") \/
  (provider (self st) <> VStr (lit "claude") /\ provider (self st) <> VStr (lit "openai")).
Proof.
destruct (decide (provider (self st) = VStr (lit "claude"))); [by left |].
destruct (decide (provider (self st) = VStr (lit "openai"))); [by right; left |].
by right; right.
Qed.

Lemma dispatch_extends prompt : extends evolves (dispatch env prompt).
Proof.
intros st. destruct (provider_cases st) as [Hp|[Hp|[Hc Ho]]].
- rewrite (dispatch_claude _ _ Hp).
  apply extends_bind; [apply _ | apply summarize_with_claude_extends |].
  intros t. apply extends_ret, _.
- rewrite (dispatch_openai _ _ Hp). apply summarize_with_openai_extends.
- rewrite (dispatch_unknown_bind _ _ Hc Ho). apply warn_extends.
Qed.

Lemma dispatch_client_ok prompt : stable (fun st => client_ok (self st)) (dispatch env prompt).
Proof.
intros st Hok. destruct (provider_cases st) as [Hp|[Hp|[Hc Ho]]].
- rewrite (dispatch_claude _ _ Hp).
  refine (proj2 (stable_bind claude_inv _ _ _ _ st (conj Hp Hok))).
  + apply summarize_with_claude_stable.
  + intros t. apply stable_ret.
- rewrite (dispatch_openai _ _ Hp).
  exact (proj2 (summarize_with_openai_stable env prompt st (conj Hp Hok))).
- rewrite (dispatch_unknown_bind _ _ Hc Ho).
  revert st Hok Hc Ho. intros st Hok _ _. revert Hok.
  apply (stable_bind (fun st => client_ok (self st)));
    [apply (stable_keeps_self client_ok), print_keeps_self | intros _; apply stable_ret].
Qed.

Lemma dispatch_catchable prompt :
  env_catchable env -> raises_only (fun e => is_Exception e = true) (dispatch env prompt).
Proof.
intros Hcatch st e st'. destruct (provider_cases st) as [Hp|[Hp|[Hc Ho]]].
- rewrite (dispatch_claude _ _ Hp).
  apply (raises_only_bind (fun e => is_Exception e = true));
    [by apply summarize_with_claude_catchable |].
  intros t. apply raises_only_ret.
- rewrite (dispatch_openai _ _ Hp). by apply summarize_with_openai_catchable.
- rewrite (dispatch_unknown_bind _ _ Hc Ho).
  apply (raises_only_bind (fun e => is_Exception e = true));
    [by apply print_catchable | intros _; apply raises_only_ret].
Qed.
(** The [try] statement on a provider call [m] that the dispatch selects. *)
Lemma try_dispatch_claude a prompt st :
  provider (self st) = VStr (lit "claude") ->
  try_except is_Exception (dispatch env prompt) (on_error env a) st =
    try_except is_Exception
      (bind (_summarize_with_claude env prompt) (fun text => ret (VStr text)))
      (on_error env a) st.
Proof. intros Hp. unfold try_except. by rewrite (dispatch_claude _ _ Hp). Qed.

Lemma try_dispatch_openai a prompt st :
  provider (self st) = VStr (lit "openai") ->
  try_except is_Exception (dispatch env prompt) (on_error env a) st =
    try_except is_Exception (_summarize_with_openai env prompt) (on_error env a) st.
Proof. intros Hp. unfold try_except. by rewrite (dispatch_openai _ _ Hp). Qed.

Lemma try_dispatch_unknown a prompt st :
  writable env ->
  provider (self st) <> VStr (lit "claude") ->
  provider (self st) <> VStr (lit "openai") ->
  try_except is_Exception (dispatch env prompt) (on_error env a) st =
    (Ok VNone, log_line (warning_line (provider (self st))) st).
Proof. intros Hw Hc Ho. apply try_except_ok. by apply dispatch_unknown. Qed.

Lemma try_dispatch_unknown_bind a prompt st :
  provider (self st) <> VStr (lit "claude") ->
  provider (self st) <> VStr (lit "openai") ->
  try_except is_Exception (dispatch env prompt) (on_error env a) st =
    try_except is_Exception
      (bind (print env (warning_line (provider (self st)))) (fun _ => ret VNone))
      (on_error env a) st.
Proof. intros Hc Ho. unfold try_except. by rewrite (dispatch_unknown_bind _ _ Hc Ho). Qed.

Lemma on_error_costs mu a e :
  costs (measure_of mu) (match mu with Lines => 1 | _ => 0 end) (on_error env a e).
Proof. unfold on_error. destruct mu; py_costs. Qed.

(** The [try] statement sends one request at most, constructs one client at
    most and prints one line at most. *)
Lemma try_dispatch_costs mu a prompt :
  costs (measure_of mu) 1 (try_except is_Exception (dispatch env prompt) (on_error env a)).
Proof.
intros st. destruct (provider_cases st) as [Hp|[Hp|[Hc Ho]]].
- rewrite (try_dispatch_claude _ _ _ Hp). clear Hp. revert st.
  destruct mu;
    py_costs_with ltac:(first [apply summarize_with_claude_costs | apply on_error_costs]).
- rewrite (try_dispatch_openai _ _ _ Hp). clear Hp. revert st.
  destruct mu;
    py_costs_with ltac:(first [apply summarize_with_openai_costs | apply on_error_costs]).
- rewrite (try_dispatch_unknown_bind _ _ _ Hc Ho). unfold try_except, bind, print.
  destruct (env_print _ _ _) as [e|]; cbn [fst snd].
  + destruct (is_Exception e); [|simpl; lia].
    pose proof (on_error_costs mu a e st). destruct mu; simpl in *; lia.
  + destruct mu; simpl; unfold requests_made, clients_made; autorewrite with measure; lia.
Qed.

(** What [summarize] costs for an article: nothing when the content is
    short, and what the [try] statement costs otherwise. *)
Lemma summarize_costs mu a :
  costs (measure_of mu)
    (if (py_len (content a) <? SHORT_CONTENT)%Z then 0 else 1) (summarize env a).
Proof.
unfold summarize. destruct (_ <? _)%Z; [apply costs_ret |].
py_costs_with ltac:(apply try_dispatch_costs).
Qed.

(** What the handler prints: its line, or nothing when printing fails. *)
Lemma on_error_stdout a e st :
  let out' := stdout (world (on_error env a e st).2) in
  out' = stdout (world st) \/ out' = stdout (world st) ++ [error_line a e].
Proof.
unfold on_error, bind, print. destruct (env_print _ _ _); [by left | by right].
Qed.

Lemma try_stdout {A} a (m : M A) (k : A -> value) st :
  stdout (world (m st).2) = stdout (world st) ->
  let out := stdout (world st) in
  let out' := stdout (world (try_except is_Exception (bind m (fun x => ret (k x)))
                               (on_error env a) st).2) in
  out' = out \/ exists e, out' = out ++ [error_line a e].
Proof.
intros Hs. cbv zeta. unfold try_except, bind.
destruct (m st) as [[t|e] st1]; [by left |]. simpl in Hs.
destruct (is_Exception e); [|by left]. rewrite <- Hs.
destruct (on_error_stdout a e st1) as [->| ->]; [by left | right; by exists e].
Qed.

(** What [summarize] prints: nothing, the warning for an unknown provider,
    or one error line. *)
Lemma summarize_prints a st :
  let out := stdout (world st) in
  let out' := stdout (world (summarize env a st).2) in
  out' = out \/ out' = out ++ [warning_line (provider (self st))] \/
  exists e, out' = out ++ [error_line a e].
Proof.
cbv zeta. destruct (Z.lt_ge_cases (py_len (content a)) SHORT_CONTENT) as [Hlt|Hge].
{ unfold summarize. rewrite (proj2 (Z.ltb_lt _ _) Hlt). by left. }
rewrite (summarize_long _ _ Hge). destruct (render_prompt _ _) as [prompt|e]; [|by left].
destruct (provider_cases st) as [Hp|[Hp|[Hc Ho]]].
- rewrite (try_dispatch_claude _ _ _ Hp).
  destruct (try_stdout a _ VStr st (summarize_with_claude_stdout env prompt st));
    [by left | by right; right].
- rewrite (try_dispatch_openai _ _ _ Hp). unfold try_except.
  pose proof (summarize_with_openai_stdout env prompt st) as Hs.
  destruct (_summarize_with_openai env prompt st) as [[t|e] st1]; [by left |].
  destruct (is_Exception e); [|by left]. simpl in Hs. rewrite <- Hs.
  destruct (on_error_stdout a e st1) as [->| ->]; [by left | right; right; by exists e].
- rewrite (try_dispatch_unknown_bind _ _ _ Hc Ho). unfold try_except, bind, print.
  destruct (env_print _ _ _) as [e|]; [|by right; left]. cbn [fst snd].
  destruct (is_Exception e); [|by left].
  destruct (on_error_stdout a e st) as [->| ->]; [by left | right; right; by exists e].
Qed.

Lemma on_error_keeps_self a e : keeps_self (on_error env a e).
Proof. intros st. unfold on_error, bind, print. by destruct (env_print _ _ _). Qed.

Lemma on_error_extends a e : extends evolves (on_error env a e).
Proof.
apply extends_bind; [apply _ | apply print_extends | intros _; apply extends_ret, _].
Qed.

(** [summarize] in the terms of the rules: it only lets the state evolve,
    and it keeps the invariant of the client slot. *)
Lemma summarize_extends a : extends evolves (summarize env a).
Proof.
unfold summarize. destruct (_ <? _)%Z; [apply extends_ret, _ |].
apply extends_bind; [apply _ | apply extends_gets, _ | intros t].
apply extends_bind; [apply _ | apply extends_lift_outcome, _ | intros prompt].
apply extends_try_except; [apply _ | apply dispatch_extends | apply on_error_extends].
Qed.

Lemma summarize_stable a : stable (fun st => client_ok (self st)) (summarize env a).
Proof.
unfold summarize. destruct (_ <? _)%Z; [apply stable_ret |].
apply stable_bind; [apply stable_gets | intros t].
apply stable_bind; [apply stable_lift_outcome | intros prompt].
apply stable_try_except; [apply dispatch_client_ok | intros e].
apply (stable_keeps_self client_ok), on_error_keeps_self.
Qed.

(** With an environment that raises only [Exception]s and a standard output
    that takes every line, [summarize] returns whenever the prompt
    renders. *)
Lemma summarize_is_ok a st :
  env_catchable env -> writable env ->
  ((SHORT_CONTENT <= py_len (content a))%Z ->
   is_ok (render_prompt (prompt_template (self st)) a) = true) ->
  is_ok (summarize env a st).1 = true.
Proof.
intros Hcatch Hw Hr.
destruct (Z.lt_ge_cases (py_len (content a)) SHORT_CONTENT) as [Hlt|Hge].
- unfold summarize. by rewrite (proj2 (Z.ltb_lt _ _) Hlt).
- rewrite (summarize_long _ _ Hge). specialize (Hr Hge).
  destruct (render_prompt _ _) as [prompt|e]; [|done].
  apply try_except_total; [|intros e st'; by rewrite (on_error_run _ _ _ Hw)].
  intros e st'. by apply dispatch_catchable.
Qed.

(** What leaves the [try] statement: an exception of the body that is no
    [Exception], or the exception of the [print] of the handler. *)
Lemma try_dispatch_escapes a prompt st e st' :
  try_except is_Exception (dispatch env prompt) (on_error env a) st = (Raise e, st') ->
  is_Exception e = false \/
  exists e0, env_print env (stdout (world st')) (error_line a e0) = Some e.
Proof.
unfold try_except. destruct (dispatch env prompt st) as [[v|e0] st1]; [done |].
destruct (is_Exception e0) eqn:He0; [|intros [= <- <-]; by left].
unfold on_error, bind, print. destruct (env_print _ _ _) eqn:Hp; [|done].
intros [= <- <-]. right. by exists e0.
Qed.
End SummarizeLemmas.

(** ** Theorems on [summarize] *)

Section SummarizeTheorems.
Context {RT : PyRuntime} {FR : FieldRuntime} (env : Env).
Implicit Types (a : Article) (st : State) (prompt : pystr).

(** C1. An article whose content is not empty and shorter than 100 code
    points is summarized by its content, unchanged; the state is untouched:
    no provider is called, nothing is printed, no client is created. *)
Theorem summarize_short a st :
  (py_len (content a) < SHORT_CONTENT)%Z -> content a <> [] ->
  summarize env a st = (Ok (VStr (content a)), st).
Proof.
intros Hlen Hne. unfold summarize. rewrite (proj2 (Z.ltb_lt _ _) Hlen).
by destruct (content a).
Qed.

(** C2. An article with empty content is summarized by the fixed placeholder
    text, and the state is untouched. *)
Theorem summarize_empty a st :
  content a = [] -> summarize env a st = (Ok (VStr NO_CONTENT), st).
Proof. intros Hc. unfold summarize. by rewrite Hc. Qed.

(** C3. The built-in template renders to its literal parts around the title
    and the content of the article.  Both are inserted as they are: braces
    in them are not read as fields. *)
Theorem render_prompt_default a :
  render_prompt (VStr _default_prompt) a =
    Ok (PROMPT_HEAD ++ title a ++ PROMPT_MID ++ content a ++ PROMPT_TAIL).
Proof.
rewrite render_default. unfold default_parts. cbn [substitute].
rewrite prompt_kwargs_title, prompt_kwargs_content. cbn [outcome_map].
by rewrite app_nil_r.
Qed.

(** C4. For content of 100 code points or more whose prompt renders, a
    provider other than [claude] and [openai] yields [None]; one warning
    naming the provider is printed (the standard output taking every
    line), no call is made and no client is created. *)
Theorem summarize_unknown_provider a st prompt :
  writable env ->
  (SHORT_CONTENT <= py_len (content a))%Z ->
  render_prompt (prompt_template (self st)) a = Ok prompt ->
  provider (self st) <> VStr (lit "claude") ->
  provider (self st) <> VStr (lit "openai") ->
  summarize env a st = (Ok VNone, log_line (warning_line (provider (self st))) st).
Proof.
intros Hw Hlen Hr Hc Ho. rewrite (summarize_long _ _ _ Hlen), Hr.
apply try_except_ok. by apply dispatch_unknown.
Qed.

(** C5. With a cached Anthropic client and provider [claude], [summarize]
    sends exactly one request: the configured model, [max_tokens] 500 and
    the rendered prompt as the one user message.  The text of the first
    block of the answer is the summary; an answer without a first text
    block, or an [Exception] raised by the call, gives [None] and one error
    line with the title and the error (the standard output taking every
    line); an exception that is no [Exception] propagates. *)
Theorem summarize_claude_cached a st prompt k :
  writable env ->
  (SHORT_CONTENT <= py_len (content a))%Z ->
  render_prompt (prompt_template (self st)) a = Ok prompt ->
  provider (self st) = VStr (lit "claude") ->
  _client (self st) = Some (AnthropicClient k) ->
  summarize env a st =
    let request := MessagesCreate (AnthropicClient k) (model (self st)) 500
                     [MkMessage (lit "user") prompt] in
    let st1 := record_call request st in
    match env_messages_create env (calls (world st)) (AnthropicClient k)
            (model (self st)) 500 [MkMessage (lit "user") prompt] with
    | Ok blocks =>
        match first_text blocks with
        | Ok text => (Ok (VStr text), st1)
        | Raise e => (Ok VNone, log_line (error_line a e) st1)
        end
    | Raise e =>
        if is_Exception e then (Ok VNone, log_line (error_line a e) st1)
        else (Raise e, st1)
    end.
Proof.
intros Hw Hlen Hr Hp Hc. rewrite (summarize_long _ _ _ Hlen), Hr.
rewrite (try_writable _ _ _ _ Hw).
unfold try_except. rewrite (dispatch_claude _ _ _ Hp). unfold bind.
rewrite (summarize_with_claude_cached _ _ _ _ Hc). unfold user_message. cbv zeta.
destruct (env_messages_create _ _ _ _ _ _) as [bs|e]; [|done].
by destruct bs as [|[t|cls] bs].
Qed.

(** C7. [summarize] absorbs every failure of the provider path: when the
    prompt renders and the environment raises only [Exception]s,
    [summarize] returns and does not raise. *)
Theorem summarize_never_raises a st :
  env_catchable env -> writable env ->
  ((SHORT_CONTENT <= py_len (content a))%Z ->
   is_ok (render_prompt (prompt_template (self st)) a) = true) ->
  exists v, (summarize env a st).1 = Ok v.
Proof.
intros Hcatch Hw Hr. pose proof (summarize_is_ok env a st Hcatch Hw Hr) as Hok.
destruct (summarize env a st).1 as [v|e]; [by exists v | done].
Qed.

(** C8. The prompt is rendered before the [try]: when [format] raises on the
    template, [summarize] raises the same exception to its caller and
    leaves the state untouched. *)
Theorem summarize_bad_template_raises a st e :
  (SHORT_CONTENT <= py_len (content a))%Z ->
  render_prompt (prompt_template (self st)) a = Raise e ->
  summarize env a st = (Raise e, st).
Proof. intros Hlen Hr. by rewrite (summarize_long _ _ _ Hlen), Hr. Qed.

(** C34. The only exceptions that leave [summarize] are those of prompt
    rendering, with the state untouched, those that are no [Exception],
    and the exception of the [print] of the error line in the [except]
    clause. *)
Theorem summarize_escapes a st e st' :
  summarize env a st = (Raise e, st') ->
  (render_prompt (prompt_template (self st)) a = Raise e /\ st' = st) \/
  is_Exception e = false \/
  exists e0, env_print env (stdout (world st')) (error_line a e0) = Some e.
Proof.
destruct (Z.lt_ge_cases (py_len (content a)) SHORT_CONTENT) as [Hlt|Hge].
- unfold summarize. by rewrite (proj2 (Z.ltb_lt _ _) Hlt).
- rewrite (summarize_long _ _ _ Hge).
  destruct (render_prompt _ _) as [prompt|e0]; [|intros [= <- <-]; by left].
  intros Hr. right. by apply (try_dispatch_escapes env a prompt st).
Qed.
End SummarizeTheorems.

(** ** The provider path of [summarize] *)

(** Run a [try] statement whose body has been rewritten to its outcome:
    every case of the outcome, with the [except] clause computed. *)
Ltac py_run :=
  unfold ret, on_error, print, modify, bind in *; repeat case_match; simplify_eq/=.

(** The same, for a goal on the numbers of requests and of clients. *)
Ltac py_count :=
  py_run; unfold requests_made, clients_made; autorewrite with measure; simpl; lia.

Section SummarizeProviders.
Context {RT : PyRuntime} {FR : FieldRuntime} (env : Env).
Implicit Types (a : Article) (st : State) (prompt : pystr) (c : Client).

(** The scan of a template ends: with any fuel above the length of the
    template the loop of the renderer gives the result of [render_prompt],
    so the fuel of the model is never used up. *)
Theorem render_prompt_fuel t a fuel :
  length t < fuel ->
  build_string fuel (prompt_kwargs a) t = render_prompt (VStr t) a.
Proof. intros Hf. unfold render_prompt. by apply py_format_fuel. Qed.

(** C6. With a cached OpenAI client and provider [openai], [summarize]
    sends exactly one request: the configured OpenAI model, [max_tokens]
    500 and the rendered prompt as the one user message.  The content of
    the first choice is the summary, [None] included; a response without
    choices or an [Exception] of the call gives [None] and one error line
    (the standard output taking every line); an exception that is no
    [Exception] propagates. *)
Theorem summarize_openai_cached a st prompt k b :
  writable env ->
  (SHORT_CONTENT <= py_len (content a))%Z ->
  render_prompt (prompt_template (self st)) a = Ok prompt ->
  provider (self st) = VStr (lit "openai") ->
  _client (self st) = Some (OpenAIClient k b) ->
  summarize env a st =
    let request := ChatCompletionsCreate (OpenAIClient k b) (openai_model (self st)) 500
                     [MkMessage (lit "user") prompt] in
    let st1 := record_call request st in
    match env_chat_create env (calls (world st)) (OpenAIClient k b)
            (openai_model (self st)) 500 [MkMessage (lit "user") prompt] with
    | Ok r =>
        match first_choice r with
        | Ok v => (Ok v, st1)
        | Raise e => (Ok VNone, log_line (error_line a e) st1)
        end
    | Raise e =>
        if is_Exception e then (Ok VNone, log_line (error_line a e) st1)
        else (Raise e, st1)
    end.
Proof.
intros Hw Hlen Hr Hp Hc. rewrite (summarize_rendered _ _ _ _ Hlen Hr).
rewrite (try_dispatch_openai _ _ _ _ Hp), (try_writable _ _ _ _ Hw). unfold try_except.
rewrite (summarize_with_openai_cached _ _ _ _ _ Hc). unfold user_message, first_choice.
cbv zeta. destruct (env_chat_create _ _ _ _ _ _) as [r|e]; [|done].
by destruct (choices r).
Qed.

(** C9. The first call on long content constructs the client of the
    configured provider from the credentials of the instance, stores it in
    the slot, and goes on as a call that finds it there. *)
Theorem summarize_fresh a st prompt c st1 :
  (SHORT_CONTENT <= py_len (content a))%Z ->
  render_prompt (prompt_template (self st)) a = Ok prompt ->
  client_of (self st) = Some c -> _client (self st) = None ->
  construct env c st = (None, st1) ->
  summarize env a st = summarize env a (with_self (set_client (Some c)) st1).
Proof.
intros Hlen Hr Hcl Hc Hcon.
assert (Hself : self st1 = self st) by (by rewrite <- (construct_self env c st), Hcon).
rewrite (summarize_rendered _ _ _ _ Hlen Hr).
rewrite (summarize_rendered _ _ _ prompt Hlen) by (simpl; by rewrite Hself).
apply client_of_Some in Hcl as [[Hp ->]|[Hp ->]].
- rewrite !try_dispatch_claude by (simpl; by rewrite ?Hself). unfold try_except, bind.
  by rewrite (summarize_with_claude_construct _ _ _ Hc), Hcon.
- rewrite !try_dispatch_openai by (simpl; by rewrite ?Hself). unfold try_except.
  by rewrite (summarize_with_openai_construct _ _ _ Hc), Hcon.
Qed.

(** C10. When the SDK cannot be imported or the constructor of the client
    raises, [summarize] gives [None] with one error line (the standard
    output taking every line) and sends no request; the slot stays empty,
    so the next call tries again. *)
Theorem summarize_unavailable a st prompt c e st1 :
  writable env ->
  (SHORT_CONTENT <= py_len (content a))%Z ->
  render_prompt (prompt_template (self st)) a = Ok prompt ->
  client_of (self st) = Some c -> _client (self st) = None ->
  construct env c st = (Some e, st1) -> is_Exception e = true ->
  summarize env a st = (Ok VNone, log_line (error_line a e) st1) /\
  _client (self st1) = None /\ requests_of st1 = requests_of st.
Proof.
intros Hw Hlen Hr Hcl Hc Hcon He. split; [|split].
- rewrite (summarize_rendered _ _ _ _ Hlen Hr).
  apply client_of_Some in Hcl as [[Hp ->]|[Hp ->]].
  + rewrite (try_dispatch_claude _ _ _ _ Hp), (try_writable _ _ _ _ Hw).
    unfold try_except, bind.
    by rewrite (summarize_with_claude_construct _ _ _ Hc), Hcon, He.
  + rewrite (try_dispatch_openai _ _ _ _ Hp), (try_writable _ _ _ _ Hw).
    unfold try_except.
    by rewrite (summarize_with_openai_construct _ _ _ Hc), Hcon, He.
- by rewrite <- Hc, <- (construct_self env c st), Hcon.
- by rewrite <- (construct_requests env c st), Hcon.
Qed.

(** The slot is shared by the two getters, which do not look at the
    class of what it holds: if the provider is [openai] while the slot
    holds an Anthropic client, the request is never sent and [summarize]
    gives [None] with the [AttributeError] in the error line (the standard
    output taking every line). *)
Theorem summarize_stale_client a st prompt k :
  writable env ->
  (SHORT_CONTENT <= py_len (content a))%Z ->
  render_prompt (prompt_template (self st)) a = Ok prompt ->
  provider (self st) = VStr (lit "openai") ->
  _client (self st) = Some (AnthropicClient k) ->
  summarize env a st =
    (Ok VNone,
     log_line (error_line a (MkExn AttributeError
                               (lit "'Anthropic' object has no attribute 'chat'"))) st).
Proof.
intros Hw Hlen Hr Hp Hc. rewrite (summarize_rendered _ _ _ _ Hlen Hr).
rewrite (try_dispatch_openai _ _ _ _ Hp), (try_writable _ _ _ _ Hw). unfold try_except.
by rewrite (summarize_with_openai_stale _ _ _ _ Hc).
Qed.

(** C35. The [except] clause prints, and printing can fail: when the provider
    path raises an [Exception] and the standard output refuses the error
    line, the exception of [print] leaves [summarize], in place of the
    [None] its callers expect; what the provider path did stays done. *)
Theorem summarize_handler_raises a st prompt e st1 e' :
  (SHORT_CONTENT <= py_len (content a))%Z ->
  render_prompt (prompt_template (self st)) a = Ok prompt ->
  dispatch env prompt st = (Raise e, st1) -> is_Exception e = true ->
  env_print env (stdout (world st1)) (error_line a e) = Some e' ->
  summarize env a st = (Raise e', st1).
Proof.
intros Hlen Hr Hd He Hp. rewrite (summarize_rendered _ _ _ _ Hlen Hr).
rewrite (try_except_caught _ _ _ _ _ _ Hd He). unfold on_error, bind, print.
by rewrite Hp.
Qed.

(** One call of [summarize] sends one request at most, constructs one
    client at most and prints one line at most; none of the three counts
    ever goes down. *)
Theorem summarize_at_most_one a st :
  let st' := (summarize env a st).2 in
  requests_made st <= requests_made st' <= requests_made st + 1 /\
  clients_made st <= clients_made st' <= clients_made st + 1 /\
  lines_printed st <= lines_printed st' <= lines_printed st + 1.
Proof.
cbv zeta.
pose proof (summarize_costs env Requests a st) as Hr.
pose proof (summarize_costs env Clients a st) as Hc.
pose proof (summarize_costs env Lines a st) as Hl.
simpl in *. revert Hr Hc Hl. destruct (_ <? _)%Z; lia.
Qed.

(** Summaries are not cached: with the client of the configured
    provider in the slot, every call on long content whose prompt renders
    sends one more request, whatever was asked before and whatever the
    provider answers; no client is constructed. *)
Theorem summarize_always_requests a st prompt c :
  (SHORT_CONTENT <= py_len (content a))%Z ->
  render_prompt (prompt_template (self st)) a = Ok prompt ->
  client_of (self st) = Some c -> _client (self st) = Some c ->
  let st' := (summarize env a st).2 in
  requests_made st' = S (requests_made st) /\ clients_made st' = clients_made st.
Proof.
intros Hlen Hr Hcl Hc. cbv zeta. rewrite (summarize_rendered _ _ _ _ Hlen Hr).
apply client_of_Some in Hcl as [[Hp ->]|[Hp ->]].
- rewrite (try_dispatch_claude _ _ _ _ Hp). unfold try_except, bind.
  rewrite (summarize_with_claude_cached _ _ _ _ Hc).
  py_count.
- rewrite (try_dispatch_openai _ _ _ _ Hp). unfold try_except.
  rewrite (summarize_with_openai_cached _ _ _ _ _ Hc).
  py_count.
Qed.

(** A client in the slot is reused: whatever the provider and the
    article, [summarize] constructs no client when the slot is not empty. *)
Theorem summarize_reuses_client a st c :
  _client (self st) = Some c ->
  clients_made (summarize env a st).2 = clients_made st.
Proof.
intros Hc. unfold summarize. destruct (_ <? _)%Z; [done |].
unfold bind at 1. unfold gets. cbn beta iota. unfold bind, lift_outcome.
destruct (render_prompt _ _) as [prompt|e]; [|done].
destruct (provider_cases st) as [Hp|[Hp|[Hn Ho]]].
- rewrite (try_dispatch_claude _ _ _ _ Hp). unfold try_except, bind.
  destruct c as [k|k b].
  + rewrite (summarize_with_claude_cached _ _ _ _ Hc).
    py_count.
  + rewrite (summarize_with_claude_stale _ _ _ _ _ Hc). py_count.
- rewrite (try_dispatch_openai _ _ _ _ Hp). unfold try_except.
  destruct c as [k|k b].
  + rewrite (summarize_with_openai_stale _ _ _ _ Hc). py_count.
  + rewrite (summarize_with_openai_cached _ _ _ _ _ Hc).
    py_count.
- rewrite (try_dispatch_unknown_bind _ _ _ _ Hn Ho). unfold try_except.
  py_count.
Qed.
End SummarizeProviders.

(** ** The theorems at concrete inputs *)

Lemma ex_env_catchable : env_catchable ex_env.
Proof. split; simpl; intros; by simplify_eq. Qed.

Lemma ex_env_writable : writable ex_env.
Proof. by intros out line. Qed.

Lemma ex_env_no_sdk_writable : writable ex_env_no_sdk.
Proof. by intros out line. Qed.

Lemma summarize_short_witness :
  summarize (RT:=ascii_runtime) (FR:=no_special) ex_env ex_short (ex_state ∅)
  = (Ok (VStr (content ex_short)), ex_state ∅).
Proof. apply summarize_short; [by vm_compute | discriminate]. Defined.

Lemma summarize_empty_witness :
  summarize (RT:=ascii_runtime) (FR:=no_special) ex_env ex_empty (ex_state ∅)
  = (Ok (VStr NO_CONTENT), ex_state ∅).
Proof. apply summarize_empty. reflexivity. Defined.

Lemma summarize_unknown_provider_witness :
  summarize (RT:=ascii_runtime) (FR:=no_special) ex_env ex_long (ex_state ex_mystery)
  = (Ok VNone,
     log_line (warning_line (provider (self (ex_state ex_mystery)))) (ex_state ex_mystery)).
Proof.
apply (summarize_unknown_provider (RT:=ascii_runtime) (FR:=no_special)
         ex_env ex_long (ex_state ex_mystery) ex_prompt);
  [exact ex_env_writable | by vm_compute | vm_compute; reflexivity | vm_compute; discriminate..].
Defined.

Lemma summarize_claude_cached_witness :
  summarize (RT:=ascii_runtime) (FR:=no_special) ex_env ex_long ex_warm
  = (Ok (VStr (lit "summary")),
     record_call (MessagesCreate (AnthropicClient VNone)
                    (VStr (lit "claude-sonnet-4-20250514")) 500
                    [MkMessage (lit "user") ex_prompt]) ex_warm).
Proof.
apply (summarize_claude_cached (RT:=ascii_runtime) (FR:=no_special)
         ex_env ex_long ex_warm ex_prompt VNone);
  [exact ex_env_writable | by vm_compute | vm_compute; reflexivity | reflexivity | reflexivity].
Defined.

Lemma summarize_never_raises_witness :
  exists v, (summarize (RT:=ascii_runtime) (FR:=no_special) ex_env ex_long
               (ex_state ex_openai)).1 = Ok v.
Proof.
apply summarize_never_raises;
  [exact ex_env_catchable | exact ex_env_writable | intros _; vm_compute; reflexivity].
Defined.

Lemma summarize_bad_template_raises_witness :
  summarize (RT:=ascii_runtime) (FR:=no_special) ex_env ex_long (ex_state ex_json_prompt)
  = (Raise (MkExn KeyError (lit "'summary'")), ex_state ex_json_prompt).
Proof.
apply summarize_bad_template_raises; [by vm_compute | vm_compute; reflexivity].
Defined.

Lemma summarize_escapes_witness :
  (render_prompt (RT:=ascii_runtime) (FR:=no_special)
     (prompt_template (self (ex_state ex_json_prompt))) ex_long
   = Raise (MkExn KeyError (lit "'summary'"))
   /\ ex_state ex_json_prompt = ex_state ex_json_prompt)
  \/ is_Exception (MkExn KeyError (lit "'summary'")) = false
  \/ exists e0,
       env_print ex_env (stdout (world (ex_state ex_json_prompt)))
         (error_line (RT:=ascii_runtime) ex_long e0)
       = Some (MkExn KeyError (lit "'summary'")).
Proof.
apply (summarize_escapes (RT:=ascii_runtime) (FR:=no_special) ex_env ex_long).
vm_compute. reflexivity.
Defined.


Lemma render_prompt_fuel_witness :
  build_string (RT:=ascii_runtime) (FR:=no_special) 100 (prompt_kwargs ex_long)
    _default_prompt
  = render_prompt (RT:=ascii_runtime) (FR:=no_special) (VStr _default_prompt) ex_long.
Proof. apply render_prompt_fuel. vm_compute. lia. Defined.

Lemma summarize_openai_cached_witness :
  summarize (RT:=ascii_runtime) (FR:=no_special) ex_env ex_long ex_warm_openai
  = (Ok VNone,
     log_line
       (error_line (RT:=ascii_runtime) ex_long
          (MkExn (ExternalError (lit "RateLimitError")) (lit "429")))
       (record_call
          (ChatCompletionsCreate
             (OpenAIClient VNone (VStr (lit "https://api.openai.com/v1")))
             (VStr (lit "gpt-4o-mini")) 500 [MkMessage (lit "user") ex_prompt])
          ex_warm_openai)).
Proof.
apply (summarize_openai_cached (RT:=ascii_runtime) (FR:=no_special)
         ex_env ex_long ex_warm_openai ex_prompt VNone
         (VStr (lit "https://api.openai.com/v1")));
  [exact ex_env_writable | by vm_compute | vm_compute; reflexivity | reflexivity | reflexivity].
Defined.

Lemma summarize_fresh_witness :
  summarize (RT:=ascii_runtime) (FR:=no_special) ex_env ex_long (ex_state ∅)
  = summarize (RT:=ascii_runtime) (FR:=no_special) ex_env ex_long
      (with_self (set_client (Some (AnthropicClient VNone)))
         (record_call (NewClient (AnthropicClient VNone)) (ex_state ∅))).
Proof.
apply (summarize_fresh (RT:=ascii_runtime) (FR:=no_special) ex_env ex_long (ex_state ∅)
         ex_prompt);
  [by vm_compute | vm_compute; reflexivity | vm_compute; reflexivity
  | reflexivity | reflexivity].
Defined.

Lemma summarize_unavailable_witness :
  summarize (RT:=ascii_runtime) (FR:=no_special) ex_env_no_sdk ex_long (ex_state ∅)
  = (Ok VNone,
     log_line
       (error_line (RT:=ascii_runtime) ex_long
          (MkExn ImportError (lit "No module named 'anthropic'")))
       (ex_state ∅))
  /\ _client (self (ex_state ∅)) = None
  /\ requests_of (ex_state ∅) = requests_of (ex_state ∅).
Proof.
apply (summarize_unavailable (RT:=ascii_runtime) (FR:=no_special) ex_env_no_sdk ex_long
         (ex_state ∅) ex_prompt (AnthropicClient VNone));
  [exact ex_env_no_sdk_writable | by vm_compute | vm_compute; reflexivity | vm_compute; reflexivity
  | reflexivity | reflexivity | reflexivity].
Defined.

Lemma summarize_stale_client_witness :
  summarize (RT:=ascii_runtime) (FR:=no_special) ex_env ex_long ex_stale
  = (Ok VNone,
     log_line
       (error_line (RT:=ascii_runtime) ex_long
          (MkExn AttributeError (lit "'Anthropic' object has no attribute 'chat'")))
       ex_stale).
Proof.
apply (summarize_stale_client (RT:=ascii_runtime) (FR:=no_special) ex_env ex_long ex_stale
         ex_prompt VNone);
  [exact ex_env_writable | by vm_compute | vm_compute; reflexivity | vm_compute; reflexivity | reflexivity].
Defined.

Lemma summarize_handler_raises_witness :
  summarize (RT:=ascii_runtime) (FR:=no_special) ex_env_ascii ex_long ex_warm_openai
  = (Raise (MkExn (ExternalError (lit "UnicodeEncodeError"))
              (lit "'ascii' codec can't encode characters")),
     record_call
       (ChatCompletionsCreate
          (OpenAIClient VNone (VStr (lit "https://api.openai.com/v1")))
          (VStr (lit "gpt-4o-mini")) 500 [MkMessage (lit "user") ex_prompt])
       ex_warm_openai).
Proof.
apply (summarize_handler_raises (RT:=ascii_runtime) (FR:=no_special) ex_env_ascii ex_long
         ex_warm_openai ex_prompt
         (MkExn (ExternalError (lit "RateLimitError")) (lit "429")));
  [by vm_compute | vm_compute; reflexivity | vm_compute; reflexivity
  | reflexivity | vm_compute; reflexivity].
Defined.

Lemma summarize_always_requests_witness :
  requests_made (summarize (RT:=ascii_runtime) (FR:=no_special) ex_env ex_long ex_warm).2
    = S (requests_made ex_warm)
  /\ clients_made (summarize (RT:=ascii_runtime) (FR:=no_special) ex_env ex_long ex_warm).2
    = clients_made ex_warm.
Proof.
apply (summarize_always_requests (RT:=ascii_runtime) (FR:=no_special) ex_env ex_long
         ex_warm ex_prompt (AnthropicClient VNone));
  [by vm_compute | vm_compute; reflexivity | vm_compute; reflexivity | reflexivity].
Defined.

Lemma summarize_reuses_client_witness :
  clients_made (summarize (RT:=ascii_runtime) (FR:=no_special) ex_env ex_long ex_warm).2
  = clients_made ex_warm.
Proof.
apply (summarize_reuses_client (RT:=ascii_runtime) (FR:=no_special) ex_env ex_long ex_warm
         (AnthropicClient VNone)).
reflexivity.
Defined.

