(* ===== verification/Batch.v ===== *)
(** [Summarizer.summarize_batch]: the sequential loop over
    [articles[:max_articles]] with its progress lines, the same batch as a
    map of [summarize], and the theorems about them. *)

From Stdlib Require Import ZArith NArith String List Lia.
From stdpp Require Import base tactics option list numbers gmap strings.
From S2P Require Import Prelude Logic PyStr Format Config Provider Summarize.


(** [f"[摘要] ({i+1}/{min(len(articles), max_articles)}) {article.title[:50]}..."] *)
Definition progress_line (i : Z) (n_articles max_articles : Z) (article : Article) : pystr :=
  lit "[摘要] (" ++ str_of_int (i + 1) ++ lit "/"
    ++ str_of_int (Z.min n_articles max_articles) ++ lit ") "
    ++ py_slice_to (title article) 50 ++ lit "...".

Section Batch.
Context {RT : PyRuntime} {FR : FieldRuntime} (env : Env).

(** One round of the loop: the progress line, the summary, the append. *)
Definition batch_step (n_articles max_articles : Z) (i : Z) (article : Article)
    (results : list (Article * value)) : M (list (Article * value)) :=
  print env (progress_line i n_articles max_articles article) ;;
  summary <- summarize env article ;;
  ret (results ++ [(article, summary)]).

(** [Summarizer.summarize_batch] *)
Definition summarize_batch (articles : list Article) (max_articles : Z)
    : M (list (Article * value)) :=
  for_enumerate (batch_step (py_len articles) max_articles) 0
    (py_slice_to articles max_articles) [].

(** The batch as a map: the results of the articles in order, each article
    with the summary [summarize] gave for it after its progress line.  The
    loop of [summarize_batch] computes it by appending to [results]. *)
Fixpoint batch_ref (n_articles max_articles : Z) (i : Z) (l : list Article)
    : M (list (Article * value)) :=
  match l with
  | [] => ret []
  | article :: l' =>
      print env (progress_line i n_articles max_articles article) ;;
      summary <- summarize env article ;;
      rest <- batch_ref n_articles max_articles (i + 1) l' ;;
      ret ((article, summary) :: rest)
  end.
End Batch.

(** What an article adds to a measure of the world at most: its progress
    line, and for long content one request, one client and one more
    line. *)
Definition item_cost (mu : measure) (a : Article) : nat :=
  match mu with Lines => 1 | _ => 0 end
  + (if (py_len (content a) <? SHORT_CONTENT)%Z then 0 else 1).

(** The articles of a list whose content is long enough for a provider
    call. *)
Definition long_articles (l : list Article) : list Article :=
  List.filter (fun a => negb (py_len (content a) <? SHORT_CONTENT)%Z) l.

(** The progress lines among the lines printed.  A progress line differs
    from a warning and from an error line in its second code point. *)
Definition PROGRESS_MARK : N := nth 1 (lit "[摘要]") 0%N.

Definition is_progress (line : pystr) : bool :=
  match line with
  | _ :: c :: _ => (c =? PROGRESS_MARK)%N
  | _ => false
  end.

Definition progress_of (out : list pystr) : list pystr := List.filter is_progress out.

(** The progress lines of the articles [l], numbered from [i]. *)
Fixpoint progress_lines (n_articles max_articles : Z) (i : Z) (l : list Article)
    : list pystr :=
  match l with
  | [] => []
  | a :: l' =>
      progress_line i n_articles max_articles a
        :: progress_lines n_articles max_articles (i + 1) l'
  end.

(** The default of [max_articles]. *)
Definition DEFAULT_MAX_ARTICLES : Z := 10.

(** Fifteen articles, and the run of a batch over them, with the two
    runtimes restricted to what the built-in prompt needs. *)
Definition ex_articles : list Article :=
  concat (replicate 5 [ex_empty; ex_short; ex_long]).

Definition ex_batch (config : gmap string value) (arts : list Article) (n : Z)
    : outcome exn (list (Article * value)) * State :=
  summarize_batch (RT:=ascii_runtime) (FR:=no_special) ex_env arts n (ex_state config).

(** ** Theorems on [summarize_batch] *)

Section BatchTheorems.
Context {RT : PyRuntime} {FR : FieldRuntime} (env : Env).
Implicit Types (a : Article) (st : State) (l arts : list Article)
  (rs acc : list (Article * value)).

Lemma batch_step_run N n i a acc st :
  batch_step env N n i a acc st =
    match env_print env (stdout (world st)) (progress_line i N n a) with
    | Some e => (Raise e, st)
    | None =>
        match summarize env a (log_line (progress_line i N n a) st) with
        | (Ok v, st') => (Ok (acc ++ [(a, v)]), st')
        | (Raise e, st') => (Raise e, st')
        end
    end.
Proof.
unfold batch_step. unfold bind at 1. unfold print.
destruct (env_print _ _ _); [done |]. unfold bind.
by destruct (summarize _ _ _) as [[v|e] st'].
Qed.

(** The loop appends to [results] what the map puts in front. *)
Lemma batch_loop_ref N n l i acc st :
  for_enumerate (batch_step env N n) i l acc st =
    bind (batch_ref env N n i l) (fun rs => ret (acc ++ rs)) st.
Proof.
revert i acc st. induction l as [|a l IH]; intros i acc st; simpl.
- unfold bind, ret. by rewrite app_nil_r.
- unfold bind. rewrite batch_step_run. unfold print.
  destruct (env_print _ _ _); [done |].
  destruct (summarize _ _ _) as [[v|e] st1]; [|done].
  rewrite IH. unfold bind, ret.
  destruct (batch_ref _ _ _ _ _ _) as [[rs|e] st2]; [|done].
  by rewrite <- app_assoc.
Qed.

(** [summarize_batch] is the map of [summarize] over
    [articles[:max_articles]]: the loop that appends to [results] returns
    the same list, raises the same exception and leaves the same state. *)
Theorem batch_as_map arts n st :
  summarize_batch env arts n st =
    batch_ref env (py_len arts) n 0 (py_slice_to arts n) st.
Proof.
unfold summarize_batch. rewrite batch_loop_ref. apply bind_ret_r.
Qed.

Lemma batch_ref_articles N n l i st rs st' :
  batch_ref env N n i l st = (Ok rs, st') -> map fst rs = l.
Proof.
revert i st rs st'. induction l as [|a l IH]; intros i st rs st'; simpl.
- unfold ret. by intros [= <- ?].
- intros (u & st1 & _ & Hr)%bind_ok_inv.
  apply bind_ok_inv in Hr as (v & st2 & _ & Hr).
  apply bind_ok_inv in Hr as (rest & st3 & Hrest & Hr).
  unfold ret in Hr. injection Hr as <- _.
  simpl. f_equal. by eapply IH.
Qed.

(** What a loop that returns has appended to [results]: one pair for each
    article, in order. *)
Lemma batch_loop_articles N n l i acc st rs st' :
  for_enumerate (batch_step env N n) i l acc st = (Ok rs, st') ->
  map fst rs = map fst acc ++ l.
Proof.
rewrite batch_loop_ref. intros (rs' & st1 & Hr & Hret)%bind_ok_inv.
unfold ret in Hret. injection Hret as <- _.
by rewrite map_app, (batch_ref_articles _ _ _ _ _ _ _ Hr).
Qed.

Lemma batch_loop_length N n l i acc st rs st' :
  for_enumerate (batch_step env N n) i l acc st = (Ok rs, st') ->
  py_len rs = (py_len acc + py_len l)%Z.
Proof.
intros Hb%batch_loop_articles. unfold py_len.
rewrite <- (length_map fst rs), Hb, length_app, length_map. lia.
Qed.

(** C11. A batch that returns, returns one pair per article of
    [articles[:max_articles]], in the order of the input: the articles of
    the result are that prefix. *)
Theorem batch_articles arts n st rs st' :
  summarize_batch env arts n st = (Ok rs, st') ->
  map fst rs = py_slice_to arts n.
Proof. apply batch_loop_articles. Qed.

(** C12. The number of results, for every integer [max_articles]:
    [min(len(articles), max_articles)] when it is not negative, and
    [max(0, len(articles) + max_articles)] when it is. *)
Theorem batch_length arts n st rs st' :
  summarize_batch env arts n st = (Ok rs, st') ->
  py_len rs =
    if (0 <=? n)%Z then Z.min (py_len arts) n else Z.max 0 (py_len arts + n).
Proof. intros ->%batch_loop_length. apply py_slice_to_length. Qed.

(** A negative [max_articles] does not limit the batch to
    [min(len(articles), max_articles)] items: all articles but the last
    [-max_articles] are processed. *)
Corollary batch_negative arts n st rs st' :
  (n < 0)%Z -> (- n < py_len arts)%Z ->
  summarize_batch env arts n st = (Ok rs, st') ->
  py_len rs = (py_len arts + n)%Z /\ py_len rs <> Z.min (py_len arts) n.
Proof.
intros Hn Hlen Hb%batch_loop_length.
pose proof (py_slice_to_length arts n) as Hs. rewrite (proj2 (Z.leb_gt 0 n) Hn) in Hs.
unfold py_len in *. simpl in Hb. lia.
Qed.

Lemma evolves_template st st' :
  evolves st st' -> prompt_template (self st') = prompt_template (self st).
Proof. intros [Hc _ _ _]. by apply (f_equal prompt_template) in Hc. Qed.

Lemma batch_step_extends N n i a acc : extends evolves (batch_step env N n i a acc).
Proof.
apply extends_bind; [apply _ | apply print_extends | intros _].
apply extends_bind; [apply _ | apply summarize_extends | intros v; apply extends_ret, _].
Qed.

Lemma batch_step_client_ok N n i a acc :
  stable (fun st => client_ok (self st)) (batch_step env N n i a acc).
Proof.
apply stable_bind; [apply (stable_keeps_self client_ok), print_keeps_self | intros _].
apply stable_bind; [apply summarize_stable | intros v; apply stable_ret].
Qed.

(** [summarize_batch] only lets the state evolve (same configuration, a
    cached client stays cached, output and calls only grow), and the client
    slot keeps its invariant. *)
Lemma batch_extends arts n : extends evolves (summarize_batch env arts n).
Proof. apply (extends_for_enumerate evolves). apply batch_step_extends. Qed.

Lemma batch_stable arts n :
  stable (fun st => client_ok (self st)) (summarize_batch env arts n).
Proof.
apply (stable_for_enumerate (fun st => client_ok (self st))).
apply batch_step_client_ok.
Qed.

Lemma batch_loop_total N n t l :
  env_catchable env -> writable env ->
  (forall a, a ∈ l -> (SHORT_CONTENT <= py_len (content a))%Z ->
             is_ok (render_prompt t a) = true) ->
  forall i acc st, prompt_template (self st) = t ->
    is_ok (for_enumerate (batch_step env N n) i l acc st).1 = true.
Proof.
intros Hcatch Hw. induction l as [|a l IH]; intros Hr i acc st Ht; simpl; [done |].
unfold bind. rewrite batch_step_run, Hw.
set (st0 := log_line (progress_line i N n a) st).
pose proof (summarize_is_ok env a st0 Hcatch Hw) as Hok.
pose proof (summarize_extends env a st0) as Hev.
destruct (summarize env a st0) as [[v|e] st1]; simpl in *.
- apply IH; [intros b Hb; apply Hr; by right |].
  by rewrite (evolves_template _ _ Hev).
- rewrite <- Hok; [done |]. intros Hlen. rewrite Ht. apply Hr; [by left | done].
Qed.

(** C13. A failing item does not end the batch: when the prompt of every
    article of [articles[:max_articles]] renders, the environment raises
    only [Exception]s and the standard output takes every line,
    [summarize_batch] returns, whatever the provider answers for each
    item. *)
Theorem batch_total arts n st :
  env_catchable env -> writable env ->
  (forall a, a ∈ py_slice_to arts n -> (SHORT_CONTENT <= py_len (content a))%Z ->
             is_ok (render_prompt (prompt_template (self st)) a) = true) ->
  is_ok (summarize_batch env arts n st).1 = true.
Proof.
intros Hcatch Hw Hr. by apply (batch_loop_total _ _ (prompt_template (self st))).
Qed.

(** C14. An exception that leaves [summarize] ends the batch: the loop
    stops at that article, after its progress line, [summarize_batch]
    raises the exception, and the results of the articles before it are not
    returned. *)
Theorem batch_aborts arts n st l1 a l2 rs1 st1 e st2 :
  py_slice_to arts n = l1 ++ a :: l2 ->
  for_enumerate (batch_step env (py_len arts) n) 0 l1 [] st = (Ok rs1, st1) ->
  env_print env (stdout (world st1)) (progress_line (py_len l1) (py_len arts) n a) = None ->
  summarize env a (log_line (progress_line (py_len l1) (py_len arts) n a) st1)
    = (Raise e, st2) ->
  summarize_batch env arts n st = (Raise e, st2).
Proof.
intros Hs H1 Hp Ha. unfold summarize_batch. rewrite Hs, for_enumerate_app.
rewrite (bind_ok _ _ _ _ _ H1). simpl. unfold bind.
rewrite batch_step_run, Z.add_0_l. fold (py_len l1). by rewrite Hp, Ha.
Qed.

(** A progress line the standard output refuses ends the batch before the
    article is summarized. *)
Lemma batch_progress_refused arts n st a l e :
  py_slice_to arts n = a :: l ->
  env_print env (stdout (world st)) (progress_line 0 (py_len arts) n a) = Some e ->
  summarize_batch env arts n st = (Raise e, st).
Proof.
intros Hs Hp. unfold summarize_batch. rewrite Hs. simpl. unfold bind.
by rewrite batch_step_run, Hp.
Qed.
End BatchTheorems.

(** ** Progress lines *)

Lemma is_progress_app head rest :
  2 <= length head -> is_progress (head ++ rest) = is_progress head.
Proof. destruct head as [|x [|y head]]; simpl; (lia || done). Qed.

Lemma is_progress_progress_line i N n a : is_progress (progress_line i N n a) = true.
Proof.
unfold progress_line. rewrite is_progress_app by (vm_compute; lia). by vm_compute.
Qed.

Lemma is_progress_warning_line p : is_progress (warning_line p) = false.
Proof.
unfold warning_line. rewrite is_progress_app by (vm_compute; lia). by vm_compute.
Qed.

Lemma is_progress_error_line {RT : PyRuntime} a e : is_progress (error_line a e) = false.
Proof.
unfold error_line. rewrite is_progress_app by (vm_compute; lia). by vm_compute.
Qed.

Lemma progress_of_app out1 out2 :
  progress_of (out1 ++ out2) = progress_of out1 ++ progress_of out2.
Proof. apply List.filter_app. Qed.

Section BatchProgress.
Context {RT : PyRuntime} {FR : FieldRuntime} (env : Env).
Implicit Types (a : Article) (st : State) (l arts : list Article).

(** [summarize] prints no progress line. *)
Lemma summarize_progress a st :
  progress_of (stdout (world (summarize env a st).2)) = progress_of (stdout (world st)).
Proof.
destruct (summarize_prints env a st) as [-> | [-> | [e ->]]]; [done | |];
  rewrite progress_of_app; unfold progress_of at 2; cbn [List.filter];
  rewrite ?is_progress_warning_line, ?is_progress_error_line; apply app_nil_r.
Qed.

(** One round of the loop whose progress line was printed: whatever
    [summarize] did, the round added this one progress line. *)
Lemma round_progress N n i a st :
  progress_of (stdout (world (summarize env a (log_line (progress_line i N n a) st)).2)) =
    progress_of (stdout (world st)) ++ [progress_line i N n a].
Proof.
rewrite summarize_progress. cbn [stdout world log_line]. rewrite progress_of_app.
unfold progress_of at 2. cbn [List.filter]. by rewrite is_progress_progress_line.
Qed.

(** The loop prints the progress lines of the articles it reaches: of all
    of them when it returns, of a prefix when it raises. *)
Lemma batch_loop_progress N n l i acc st o st' :
  for_enumerate (batch_step env N n) i l acc st = (o, st') ->
  exists k, k <= length l /\ (is_ok o = true -> k = length l) /\
    progress_of (stdout (world st')) =
      progress_of (stdout (world st)) ++ progress_lines N n i (take k l).
Proof.
revert i acc st. induction l as [|a l IH]; intros i acc st; simpl.
- intros [= <- <-]. exists 0. by rewrite app_nil_r.
- unfold bind. rewrite batch_step_run.
  destruct (env_print _ _ _);
    [intros [= <- <-]; exists 0; rewrite app_nil_r; split; [lia | done] |].
  pose proof (round_progress N n i a st) as Hs.
  destruct (summarize env a _) as [[v|e] st2]; simpl in Hs.
  + intros (k & Hk & Hok & ->)%IH. exists (S k). rewrite Hs, <- app_assoc.
    split; [lia | split; [by intros ->%Hok | done]].
  + intros [= <- <-]. exists 1. rewrite Hs. change (take 1 (a :: l)) with [a].
    split; [simpl; lia | done].
Qed.

(** The progress lines a batch prints are those of the articles it
    reaches, in order, numbered from 1, each with the total
    [min(len(articles), max_articles)] and the first 50 code points of the
    title: one for each article of [articles[:max_articles]] when the
    batch returns, and those of a prefix of them when it raises.  Every
    other line it printed is a warning or an error line of [summarize]. *)
Theorem batch_progress arts n st o st' :
  summarize_batch env arts n st = (o, st') ->
  exists k, k <= length (py_slice_to arts n) /\
    (is_ok o = true -> k = length (py_slice_to arts n)) /\
    progress_of (stdout (world st')) =
      progress_of (stdout (world st))
        ++ progress_lines (py_len arts) n 0 (take k (py_slice_to arts n)).
Proof. apply batch_loop_progress. Qed.
End BatchProgress.

(** ** What a batch costs *)

Section BatchCosts.
Context {RT : PyRuntime} {FR : FieldRuntime} (env : Env).
Implicit Types (a : Article) (st : State) (l arts : list Article).

Lemma batch_step_costs mu N n i a acc :
  costs (measure_of mu) (item_cost mu a) (batch_step env N n i a acc).
Proof.
unfold batch_step, item_cost.
destruct mu; py_costs_with ltac:(apply summarize_costs).
Qed.

Lemma batch_costs mu arts n :
  costs (measure_of mu) (list_sum (map (item_cost mu) (py_slice_to arts n)))
    (summarize_batch env arts n).
Proof. apply costs_for_enumerate. intros i a acc. apply batch_step_costs. Qed.

Lemma item_cost_requests l :
  list_sum (map (item_cost Requests) l) = length (long_articles l).
Proof.
induction l as [|a l IH]; [done |]. simpl. rewrite IH. unfold item_cost.
by destruct (_ <? _)%Z.
Qed.

Lemma long_articles_length l : length (long_articles l) <= length l.
Proof. apply List.filter_length_le. Qed.

(** A batch sends one request at most for each article of
    [articles[:max_articles]] whose content has 100 code points or more,
    and none for the others. *)
Theorem batch_requests_bound arts n st :
  let st' := (summarize_batch env arts n st).2 in
  requests_made st <= requests_made st'
    <= requests_made st + length (long_articles (py_slice_to arts n)).
Proof.
cbv zeta. rewrite <- item_cost_requests. apply (batch_costs Requests).
Qed.

(** With a limit that is not negative a batch sends [max_articles] requests
    at most, however many articles it is given. *)
Corollary batch_requests_limit arts n st :
  (0 <= n)%Z ->
  (Z.of_nat (requests_made (summarize_batch env arts n st).2)
     <= Z.of_nat (requests_made st) + n)%Z.
Proof.
intros Hn. pose proof (batch_costs Requests arts n st) as [_ Hb]. simpl in Hb.
rewrite item_cost_requests in Hb.
pose proof (long_articles_length (py_slice_to arts n)) as Hl.
pose proof (py_slice_to_length arts n) as Hs.
rewrite (proj2 (Z.leb_le 0 n) Hn) in Hs. lia.
Qed.
End BatchCosts.

(** ** The theorems at concrete inputs *)

Lemma batch_articles_witness :
  map fst (outcome_default [] (ex_batch ∅ ex_articles 10).1)
  = py_slice_to ex_articles 10.
Proof.
apply (batch_articles (RT:=ascii_runtime) (FR:=no_special) ex_env ex_articles 10
         (ex_state ∅) _ (ex_batch ∅ ex_articles 10).2).
vm_compute. reflexivity.
Defined.

Lemma batch_length_witness :
  py_len (outcome_default [] (ex_batch ∅ ex_articles 10).1)
  = if (0 <=? 10)%Z then Z.min (py_len ex_articles) 10
    else Z.max 0 (py_len ex_articles + 10).
Proof.
apply (batch_length (RT:=ascii_runtime) (FR:=no_special) ex_env ex_articles 10
         (ex_state ∅) _ (ex_batch ∅ ex_articles 10).2).
vm_compute. reflexivity.
Defined.

Lemma batch_negative_witness :
  py_len (outcome_default [] (ex_batch ∅ ex_articles (-1)).1)
    = (py_len ex_articles + -1)%Z
  /\ py_len (outcome_default [] (ex_batch ∅ ex_articles (-1)).1)
    <> Z.min (py_len ex_articles) (-1).
Proof.
apply (batch_negative (RT:=ascii_runtime) (FR:=no_special) ex_env ex_articles (-1)
         (ex_state ∅) _ (ex_batch ∅ ex_articles (-1)).2);
  [by vm_compute | by vm_compute | vm_compute; reflexivity].
Defined.

Lemma batch_total_witness : is_ok (ex_batch ex_openai ex_articles 10).1 = true.
Proof.
apply batch_total; [exact ex_env_catchable | exact ex_env_writable |].
intros a _ _. apply render_default_ok.
Defined.

Lemma batch_aborts_witness :
  ex_batch ex_json_prompt [ex_short; ex_long; ex_empty] 10
  = (Raise (MkExn KeyError (lit "'summary'")),
     log_line (progress_line 1 3 10 ex_long)
       (log_line (progress_line 0 3 10 ex_short) (ex_state ex_json_prompt))).
Proof.
apply (batch_aborts (RT:=ascii_runtime) (FR:=no_special) ex_env
         [ex_short; ex_long; ex_empty] 10 (ex_state ex_json_prompt)
         [ex_short] ex_long [ex_empty]
         [(ex_short, VStr (content ex_short))]
         (log_line (progress_line 0 3 10 ex_short) (ex_state ex_json_prompt)));
  vm_compute; reflexivity.
Defined.

Lemma batch_progress_witness :
  exists k, k <= length (py_slice_to [ex_short; ex_long; ex_empty] 10) /\
    (is_ok (ex_batch ex_json_prompt [ex_short; ex_long; ex_empty] 10).1 = true ->
     k = length (py_slice_to [ex_short; ex_long; ex_empty] 10)) /\
    progress_of (stdout (world (ex_batch ex_json_prompt [ex_short; ex_long; ex_empty] 10).2))
    = progress_of (stdout (world (ex_state ex_json_prompt)))
      ++ progress_lines (py_len [ex_short; ex_long; ex_empty]) 10 0
           (take k (py_slice_to [ex_short; ex_long; ex_empty] 10)).
Proof.
apply (batch_progress (RT:=ascii_runtime) (FR:=no_special) ex_env
         [ex_short; ex_long; ex_empty] 10 (ex_state ex_json_prompt)).
apply surjective_pairing.
Defined.
