(* ===== verification/Lifecycle.v ===== *)
(** The life of a [Summarizer] instance: construction by [__init__], then
    any sequence of calls of [summarize] and [summarize_batch].  The states
    such a sequence reaches, and what holds in all of them: the
    configuration never changes, the client slot goes from empty to filled
    once and is never emptied or refilled, and one client at most is ever
    constructed with success. *)

From Stdlib Require Import ZArith NArith String List Lia.
From stdpp Require Import base tactics option list numbers gmap strings relations.
From S2P Require Import Prelude Logic PyStr Format Config Provider Summarize Batch.


(** ** Operations and steps *)

(** A call of a public method. *)
Inductive operation : Type :=
| OpSummarize (article : Article)
| OpBatch (articles : list Article) (max_articles : Z).

(** Whether the call of the constructor recorded as [c] after the calls [h]
    returned a client. *)
Definition succeeded (env : Env) (h : list Call) (c : Call) : bool :=
  match c with
  | NewClient cl =>
      match env_new_client env h cl with None => true | Some _ => false end
  | _ => false
  end.

(** How many constructor calls of a history returned a client; the history
    is given newest first. *)
Fixpoint successes (env : Env) (newest_first : list Call) : nat :=
  match newest_first with
  | [] => 0
  | c :: older => Nat.b2n (succeeded env (rev older) c) + successes env older
  end.

(** The clients constructed with success so far. *)
Definition constructed (env : Env) (st : State) : nat :=
  successes env (rev (calls (world st))).

(** 1 when the slot holds a client, 0 when it is empty. *)
Definition has_client (st : State) : nat :=
  match _client (self st) with Some _ => 1 | None => 0 end.

(** [balance env k st]: besides [k] earlier ones, the only client that was
    constructed with success is the one in the slot. *)
Definition balance (env : Env) (k : nat) (st : State) : Prop :=
  constructed env st = k + has_client st.

Section Lifecycle.
Context {RT : PyRuntime} {FR : FieldRuntime} (env : Env).

(** The state a call leaves, whatever it returns or raises. *)
Definition run (op : operation) (st : State) : State :=
  match op with
  | OpSummarize a => (summarize env a st).2
  | OpBatch l n => (summarize_batch env l n st).2
  end.

(** One call takes the instance from one state to the next. *)
Inductive step : State -> State -> Prop :=
| step_run op st : step st (run op st).

(** The state after a sequence of calls, oldest first. *)
Definition run_all (ops : list operation) (st : State) : State :=
  foldl (fun st op => run op st) st ops.

(** The state [__init__] leaves, in a world [w], and the states a fresh
    instance can reach from it. *)
Definition init_state (config : gmap string value) (w : World) : State :=
  MkState (__init__ config) w.

Definition reachable (config : gmap string value) (w : World) (st : State) : Prop :=
  rtc step (init_state config w) st.
End Lifecycle.

(** A session on a fresh instance: a short article, a long one twice, then
    a batch. *)
Definition ex_session : list operation :=
  [OpSummarize ex_short; OpSummarize ex_long; OpSummarize ex_long;
   OpBatch ex_articles 10].

(** A configuration whose prompt template is present and null. *)
Definition ex_null_prompt : gmap string value := {["summary_prompt" := VNone]}.

(** ** Successful constructions *)

Section Balance.
Context (env : Env).
Implicit Types (st : State) (c : Client) (k : nat).

Lemma constructed_record_call call st :
  constructed env (record_call call st) =
    Nat.b2n (succeeded env (calls (world st)) call) + constructed env st.
Proof.
unfold constructed. simpl. rewrite rev_app_distr. simpl. by rewrite rev_involutive.
Qed.

Lemma constructed_request call st :
  is_request call = true -> constructed env (record_call call st) = constructed env st.
Proof. intros Hr. rewrite constructed_record_call. by destruct call. Qed.

Lemma balance_log_line k line st : balance env k st -> balance env k (log_line line st).
Proof. done. Qed.

Lemma balance_request k call st :
  is_request call = true -> balance env k st -> balance env k (record_call call st).
Proof. intros Hr Hb. unfold balance. by rewrite (constructed_request _ _ Hr). Qed.

Lemma balance_keeps_state {A} k (m : State -> outcome exn A * State) :
  (forall st, (m st).2 = st) -> stable (balance env k) m.
Proof. intros Hm st. by rewrite Hm. Qed.

Lemma print_balance k line : stable (balance env k) (print env line).
Proof.
intros st. unfold print. destruct (env_print _ _ _); [done | apply balance_log_line].
Qed.

Lemma index0_balance {A} k (xs : list A) : stable (balance env k) (index0 xs).
Proof. apply balance_keeps_state. by destruct xs. Qed.

Lemma block_text_balance k b : stable (balance env k) (block_text b).
Proof. apply balance_keeps_state. by destruct b. Qed.

Lemma messages_create_balance k c m n ms :
  stable (balance env k) (messages_create env c m n ms).
Proof. destruct c; simpl; [|by apply stable_raise]. intros st. by apply balance_request. Qed.

Lemma chat_completions_create_balance k c m n ms :
  stable (balance env k) (chat_completions_create env c m n ms).
Proof. destruct c; simpl; [by apply stable_raise |]. intros st. by apply balance_request. Qed.

(** The import and the constructor call of a getter on an empty slot: a
    failure leaves the balance as it is, a success is owed one client in
    the slot. *)
Lemma construct_balance k c st :
  _client (self st) = None -> balance env k st ->
  match construct env c st with
  | (Some _, st1) => balance env k st1
  | (None, st1) => balance env k (with_self (set_client (Some c)) st1)
  end.
Proof.
intros Hc. unfold construct, balance, has_client. rewrite Hc.
destruct (env_import env (sdk_module c)); [by rewrite Hc |].
destruct (env_new_client env (calls (world st)) c) eqn:He; simpl;
  change (constructed env (with_self ?f ?s)) with (constructed env s);
  rewrite constructed_record_call; simpl; rewrite He; simpl; [by rewrite Hc | lia].
Qed.

Lemma get_claude_client_balance k : stable (balance env k) (_get_claude_client env).
Proof.
intros st Hb. destruct (_client (self st)) as [c|] eqn:Hc.
- by rewrite (get_claude_client_cached _ _ _ Hc).
- pose proof (construct_balance k (claude_client_of (self st)) st Hc Hb) as H.
  rewrite (get_claude_client_fresh _ _ Hc). unfold construct in H. simpl in H.
  cbv zeta. destruct (env_import env "anthropic"); [done |].
  by destruct (env_new_client _ _ _).
Qed.

Lemma get_openai_client_balance k : stable (balance env k) (_get_openai_client env).
Proof.
intros st Hb. destruct (_client (self st)) as [c|] eqn:Hc.
- by rewrite (get_openai_client_cached _ _ _ Hc).
- pose proof (construct_balance k (openai_client_of (self st)) st Hc Hb) as H.
  rewrite (get_openai_client_fresh _ _ Hc). unfold construct in H. simpl in H.
  cbv zeta. destruct (env_import env "openai"); [done |].
  by destruct (env_new_client _ _ _).
Qed.

Lemma summarize_with_claude_balance k prompt :
  stable (balance env k) (_summarize_with_claude env prompt).
Proof.
unfold _summarize_with_claude.
apply stable_bind; [apply get_claude_client_balance | intros c].
apply stable_bind; [apply stable_gets | intros m].
apply stable_bind; [apply messages_create_balance | intros bs].
apply stable_bind; [apply index0_balance | intros b; apply block_text_balance].
Qed.

Lemma summarize_with_openai_balance k prompt :
  stable (balance env k) (_summarize_with_openai env prompt).
Proof.
unfold _summarize_with_openai.
apply stable_bind; [apply get_openai_client_balance | intros c].
apply stable_bind; [apply stable_gets | intros m].
apply stable_bind; [apply chat_completions_create_balance | intros r].
apply index0_balance.
Qed.
End Balance.

(** ** What every call keeps *)

Section Run.
Context {RT : PyRuntime} {FR : FieldRuntime} (env : Env).
Implicit Types (st : State) (op : operation) (k : nat).

Lemma summarize_balance k a : stable (balance env k) (summarize env a).
Proof.
unfold summarize, dispatch, on_error. destruct (_ <? _)%Z; [apply stable_ret |].
apply stable_bind; [apply stable_gets | intros t].
apply stable_bind; [apply stable_lift_outcome | intros prompt].
apply stable_try_except.
- apply stable_bind; [apply stable_gets | intros p].
  repeat case_match.
  + apply stable_bind; [apply summarize_with_claude_balance | intros; apply stable_ret].
  + apply summarize_with_openai_balance.
  + apply stable_bind; [apply print_balance | intros; apply stable_ret].
- intros e. apply stable_bind; [apply print_balance | intros; apply stable_ret].
Qed.

Lemma batch_balance k arts n : stable (balance env k) (summarize_batch env arts n).
Proof.
apply stable_for_enumerate. intros i a acc. unfold batch_step.
apply stable_bind; [apply print_balance | intros _].
apply stable_bind; [apply summarize_balance | intros; apply stable_ret].
Qed.

Lemma run_balance k op st : balance env k st -> balance env k (run env op st).
Proof. destruct op; [apply summarize_balance | apply batch_balance]. Qed.

Lemma run_evolves op st : evolves st (run env op st).
Proof. destruct op; [apply summarize_extends | apply batch_extends]. Qed.

Lemma run_client_ok op st : client_ok (self st) -> client_ok (self (run env op st)).
Proof. destruct op; [apply summarize_stable | apply batch_stable]. Qed.

Lemma step_evolves st st' : step env st st' -> evolves st st'.
Proof. intros [op st0]. apply run_evolves. Qed.

Lemma steps_evolve st st' : rtc (step env) st st' -> evolves st st'.
Proof.
induction 1 as [st|st1 st2 st3 H12 _ IH]; [reflexivity |].
etransitivity; [by apply step_evolves | done].
Qed.

(** An invariant of the steps holds in every state reached from a state in
    which it holds. *)
Lemma steps_invariant (I : State -> Prop) st st' :
  (forall op st, I st -> I (run env op st)) ->
  rtc (step env) st st' -> I st -> I st'.
Proof.
intros Hrun. induction 1 as [st|st1 st2 st3 [op st0] _ IH]; [done |].
intros H1. by apply IH, Hrun.
Qed.

(** The states reached are those [run_all] computes. *)
Lemma run_all_steps ops st : rtc (step env) st (run_all env ops st).
Proof.
revert st. induction ops as [|op ops IH]; intros st; simpl; [done |].
eapply rtc_l; [apply step_run | apply IH].
Qed.

Lemma steps_run_all st st' :
  rtc (step env) st st' -> exists ops, st' = run_all env ops st.
Proof.
induction 1 as [st|st1 st2 st3 [op st0] _ [ops ->]]; [by exists [] |].
by exists (op :: ops).
Qed.

(** [dict.get] applies its default only to an absent key, and only a
    [str] has the method [format]: with a [summary_prompt] that is present
    and is not a [str] ([None], a number, a list), the first call of
    [summarize] on long content raises [AttributeError], naming the class
    of the value, to the caller, before the [try]. *)
Theorem summarize_null_template config w a v :
  config !! "summary_prompt" = Some v -> is_str v = false ->
  (SHORT_CONTENT <= py_len (content a))%Z ->
  summarize env a (init_state config w) =
    (Raise (MkExn AttributeError
              (lit "'" ++ type_name v ++ lit "' object has no attribute 'format'")),
     init_state config w).
Proof.
intros Hc Hv Hlen. rewrite (summarize_long _ _ _ Hlen).
unfold init_state. cbn [self __init__ prompt_template].
rewrite (dict_get_present _ _ _ _ Hc). by destruct v.
Qed.

(** The states a fresh instance reaches are the states after finite
    sequences of calls of [summarize] and [summarize_batch]. *)
Lemma reachable_run_all config w st :
  reachable env config w st <-> exists ops, st = run_all env ops (init_state config w).
Proof.
split; [apply steps_run_all | intros [ops ->]; apply run_all_steps].
Qed.

(** In the life of an instance the configuration is read only: in
    every state reached, the attributes other than the client slot are
    those [__init__] gave them. *)
Theorem reachable_config config w st :
  reachable env config w st -> set_client None (self st) = __init__ config.
Proof. intros [Hc _ _ _]%steps_evolve. by rewrite <- Hc. Qed.

(** In every state reached the slot is empty or holds the client of
    the configured provider, constructed from the credentials of the
    configuration: a request is never sent through a client of the other
    provider. *)
Theorem reachable_client_of config w st c :
  reachable env config w st -> _client (self st) = Some c ->
  client_of (self st) = Some c.
Proof.
intros Hr. apply client_ok_client_of. revert Hr.
unfold reachable. intros Hr. apply (steps_invariant _ _ _ run_client_ok Hr). exact I.
Qed.

(** The slot is filled once: a client that is in the slot stays there
    through every later call, with success or failure of that call. *)
Theorem client_is_kept st st' c :
  rtc (step env) st st' -> _client (self st) = Some c -> _client (self st') = Some c.
Proof. intros [_ Hc _ _]%steps_evolve. apply Hc. Qed.

(** C19. One client at most is constructed with success in the life of an
    instance, and it is the one in the slot: in every state reached, the
    constructor calls that returned a client are those made before the
    instance was created and, if the slot is filled, one more. *)
Theorem reachable_one_client config w st :
  reachable env config w st ->
  constructed env st = constructed env (init_state config w) + has_client st.
Proof.
intros Hr. apply (steps_invariant (balance env _) _ _ (run_balance _) Hr).
unfold balance, has_client. simpl. lia.
Qed.
End Run.

(** ** The theorems at concrete inputs *)

Lemma reachable_session :
  reachable (RT:=ascii_runtime) (FR:=no_special) ex_env ∅ (MkWorld [] [])
    (run_all (RT:=ascii_runtime) (FR:=no_special) ex_env ex_session
       (init_state ∅ (MkWorld [] []))).
Proof. apply run_all_steps. Qed.

Lemma reachable_config_witness :
  set_client None
    (self (run_all (RT:=ascii_runtime) (FR:=no_special) ex_env ex_session
             (init_state ∅ (MkWorld [] []))))
  = __init__ ∅.
Proof.
apply (reachable_config (RT:=ascii_runtime) (FR:=no_special) ex_env ∅ (MkWorld [] [])).
exact reachable_session.
Defined.

Lemma reachable_client_of_witness :
  client_of
    (self (run_all (RT:=ascii_runtime) (FR:=no_special) ex_env ex_session
             (init_state ∅ (MkWorld [] []))))
  = Some (AnthropicClient VNone).
Proof.
apply (reachable_client_of (RT:=ascii_runtime) (FR:=no_special) ex_env ∅ (MkWorld [] []));
  [exact reachable_session | vm_compute; reflexivity].
Defined.

Lemma client_is_kept_witness :
  _client (self (run_all (RT:=ascii_runtime) (FR:=no_special) ex_env ex_session ex_warm))
  = Some (AnthropicClient VNone).
Proof.
apply (client_is_kept (RT:=ascii_runtime) (FR:=no_special) ex_env ex_warm);
  [apply run_all_steps | reflexivity].
Defined.

Lemma reachable_one_client_witness :
  constructed ex_env
    (run_all (RT:=ascii_runtime) (FR:=no_special) ex_env ex_session
       (init_state ∅ (MkWorld [] [])))
  = constructed ex_env (init_state ∅ (MkWorld [] []))
    + has_client (run_all (RT:=ascii_runtime) (FR:=no_special) ex_env ex_session
                    (init_state ∅ (MkWorld [] []))).
Proof.
apply (reachable_one_client (RT:=ascii_runtime) (FR:=no_special) ex_env ∅ (MkWorld [] [])).
exact reachable_session.
Defined.

Lemma summarize_null_template_witness :
  summarize (RT:=ascii_runtime) (FR:=no_special) ex_env ex_long
    (init_state ex_null_prompt (MkWorld [] []))
  = (Raise (MkExn AttributeError
              (lit "'" ++ type_name VNone ++ lit "' object has no attribute 'format'")),
     init_state ex_null_prompt (MkWorld [] [])).
Proof. apply summarize_null_template; [reflexivity | reflexivity | by vm_compute]. Defined.
