(* ===== verification/Typing.v ===== *)
(** Types and well-formedness.

    Python checks no annotation, and a configuration file may give any
    value to any key.  This file says which values the module needs where:
    the type of each configuration key is the type of its default in
    [__init__], a request is well formed when it carries the client, the
    model and the one user message of the configured provider, and the
    result of [summarize] has the type [Optional[str]] of its annotation.
    It proves that a configuration of these types gives an instance of
    these types, that every call of a public method keeps the instance and
    the history of its calls well formed, that a well-typed instance
    renders its prompt with [str.format], and that [summarize] returns an
    [Optional[str]] when the SDK returns what it documents. *)

From Stdlib Require Import ZArith NArith String List Lia.
From stdpp Require Import base tactics option list numbers gmap strings relations.
From S2P Require Import Prelude Logic PyStr Format Config Provider Summarize Batch Lifecycle.


(** ** Types *)

(** The two types of the module's values: [str] and [Optional[str]]. *)
Variant ty : Type :=
| TStr
| TOptionalStr.

(** [isinstance(v, t)] *)
Definition has_type (v : value) (t : ty) : bool :=
  match t with
  | TStr => is_str v
  | TOptionalStr => is_optional_str v
  end.

(** An entry of the configuration has the type [t] when it is absent
    ([dict.get] then gives the default) or holds a value of that type. *)
Definition key_typed (config : gmap string value) (key : string) (t : ty) : bool :=
  match config !! key with
  | Some v => has_type v t
  | None => true
  end.

(** A configuration is well typed when each key [__init__] reads has the
    type of its default: [str] where the default is a string literal,
    [Optional[str]] where it is [None]. *)
Definition config_typed (config : gmap string value) : bool :=
  key_typed config "provider" TStr
  && key_typed config "model" TStr
  && key_typed config "api_key" TOptionalStr
  && key_typed config "openai_api_key" TOptionalStr
  && key_typed config "openai_api_base" TStr
  && key_typed config "openai_model" TStr
  && key_typed config "summary_prompt" TStr.

(** The attributes of an instance have these types. *)
Definition instance_typed (s : Summarizer) : bool :=
  has_type (provider s) TStr
  && has_type (model s) TStr
  && has_type (api_key s) TOptionalStr
  && has_type (openai_api_key s) TOptionalStr
  && has_type (openai_api_base s) TStr
  && has_type (openai_model s) TStr
  && has_type (prompt_template s) TStr.

(** ** Well-formed calls *)

(** The arguments a client was constructed from have the types the SDKs
    document. *)
Definition client_typed (c : Client) : bool :=
  match c with
  | AnthropicClient key => has_type key TOptionalStr
  | OpenAIClient key base_url => has_type key TOptionalStr && has_type base_url TStr
  end.

(** [messages] is one message of the role [user]. *)
Definition is_user_message (ms : list message) : bool :=
  match ms with
  | [m] => bool_decide (msg_role m = lit "user")
  | _ => false
  end.

(** A call is a call of the instance [s]: the construction of the client
    of the configured provider, or a request to the configured provider
    through that client, with the configured model, [max_tokens] 500 and
    one user message. *)
Definition call_wf (s : Summarizer) (c : Call) : bool :=
  match c with
  | NewClient cl => bool_decide (client_of s = Some cl)
  | MessagesCreate cl mdl max_tokens ms =>
      bool_decide (provider s = VStr (lit "claude") /\ cl = claude_client_of s
                   /\ mdl = model s /\ max_tokens = 500%Z)
      && is_user_message ms
  | ChatCompletionsCreate cl mdl max_tokens ms =>
      bool_decide (provider s = VStr (lit "openai") /\ cl = openai_client_of s
                   /\ mdl = openai_model s /\ max_tokens = 500%Z)
      && is_user_message ms
  end.

(** A call has arguments of the documented types: a client of the class
    that has the method, a model that is a [str], one user message. *)
Definition call_typed (c : Call) : bool :=
  match c with
  | NewClient cl => client_typed cl
  | MessagesCreate cl mdl max_tokens ms =>
      match cl with AnthropicClient _ => true | OpenAIClient _ _ => false end
      && client_typed cl && has_type mdl TStr && (0 <? max_tokens)%Z && is_user_message ms
  | ChatCompletionsCreate cl mdl max_tokens ms =>
      match cl with OpenAIClient _ _ => true | AnthropicClient _ => false end
      && client_typed cl && has_type mdl TStr && (0 <? max_tokens)%Z && is_user_message ms
  end.

(** Every call made so far is a call of this instance. *)
Definition history_ok (st : State) : Prop :=
  Forall (fun call => call_wf (self st) call = true) (calls (world st)).

(** The slot and the history of an instance are well formed. *)
Definition calls_ok (st : State) : Prop := client_ok (self st) /\ history_ok st.

(** A well-formed state: a well-typed instance with a well-formed slot
    and history. *)
Definition wf_state (st : State) : Prop :=
  instance_typed (self st) = true /\ calls_ok st.

(** The OpenAI SDK returns what it documents: the content of a choice is a
    [str] or [None]. *)
Definition env_typed (env : Env) : Prop :=
  forall h c mdl k ms r,
    env_chat_create env h c mdl k ms = Ok r ->
    Forall (fun v => is_optional_str v = true) (choices r).

(** ** Concrete inputs *)

(** A configuration whose model and key are numbers, as a configuration
    file without quotes gives them. *)
Definition ex_numbers : gmap string value :=
  {["model" := VOther (lit "int") (lit "4"); "api_key" := VOther (lit "int") (lit "12345")]}.

(** A typed configuration for OpenAI. *)
Definition ex_typed : gmap string value :=
  {["provider" := VStr (lit "openai"); "openai_api_key" := VStr (lit "sk-test")]}.

(** An environment in which OpenAI answers with one choice without
    content. *)
Definition ex_env_null_content : Env := {|
  env_import _ := None;
  env_new_client _ _ := None;
  env_messages_create _ _ _ _ _ := Ok [TextBlock (lit "summary")];
  env_chat_create _ _ _ _ _ := Ok (MkChat [VNone]);
  env_print _ _ := None;
|}.

(** ** Typing of the instance *)

Lemma key_typed_str config key d :
  has_type (dict_get config key (VStr d)) TStr = key_typed config key TStr.
Proof. unfold dict_get, key_typed. by destruct (config !! key). Qed.

Lemma key_typed_optional config key :
  has_type (dict_get config key VNone) TOptionalStr = key_typed config key TOptionalStr.
Proof. unfold dict_get, key_typed. by destruct (config !! key). Qed.

(** [__init__] gives a well-typed instance exactly for a well-typed
    configuration. *)
Lemma init_typed config : instance_typed (__init__ config) = config_typed config.
Proof.
unfold instance_typed, config_typed, __init__.
cbn [provider model api_key openai_api_key openai_api_base openai_model prompt_template].
by rewrite !key_typed_str, !key_typed_optional.
Qed.

(** The types of the attributes do not depend on the slot. *)
Lemma instance_typed_set_client c s : instance_typed (set_client c s) = instance_typed s.
Proof. reflexivity. Qed.

Lemma call_wf_set_client x s c : call_wf (set_client x s) c = call_wf s c.
Proof. reflexivity. Qed.

Lemma client_of_typed s c :
  instance_typed s = true -> client_of s = Some c -> client_typed c = true.
Proof.
unfold instance_typed. rewrite !andb_true_iff.
intros [[[[[[_ _] Hk] Hok] Hb] _] _] [[_ ->]|[_ ->]]%client_of_Some; [exact Hk |].
apply andb_true_iff. by split.
Qed.

Lemma is_user_message_user prompt : is_user_message (user_message prompt) = true.
Proof. by apply bool_decide_eq_true_2. Qed.

(** In a well-typed instance a call of the instance has arguments of the
    documented types. *)
Lemma call_wf_typed s c : instance_typed s = true -> call_wf s c = true -> call_typed c = true.
Proof.
intros Hs. pose proof Hs as Ht. unfold instance_typed in Ht. rewrite !andb_true_iff in Ht.
destruct Ht as [[[[[[_ Hm] Hk] Hok] Hb] Hom] _].
destruct c as [cl|cl mdl k ms|cl mdl k ms]; cbn [call_wf call_typed].
- intros Hc%bool_decide_eq_true. by apply (client_of_typed s).
- rewrite andb_true_iff. intros [(_ & -> & -> & ->)%bool_decide_eq_true ->].
  unfold claude_client_of, client_typed. by rewrite Hk, Hm.
- rewrite andb_true_iff. intros [(_ & -> & -> & ->)%bool_decide_eq_true ->].
  unfold openai_client_of, client_typed. by rewrite Hok, Hb, Hom.
Qed.

(** ** The history stays well formed *)

Section WellFormed.
Context {RT : PyRuntime} {FR : FieldRuntime} (env : Env).
Implicit Types (st : State) (a : Article) (prompt : pystr) (c : Client).

Lemma history_ok_record call st :
  call_wf (self st) call = true -> history_ok st -> history_ok (record_call call st).
Proof.
intros Hc Hcs. unfold history_ok. simpl. apply Forall_app. split; [done | by constructor].
Qed.

(** A step that changes neither the instance nor the calls. *)
Lemma calls_ok_keeps {A} (m : M A) :
  (forall st, self (m st).2 = self st /\ calls (world (m st).2) = calls (world st)) ->
  stable calls_ok m.
Proof.
intros Hm st [Hok Hcs]. destruct (Hm st) as [Hs Hc].
unfold calls_ok, history_ok. by rewrite Hs, Hc.
Qed.

Lemma print_calls_ok line : stable calls_ok (print env line).
Proof. apply calls_ok_keeps. intros st. unfold print. by destruct (env_print _ _ _). Qed.

(** The construction of the client of the configured provider on an empty
    slot. *)
Lemma construct_history_ok c st :
  client_of (self st) = Some c -> history_ok st ->
  history_ok (construct env c st).2 /\
  history_ok (with_self (set_client (Some c)) (construct env c st).2).
Proof.
intros Hc Hcs. unfold construct. destruct (env_import env _); [by split |].
assert (call_wf (self st) (NewClient c) = true) by (by apply bool_decide_eq_true_2).
cbn [snd]. split; [|change (history_ok (record_call (NewClient c) st))];
  by apply history_ok_record.
Qed.

(** With the client of the configured provider in the slot, a provider
    call records one request of the instance. *)
Lemma claude_cached_history_ok prompt st :
  provider (self st) = VStr (lit "claude") ->
  _client (self st) = Some (claude_client_of (self st)) ->
  history_ok st -> history_ok (_summarize_with_claude env prompt st).2.
Proof.
intros Hp Hc Hcs. rewrite (summarize_with_claude_cached env st _ prompt Hc).
apply history_ok_record; [|done]. cbn [call_wf].
rewrite is_user_message_user, andb_true_r. by apply bool_decide_eq_true_2.
Qed.

Lemma openai_cached_history_ok prompt st :
  provider (self st) = VStr (lit "openai") ->
  _client (self st) = Some (openai_client_of (self st)) ->
  history_ok st -> history_ok (_summarize_with_openai env prompt st).2.
Proof.
intros Hp Hc Hcs. rewrite (summarize_with_openai_cached env st _ _ prompt Hc).
apply history_ok_record; [|done]. cbn [call_wf].
rewrite is_user_message_user, andb_true_r. by apply bool_decide_eq_true_2.
Qed.

Lemma claude_history_ok prompt st :
  claude_inv st -> history_ok st -> history_ok (_summarize_with_claude env prompt st).2.
Proof.
intros [Hp Hok] Hcs. destruct (_client (self st)) as [c|] eqn:Hc.
- pose proof (proj1 (client_ok_client_of _) Hok c Hc) as Hof.
  rewrite (client_of_claude _ Hp) in Hof. injection Hof as <-.
  by apply claude_cached_history_ok.
- rewrite (summarize_with_claude_construct _ _ _ Hc).
  destruct (construct_history_ok (claude_client_of (self st)) st) as [H1 H2];
    [by apply client_of_claude | done |].
  pose proof (construct_self env (claude_client_of (self st)) st) as Hs.
  destruct (construct env _ st) as [[e|] st1]; [done |]. simpl in *.
  apply claude_cached_history_ok; simpl; by rewrite ?Hs.
Qed.

Lemma openai_history_ok prompt st :
  openai_inv st -> history_ok st -> history_ok (_summarize_with_openai env prompt st).2.
Proof.
intros [Hp Hok] Hcs. destruct (_client (self st)) as [c|] eqn:Hc.
- pose proof (proj1 (client_ok_client_of _) Hok c Hc) as Hof.
  rewrite (client_of_openai _ Hp) in Hof. injection Hof as <-.
  by apply openai_cached_history_ok.
- rewrite (summarize_with_openai_construct _ _ _ Hc).
  destruct (construct_history_ok (openai_client_of (self st)) st) as [H1 H2];
    [by apply client_of_openai | done |].
  pose proof (construct_self env (openai_client_of (self st)) st) as Hs.
  destruct (construct env _ st) as [[e|] st1]; [done |]. simpl in *.
  apply openai_cached_history_ok; simpl; by rewrite ?Hs.
Qed.
Lemma dispatch_calls_ok prompt : stable calls_ok (dispatch env prompt).
Proof.
intros st [Hok Hcs]. split; [by apply dispatch_client_ok |].
destruct (provider_cases st) as [Hp|[Hp|[Hc Ho]]].
- rewrite (dispatch_claude _ _ _ Hp). unfold bind.
  pose proof (claude_history_ok prompt st (conj Hp Hok) Hcs) as H.
  by destruct (_summarize_with_claude env prompt st) as [[t|e] st1].
- rewrite (dispatch_openai _ _ _ Hp). by apply openai_history_ok.
- rewrite (dispatch_unknown_bind _ _ _ Hc Ho).
  refine (proj2 (stable_bind calls_ok _ _ _ _ st (conj Hok Hcs)));
    [apply print_calls_ok | intros _; apply stable_ret].
Qed.

Lemma on_error_calls_ok a e : stable calls_ok (on_error env a e).
Proof. apply stable_bind; [apply print_calls_ok | intros _; apply stable_ret]. Qed.

Lemma summarize_calls_ok a : stable calls_ok (summarize env a).
Proof.
unfold summarize. destruct (_ <? _)%Z; [apply stable_ret |].
apply stable_bind; [apply stable_gets | intros t].
apply stable_bind; [apply stable_lift_outcome | intros prompt].
apply stable_try_except; [apply dispatch_calls_ok | apply on_error_calls_ok].
Qed.

Lemma batch_calls_ok arts n : stable calls_ok (summarize_batch env arts n).
Proof.
apply stable_for_enumerate. intros i a acc.
apply stable_bind; [apply print_calls_ok | intros _].
apply stable_bind; [apply summarize_calls_ok | intros v; apply stable_ret].
Qed.

(** Every call of a public method keeps a state well formed. *)
Lemma run_wf op st : wf_state st -> wf_state (run env op st).
Proof.
intros [Ht Hok]. split.
- destruct (run_evolves env op st) as [Hc _ _ _].
  by rewrite <- (instance_typed_set_client None), <- Hc, instance_typed_set_client.
- destruct op; [by apply summarize_calls_ok | by apply batch_calls_ok].
Qed.

(** The state [__init__] leaves is well formed when the configuration is
    well typed and no call was made yet. *)
Lemma init_wf config out :
  config_typed config = true -> wf_state (init_state config (MkWorld out [])).
Proof.
intros Ht. split; [by rewrite <- init_typed in Ht |]. split; [exact I | constructor].
Qed.

(** A well-typed instance renders its prompt with [str.format]: the
    [AttributeError] of a template that is no [str] cannot occur. *)
Lemma typed_renders s a :
  instance_typed s = true ->
  exists t, prompt_template s = VStr t /\
            render_prompt (prompt_template s) a = py_format t (prompt_kwargs a).
Proof.
unfold instance_typed. rewrite !andb_true_iff. intros [_ Ht].
destruct (prompt_template s) as [|t|]; try done. by exists t.
Qed.
End WellFormed.

(** ** The types of the results *)

Section ResultTypes.
Context {RT : PyRuntime} {FR : FieldRuntime} (env : Env) (Htyped : env_typed env).
Implicit Types (st : State) (a : Article) (prompt : pystr).

(** [returns m T]: what [m] returns satisfies [T]. *)
#[local, warnings="-notation-for-abbreviation"]
Notation returns m T :=
  (hoare (fun _ => True) m (fun v _ => T v) (fun _ _ => True)) (only parsing).

Lemma chat_completions_create_typed c mdl k ms :
  returns (chat_completions_create env c mdl k ms)
    (fun r => Forall (fun v => is_optional_str v = true) (choices r)).
Proof.
destruct c; [by apply hoare_raise |]. intros st _. simpl.
destruct (env_chat_create env _ _ _ _ _) eqn:Hr; [by eapply Htyped | done].
Qed.

Lemma index0_typed {A} (T : A -> Prop) (xs : list A) :
  hoare (fun _ : State => Forall T xs) (index0 xs) (fun x _ => T x) (fun _ _ => True).
Proof. destruct xs; intros st H; simpl; [done | by inversion H]. Qed.

Lemma summarize_with_openai_typed prompt :
  returns (_summarize_with_openai env prompt) (fun v => is_optional_str v = true).
Proof.
unfold _summarize_with_openai.
eapply hoare_bind; [apply hoare_true | intros c].
eapply hoare_bind; [apply hoare_true | intros mdl].
eapply hoare_bind; [apply chat_completions_create_typed | intros r].
apply index0_typed.
Qed.

Lemma dispatch_typed prompt :
  returns (dispatch env prompt) (fun v => is_optional_str v = true).
Proof.
unfold dispatch. eapply hoare_bind; [apply hoare_true | intros p].
destruct (value_eqb p _); [|destruct (value_eqb p _)].
- eapply hoare_bind; [apply hoare_true | intros t; by apply hoare_ret].
- apply summarize_with_openai_typed.
- eapply hoare_bind; [apply hoare_true | intros u; by apply hoare_ret].
Qed.

Lemma summarize_typed a :
  returns (summarize env a) (fun v => is_optional_str v = true).
Proof.
unfold summarize. destruct (_ <? _)%Z; [by apply hoare_ret |].
eapply hoare_bind; [apply hoare_true | intros t].
eapply hoare_bind; [apply hoare_true | intros prompt].
apply (hoare_try_except _ _ _ _ _ _ (fun _ _ => True)); [apply dispatch_typed | | done].
intros e _. eapply hoare_bind; [apply hoare_true | intros u; by apply hoare_ret].
Qed.

Lemma batch_step_typed N n i a acc :
  hoare (fun _ => Forall (fun r => is_optional_str r.2 = true) acc)
    (batch_step env N n i a acc)
    (fun rs _ => Forall (fun r => is_optional_str r.2 = true) rs) (fun _ _ => True).
Proof.
apply hoare_pure. intros Hacc. unfold batch_step.
eapply hoare_bind; [apply hoare_true | intros u].
eapply hoare_bind; [apply (summarize_typed a) | intros v].
apply hoare_ret. intros s Hv. apply Forall_app. split; [done | by constructor].
Qed.

Lemma batch_typed arts n :
  returns (summarize_batch env arts n)
    (fun rs => Forall (fun r => is_optional_str r.2 = true) rs).
Proof.
eapply hoare_conseq;
  [apply hoare_for_enumerate, batch_step_typed | by constructor | by intros | done].
Qed.
End ResultTypes.

(** ** Theorems *)

Section TypingTheorems.
Context {RT : PyRuntime} {FR : FieldRuntime} (env : Env).
Implicit Types (st : State) (a : Article).

(** C20. Well-formedness is an invariant of the life of an instance.  From
    a well-typed configuration, in every state the instance reaches its
    attributes have the types of their defaults, the slot is empty or holds
    the client of the configured provider, and every call made so far is a
    call of this instance: the construction of that client, or a request
    through it with the configured model, [max_tokens] 500 and one user
    message; so every call has arguments of the types the SDKs document. *)
Theorem reachable_wf config out st :
  config_typed config = true ->
  reachable env config (MkWorld out []) st ->
  wf_state st /\ Forall (fun call => call_typed call = true) (calls (world st)).
Proof.
intros Ht Hr.
pose proof (steps_invariant env wf_state _ _ (run_wf env) Hr (init_wf config out Ht)) as Hwf.
split; [done |]. destruct Hwf as [Hty [_ Hh]].
eapply Forall_impl; [exact Hh |]. intros call. by apply call_wf_typed.
Qed.

End TypingTheorems.

(** ** The theorems at concrete inputs *)

Lemma ex_env_null_content_typed : env_typed ex_env_null_content.
Proof. intros h c mdl k ms r [= <-]. by repeat constructor. Qed.

(** The annotation [-> str] of [_summarize_with_openai] does not hold: a
    choice without content makes it return [None]. *)
Lemma summarize_with_openai_returns_none :
  (_summarize_with_openai ex_env_null_content ex_prompt
     (init_state ex_typed (MkWorld [] []))).1 = Ok VNone.
Proof. vm_compute. reflexivity. Qed.

(** A configuration of numbers is not well typed, and gives an instance
    that is not. *)
Lemma ex_numbers_untyped :
  config_typed ex_numbers = false /\ instance_typed (__init__ ex_numbers) = false.
Proof. rewrite init_typed. split; vm_compute; reflexivity. Qed.

Lemma reachable_wf_witness :
  wf_state (run_all (RT:=ascii_runtime) (FR:=no_special) ex_env_null_content ex_session
              (init_state ex_typed (MkWorld [] [])))
  /\ Forall (fun call => call_typed call = true)
       (calls (world (run_all (RT:=ascii_runtime) (FR:=no_special) ex_env_null_content
                        ex_session (init_state ex_typed (MkWorld [] []))))).
Proof.
apply (reachable_wf (RT:=ascii_runtime) (FR:=no_special) ex_env_null_content ex_typed []);
  [vm_compute; reflexivity | apply run_all_steps].
Defined.

