(* ===== verification/Template.v ===== *)
(** Prompt templates as data.  [self.prompt_template.format(...)] scans
    the configured string on every call; this file gives the scan a result
    of its own: [parse] reads a format string into the template it denotes
    (literal texts and plainly named fields, then how the string ends),
    [instantiate] renders a parsed template, and [check_template] decides
    from the configured value alone whether [summarize] renders its prompt
    or raises, and which exception, going through the fields that are not
    plain with [check_field] (lookup, accessors, conversion, format
    specification).
    The theorems relate them to
    [py_format] and to [render_prompt]: rendering is parsing followed by
    instantiation, [parse] inverts [unparse], and a configuration that
    passes the check gives an instance whose calls all return. *)

From Stdlib Require Import ZArith NArith String List Lia.
From stdpp Require Import base tactics option list numbers gmap strings relations.
From S2P Require Import Prelude Logic PyStr FormatSpec Format Config Provider Summarize Batch.
From S2P Require Import Lifecycle Typing.


(** ** Parsed templates *)

(** How a format string ends after its plain parts: at its end, at a
    syntax error of the scanner, or at a field outside the plain fragment
    (an accessor, a conversion other than [!s], a format specification),
    followed by the rest of the string. *)
Variant tail : Type :=
| TEnd
| TError (e : exn)
| TSpecial (fld : field) (rest : pystr).

(** A parsed format string: its plain parts in order, and its end. *)
Definition template : Type := list part * tail.

(** Literal text in front of parts: it joins the text the parts start
    with, and no text is no part. *)
Definition text_part (t : pystr) (ps : list part) : list part :=
  match t, ps with
  | [], _ => ps
  | _, PText t' :: r => PText (t ++ t') :: r
  | _, _ => PText t :: ps
  end.

Definition prepend (t : pystr) (tp : template) : template :=
  (text_part t tp.1, tp.2).

Definition field_first (k : pystr) (tp : template) : template :=
  (PField k :: tp.1, tp.2).

(** The canonical form of a sequence of parts: adjacent texts joined,
    empty texts dropped.  It is the form the scanner reads back. *)
Fixpoint merge (ps : list part) : list part :=
  match ps with
  | [] => []
  | PText t :: ps' => text_part t (merge ps')
  | PField k :: ps' => PField k :: merge ps'
  end.

(** No empty text, no two texts in a row. *)
Fixpoint canonical (ps : list part) : bool :=
  match ps with
  | [] => true
  | PText t :: ps' =>
      py_truthy t && match ps' with PText _ :: _ => false | _ => true end
      && canonical ps'
  | PField _ :: ps' => canonical ps'
  end.

Section Parse.
Context {RT : PyRuntime}.

(** The keyword of a field that inserts its argument as it is. *)
Definition plain_key (fld : field) : option pystr :=
  if simple_key (field_name fld) && is_plain [] fld
  then Some (field_name fld) else None.

(** The scan of [do_markup] with the parts kept instead of rendered. *)
Fixpoint parse_template (fuel : nat) (s : pystr) : template :=
  match fuel with
  | O => ([], TEnd)
  | S fuel' =>
      match markup_next s with
      | MEnd => ([], TEnd)
      | MErr e => ([], TError e)
      | MItem text None rest => prepend text (parse_template fuel' rest)
      | MItem text (Some fld) rest =>
          match plain_key fld with
          | Some k => prepend text (field_first k (parse_template fuel' rest))
          | None => (text_part text [], TSpecial fld rest)
          end
      end
  end.

Definition parse (s : pystr) : template := parse_template (S (length s)) s.
End Parse.

Section Instantiate.
Context {RT : PyRuntime} {FR : FieldRuntime}.

(** What the end of a parsed template renders to. *)
Definition finish (kwargs : gmap pystr pystr) (tl : tail) : outcome exn pystr :=
  match tl with
  | TEnd => Ok []
  | TError e => Raise e
  | TSpecial fld rest =>
      match render_field kwargs fld with
      | Raise e => Raise e
      | Ok v => outcome_map (app v) (py_format rest kwargs)
      end
  end.

(** The rendering of a parsed template: its parts instantiated, then its
    end; the first error in this order is the result. *)
Definition instantiate (kwargs : gmap pystr pystr) (tp : template) : outcome exn pystr :=
  match substitute kwargs tp.1 with
  | Raise e => Raise e
  | Ok v => outcome_map (app v) (finish kwargs tp.2)
  end.
End Instantiate.

(** ** The check of a configured template *)

(** The first field that is neither [title] nor [content]. *)
Fixpoint first_unknown (ps : list part) : option pystr :=
  match ps with
  | [] => None
  | p :: ps' =>
      match p with
      | PField k => if known_part p then first_unknown ps' else Some k
      | PText _ => first_unknown ps'
      end
  end.

(** What [summarize] does with a template on every article with long
    content: the prompt renders, [format] raises a given exception, or it
    depends on a field outside the plain fragment. *)
Variant verdict : Type :=
| Renders
| Raises (e : exn)
| Depends.

#[export] Instance verdict_eq_dec : EqDecision verdict.
Proof. solve_decision. Defined.

(** What the rendering of one field does for every article: it raises a
    given exception, it renders, it renders when the [str] it pads can be
    allocated, or it depends on the article (an index into the title)
    or on the interface [FieldRuntime] (an attribute of a [str]). *)
Variant field_verdict : Type :=
| FRaises (e : exn)
| FRenders
| FRoom
| FDepends.

Section Check.
Context {RT : PyRuntime} {FR : FieldRuntime}.

(** The exception the lookup of a field raises whatever the article is:
    the keyword arguments are always [title] and [content], so the lookup
    of the first part of the name fails or succeeds for all articles
    alike. *)
Definition lookup_error (fld : field) : option exn :=
  match get_field_object (prompt_kwargs (MkArticle [] []))
          (field_name_split (field_name fld)).1 with
  | Raise e => Some e
  | Ok _ => None
  end.

(** The exception the first accessor of a field name raises whatever the
    [str] it is applied to: the [ValueError] of the iterator, the
    [TypeError] of a key that is no integer, or the [AttributeError] of
    a name that no [str] has. *)
Definition accessor_error (rest : pystr) : option exn :=
  match accessor_next rest with
  | Some (Raise e) => Some e
  | Some (Ok (Key key, _)) => Some (str_getitem_key [] key)
  | Some (Ok (Attribute name, _)) =>
      if is_str_attribute name then None else Some (no_attribute name)
  | _ => None
  end.

(** The check of a field, in the order of [output_markup]: the lookup,
    the accessors, the conversion, the format specification.  What an
    index or an attribute gives depends on the article or on the
    interface [FieldRuntime]. *)
Definition check_field (fld : field) : field_verdict :=
  match lookup_error fld with
  | Some e => FRaises e
  | None =>
      match (field_name_split (field_name fld)).2 with
      | (_ :: _) as rest =>
          match accessor_error rest with
          | Some e => FRaises e
          | None => FDepends
          end
      | [] =>
          match do_conversion (conversion fld) [] with
          | Raise e => FRaises e
          | Ok _ =>
              if spec_needs_expanding fld then FDepends
              else
                match spec_error (format_spec fld) with
                | Some e => FRaises e
                | None => if needs_room (format_spec fld) then FRoom else FRenders
                end
          end
      end
  end.

(** The check of a format string: its plain parts, then the field that
    is not plain and the rest of the string.  With [room] the check
    takes it that a padded [str] can be allocated. *)
Fixpoint check_string (room : bool) (fuel : nat) (t : pystr) : verdict :=
  match fuel with
  | O => Depends
  | S fuel' =>
      match first_unknown (parse t).1 with
      | Some k => Raises (MkExn KeyError k)
      | None =>
          match (parse t).2 with
          | TEnd => Renders
          | TError e => Raises e
          | TSpecial fld rest =>
              match check_field fld with
              | FRaises e => Raises e
              | FDepends => Depends
              | FRenders => check_string room fuel' rest
              | FRoom => if room then check_string room fuel' rest else Depends
              end
          end
      end
  end.

Definition check_template (room : bool) (v : value) : verdict :=
  match v with
  | VStr t => check_string room (S (length t)) t
  | other =>
      Raises (MkExn AttributeError
        (lit "'" ++ type_name other ++ lit "' object has no attribute 'format'"))
  end.

(** The check of a configuration: the template [__init__] will store. *)
Definition check_config (room : bool) (config : gmap string value) : verdict :=
  check_template room (prompt_template (__init__ config)).
End Check.

(** Whether a call returns. *)
Definition returns {RT : PyRuntime} {FR : FieldRuntime} (env : Env)
    (op : operation) (st : State) : bool :=
  match op with
  | OpSummarize a => is_ok (summarize env a st).1
  | OpBatch l n => is_ok (summarize_batch env l n st).1
  end.

(** A template with every kind of plain part: doubled braces, a field,
    a field with [!s] and one with an empty format specification. *)
Definition ex_template : pystr := lit "{{title}} {content!s} {title:}".

(** A configuration whose template limits the title to a column of 20
    and the content to 500 code points. *)
Definition ex_columns : gmap string value :=
  {["summary_prompt" := VStr (lit "{title:<20}|{content:.500}")]}.

(** A configuration whose template takes the first character of the
    title, and an article without a title. *)
Definition ex_initial : gmap string value :=
  {["summary_prompt" := VStr (lit "{title[0]}. {content}")]}.

Definition ex_untitled : Article := MkArticle [] (replicate 200 120%N).

(** A configuration whose template lacks a closing brace. *)
Definition ex_unclosed : gmap string value :=
  {["summary_prompt" := VStr (lit "Title: {title")]}.

(** ** Parts *)

Lemma text_part_nil ps : text_part [] ps = ps.
Proof. done. Qed.

Lemma text_part_app t1 t2 ps : text_part (t1 ++ t2) ps = text_part t1 (text_part t2 ps).
Proof.
destruct t1 as [|c t1]; [done |]. destruct t2 as [|c' t2].
- by rewrite app_nil_r.
- destruct ps as [|[t|k] ps]; simpl; try done. by rewrite <- app_assoc.
Qed.

Lemma prepend_app t1 t2 tp : prepend (t1 ++ t2) tp = prepend t1 (prepend t2 tp).
Proof. unfold prepend. simpl. by rewrite text_part_app. Qed.

Lemma substitute_text_part kwargs t ps :
  substitute kwargs (text_part t ps) = outcome_map (app t) (substitute kwargs ps).
Proof.
destruct t as [|c t]; [simpl; by destruct (substitute kwargs ps) |].
destruct ps as [|[t'|k] ps]; try done. simpl.
rewrite outcome_map_map. destruct (substitute kwargs ps); simpl; [|done].
by rewrite <- app_assoc.
Qed.

(** Joining texts does not change what a template renders to. *)
Lemma substitute_merge kwargs ps : substitute kwargs (merge ps) = substitute kwargs ps.
Proof.
induction ps as [|[t|k] ps IH]; simpl; [done | |].
- by rewrite substitute_text_part, IH.
- by rewrite IH.
Qed.

Lemma canonical_text_part t ps : canonical ps = true -> canonical (text_part t ps) = true.
Proof.
destruct t as [|c t]; [done |]. destruct ps as [|[t'|k] ps]; simpl; try done.
intros [[_ H1]%andb_true_iff H2]%andb_true_iff. by rewrite H1, H2.
Qed.

Lemma canonical_merge ps : canonical (merge ps) = true.
Proof.
induction ps as [|[t|k] ps IH]; simpl; [done | by apply canonical_text_part | done].
Qed.

(** A canonical sequence is its own canonical form. *)
Lemma merge_canonical ps : canonical ps = true -> merge ps = ps.
Proof.
induction ps as [|[t|k] ps IH]; simpl; [done | |].
- intros [[Ht Hn]%andb_true_iff Hc]%andb_true_iff. rewrite (IH Hc).
  destruct t; [done |]. by destruct ps as [|[?|?] ?].
- intros Hc. by rewrite (IH Hc).
Qed.

Lemma merge_idemp ps : merge (merge ps) = merge ps.
Proof. apply merge_canonical, canonical_merge. Qed.

Lemma forallb_text_part (f : part -> bool) t ps :
  (forall t', f (PText t') = true) -> forallb f (text_part t ps) = forallb f ps.
Proof.
intros Hf. destruct t as [|c t]; [done |].
destruct ps as [|[t'|k] ps]; simpl; by rewrite ?Hf.
Qed.

Lemma first_unknown_text_part t ps : first_unknown (text_part t ps) = first_unknown ps.
Proof. destruct t as [|c t]; [done |]. by destruct ps as [|[t'|k] ps]. Qed.

Lemma first_unknown_merge ps : first_unknown (merge ps) = first_unknown ps.
Proof.
induction ps as [|[t|k] ps IH]; simpl; [done | |].
- by rewrite first_unknown_text_part.
- by rewrite IH.
Qed.

(** ** The parser *)

Section ParseLemmas.
Context {RT : PyRuntime} {FR : FieldRuntime}.
Implicit Types (kwargs : gmap pystr pystr) (s t k : pystr) (tp : template).

Lemma prepend_nil tp : prepend [] tp = tp.
Proof. by destruct tp. Qed.

Lemma plain_key_spec fld k :
  plain_key fld = Some k ->
  k = field_name fld /\ simple_key k = true /\ is_plain [] fld = true.
Proof.
unfold plain_key. destruct (simple_key _ && is_plain _ _) eqn:H; [|done].
intros [= <-]. by apply andb_true_iff in H as [? ?].
Qed.

Lemma plain_key_simple k :
  simple_key k = true -> plain_key (MkField k None [] false) = Some k.
Proof. intros Hk. unfold plain_key. simpl. by rewrite Hk. Qed.

(** A field with a plain key renders to its argument, whatever the
    rendering of other fields does. *)
Lemma render_field_plain kwargs fld k :
  plain_key fld = Some k ->
  render_field kwargs fld =
    match kwargs !! k with
    | Some v => Ok v
    | None => Raise (MkExn KeyError k)
    end.
Proof.
intros (-> & Hk & Hp)%plain_key_spec.
pose proof Hk as (c & r & _ & _ & Hf)%simple_key_spec.
rewrite (render_field_is_plain _ _ (field_name fld)) by (by rewrite ?field_name_split_key).
by apply get_field_object_key.
Qed.

Lemma parse_template_S fuel s :
  parse_template (S fuel) s =
    match markup_next s with
    | MEnd => ([], TEnd)
    | MErr e => ([], TError e)
    | MItem text None rest => prepend text (parse_template fuel rest)
    | MItem text (Some fld) rest =>
        match plain_key fld with
        | Some k => prepend text (field_first k (parse_template fuel rest))
        | None => (text_part text [], TSpecial fld rest)
        end
    end.
Proof. reflexivity. Qed.

(** The scan ends before the fuel does: the parse does not depend on it. *)
Lemma parse_template_fuel f1 f2 s :
  length s < f1 -> length s < f2 -> parse_template f1 s = parse_template f2 s.
Proof.
revert f2 s. induction f1 as [|f1 IH]; intros [|f2] s Hf1 Hf2; [lia.. |].
rewrite !parse_template_S.
destruct (markup_next s) as [|e|text fld rest] eqn:Hm; [done.. |].
apply markup_next_shorter in Hm. by rewrite (IH f2 rest) by lia.
Qed.

Lemma parse_fuel fuel s : length s < fuel -> parse_template fuel s = parse s.
Proof. intros Hf. apply parse_template_fuel; [done | lia]. Qed.

Lemma parse_nil : parse [] = ([], TEnd).
Proof. reflexivity. Qed.

(** One round of the scan, with the rest parsed on its own. *)
Lemma parse_step s :
  parse s =
    match markup_next s with
    | MEnd => ([], TEnd)
    | MErr e => ([], TError e)
    | MItem text None rest => prepend text (parse rest)
    | MItem text (Some fld) rest =>
        match plain_key fld with
        | Some k => prepend text (field_first k (parse rest))
        | None => (text_part text [], TSpecial fld rest)
        end
    end.
Proof.
unfold parse at 1. rewrite parse_template_S.
destruct (markup_next s) as [|e|text fld rest] eqn:Hm; [done.. |].
apply markup_next_shorter in Hm. by rewrite (parse_fuel (length s) rest Hm).
Qed.

(** *** Instantiation *)

Lemma instantiate_prepend kwargs t tp :
  instantiate kwargs (prepend t tp) = outcome_map (app t) (instantiate kwargs tp).
Proof.
unfold instantiate, prepend. simpl. rewrite substitute_text_part.
destruct (substitute kwargs tp.1) as [v|e]; simpl; [|done].
rewrite outcome_map_map. apply outcome_map_ext. intros w. by rewrite app_assoc.
Qed.

Lemma instantiate_field_first kwargs k tp :
  instantiate kwargs (field_first k tp) =
    match kwargs !! k with
    | Some v => outcome_map (app v) (instantiate kwargs tp)
    | None => Raise (MkExn KeyError k)
    end.
Proof.
unfold instantiate, field_first. simpl. destruct (kwargs !! k) as [v|]; [|done].
destruct (substitute kwargs tp.1) as [w|e]; simpl; [|done].
rewrite outcome_map_map. apply outcome_map_ext. intros u. by rewrite app_assoc.
Qed.

Lemma instantiate_end kwargs ps : instantiate kwargs (ps, TEnd) = substitute kwargs ps.
Proof.
unfold instantiate. simpl. destruct (substitute kwargs ps); simpl; [|done].
by rewrite app_nil_r.
Qed.

Lemma instantiate_error kwargs ps e :
  instantiate kwargs (ps, TError e) =
    match substitute kwargs ps with Raise e' => Raise e' | Ok _ => Raise e end.
Proof. unfold instantiate. simpl. by destruct (substitute kwargs ps). Qed.

(** The renderer's loop is the parser's loop followed by instantiation. *)
Lemma build_string_parse fuel kwargs s :
  length s < fuel ->
  build_string fuel kwargs s = instantiate kwargs (parse_template fuel s).
Proof.
revert s. induction fuel as [|fuel IH]; intros s Hf; [lia |].
rewrite build_string_S, parse_template_S.
destruct (markup_next s) as [|e|text [fld|] rest] eqn:Hm; [done.. | |];
  apply markup_next_shorter in Hm.
- destruct (plain_key fld) as [k|] eqn:Hk.
  + rewrite (render_field_plain _ _ _ Hk), instantiate_prepend, instantiate_field_first.
    destruct (kwargs !! k) as [v|]; [|done].
    rewrite (IH rest) by lia. rewrite outcome_map_map.
    apply outcome_map_ext. intros w. by rewrite app_assoc.
  + change (text_part text [], TSpecial fld rest)
      with (prepend text ([], TSpecial fld rest)).
    rewrite instantiate_prepend. unfold instantiate. simpl.
    destruct (render_field kwargs fld) as [v|e]; [|done].
    rewrite (py_format_fuel fuel) by lia. rewrite !outcome_map_map.
    apply outcome_map_ext. intros w. by rewrite app_assoc.
- rewrite instantiate_prepend. by rewrite (IH rest) by lia.
Qed.

Lemma py_format_parse t kwargs : py_format t kwargs = instantiate kwargs (parse t).
Proof. unfold py_format, parse. apply build_string_parse. lia. Qed.

(** *** Equations of the parser on the characters of a format string *)

(** A character that is no brace joins the text that follows, when what
    follows has no syntax error. *)
Lemma parse_cons c s :
  is_brace c = false -> (parse s).2 = TEnd -> parse (c :: s) = prepend [c] (parse s).
Proof.
intros Hc. rewrite (parse_step (c :: s)), (parse_step s), (markup_next_cons _ _ Hc).
destruct (markup_next s) as [|e|text [fld|] rest]; [done.. | |]; intros _;
  change (c :: text) with ([c] ++ text).
- destruct (plain_key fld); [apply prepend_app |].
  unfold prepend. simpl fst. by rewrite text_part_app.
- apply prepend_app.
Qed.

(** A doubled brace is one brace of text. *)
Lemma parse_escape c s : is_brace c = true -> parse (c :: c :: s) = prepend [c] (parse s).
Proof. intros Hc. by rewrite parse_step, (markup_next_escape _ _ Hc). Qed.

(** A simple key between braces is a field. *)
Lemma parse_field k s :
  simple_key k = true -> parse (LBRACE :: k ++ RBRACE :: s) = field_first k (parse s).
Proof.
intros Hk. pose proof Hk as (c & r & Hcr & _ & Hf)%simple_key_spec.
rewrite parse_step, markup_next_field by (done || by rewrite Hcr).
by rewrite (plain_key_simple _ Hk), prepend_nil.
Qed.

Lemma parse_escape_text t s :
  (parse s).2 = TEnd -> parse (escape t ++ s) = prepend t (parse s).
Proof.
intros Hs. induction t as [|c t IH]; simpl; [by rewrite prepend_nil |].
destruct (is_brace c) eqn:Hc; simpl.
- by rewrite (parse_escape _ _ Hc), IH, <- prepend_app.
- rewrite (parse_cons _ _ Hc), IH, <- ?prepend_app; [done |]. by rewrite IH.
Qed.

(** The parse of the format string of a template is the template in
    canonical form. *)
Lemma parse_unparse_parts ps :
  forallb part_ok ps = true -> parse (unparse ps) = (merge ps, TEnd).
Proof.
induction ps as [|[t|k] ps IH]; simpl; [done | |].
- intros Hps. by rewrite parse_escape_text, (IH Hps) by (by rewrite (IH Hps)).
- intros [Hk Hps]%andb_true_iff. by rewrite (parse_field _ _ Hk), (IH Hps).
Qed.

(** The rest after a field that is not plain is shorter than the
    string. *)
Lemma parse_template_special fuel s fld rest :
  (parse_template fuel s).2 = TSpecial fld rest -> length rest < length s.
Proof.
revert s. induction fuel as [|fuel IH]; intros s; [done |].
rewrite parse_template_S.
destruct (markup_next s) as [|e|text [fld0|] rest0] eqn:Hm; [done.. | |];
  apply markup_next_shorter in Hm.
- destruct (plain_key fld0); simpl; [|intros [= _ <-]; lia].
  intros Hr%IH. lia.
- simpl. intros Hr%IH. lia.
Qed.

(** *** What the parser yields *)

Lemma parse_template_canonical fuel s : canonical (parse_template fuel s).1 = true.
Proof.
revert s. induction fuel as [|fuel IH]; intros s; [done |].
rewrite parse_template_S.
destruct (markup_next s) as [|e|text [fld|] rest]; [done.. | |].
- destruct (plain_key fld); [|by apply canonical_text_part].
  apply canonical_text_part. simpl. apply IH.
- apply canonical_text_part, IH.
Qed.

Lemma parse_template_part_ok fuel s : forallb part_ok (parse_template fuel s).1 = true.
Proof.
revert s. induction fuel as [|fuel IH]; intros s; [done |].
rewrite parse_template_S.
destruct (markup_next s) as [|e|text [fld|] rest]; [done.. | |].
- destruct (plain_key fld) as [k|] eqn:Hk; simpl; rewrite forallb_text_part by done; [|done].
  apply plain_key_spec in Hk as (_ & Hk & _). simpl. by rewrite Hk, IH.
- simpl. rewrite forallb_text_part by done. apply IH.
Qed.
End ParseLemmas.

(** ** The check *)

Section CheckLemmas.
Context {RT : PyRuntime} {FR : FieldRuntime} (env : Env).
Implicit Types (a : Article) (ps : list part) (tp : template) (v : value).

(** Which keys have an argument does not depend on the article. *)
Lemma prompt_kwargs_dom a b k :
  is_Some (prompt_kwargs a !! k) <-> is_Some (prompt_kwargs b !! k).
Proof.
destruct (decide (k = lit "title")) as [->|Ht];
  [by rewrite !prompt_kwargs_title |].
destruct (decide (k = lit "content")) as [->|Hc];
  [by rewrite !prompt_kwargs_content |].
by rewrite !prompt_kwargs_other.
Qed.

(** The instantiation of parts raises [KeyError] for the first field that
    is neither [title] nor [content], and succeeds when there is none. *)
Lemma substitute_first_unknown a ps :
  match first_unknown ps with
  | Some k => substitute (prompt_kwargs a) ps = Raise (MkExn KeyError k)
  | None => is_ok (substitute (prompt_kwargs a) ps) = true
  end.
Proof.
induction ps as [|[t|k] ps IH]; simpl; [done | |].
- destruct (first_unknown ps); [by rewrite IH | by rewrite is_ok_outcome_map].
- destruct (bool_decide _) eqn:Hk.
  + apply bool_decide_eq_true in Hk.
    assert (exists w, prompt_kwargs a !! k = Some w) as [w ->]
      by (destruct Hk as [-> | ->]; eauto using prompt_kwargs_title, prompt_kwargs_content).
    destruct (first_unknown ps); [by rewrite IH | by rewrite is_ok_outcome_map].
  + apply bool_decide_eq_false in Hk.
    rewrite prompt_kwargs_other; [done | intros ->; apply Hk; auto..].
Qed.

(** The lookup of a field fails for one article as for another. *)
Lemma get_field_object_article a b first e :
  get_field_object (prompt_kwargs a) first = Raise e ->
  get_field_object (prompt_kwargs b) first = Raise e.
Proof.
unfold get_field_object. destruct (get_integer first) as [[i|]|e0]; [done | | done].
destruct first as [|c r]; [done |].
pose proof (prompt_kwargs_dom a b (c :: r)) as Hd.
destruct (prompt_kwargs a !! (c :: r)) as [w|] eqn:Ha; [done |].
destruct (prompt_kwargs b !! (c :: r)) as [w|] eqn:Hb; [|done].
destruct (proj2 Hd) as [? [=]]. eauto.
Qed.

Lemma get_field_object_article_ok a b first obj :
  get_field_object (prompt_kwargs a) first = Ok obj ->
  is_ok (get_field_object (prompt_kwargs b) first) = true.
Proof.
intros Ha. destruct (get_field_object (prompt_kwargs b) first) as [w|e] eqn:Hb; [done |].
by rewrite (get_field_object_article b a _ _ Hb) in Ha.
Qed.

Lemma render_field_lookup_error a fld e :
  lookup_error fld = Some e -> render_field (prompt_kwargs a) fld = Raise e.
Proof.
unfold lookup_error, render_field, render_with.
destruct (field_name_split (field_name fld)) as [first rest]. simpl.
destruct (get_field_object (prompt_kwargs (MkArticle [] [])) first) as [w|e0] eqn:H;
  [done |].
intros [= <-]. by rewrite (get_field_object_article _ a _ _ H).
Qed.

(** Whether a conversion fails depends on its character alone. *)
Lemma do_conversion_error conv (x y : pystr) e :
  do_conversion conv x = Raise e -> do_conversion conv y = Raise e.
Proof. unfold do_conversion. by repeat case_match. Qed.

Lemma do_conversion_ok conv (x y u : pystr) :
  do_conversion conv x = Ok u -> is_ok (do_conversion conv y) = true.
Proof. unfold do_conversion. by repeat case_match. Qed.

(** An accessor that fails on every [str] fails the lookup. *)
Lemma follow_accessor_error fuel obj rest e :
  accessor_error rest = Some e -> follow (S fuel) obj rest = Raise e.
Proof.
unfold accessor_error. cbn [follow].
destruct (accessor_next rest) as [[[[name|i|key] rest']|e']|]; try by intros [= <-].
by destruct (is_str_attribute name); intros [= <-].
Qed.

(** The check of a field is sound, whatever the article. *)
Lemma check_field_sound a fld :
  match check_field fld with
  | FRaises e => render_field (prompt_kwargs a) fld = Raise e
  | FRenders => is_ok (render_field (prompt_kwargs a) fld) = true
  | FRoom =>
      (forall n, can_allocate n = true) ->
      is_ok (render_field (prompt_kwargs a) fld) = true
  | FDepends => True
  end.
Proof.
unfold check_field. destruct (lookup_error fld) as [e|] eqn:Hl;
  [by apply render_field_lookup_error |].
unfold lookup_error in Hl. unfold render_field, render_with.
destruct (field_name_split (field_name fld)) as [first rest]. cbn [fst snd] in *.
destruct (get_field_object (prompt_kwargs (MkArticle [] [])) first) as [w|] eqn:Hw;
  [clear Hl | done].
apply (get_field_object_article_ok _ a) in Hw.
destruct (get_field_object (prompt_kwargs a) first) as [obj|]; [clear Hw | done].
destruct rest as [|c rest].
2: { destruct (accessor_error (c :: rest)) as [e|] eqn:He; [| done].
     by rewrite (follow_accessor_error _ obj _ _ He). }
cbn [length follow accessor_next]. unfold format_object.
destruct (do_conversion (conversion fld) []) as [u|e] eqn:Hc;
  [apply (do_conversion_ok _ _ obj) in Hc | by rewrite (do_conversion_error _ _ obj _ Hc)].
destruct (do_conversion (conversion fld) obj) as [v|]; [clear Hc | done].
destruct (spec_needs_expanding fld); [done |].
destruct (spec_error (format_spec fld)) as [e|] eqn:He; [by apply format_str_error |].
destruct (needs_room (format_spec fld)) eqn:Hn.
- intros Hroom. by apply format_str_room.
- by rewrite (format_str_plain v _ He Hn).
Qed.

(** The check of a format string is sound, whatever the article and the
    fuel; with [room], when every [str] can be allocated. *)
Lemma check_string_sound room fuel t a :
  (room = true -> forall n, can_allocate n = true) ->
  match check_string room fuel t with
  | Renders => is_ok (py_format t (prompt_kwargs a)) = true
  | Raises e => py_format t (prompt_kwargs a) = Raise e
  | Depends => True
  end.
Proof.
intros Hroom. revert t. induction fuel as [|fuel IH]; intros t; [done |].
cbn [check_string]. rewrite py_format_parse. unfold instantiate.
pose proof (substitute_first_unknown a (parse t).1) as Hs.
destruct (first_unknown (parse t).1); [by rewrite Hs |].
destruct (substitute _ _) as [w|]; [clear Hs | done].
destruct (parse t).2 as [|e|fld rest]; simpl; [done.. |].
pose proof (check_field_sound a fld) as Hf. specialize (IH rest).
assert (Hrest : is_ok (render_field (prompt_kwargs a) fld) = true ->
  match check_string room fuel rest with
  | Renders =>
      is_ok (outcome_map (app w)
               match render_field (prompt_kwargs a) fld with
               | Ok v => outcome_map (app v) (py_format rest (prompt_kwargs a))
               | Raise e => Raise e
               end) = true
  | Raises e =>
      outcome_map (app w)
        match render_field (prompt_kwargs a) fld with
        | Ok v => outcome_map (app v) (py_format rest (prompt_kwargs a))
        | Raise e => Raise e
        end = Raise e
  | Depends => True
  end).
{ destruct (render_field _ fld) as [v|]; [intros _ | done].
  destruct (check_string room fuel rest); [|by rewrite IH | done].
  by rewrite !is_ok_outcome_map. }
destruct (check_field fld) as [e| | |]; [by rewrite Hf | by apply Hrest | | done].
destruct room; [|done]. by apply Hrest, Hf, Hroom.
Qed.

(** The check ends before its fuel does: every round goes on with a
    shorter string. *)
Lemma check_string_fuel room f1 f2 t :
  length t < f1 -> length t < f2 -> check_string room f1 t = check_string room f2 t.
Proof.
revert f2 t. induction f1 as [|f1 IH]; intros [|f2] t Hf1 Hf2; [lia.. |].
cbn [check_string]. destruct (first_unknown _); [done |].
destruct (parse t).2 as [|e|fld rest] eqn:Hp; [done.. |].
apply parse_template_special in Hp.
by rewrite (IH f2 rest) by lia.
Qed.

(** The check is sound for [render_prompt], whatever the article. *)
Lemma render_prompt_check room v a :
  (room = true -> forall n, can_allocate n = true) ->
  match check_template room v with
  | Renders => is_ok (render_prompt v a) = true
  | Raises e => render_prompt v a = Raise e
  | Depends => True
  end.
Proof.
intros Hroom. destruct v as [|t|cls text]; [done | | done].
by apply check_string_sound.
Qed.

(** The template of an instance is the one [__init__] stored. *)
Lemma reachable_template config w st :
  reachable env config w st ->
  prompt_template (self st) = prompt_template (__init__ config).
Proof.
intros [Hc _ _ _]%steps_evolve. by apply (f_equal prompt_template) in Hc.
Qed.

(** A template that passes the check makes every call return. *)
Lemma checked_returns room op st :
  (room = true -> forall n, can_allocate n = true) ->
  check_template room (prompt_template (self st)) = Renders ->
  env_catchable env -> writable env -> returns env op st = true.
Proof.
intros Hroom Hc Hcatch Hw.
assert (Hr : forall a, is_ok (render_prompt (prompt_template (self st)) a) = true).
{ intros a. pose proof (render_prompt_check room (prompt_template (self st)) a Hroom) as H.
  by rewrite Hc in H. }
destruct op as [a|l n]; simpl.
- by apply summarize_is_ok.
- by apply (batch_loop_total env _ _ (prompt_template (self st))).
Qed.
End CheckLemmas.

(** ** Theorems *)

Section TemplateTheorems.
Context {RT : PyRuntime} {FR : FieldRuntime} (env : Env).


(** C37. [check_template] decides from the configured value what prompt
    rendering does for every article: on [Renders] the prompt renders, on
    [Raises e] rendering raises [e] ([AttributeError] for a value that is
    no [str], [KeyError] for the first field that is neither [title] nor
    [content], the scanner's [ValueError], the [IndexError] of a numbered
    or unnamed field, the [ValueError] of a conversion or of a format
    specification that a [str] does not take), in the order [format]
    meets them.  With [room] the check takes it that a [str] padded to a
    width can be allocated. *)
Theorem check_template_sound room v a :
  (room = true -> forall n, can_allocate n = true) ->
  match check_template room v with
  | Renders => is_ok (render_prompt v a) = true
  | Raises e => render_prompt v a = Raise e
  | Depends => True
  end.
Proof. apply render_prompt_check. Qed.

(** C40. The check of a configuration holds for the whole life of the
    instance.  On [Renders], with an environment that raises only
    [Exception]s and a standard output that takes every line, every call
    of [summarize] and of [summarize_batch] in every state the instance
    reaches returns.  On [Raises e], every call of [summarize] on long
    content raises [e] and leaves the state untouched. *)
Theorem check_config_sound room config w st :
  (room = true -> forall n, can_allocate n = true) ->
  reachable env config w st ->
  match check_config room config with
  | Renders =>
      env_catchable env -> writable env -> forall op, returns env op st = true
  | Raises e =>
      forall a, (SHORT_CONTENT <= py_len (content a))%Z ->
        summarize env a st = (Raise e, st)
  | Depends => True
  end.
Proof.
intros Hroom Ht%reachable_template. unfold check_config. rewrite <- Ht.
pose proof (render_prompt_check room (prompt_template (self st))) as Hc.
destruct (check_template _ _) as [|e|] eqn:Hv; [| |done].
- intros Hcatch Hw op. by apply (checked_returns env room).
- intros a Hlen. by rewrite (summarize_long _ _ _ Hlen), (Hc a Hroom).
Qed.

(** C38. Parsing inverts printing.  The format string of parts with simple
    field names parses to these parts in canonical form, to its end; and
    a string that parses to its end has the same parse as the format
    string of its parts, which renders the same prompt. *)
Theorem template_roundtrip ps t a :
  forallb part_ok ps = true -> (parse t).2 = TEnd ->
  parse (unparse ps) = (merge ps, TEnd) /\
  parse (unparse (parse t).1) = parse t /\
  render_prompt (VStr (unparse (parse t).1)) a = render_prompt (VStr t) a.
Proof.
intros Hps Ht. split; [by apply parse_unparse_parts |].
assert (Hp : parse (unparse (parse t).1) = parse t).
{ rewrite parse_unparse_parts by apply parse_template_part_ok.
  rewrite merge_canonical by apply parse_template_canonical.
  rewrite <- Ht. by destruct (parse t). }
split; [done |]. unfold render_prompt. by rewrite !py_format_parse, Hp.
Qed.

(** A field with a format specification, after a template with simple
    field names: the prompt is the instantiation of the template, the
    argument of the field formatted by [str.__format__], and what the
    rest of the string renders to; the first exception in this order is
    raised. *)
Theorem render_prompt_formatted ps k spec rest a :
  forallb part_ok ps = true -> simple_key k = true ->
  forallb (fun c => negb (is_brace c)) spec = true ->
  render_prompt (VStr (unparse ps ++ LBRACE :: k ++ COLON :: spec ++ RBRACE :: rest)) a =
    match substitute (prompt_kwargs a) ps with
    | Raise e => Raise e
    | Ok u =>
        match prompt_kwargs a !! k with
        | None => Raise (MkExn KeyError k)
        | Some v =>
            match format_str v spec with
            | Raise e => Raise e
            | Ok w => outcome_map (app (u ++ w)) (render_prompt (VStr rest) a)
            end
        end
    end.
Proof.
intros Hps Hk Hs. unfold render_prompt.
rewrite (py_format_unparse_app _ _ _ Hps), (py_format_field_spec _ _ _ _ Hk Hs).
destruct (substitute _ ps) as [u|]; [|done].
destruct (prompt_kwargs a !! k) as [v|]; [|done].
destruct (format_str v spec) as [w|]; [|done].
rewrite outcome_map_map. apply outcome_map_ext. intros x. by rewrite app_assoc.
Qed.

(** A field with an index, after a template with simple field names:
    the prompt is the instantiation of the template, the character of
    the argument at the index, and what the rest of the string renders
    to; an argument that is too short raises [IndexError]. *)
Theorem render_prompt_indexed ps k i rest a :
  forallb part_ok ps = true -> simple_key k = true -> (0 <= i <= PY_SSIZE_T_MAX)%Z ->
  render_prompt
    (VStr (unparse ps ++ LBRACE :: k ++ LBRACKET :: str_of_int i ++ RBRACKET :: RBRACE :: rest)) a =
    match substitute (prompt_kwargs a) ps with
    | Raise e => Raise e
    | Ok u =>
        match prompt_kwargs a !! k with
        | None => Raise (MkExn KeyError k)
        | Some v =>
            match str_getitem v i with
            | Raise e => Raise e
            | Ok ch => outcome_map (app (u ++ ch)) (render_prompt (VStr rest) a)
            end
        end
    end.
Proof.
intros Hps Hk Hi. unfold render_prompt.
rewrite (py_format_unparse_app _ _ _ Hps), (py_format_index _ _ _ _ Hk Hi).
destruct (substitute _ ps) as [u|]; [|done].
destruct (prompt_kwargs a !! k) as [v|]; [|done].
destruct (str_getitem v i) as [ch|]; [|done].
rewrite outcome_map_map. apply outcome_map_ext. intros x. by rewrite app_assoc.
Qed.

(** The parse does not depend on the fuel. *)
Theorem parse_terminates fuel t : length t < fuel -> parse_template fuel t = parse t.
Proof. apply parse_fuel. Qed.
End TemplateTheorems.

(** ** The theorems at concrete templates *)

Lemma ex_json_prompt_check room :
  check_config (RT:=ascii_runtime) (FR:=no_special) room ex_json_prompt
  = Raises (MkExn KeyError (lit "'summary'")).
Proof. destruct room; by vm_compute. Qed.

Lemma ex_unclosed_check room :
  check_config (RT:=ascii_runtime) (FR:=no_special) room ex_unclosed
  = Raises (value_error "expected '}' before end of string").
Proof. destruct room; by vm_compute. Qed.

Lemma ex_null_prompt_check room :
  check_config (RT:=ascii_runtime) (FR:=no_special) room ex_null_prompt
  = Raises (MkExn AttributeError (lit "'NoneType' object has no attribute 'format'")).
Proof. destruct room; by vm_compute. Qed.

Lemma default_config_check room : check_config (RT:=ascii_runtime) (FR:=no_special) room ∅ = Renders.
Proof. destruct room; by vm_compute. Qed.

(** A template with a width and a precision renders when there is room,
    and is left undecided otherwise. *)
Lemma ex_columns_check :
  check_config (RT:=ascii_runtime) (FR:=no_special) true ex_columns = Renders /\
  check_config (RT:=ascii_runtime) (FR:=no_special) false ex_columns = Depends.
Proof. split; by vm_compute. Qed.

(** A template that indexes the title renders for an article with a
    title; for one without, [summarize] raises the [IndexError] of the
    index to its caller.  The check, which does not see the article,
    leaves the template undecided. *)
Lemma ex_initial_check room :
  check_config (RT:=ascii_runtime) (FR:=no_special) room ex_initial = Depends /\
  render_prompt (RT:=ascii_runtime) (FR:=no_special)
    (VStr (lit "{title[0]}. {content}")) ex_short = Ok (lit "B. " ++ replicate 50 120%N) /\
  (summarize (RT:=ascii_runtime) (FR:=no_special) ex_env ex_untitled (ex_state ex_initial)).1
  = Raise (MkExn IndexError (lit "string index out of range")).
Proof. destruct room; by vm_compute. Qed.

(** A field through an attribute that no [str] has, through a key that
    is no integer, or through an empty index, raises whatever the
    article. *)
Lemma ex_accessor_check room :
  check_template (RT:=ascii_runtime) (FR:=no_special) room (VStr (lit "{title.text}"))
  = Raises (MkExn AttributeError (lit "'str' object has no attribute 'text'")) /\
  check_template (RT:=ascii_runtime) (FR:=no_special) room (VStr (lit "{title[first]}"))
  = Raises (MkExn TypeError (lit "string indices must be integers, not 'str'")) /\
  check_template (RT:=ascii_runtime) (FR:=no_special) room (VStr (lit "{title[]}"))
  = Raises (value_error "Empty attribute in format string").
Proof. destruct room; by vm_compute. Qed.

Lemma check_template_sound_witness :
  is_ok (render_prompt (RT:=ascii_runtime) (FR:=no_special)
           (VStr (lit "{title:<20}|{content:.500}")) ex_long) = true.
Proof.
pose proof (check_template_sound (RT:=ascii_runtime) (FR:=no_special) true
              (VStr (lit "{title:<20}|{content:.500}")) ex_long (fun _ _ => eq_refl)) as H.
assert (Hc : check_template (RT:=ascii_runtime) (FR:=no_special) true (VStr (lit "{title:<20}|{content:.500}"))
             = Renders) by (by vm_compute).
rewrite Hc in H. exact H.
Defined.

Lemma check_config_sound_witness :
  (forall op,
     returns (RT:=ascii_runtime) (FR:=no_special) ex_env op
       (run_all (RT:=ascii_runtime) (FR:=no_special) ex_env ex_session
          (init_state ex_columns (MkWorld [] []))) = true) /\
  (forall a, (SHORT_CONTENT <= py_len (content a))%Z ->
     summarize (RT:=ascii_runtime) (FR:=no_special) ex_env a
       (init_state ex_json_prompt (MkWorld [] []))
     = (Raise (MkExn KeyError (lit "'summary'")),
        init_state ex_json_prompt (MkWorld [] []))).
Proof.
split.
- pose proof (check_config_sound (RT:=ascii_runtime) (FR:=no_special) ex_env true
                ex_columns (MkWorld [] []) _ (fun _ _ => eq_refl)
                (run_all_steps _ ex_session _)) as H.
  rewrite (proj1 ex_columns_check) in H.
  exact (H ex_env_catchable ex_env_writable).
- pose proof (check_config_sound (RT:=ascii_runtime) (FR:=no_special) ex_env false
                ex_json_prompt (MkWorld [] []) _ (fun H => False_ind _ (Bool.diff_false_true H))
                (rtc_refl _ _)) as H.
  rewrite ex_json_prompt_check in H. exact H.
Defined.

(** A precision limits what a field inserts: [{content:.500}] is the first
    500 code points of the content. *)
Lemma render_prompt_formatted_witness a :
  render_prompt (RT:=ascii_runtime) (FR:=no_special) (VStr (lit "{content:.500}")) a
  = Ok (take 500 (content a)).
Proof.
change (lit "{content:.500}")
  with (unparse [] ++ LBRACE :: lit "content" ++ COLON :: lit ".500" ++ [RBRACE]).
rewrite (render_prompt_formatted (RT:=ascii_runtime) (FR:=no_special)
           [] (lit "content") (lit ".500") [] a) by (by vm_compute).
cbn [substitute]. rewrite prompt_kwargs_content.
assert (Hf : format_str (RT:=ascii_runtime) (content a) (lit ".500")
             = Ok (take 500 (content a))).
{ change (format_str (content a) (lit ".500"))
    with (pad (RT:=ascii_runtime) (content a)
            (MkSpec SPACE LESS None false false None None (Some 500%Z) LETTER_s)).
  by apply (pad_precision _ _ 500%Z). }
rewrite Hf. simpl. by rewrite app_nil_r.
Qed.

(** The template [{title[0]}] renders to the first character of the
    title, and raises [IndexError] for an article without a title. *)
Lemma render_prompt_indexed_witness a :
  render_prompt (RT:=ascii_runtime) (FR:=no_special) (VStr (lit "{title[0]}")) a
  = match title a with
    | [] => Raise (MkExn IndexError (lit "string index out of range"))
    | c :: _ => Ok [c]
    end.
Proof.
change (lit "{title[0]}")
  with (unparse [] ++ LBRACE :: lit "title" ++ LBRACKET :: str_of_int 0 ++ [RBRACKET; RBRACE]).
rewrite (render_prompt_indexed (RT:=ascii_runtime) (FR:=no_special)
           [] (lit "title") 0 [] a) by (by vm_compute).
cbn [substitute]. rewrite prompt_kwargs_title. unfold str_getitem.
by destruct (title a).
Qed.

Lemma template_roundtrip_witness :
  parse (RT:=ascii_runtime) (unparse ex_parts_author)
    = (merge ex_parts_author, TEnd) /\
  parse (RT:=ascii_runtime) (unparse (parse (RT:=ascii_runtime) ex_template).1)
    = parse (RT:=ascii_runtime) ex_template /\
  render_prompt (RT:=ascii_runtime) (FR:=no_special)
    (VStr (unparse (parse (RT:=ascii_runtime) ex_template).1)) ex_long
    = render_prompt (RT:=ascii_runtime) (FR:=no_special) (VStr ex_template) ex_long.
Proof. apply template_roundtrip; by vm_compute. Defined.

Lemma parse_terminates_witness :
  parse_template (RT:=ascii_runtime) 1000 _default_prompt
  = parse (RT:=ascii_runtime) _default_prompt.
Proof. apply parse_terminates. vm_compute. lia. Defined.

(** The built-in template parses to its parts. *)
Lemma default_prompt_parse : parse (RT:=ascii_runtime) _default_prompt = (default_parts, TEnd).
Proof. by vm_compute. Qed.
