(* ===== verification/Spec.v ===== *)
(** The contract of the summarizer and the proof that [Summarizer]
    implements it.

    The contract has no client and no slot.  Its state is what a caller can
    observe of the world, the lines printed and the requests sent; the
    configuration is a parameter that never changes; the provider is a
    backend selected once, and every exchange with it asks whether the
    backend is available and then sends the request.  [summarize] and
    [summarize_batch], with their lazily constructed and cached client,
    refine it: for an environment whose constructors and answers do not
    depend on the constructor calls made before, they return the same
    values, raise the same exceptions, print the same lines and send the
    same requests.  It follows that the methods respect the relation
    [obs_equiv] of states a caller cannot tell apart ([Proper] instances),
    so that no sequence of calls observes the cache. *)

From Stdlib Require Import ZArith NArith String List Lia.
From Stdlib Require Import Morphisms RelationClasses.
From stdpp Require Import base tactics option list numbers gmap strings.
From S2P Require Import Prelude Logic PyStr Format Config Provider Summarize Batch Lifecycle.


(** ** The contract *)

(** What a caller observes of the world: the lines printed and the
    requests sent, oldest first. *)
Record Journal : Type := MkJournal {
  printed : list pystr;
  sent : list Call;
}.

(** The backend a configuration selects, with what it needs of the
    configuration. *)
Inductive Backend : Type :=
| Claude (mdl key : value)
| OpenAI (mdl key base_url : value)
| Unknown (name : value).

Definition backend_of (cfg : Summarizer) : Backend :=
  if value_eqb (provider cfg) (lit "claude") then Claude (model cfg) (api_key cfg)
  else if value_eqb (provider cfg) (lit "openai") then
    OpenAI (openai_model cfg) (openai_api_key cfg) (openai_api_base cfg)
  else Unknown (provider cfg).

(** The client of a backend and the request it sends for a prompt: the
    model, [max_tokens] 500 and the prompt as the one user message. *)
Definition backend_call (b : Backend) (prompt : pystr) : option (Client * Call) :=
  match b with
  | Claude m k =>
      Some (AnthropicClient k,
            MessagesCreate (AnthropicClient k) m 500 [MkMessage (lit "user") prompt])
  | OpenAI m k u =>
      Some (OpenAIClient k u,
            ChatCompletionsCreate (OpenAIClient k u) m 500 [MkMessage (lit "user") prompt])
  | Unknown _ => None
  end.

Section Contract.
Context {RT : PyRuntime} {FR : FieldRuntime} (env : Env).

(** [print] in the contract: the line joins the lines printed, or the
    standard output refuses it. *)
Definition say (line : pystr) : PyM Journal exn unit :=
  fun j =>
    match env_print env (printed j) line with
    | None => (Ok tt, MkJournal (printed j ++ [line]) (sent j))
    | Some e => (Raise e, j)
    end.

(** Whether the backend can be used through the client [c]: the SDK is
    importable and the constructor returns.  [None] is yes. *)
Definition available (c : Client) : option exn :=
  match env_import env (sdk_module c) with
  | Some e => Some e
  | None => env_new_client env [] c
  end.

(** What a request yields after the requests [h]: the summary, which may
    be [None], or an exception. *)
Definition answer (h : list Call) (req : Call) : outcome exn value :=
  match req with
  | MessagesCreate c m k ms =>
      match env_messages_create env h c m k ms with
      | Ok blocks => outcome_map VStr (first_text blocks)
      | Raise e => Raise e
      end
  | ChatCompletionsCreate c m k ms =>
      match env_chat_create env h c m k ms with
      | Ok r => first_choice r
      | Raise e => Raise e
      end
  | NewClient _ => Ok VNone
  end.

(** One exchange: nothing is sent when the backend is not available. *)
Definition ask (c : Client) (req : Call) : PyM Journal exn value :=
  fun j =>
    match available c with
    | Some e => (Raise e, j)
    | None => (answer (sent j) req, MkJournal (printed j) (sent j ++ [req]))
    end.

(** The exchange with the configured backend, with a warning and no
    summary for an unknown one. *)
Definition dispatch_spec (cfg : Summarizer) (prompt : pystr) : PyM Journal exn value :=
  match backend_call (backend_of cfg) prompt with
  | Some (c, req) => ask c req
  | None => say (warning_line (provider cfg)) ;; ret VNone
  end.

(** A failure becomes one error line and no summary. *)
Definition on_error_spec (a : Article) (e : exn) : PyM Journal exn value :=
  say (error_line a e) ;; ret VNone.

(** The contract of [summarize]. *)
Definition summarize_spec (cfg : Summarizer) (a : Article) : PyM Journal exn value :=
  if (py_len (content a) <? SHORT_CONTENT)%Z then
    ret (VStr (if py_truthy (content a) then content a else NO_CONTENT))
  else
    prompt <- lift_outcome (render_prompt (prompt_template cfg) a) ;;
    try_except is_Exception (dispatch_spec cfg prompt) (on_error_spec a).

(** The contract of [summarize_batch]. *)
Definition batch_step_spec (cfg : Summarizer) (n_articles max_articles : Z) (i : Z)
    (a : Article) (results : list (Article * value))
    : PyM Journal exn (list (Article * value)) :=
  say (progress_line i n_articles max_articles a) ;;
  summary <- summarize_spec cfg a ;;
  ret (results ++ [(a, summary)]).

Definition summarize_batch_spec (cfg : Summarizer) (articles : list Article)
    (max_articles : Z) : PyM Journal exn (list (Article * value)) :=
  for_enumerate (batch_step_spec cfg (py_len articles) max_articles) 0
    (py_slice_to articles max_articles) [].

(** The journal a call leaves, and the journal after a sequence of calls. *)
Definition run_spec (cfg : Summarizer) (op : operation) (j : Journal) : Journal :=
  match op with
  | OpSummarize a => (summarize_spec cfg a j).2
  | OpBatch l n => (summarize_batch_spec cfg l n j).2
  end.

Definition run_all_spec (cfg : Summarizer) (ops : list operation) (j : Journal) : Journal :=
  foldl (fun j op => run_spec cfg op j) j ops.

(** ** The refinement relation *)

(** The environment does not look at the constructor calls: a constructor
    does the same whenever it is called, and a request is answered from
    the requests sent before it. *)
Record request_driven : Prop := MkRequestDriven {
  rd_new_client : forall h c, env_new_client env h c = env_new_client env [] c;
  rd_messages : forall h c m k ms,
    env_messages_create env h c m k ms =
    env_messages_create env (List.filter is_request h) c m k ms;
  rd_chat : forall h c m k ms,
    env_chat_create env h c m k ms =
    env_chat_create env (List.filter is_request h) c m k ms;
}.

(** [sim cfg st j]: the instance has the configuration [cfg], a client in
    its slot is the client of the configured backend and the backend is
    available through it, and the journal is what the world shows. *)
Record sim (cfg : Summarizer) (st : State) (j : Journal) : Prop := MkSim {
  sim_config : set_client None (self st) = set_client None cfg;
  sim_client : forall c, _client (self st) = Some c ->
    client_of (self st) = Some c /\ available c = None;
  sim_printed : stdout (world st) = printed j;
  sim_sent : requests_of st = sent j;
}.

(** What a caller observes of a state. *)
Definition observe (st : State) : Journal := MkJournal (stdout (world st)) (requests_of st).

(** The slot of a state is usable: a client in it is the client of the
    configured backend, and the backend is available through it. *)
Definition slot_ok (st : State) : Prop :=
  forall c, _client (self st) = Some c ->
    client_of (self st) = Some c /\ available c = None.

(** Two states of instances that a caller cannot tell apart: the same
    configuration, the same lines printed and requests sent, and usable
    slots, whatever the slots hold.  The relation is symmetric and
    transitive; it relates a state to itself when its slot is usable. *)
Record obs_equiv (st1 st2 : State) : Prop := MkObsEquiv {
  oe_config : set_client None (self st1) = set_client None (self st2);
  oe_left : slot_ok st1;
  oe_right : slot_ok st2;
  oe_observe : observe st1 = observe st2;
}.
End Contract.

(** ** Lemmas on the relation *)

Section SimLemmas.
Context {RT : PyRuntime} {FR : FieldRuntime} (env : Env) (cfg : Summarizer).
Implicit Types (st : State) (j : Journal) (a : Article) (prompt : pystr) (c : Client).

Lemma sim_field {A} (f : Summarizer -> A) st j :
  (forall s, f (set_client None s) = f s) -> sim env cfg st j -> f (self st) = f cfg.
Proof. intros Hf [Hc _ _ _]. by rewrite <- (Hf (self st)), Hc, Hf. Qed.

Lemma sim_provider st j : sim env cfg st j -> provider (self st) = provider cfg.
Proof. by apply (sim_field provider). Qed.

Lemma sim_template st j : sim env cfg st j -> prompt_template (self st) = prompt_template cfg.
Proof. by apply (sim_field prompt_template). Qed.

Lemma sim_log_line line st j :
  sim env cfg st j -> sim env cfg (log_line line st) (MkJournal (printed j ++ [line]) (sent j)).
Proof. intros [H1 H2 H3 H4]. split; simpl; [done | done | by rewrite H3 | done]. Qed.

Lemma sim_request req st j :
  is_request req = true ->
  sim env cfg st j -> sim env cfg (record_call req st) (MkJournal (printed j) (sent j ++ [req])).
Proof.
intros Hr [H1 H2 H3 H4]. split; simpl; [done | done | done |].
by rewrite requests_of_record_call, Hr, H4.
Qed.

Lemma sim_new_client c st j :
  sim env cfg st j -> sim env cfg (record_call (NewClient c) st) j.
Proof.
intros [H1 H2 H3 H4]. split; simpl; [done | done | done |].
rewrite requests_of_record_call. simpl. by rewrite app_nil_r.
Qed.

(** Filling an empty slot with the client of the configured provider keeps
    the relation when the backend is available through it. *)
Lemma sim_set_client c st j :
  client_of (self st) = Some c -> available env c = None ->
  sim env cfg st j -> sim env cfg (with_self (set_client (Some c)) st) j.
Proof.
intros Hcl Hav [H1 H2 H3 H4]. split; simpl; [done | | done | done].
intros c' [= <-]. split; [|done]. revert Hcl. unfold client_of. by simpl.
Qed.

(** The two sides select the same backend. *)
Lemma sim_backend_claude st j :
  sim env cfg st j -> provider (self st) = VStr (lit "claude") ->
  backend_of cfg = Claude (model (self st)) (api_key (self st)).
Proof.
intros Hs Hp. unfold backend_of. rewrite <- (sim_provider _ _ Hs).
rewrite (proj2 (value_eqb_true _ _) Hp).
by rewrite (sim_field model _ _ (fun _ => eq_refl) Hs),
           (sim_field api_key _ _ (fun _ => eq_refl) Hs).
Qed.

Lemma sim_backend_openai st j :
  sim env cfg st j -> provider (self st) = VStr (lit "openai") ->
  backend_of cfg =
    OpenAI (openai_model (self st)) (openai_api_key (self st)) (openai_api_base (self st)).
Proof.
intros Hs Hp. unfold backend_of. rewrite <- (sim_provider _ _ Hs).
rewrite (proj2 (value_eqb_false _ (lit "claude")))
  by (rewrite Hp; apply not_eq_sym, claude_ne_openai).
rewrite (proj2 (value_eqb_true _ _) Hp).
by rewrite (sim_field openai_model _ _ (fun _ => eq_refl) Hs),
           (sim_field openai_api_key _ _ (fun _ => eq_refl) Hs),
           (sim_field openai_api_base _ _ (fun _ => eq_refl) Hs).
Qed.

Lemma sim_backend_unknown st j :
  sim env cfg st j ->
  provider (self st) <> VStr (lit "claude") -> provider (self st) <> VStr (lit "openai") ->
  backend_of cfg = Unknown (provider cfg).
Proof.
intros Hs Hc Ho. unfold backend_of. rewrite <- (sim_provider _ _ Hs).
by rewrite (proj2 (value_eqb_false _ _) Hc), (proj2 (value_eqb_false _ _) Ho).
Qed.

(** *** The steps *)

Lemma print_refines line : refines (sim env cfg) (print env line) (say env line).
Proof.
intros st j Hs. unfold print, say. rewrite (sim_printed _ _ _ _ Hs).
destruct (env_print _ _ _); [by split | split; [done | by apply sim_log_line]].
Qed.

Lemma on_error_refines a e :
  refines (sim env cfg) (on_error env a e) (on_error_spec env a e).
Proof.
apply refines_bind; [apply print_refines | intros _; apply refines_ret].
Qed.
End SimLemmas.

(** ** The provider calls refine an exchange *)

Section Exchange.
Context {RT : PyRuntime} {FR : FieldRuntime} (env : Env) (cfg : Summarizer).
Context (Hrd : request_driven env).
Implicit Types (st : State) (j : Journal) (prompt : pystr) (c : Client).

Lemma available_construct c st :
  available env c = None -> (construct env c st).1 = None.
Proof.
unfold available, construct. destruct (env_import _ _); [done |]. simpl.
intros Hav. by rewrite (rd_new_client env Hrd (calls (world st))).
Qed.

Lemma construct_available c st st1 :
  construct env c st = (None, st1) ->
  available env c = None /\ st1 = record_call (NewClient c) st.
Proof.
unfold available, construct. destruct (env_import _ _); [done |].
rewrite (rd_new_client env Hrd (calls (world st))). by intros [= -> <-].
Qed.

Lemma construct_unavailable c st e st1 :
  construct env c st = (Some e, st1) ->
  available env c = Some e /\ (st1 = st \/ st1 = record_call (NewClient c) st).
Proof.
unfold available, construct. destruct (env_import _ _) as [e'|].
- intros [= -> <-]. auto.
- rewrite (rd_new_client env Hrd (calls (world st))). intros [= -> <-]. auto.
Qed.

(** With its client in the slot, the call to Claude is one exchange. *)
Lemma claude_cached_refines st j prompt :
  sim env cfg st j -> provider (self st) = VStr (lit "claude") ->
  _client (self st) = Some (claude_client_of (self st)) ->
  let m := bind (_summarize_with_claude env prompt) (fun text => ret (VStr text)) in
  let c := claude_client_of (self st) in
  let req := MessagesCreate c (model (self st)) 500 (user_message prompt) in
  (m st).1 = (ask env c req j).1 /\ sim env cfg (m st).2 (ask env c req j).2.
Proof.
intros Hs Hp Hc. cbv zeta. destruct (sim_client _ _ _ _ Hs _ Hc) as [_ Hav].
unfold bind, ask. rewrite (summarize_with_claude_cached _ _ _ _ Hc), Hav.
unfold answer, ret. rewrite (rd_messages env Hrd (calls (world st))).
fold (requests_of st). rewrite (sim_sent _ _ _ _ Hs).
destruct (env_messages_create _ _ _ _ _ _) as [bs|e];
  [destruct (first_text bs) |]; simpl; (split; [done | by apply sim_request]).
Qed.

Lemma openai_cached_refines st j prompt :
  sim env cfg st j -> provider (self st) = VStr (lit "openai") ->
  _client (self st) = Some (openai_client_of (self st)) ->
  let m := _summarize_with_openai env prompt in
  let c := openai_client_of (self st) in
  let req := ChatCompletionsCreate c (openai_model (self st)) 500 (user_message prompt) in
  (m st).1 = (ask env c req j).1 /\ sim env cfg (m st).2 (ask env c req j).2.
Proof.
intros Hs Hp Hc. cbv zeta. destruct (sim_client _ _ _ _ Hs _ Hc) as [_ Hav].
unfold ask. rewrite (summarize_with_openai_cached _ _ _ _ _ Hc), Hav.
unfold answer. rewrite (rd_chat env Hrd (calls (world st))).
fold (requests_of st). rewrite (sim_sent _ _ _ _ Hs).
destruct (env_chat_create _ _ _ _ _ _) as [r|e];
  [destruct (first_choice r) |]; simpl; (split; [done | by apply sim_request]).
Qed.
End Exchange.

(** ** Refinement *)

Section Refinement.
Context {RT : PyRuntime} {FR : FieldRuntime} (env : Env) (cfg : Summarizer).
Context (Hrd : request_driven env).
Implicit Types (st : State) (j : Journal) (a : Article) (prompt : pystr).

(** An empty slot: the construction fails as the backend is unavailable,
    or it fills the slot and the call goes on as with a cached client. *)
Lemma claude_refines st j prompt :
  sim env cfg st j -> provider (self st) = VStr (lit "claude") ->
  let m := bind (_summarize_with_claude env prompt) (fun text => ret (VStr text)) in
  let c := claude_client_of (self st) in
  let req := MessagesCreate c (model (self st)) 500 (user_message prompt) in
  (m st).1 = (ask env c req j).1 /\ sim env cfg (m st).2 (ask env c req j).2.
Proof.
intros Hs Hp. destruct (_client (self st)) as [c|] eqn:Hc.
- destruct (sim_client _ _ _ _ Hs _ Hc) as [Hof _].
  rewrite (client_of_claude _ Hp) in Hof. injection Hof as <-.
  by apply claude_cached_refines.
- cbv zeta. unfold bind. rewrite (summarize_with_claude_construct _ _ _ Hc).
  destruct (construct env (claude_client_of (self st)) st) as [[e|] st1] eqn:Hcon.
  + apply (construct_unavailable env Hrd) in Hcon as [Hav Hst1]. unfold ask. rewrite Hav.
    split; [done |]. destruct Hst1 as [-> | ->]; [done | by apply sim_new_client].
  + apply (construct_available env Hrd) in Hcon as [Hav ->].
    refine (claude_cached_refines env cfg Hrd
              (with_self (set_client (Some (claude_client_of (self st))))
                 (record_call (NewClient (claude_client_of (self st))) st))
              j prompt _ Hp eq_refl).
    apply sim_set_client; [by apply client_of_claude | done | by apply sim_new_client].
Qed.

Lemma openai_refines st j prompt :
  sim env cfg st j -> provider (self st) = VStr (lit "openai") ->
  let m := _summarize_with_openai env prompt in
  let c := openai_client_of (self st) in
  let req := ChatCompletionsCreate c (openai_model (self st)) 500 (user_message prompt) in
  (m st).1 = (ask env c req j).1 /\ sim env cfg (m st).2 (ask env c req j).2.
Proof.
intros Hs Hp. destruct (_client (self st)) as [c|] eqn:Hc.
- destruct (sim_client _ _ _ _ Hs _ Hc) as [Hof _].
  rewrite (client_of_openai _ Hp) in Hof. injection Hof as <-.
  by apply openai_cached_refines.
- cbv zeta. rewrite (summarize_with_openai_construct _ _ _ Hc).
  destruct (construct env (openai_client_of (self st)) st) as [[e|] st1] eqn:Hcon.
  + apply (construct_unavailable env Hrd) in Hcon as [Hav Hst1]. unfold ask. rewrite Hav.
    split; [done |]. destruct Hst1 as [-> | ->]; [done | by apply sim_new_client].
  + apply (construct_available env Hrd) in Hcon as [Hav ->].
    refine (openai_cached_refines env cfg Hrd
              (with_self (set_client (Some (openai_client_of (self st))))
                 (record_call (NewClient (openai_client_of (self st))) st))
              j prompt _ Hp eq_refl).
    apply sim_set_client; [by apply client_of_openai | done | by apply sim_new_client].
Qed.

Lemma dispatch_refines prompt :
  refines (sim env cfg) (dispatch env prompt) (dispatch_spec env cfg prompt).
Proof.
intros st j Hs. unfold dispatch_spec.
destruct (provider_cases st) as [Hp|[Hp|[Hc Ho]]].
- rewrite (dispatch_claude _ _ _ Hp), (sim_backend_claude _ _ _ _ Hs Hp).
  by apply claude_refines.
- rewrite (dispatch_openai _ _ _ Hp), (sim_backend_openai _ _ _ _ Hs Hp).
  by apply openai_refines.
- rewrite (dispatch_unknown_bind _ _ _ Hc Ho), (sim_backend_unknown _ _ _ _ Hs Hc Ho).
  rewrite (sim_provider _ _ _ _ Hs). cbn [backend_call].
  exact (refines_bind (sim env cfg) _ _ _ _ (print_refines env cfg _)
           (fun _ => refines_ret _ _) st j Hs).
Qed.

Lemma summarize_refines_spec a :
  refines (sim env cfg) (summarize env a) (summarize_spec env cfg a).
Proof.
intros st j Hs. unfold summarize_spec.
destruct (Z.ltb_spec (py_len (content a)) SHORT_CONTENT) as [Hlt|Hge].
{ unfold summarize. rewrite (proj2 (Z.ltb_lt _ _) Hlt). by split. }
rewrite (summarize_long_bind _ _ _ Hge), (sim_template _ _ _ _ Hs).
refine (refines_bind (sim env cfg) _ _ _ _ (refines_lift_outcome _ _) _ st j Hs).
intros prompt. apply refines_try_except; [apply dispatch_refines | apply on_error_refines].
Qed.

Lemma batch_refines_spec arts n :
  refines (sim env cfg) (summarize_batch env arts n) (summarize_batch_spec env cfg arts n).
Proof.
apply refines_for_enumerate. intros i a acc.
apply refines_bind; [apply print_refines | intros _].
apply refines_bind; [apply summarize_refines_spec | intros v; apply refines_ret].
Qed.

(** C15. [summarize] implements its contract: from a state of the instance
    and a journal that are related, it returns the value or raises the
    exception the contract does, and the state it leaves is related to the
    journal of the contract: the same lines were printed and the same
    requests were sent. *)
Theorem summarize_refines a st j :
  sim env cfg st j ->
  (summarize env a st).1 = (summarize_spec env cfg a j).1 /\
  sim env cfg (summarize env a st).2 (summarize_spec env cfg a j).2.
Proof. apply summarize_refines_spec. Qed.

(** C16. [summarize_batch] implements its contract: same results in the same
    order or same exception, same lines, same requests. *)
Theorem batch_refines arts n st j :
  sim env cfg st j ->
  (summarize_batch env arts n st).1 = (summarize_batch_spec env cfg arts n j).1 /\
  sim env cfg (summarize_batch env arts n st).2 (summarize_batch_spec env cfg arts n j).2.
Proof. apply batch_refines_spec. Qed.

Lemma sim_observe st j : sim env cfg st j -> observe st = j.
Proof. intros [_ _ Hp Hs]. unfold observe. rewrite Hp, Hs. by destruct j. Qed.

Lemma run_refines op st j :
  sim env cfg st j -> sim env cfg (run env op st) (run_spec env cfg op j).
Proof.
intros Hs. destruct op as [a|l n]; simpl.
- by apply summarize_refines_spec.
- by apply batch_refines_spec.
Qed.

Lemma run_all_refines ops st j :
  sim env cfg st j -> sim env cfg (run_all env ops st) (run_all_spec env cfg ops j).
Proof.
revert st j. induction ops as [|op ops IH]; intros st j Hs; simpl; [done |].
by apply IH, run_refines.
Qed.
End Refinement.

(** A fresh instance is related to the journal of the world it is created
    in. *)
Lemma sim_init {RT : PyRuntime} {FR : FieldRuntime} (env : Env) config w :
  sim env (__init__ config) (MkState (__init__ config) w)
    (observe (MkState (__init__ config) w)).
Proof. by split. Qed.

(** What a caller observes of an instance after any sequence of calls,
    from its construction on, is what the contract says: the lines printed
    and the requests sent are those of the contract run on the journal of
    the world the instance was created in. *)
Theorem session_refines {RT : PyRuntime} {FR : FieldRuntime} (env : Env) config w ops :
  request_driven env ->
  observe (run_all env ops (init_state config w))
  = run_all_spec env (__init__ config) ops (observe (init_state config w)).
Proof.
intros Hrd. apply (sim_observe env (__init__ config)).
apply run_all_refines; [done | apply sim_init].
Qed.

(** ** States a caller cannot tell apart *)

Section Observation.
Context {RT : PyRuntime} {FR : FieldRuntime} (env : Env).
Context (Hrd : request_driven env).
Implicit Types (st : State) (cfg : Summarizer) (j : Journal).

#[local] Notation "st1 ≈ st2" := (obs_equiv env st1 st2) (at level 70).

Lemma sim_obs_equiv cfg st1 st2 j : sim env cfg st1 j -> sim env cfg st2 j -> st1 ≈ st2.
Proof.
intros [Hc1 Hk1 Hp1 Hs1] [Hc2 Hk2 Hp2 Hs2].
split; [congruence | done.. |]. unfold observe. congruence.
Qed.

Lemma obs_equiv_sim st1 st2 :
  st1 ≈ st2 ->
  sim env (self st1) st1 (observe st1) /\ sim env (self st1) st2 (observe st1).
Proof.
intros [Hc H1 H2 Ho]. split; [by split |]. rewrite Ho. split; [by symmetry | done..].
Qed.

#[export] Instance obs_equiv_per : RelationClasses.PER (obs_equiv env).
Proof.
split.
- intros st1 st2 [Hc H1 H2 Ho]. by split.
- intros st1 st2 st3 [Hc H1 H2 Ho] [Hc' _ H3 Ho']. split; [congruence | done.. | congruence].
Qed.

(** A computation that refines a contract, whatever the configuration,
    respects the relation: from states a caller cannot tell apart it gives
    the same outcome and leaves states a caller cannot tell apart. *)
Lemma refines_proper {A} (m : PyM State exn A) (ms : Summarizer -> PyM Journal exn A) :
  (forall cfg, refines (sim env cfg) m (ms cfg)) ->
  Proper (obs_equiv env ==> prod_relation eq (obs_equiv env)) m.
Proof.
intros Hm st1 st2 [Hs1 Hs2]%obs_equiv_sim.
destruct (Hm _ _ _ Hs1) as [Ho1 Hf1], (Hm _ _ _ Hs2) as [Ho2 Hf2].
split; [congruence | by apply (sim_obs_equiv (self st1) _ _ _ Hf1)].
Qed.

#[export] Instance summarize_proper a :
  Proper (obs_equiv env ==> prod_relation eq (obs_equiv env)) (summarize env a).
Proof.
apply (refines_proper _ (fun cfg => summarize_spec env cfg a)).
intros cfg. by apply summarize_refines_spec.
Qed.

#[export] Instance batch_proper arts n :
  Proper (obs_equiv env ==> prod_relation eq (obs_equiv env)) (summarize_batch env arts n).
Proof.
apply (refines_proper _ (fun cfg => summarize_batch_spec env cfg arts n)).
intros cfg. by apply batch_refines_spec.
Qed.

#[export] Instance run_proper op : Proper (obs_equiv env ==> obs_equiv env) (run env op).
Proof.
intros st1 st2 Hst. destruct op as [a|arts n]; simpl.
- exact (proj2 (summarize_proper a _ _ Hst)).
- exact (proj2 (batch_proper arts n _ _ Hst)).
Qed.

#[export] Instance run_all_proper ops :
  Proper (obs_equiv env ==> obs_equiv env) (run_all env ops).
Proof.
induction ops as [|op ops IH]; intros st1 st2 Hst; simpl; [done |].
by apply IH, run_proper.
Qed.

#[export] Instance observe_proper : Proper (obs_equiv env ==> eq) observe.
Proof. by intros st1 st2 [_ _ _ Ho]. Qed.

(** What a caller observes after a session does not depend on the slot. *)
Corollary session_observe ops st1 st2 :
  st1 ≈ st2 -> observe (run_all env ops st1) = observe (run_all env ops st2).
Proof. intros Hst. by rewrite Hst. Qed.

(** C39. The cache cannot be observed.  Two instances with the same
    configuration whose worlds show the same lines and requests, one with
    its client in the slot and one without, cannot be told apart by any
    sequence of calls: after the same calls they are again in states that
    show the same, and a further call of [summarize] or of
    [summarize_batch] returns the same value or raises the same exception
    on both. *)
Theorem cache_unobservable ops st1 st2 :
  obs_equiv env st1 st2 ->
  obs_equiv env (run_all env ops st1) (run_all env ops st2) /\
  (forall a, (summarize env a (run_all env ops st1)).1
             = (summarize env a (run_all env ops st2)).1) /\
  (forall arts n, (summarize_batch env arts n (run_all env ops st1)).1
                  = (summarize_batch env arts n (run_all env ops st2)).1).
Proof.
intros Hst%(run_all_proper ops). split; [done |]. split.
- intros a. exact (proj1 (summarize_proper a _ _ Hst)).
- intros arts n. exact (proj1 (batch_proper arts n _ _ Hst)).
Qed.
End Observation.

(** ** The theorems at concrete inputs *)

Lemma ex_env_request_driven : request_driven ex_env.
Proof. by split. Qed.

Lemma summarize_refines_witness :
  (summarize (RT:=ascii_runtime) (FR:=no_special) ex_env ex_long (ex_state ∅)).1
  = (summarize_spec (RT:=ascii_runtime) (FR:=no_special) ex_env (__init__ ∅) ex_long
       (MkJournal [] [])).1
  /\ sim ex_env (__init__ ∅)
       (summarize (RT:=ascii_runtime) (FR:=no_special) ex_env ex_long (ex_state ∅)).2
       (summarize_spec (RT:=ascii_runtime) (FR:=no_special) ex_env (__init__ ∅) ex_long
          (MkJournal [] [])).2.
Proof.
apply (summarize_refines (RT:=ascii_runtime) (FR:=no_special) ex_env (__init__ ∅)
         ex_env_request_driven ex_long (ex_state ∅) (MkJournal [] [])).
apply (sim_init (RT:=ascii_runtime) (FR:=no_special) ex_env ∅ (MkWorld [] [])).
Defined.

Lemma batch_refines_witness :
  (ex_batch ∅ ex_articles 10).1
  = (summarize_batch_spec (RT:=ascii_runtime) (FR:=no_special) ex_env (__init__ ∅)
       ex_articles 10 (MkJournal [] [])).1
  /\ sim ex_env (__init__ ∅) (ex_batch ∅ ex_articles 10).2
       (summarize_batch_spec (RT:=ascii_runtime) (FR:=no_special) ex_env (__init__ ∅)
          ex_articles 10 (MkJournal [] [])).2.
Proof.
apply (batch_refines (RT:=ascii_runtime) (FR:=no_special) ex_env (__init__ ∅)
         ex_env_request_driven ex_articles 10 (ex_state ∅) (MkJournal [] [])).
apply (sim_init (RT:=ascii_runtime) (FR:=no_special) ex_env ∅ (MkWorld [] [])).
Defined.

Lemma ex_warm_obs_equiv : obs_equiv ex_env (ex_state ∅) ex_warm.
Proof. split; [done | done | | done]. intros c [= <-]. by split. Qed.

Lemma cache_unobservable_witness :
  obs_equiv ex_env
    (run_all (RT:=ascii_runtime) (FR:=no_special) ex_env ex_session (ex_state ∅))
    (run_all (RT:=ascii_runtime) (FR:=no_special) ex_env ex_session ex_warm) /\
  (forall a,
     (summarize (RT:=ascii_runtime) (FR:=no_special) ex_env a
        (run_all (RT:=ascii_runtime) (FR:=no_special) ex_env ex_session (ex_state ∅))).1
     = (summarize (RT:=ascii_runtime) (FR:=no_special) ex_env a
          (run_all (RT:=ascii_runtime) (FR:=no_special) ex_env ex_session ex_warm)).1) /\
  (forall arts n,
     (summarize_batch (RT:=ascii_runtime) (FR:=no_special) ex_env arts n
        (run_all (RT:=ascii_runtime) (FR:=no_special) ex_env ex_session (ex_state ∅))).1
     = (summarize_batch (RT:=ascii_runtime) (FR:=no_special) ex_env arts n
          (run_all (RT:=ascii_runtime) (FR:=no_special) ex_env ex_session ex_warm)).1).
Proof.
apply (cache_unobservable (RT:=ascii_runtime) (FR:=no_special) ex_env
         ex_env_request_driven ex_session (ex_state ∅) ex_warm).
exact ex_warm_obs_equiv.
Defined.

Lemma session_refines_witness :
  observe (run_all (RT:=ascii_runtime) (FR:=no_special) ex_env ex_session
             (init_state ∅ (MkWorld [] [])))
  = run_all_spec (RT:=ascii_runtime) (FR:=no_special) ex_env (__init__ ∅) ex_session
      (observe (init_state ∅ (MkWorld [] []))).
Proof.
apply (session_refines (RT:=ascii_runtime) (FR:=no_special) ex_env ∅ (MkWorld [] [])
         ex_session).
exact ex_env_request_driven.
Defined.
