(* ===== verification/Isolation.v ===== *)
(** Isolation of the items of a batch.  When the providers keep no memory
    of the calls made before, the summary of an article is a function of
    the configuration and of the article alone: neither the calls made
    before on the instance nor the other articles of a batch, failed or
    not, change it.  [summary] is this function, [summaries] its extension
    to a list, and the theorems say that [summarize] and [summarize_batch]
    compute them in every state an instance reaches. *)

From Stdlib Require Import ZArith NArith String List Lia.
From stdpp Require Import base tactics option list numbers gmap strings relations.
From S2P Require Import Prelude Logic PyStr Format Config Provider Summarize Batch.
From S2P Require Import Lifecycle Spec.


(** ** Providers without memory *)

(** The constructors and the answers of the providers do not depend on the
    calls made before. *)
Record stateless (env : Env) : Prop := MkStateless {
  sl_new_client : forall h c, env_new_client env h c = env_new_client env [] c;
  sl_messages : forall h c m k ms,
    env_messages_create env h c m k ms = env_messages_create env [] c m k ms;
  sl_chat : forall h c m k ms,
    env_chat_create env h c m k ms = env_chat_create env [] c m k ms;
}.

(** What the [try] statement of [summarize] makes of an outcome: an
    [Exception] becomes [None], anything else passes. *)
Definition absorb (o : outcome exn value) : outcome exn value :=
  match o with
  | Ok v => Ok v
  | Raise e => if is_Exception e then Ok VNone else Raise e
  end.

Section Summary.
Context {RT : PyRuntime} {FR : FieldRuntime} (env : Env).

(** The exchange with the configured backend, as a value. *)
Definition exchange (cfg : Summarizer) (prompt : pystr) : outcome exn value :=
  match backend_call (backend_of cfg) prompt with
  | None => Ok VNone
  | Some (c, req) =>
      match available env c with
      | Some e => Raise e
      | None => answer env [] req
      end
  end.

(** The summary of an article under a configuration. *)
Definition summary (cfg : Summarizer) (a : Article) : outcome exn value :=
  if (py_len (content a) <? SHORT_CONTENT)%Z then
    Ok (VStr (if py_truthy (content a) then content a else NO_CONTENT))
  else
    match render_prompt (prompt_template cfg) a with
    | Raise e => Raise e
    | Ok prompt => absorb (exchange cfg prompt)
    end.

(** The summaries of a list of articles, in order, up to the first that
    raises. *)
Fixpoint summaries (cfg : Summarizer) (l : list Article)
    : outcome exn (list (Article * value)) :=
  match l with
  | [] => Ok []
  | a :: l' =>
      match summary cfg a with
      | Raise e => Raise e
      | Ok v => outcome_map (cons (a, v)) (summaries cfg l')
      end
  end.
End Summary.

(** An environment whose Claude answers every prompt with the prompt's
    length in a text block, and whose OpenAI is down. *)
Definition ex_env_echo : Env := {|
  env_import _ := None;
  env_new_client _ _ := None;
  env_messages_create _ _ _ _ ms :=
    Ok [TextBlock (str_of_int (py_len (concat (map msg_content ms))))];
  env_chat_create _ _ _ _ _ := Raise (MkExn (ExternalError (lit "APIError")) (lit "down"));
  env_print _ _ := None;
|}.

(** ** The contract under providers without memory *)

Section SummaryLemmas.
Context {RT : PyRuntime} {FR : FieldRuntime} (env : Env).
Context (Hsl : stateless env) (Hw : writable env).
Implicit Types (cfg : Summarizer) (a : Article) (j : Journal) (st : State).

Lemma stateless_request_driven : request_driven env.
Proof.
destruct Hsl as [Hn Hm Hc]. split; [done | |]; intros h c m k ms.
- by rewrite Hm, (Hm (List.filter _ _)).
- by rewrite Hc, (Hc (List.filter _ _)).
Qed.

Lemma answer_stateless h req : answer env h req = answer env [] req.
Proof.
destruct Hsl as [_ Hm Hc].
destruct req as [c|c m k ms|c m k ms]; simpl; [done | by rewrite Hm | by rewrite Hc].
Qed.

Lemma say_writable line j : (say env line j).1 = Ok tt.
Proof. unfold say. by rewrite Hw. Qed.

Lemma dispatch_spec_exchange cfg prompt j :
  (dispatch_spec env cfg prompt j).1 = exchange env cfg prompt.
Proof.
unfold dispatch_spec, exchange.
destruct (backend_call _ _) as [[c req]|].
- unfold ask. destruct (available env c); [done |]. apply answer_stateless.
- unfold bind. pose proof (say_writable (warning_line (provider cfg)) j) as Hs.
  by destruct (say _ _ _) as [[[]|e] j'].
Qed.

Lemma on_error_spec_none a e j : (on_error_spec env a e j).1 = Ok VNone.
Proof.
unfold on_error_spec, bind. pose proof (say_writable (error_line a e) j) as Hs.
by destruct (say _ _ _) as [[[]|e'] j'].
Qed.

(** The contract of [summarize] returns the summary, whatever was printed
    and sent before. *)
Lemma summarize_spec_summary cfg a j : (summarize_spec env cfg a j).1 = summary env cfg a.
Proof.
unfold summarize_spec, summary. destruct (_ <? _)%Z; [done |].
unfold bind, lift_outcome. destruct (render_prompt _ _) as [prompt|e]; [|done].
unfold try_except. pose proof (dispatch_spec_exchange cfg prompt j) as Hd.
destruct (dispatch_spec env cfg prompt j) as [[v|e] j']; simpl in Hd; rewrite <- Hd;
  [done |].
simpl. destruct (is_Exception e); [apply on_error_spec_none | done].
Qed.

Lemma batch_spec_summaries cfg N n l i acc j :
  (for_enumerate (batch_step_spec env cfg N n) i l acc j).1 =
    outcome_map (app acc) (summaries env cfg l).
Proof.
revert i acc j. induction l as [|a l IH]; intros i acc j; simpl.
- by rewrite app_nil_r.
- unfold batch_step_spec, bind.
  pose proof (say_writable (progress_line i N n a) j) as Hs.
  destruct (say _ _ _) as [[[]|e] j1]; [clear Hs | done].
  pose proof (summarize_spec_summary cfg a j1) as Hv.
  destruct (summarize_spec env cfg a j1) as [[v|e] j2]; simpl in Hv; rewrite <- Hv;
    [|done].
  unfold ret. rewrite IH, outcome_map_map. apply outcome_map_ext.
  intros rs. by rewrite <- app_assoc.
Qed.

(** Every state an instance reaches is related to what it shows. *)
Lemma reachable_sim config w st :
  reachable env config w st -> sim env (__init__ config) st (observe st).
Proof.
intros [ops ->]%reachable_run_all. unfold init_state.
pose proof (run_all_refines env _ stateless_request_driven ops _ _
              (sim_init env config w)) as Hs.
by rewrite (sim_observe _ _ _ _ Hs).
Qed.

Lemma summarize_summary cfg a st j :
  sim env cfg st j -> (summarize env a st).1 = summary env cfg a.
Proof.
intros Hs. rewrite <- (summarize_spec_summary cfg a j).
by apply summarize_refines_spec; [apply stateless_request_driven |].
Qed.

Lemma batch_summaries cfg arts n st j :
  sim env cfg st j ->
  (summarize_batch env arts n st).1 = summaries env cfg (py_slice_to arts n).
Proof.
intros Hs.
destruct (batch_refines_spec env cfg stateless_request_driven arts n st j Hs) as [-> _].
unfold summarize_batch_spec. rewrite batch_spec_summaries.
by destruct (summaries _ _ _).
Qed.

(** The summaries of a list are the summaries of its articles. *)
Lemma summaries_ok cfg l rs :
  summaries env cfg l = Ok rs <->
  Forall2 (fun a r => r.1 = a /\ summary env cfg a = Ok r.2) l rs.
Proof.
revert rs. induction l as [|a l IH]; intros rs; simpl.
- split; [intros [= <-]; constructor | by intros ->%Forall2_nil_inv_l].
- destruct (summary env cfg a) as [v|e] eqn:Hv.
  + rewrite outcome_map_ok. split.
    * intros (rs' & Hrs%IH & ->). by constructor.
    * intros ([a' v'] & rs' & [Ha Hv'] & Hrs%IH & ->)%Forall2_cons_inv_l.
      simpl in *. subst a'. rewrite Hv in Hv'. injection Hv' as <-. eauto.
  + split; [done |]. intros (r & rs' & [_ H] & _)%Forall2_cons_inv_l. congruence.
Qed.

(** The first article whose summary raises decides the exception. *)
Lemma summaries_raise cfg l1 a l2 rs e :
  summaries env cfg l1 = Ok rs -> summary env cfg a = Raise e ->
  summaries env cfg (l1 ++ a :: l2) = Raise e.
Proof.
revert rs. induction l1 as [|b l1 IH]; intros rs; simpl; [by intros _ -> |].
destruct (summary env cfg b); [|done].
intros (rs' & Hrs & _)%outcome_map_ok Ha. by rewrite (IH _ Hrs Ha).
Qed.
End SummaryLemmas.

(** ** Theorems *)

Section IsolationTheorems.
Context {RT : PyRuntime} {FR : FieldRuntime} (env : Env).

(** C18. The items of a batch are isolated from each other, and the calls on
    an instance from the calls made before.  With providers that keep no
    memory and a standard output that takes every line, in every state an
    instance reaches [summarize] gives the summary of its article, a
    function of the configuration and the article alone, and
    [summarize_batch] gives the summaries of [articles[:max_articles]] in
    order, or the exception of the first article whose summary raises: an
    item that failed changes the result of no other item. *)
Theorem batch_isolation config w st arts n :
  stateless env -> writable env -> reachable env config w st ->
  (forall a, (summarize env a st).1 = summary env (__init__ config) a) /\
  (summarize_batch env arts n st).1
    = summaries env (__init__ config) (py_slice_to arts n).
Proof.
intros Hsl Hw Hs%(reachable_sim env Hsl). split.
- intros a. by apply (summarize_summary env Hsl Hw _ _ _ _ Hs).
- by apply (batch_summaries env Hsl Hw _ _ _ _ _ Hs).
Qed.

(** In a batch that returns, the result of each item is what [summarize]
    returns for this article alone, in any state the instance reaches. *)
Corollary batch_item_alone config w st st' arts n rs a v :
  stateless env -> writable env ->
  reachable env config w st -> reachable env config w st' ->
  (summarize_batch env arts n st).1 = Ok rs -> (a, v) ∈ rs ->
  (summarize env a st').1 = Ok v.
Proof.
intros Hsl Hw Hs%(reachable_sim env Hsl) Hs'%(reachable_sim env Hsl) Hb Hin.
rewrite (batch_summaries env Hsl Hw _ _ _ _ _ Hs) in Hb.
apply (summaries_ok env) in Hb.
rewrite (summarize_summary env Hsl Hw _ _ _ _ Hs').
clear Hs Hs'. induction Hb as [|a' [a'' v'] l rs' [Ha Hv] _ IH]; [by apply elem_of_nil in Hin |].
apply elem_of_cons in Hin as [[= -> ->]|Hin]; [|by apply IH].
simpl in *. by subst.
Qed.
End IsolationTheorems.

(** ** The theorems at a concrete session *)

Lemma ex_env_echo_stateless : stateless ex_env_echo.
Proof. by split. Qed.

Lemma ex_env_echo_writable : writable ex_env_echo.
Proof. done. Qed.

Lemma batch_isolation_witness :
  (forall a,
     (summarize (RT:=ascii_runtime) (FR:=no_special) ex_env_echo a
        (run_all (RT:=ascii_runtime) (FR:=no_special) ex_env_echo ex_session
           (init_state ex_openai (MkWorld [] [])))).1
     = summary (RT:=ascii_runtime) (FR:=no_special) ex_env_echo (__init__ ex_openai) a) /\
  (summarize_batch (RT:=ascii_runtime) (FR:=no_special) ex_env_echo ex_articles 2
     (run_all (RT:=ascii_runtime) (FR:=no_special) ex_env_echo ex_session
        (init_state ex_openai (MkWorld [] [])))).1
  = summaries (RT:=ascii_runtime) (FR:=no_special) ex_env_echo (__init__ ex_openai)
      (py_slice_to ex_articles 2).
Proof.
apply (batch_isolation (RT:=ascii_runtime) (FR:=no_special) ex_env_echo
         ex_openai (MkWorld [] []));
  [exact ex_env_echo_stateless | exact ex_env_echo_writable | apply run_all_steps].
Defined.
