(* ===== verification/Race.v ===== *)
(** Calls of a client getter on one instance that run at the same time.

    The methods are not synchronized.  A getter is four statements, the
    test of the slot, the import, the constructor call and the assignment,
    followed by [return self._client], and a second thread may run between
    any two of them.  A thread is the statement it is at, a [Machine] of
    [Sched], whose scheduler picks the thread that runs the next statement
    on the one state the threads share.  A thread alone is the getter of
    [Provider];
    interleaved, two threads may both find the slot empty and both
    construct a client, which no sequence of calls does, but all of them
    return a client built from the same credentials, and every
    interleaving ends. *)

From Stdlib Require Import ZArith NArith String List Lia.
From stdpp Require Import base tactics option list numbers gmap strings relations.
From S2P Require Import Prelude Logic Sched PyStr Format Config Provider Summarize Batch.
From S2P Require Import Lifecycle.


(** ** Threads *)

(** Where a thread is in the getter:
    - [AtTest]: before [if self._client is None];
    - [AtImport]: before [import anthropic] or [import openai];
    - [AtConstruct]: before the call of the constructor;
    - [AtAssign c]: the constructor returned [c], before [self._client = c];
    - [AtReturn]: before [return self._client];
    - [Returned r]: the getter returned or raised. *)
Inductive thread : Type :=
| AtTest
| AtImport
| AtConstruct
| AtAssign (c : Client)
| AtReturn
| Returned (r : outcome exn (option Client)).

Definition running (t : thread) : bool :=
  match t with Returned _ => false | _ => true end.

(** The statements a thread has left at most. *)
Definition remaining (t : thread) : nat :=
  match t with
  | AtTest => 5
  | AtImport => 4
  | AtConstruct => 3
  | AtAssign _ => 2
  | AtReturn => 1
  | Returned _ => 0
  end.

(** 1 for a thread that may still call the constructor. *)
Definition may_construct (t : thread) : nat :=
  match t with
  | AtTest | AtImport | AtConstruct => 1
  | _ => 0
  end.

Section Race.
Context (env : Env) (mk : Summarizer -> Client).

(** One statement of a getter whose client is [mk self]:
    [claude_client_of] for [_get_claude_client], [openai_client_of] for
    [_get_openai_client]. *)
Definition thread_step (t : thread) (st : State) : thread * State :=
  match t with
  | AtTest =>
      match _client (self st) with
      | Some _ => (AtReturn, st)
      | None => (AtImport, st)
      end
  | AtImport =>
      match env_import env (sdk_module (mk (self st))) with
      | Some e => (Returned (Raise e), st)
      | None => (AtConstruct, st)
      end
  | AtConstruct =>
      let c := mk (self st) in
      match env_new_client env (calls (world st)) c with
      | Some e => (Returned (Raise e), record_call (NewClient c) st)
      | None => (AtAssign c, record_call (NewClient c) st)
      end
  | AtAssign c => (AtReturn, with_self (set_client (Some c)) st)
  | AtReturn => (Returned (Ok (_client (self st))), st)
  | Returned r => (Returned r, st)
  end.

(** A thread that runs [n] statements without interruption. *)
Fixpoint run_thread (n : nat) (t : thread) (st : State) : thread * State :=
  match n with
  | 0 => (t, st)
  | S n => run_thread n (thread_step t st).1 (thread_step t st).2
  end.

(** The getter as a machine: its statements, interleaved by the scheduler
    of [Sched]. *)
#[export] Instance thread_machine : Machine thread State.
Proof.
refine (MkMachine _ _ thread_step running remaining _ _ _).
- by intros [| | | | |r] st.
- intros t st. destruct t; simpl; intros; repeat case_match; simpl; (lia || done).
- by intros [| | | | |r].
Defined.

(** What holds of a thread in every interleaving, [c0] being the client of
    the configuration: it assigns [c0], it is about to return from a slot
    that holds [c0], or it returned [c0]. *)
Definition thread_ok (c0 : Client) (st : State) (t : thread) : Prop :=
  match t with
  | AtAssign c => c = c0
  | AtReturn => _client (self st) = Some c0
  | Returned (Ok r) => r = Some c0 /\ _client (self st) = Some c0
  | _ => True
  end.

(** What holds of the shared state: its client is [c0], and a client in
    the slot is [c0]. *)
Definition slot_inv (c0 : Client) (st : State) : Prop :=
  mk (self st) = c0 /\ (forall c, _client (self st) = Some c -> c = c0).

Definition race_inv (c0 : Client) : pool (T:=thread) (S:=State) -> Prop :=
  pool_inv (slot_inv c0) (thread_ok c0).
End Race.

(** Two threads enter the getter; the second runs its test before the
    first has assigned. *)
Definition racy_schedule : list nat := [0; 0; 0; 1; 1; 1; 0; 0; 1; 1].

(** Two calls of [_get_claude_client] on a fresh instance, interleaved by
    [racy_schedule]. *)
Definition ex_race : pool (T:=thread) (S:=State) :=
  schedule (thread_machine ex_env claude_client_of) racy_schedule ([AtTest; AtTest], ex_state ∅).

(** ** A thread alone *)

Section Alone.
Context (env : Env).
Implicit Types (st : State) (t : thread).

(** A thread that is not interrupted is through in five statements, with
    the client in the slot or the one [construct] gives. *)
Lemma run_thread_alone mk st :
  run_thread env mk 5 AtTest st =
    match _client (self st) with
    | Some c => (Returned (Ok (Some c)), st)
    | None =>
        match construct env (mk (self st)) st with
        | (Some e, st1) => (Returned (Raise e), st1)
        | (None, st1) =>
            (Returned (Ok (Some (mk (self st)))),
             with_self (set_client (Some (mk (self st)))) st1)
        end
    end.
Proof.
unfold construct. cbn [run_thread thread_step].
destruct (_client (self st)) as [c|] eqn:Hc; cbn [fst snd thread_step]; [by rewrite Hc |].
destruct (env_import env _); cbn [fst snd thread_step]; [done |].
by destruct (env_new_client env _ _).
Qed.

(** A thread alone is the getter of [Provider]. *)
Lemma run_thread_claude st :
  run_thread env claude_client_of 5 AtTest st =
    (Returned (outcome_map Some (_get_claude_client env st).1),
     (_get_claude_client env st).2).
Proof.
rewrite run_thread_alone. destruct (_client (self st)) as [c|] eqn:Hc.
- by rewrite (get_claude_client_cached _ _ _ Hc).
- rewrite (get_claude_client_fresh _ _ Hc). unfold construct. simpl.
  destruct (env_import env _); [done |]. by destruct (env_new_client env _ _).
Qed.

Lemma run_thread_openai st :
  run_thread env openai_client_of 5 AtTest st =
    (Returned (outcome_map Some (_get_openai_client env st).1),
     (_get_openai_client env st).2).
Proof.
rewrite run_thread_alone. destruct (_client (self st)) as [c|] eqn:Hc.
- by rewrite (get_openai_client_cached _ _ _ Hc).
- rewrite (get_openai_client_fresh _ _ Hc). unfold construct. simpl.
  destruct (env_import env _); [done |]. by destruct (env_new_client env _ _).
Qed.
End Alone.

(** ** Measures of a pool of getters *)

Section Steps.
Context (env : Env) (mk : Summarizer -> Client).
Implicit Types (st : State) (t : thread) (ts : list thread).

(** A statement that calls the constructor uses up the thread's one
    call. *)
Lemma thread_step_clients t st :
  clients_made (thread_step env mk t st).2 + may_construct (thread_step env mk t st).1
    <= clients_made st + may_construct t.
Proof.
destruct t; simpl; repeat case_match; simpl;
  unfold clients_made; autorewrite with measure; simpl; lia.
Qed.

Lemma race_steps_clients sys sys' :
  rtc (interleave (thread_machine env mk)) sys sys' ->
  clients_made sys'.2 + total may_construct sys'.1
    <= clients_made sys.2 + total may_construct sys.1.
Proof. apply (interleave_steps_total _ may_construct clients_made), thread_step_clients. Qed.
End Steps.

(** ** The invariant of all interleavings *)

Section Invariant.
Context (env : Env) (mk : Summarizer -> Client).
Context (Hmk : forall x s, mk (set_client x s) = mk s).
Implicit Types (st : State) (t : thread) (ts : list thread).

(** What a thread may assume stays true when other threads run: the slot,
    once it holds the client, holds it. *)
Lemma thread_ok_mono c0 st st' t :
  (_client (self st) = Some c0 -> _client (self st') = Some c0) ->
  thread_ok c0 st t -> thread_ok c0 st' t.
Proof. intros Hs. destruct t as [| | | | |[r|e]]; simpl; intuition auto. Qed.

Lemma thread_step_inv c0 t st :
  slot_inv mk c0 st -> thread_ok c0 st t ->
  let st' := (thread_step env mk t st).2 in
  slot_inv mk c0 st' /\ thread_ok c0 st' (thread_step env mk t st).1 /\
  (_client (self st) = Some c0 -> _client (self st') = Some c0).
Proof.
intros [Hc0 Hslot] Ht. unfold slot_inv. destruct t as [| | |c| |r]; simpl in *.
- destruct (_client (self st)) as [c|] eqn:Hc; simpl; rewrite ?Hc; split_and!; try done.
  f_equal. by apply Hslot.
- by destruct (env_import env _).
- by destruct (env_new_client env _ _).
- subst c. split_and!; [by rewrite Hmk | by intros c [= <-] | done..].
- done.
- done.
Qed.

Lemma race_steps_inv c0 sys sys' :
  rtc (interleave (thread_machine env mk)) sys sys' -> race_inv mk c0 sys -> race_inv mk c0 sys'.
Proof.
apply (interleave_pool_inv (thread_machine env mk) _ _
         (fun st st' => _client (self st) = Some c0 -> _client (self st') = Some c0)).
- intros t st. apply thread_step_inv.
- intros st st' t. apply thread_ok_mono.
Qed.

(** Threads that enter the getter on a slot that is empty or holds the
    client of the configuration. *)
Lemma race_inv_init n st :
  (forall c, _client (self st) = Some c -> c = mk (self st)) ->
  race_inv mk (mk (self st)) (replicate n AtTest, st).
Proof.
intros Hslot. split; [done |]. simpl. by apply Forall_replicate. Qed.
End Invariant.

(** ** Theorems on interleaved calls *)

Section RaceTheorems.
Context (env : Env) (mk : Summarizer -> Client).
Context (Hmk : forall x s, mk (set_client x s) = mk s).
Implicit Types (st : State) (t : thread) (ts : list thread).

(** However the calls of a getter on one instance interleave, a call
    that returns, returns the client of the configuration, built from the
    credentials of the instance, and that client is in the slot: which of
    the clients constructed is cached makes no difference to the requests
    sent through it. *)
Theorem race_same_client n st sys i r :
  (forall c, _client (self st) = Some c -> c = mk (self st)) ->
  rtc (interleave (thread_machine env mk)) (replicate n AtTest, st) sys ->
  sys.1 !! i = Some (Returned (Ok r)) ->
  r = Some (mk (self st)) /\ _client (self sys.2) = Some (mk (self st)).
Proof.
intros Hslot Hsteps Hi.
destruct (race_steps_inv env mk Hmk _ _ _ Hsteps (race_inv_init mk n st Hslot))
  as [_ Hts].
exact (Forall_lookup_1 _ _ _ _ Hts Hi).
Qed.
End RaceTheorems.

Section RaceSchedules.
Context (env : Env) (mk : Summarizer -> Client).
Implicit Types (st : State) (t : thread) (ts : list thread).

#[local] Arguments turn : simpl never.

(** The pool [racy_schedule] leaves, when the import and the constructor
    succeed. *)
Lemma racy_schedule_run st :
  _client (self st) = None ->
  env_import env (sdk_module (mk (self st))) = None ->
  (forall h, env_new_client env h (mk (self st)) = None) ->
  let c := mk (self st) in
  schedule (thread_machine env mk) racy_schedule ([AtTest; AtTest], st) =
    ([Returned (Ok (Some c)); Returned (Ok (Some c))],
     with_self (set_client (Some c))
       (with_self (set_client (Some c))
          (record_call (NewClient c) (record_call (NewClient c) st)))).
Proof.
intros Hc Him Hnew. unfold schedule, racy_schedule. cbn [foldl].
do 10 (erewrite turn_at by reflexivity; simpl; rewrite ?Hc, ?Him, ?Hnew; simpl).
reflexivity.
Qed.

(** C22. The constructor can run twice.  When two calls enter the getter on
    an empty slot and the second tests the slot before the first has
    assigned, both import the SDK and both call the constructor: two
    clients are constructed with success for the one that stays in the
    slot, which no sequence of calls does. *)
Theorem race_constructs_twice st :
  _client (self st) = None ->
  env_import env (sdk_module (mk (self st))) = None ->
  (forall h, env_new_client env h (mk (self st)) = None) ->
  let sys := schedule (thread_machine env mk) racy_schedule ([AtTest; AtTest], st) in
  let c := mk (self st) in
  sys.1 = [Returned (Ok (Some c)); Returned (Ok (Some c))] /\
  calls (world sys.2) = calls (world st) ++ [NewClient c; NewClient c] /\
  constructed env sys.2 = constructed env st + 2 /\
  has_client sys.2 = 1.
Proof.
intros Hc Him Hnew. cbv zeta. rewrite (racy_schedule_run st Hc Him Hnew). cbv zeta.
split; [done |]. split; [simpl; by rewrite <- app_assoc |]. split; [|done].
cbn [snd]. repeat change (constructed env (with_self ?f ?s)) with (constructed env s).
rewrite !constructed_record_call. simpl. rewrite !Hnew. simpl. lia.
Qed.

(** Every call returns: under a schedule that gives each of the [n]
    calls five statements, however they are interleaved with those of the
    others, all calls have returned or raised. *)
Theorem race_all_return n st sch :
  (forall i, i < n -> 5 <= picks i sch) ->
  Forall (fun t => running t = false)
    (schedule (thread_machine env mk) sch (replicate n AtTest, st)).1.
Proof.
intros Hfair. apply (schedule_all_done (thread_machine env mk)).
intros i t [-> Hi]%lookup_replicate. by apply Hfair.
Qed.

(** An interleaving of [n] calls has five statements per call at most, and
    constructs one client per call at most. *)
Lemma race_steps_bound n st k sys :
  nsteps (interleave (thread_machine env mk)) k (replicate n AtTest, st) sys -> k <= n * 5.
Proof.
intros Hs%(interleave_steps_bound (thread_machine env mk)).
rewrite total_replicate in Hs. simpl in Hs. lia.
Qed.

Lemma race_clients_bound n st sys :
  rtc (interleave (thread_machine env mk)) (replicate n AtTest, st) sys ->
  clients_made sys.2 <= clients_made st + n.
Proof.
intros Hs%race_steps_clients. simpl in Hs. rewrite total_replicate in Hs.
simpl in Hs. lia.
Qed.
End RaceSchedules.

(** ** The theorems at concrete inputs *)

Lemma race_same_client_witness :
  ex_race.1 !! 0 = Some (Returned (Ok (Some (AnthropicClient VNone)))) /\
  (Some (AnthropicClient VNone) = Some (claude_client_of (self (ex_state ∅))) /\
   _client (self ex_race.2) = Some (claude_client_of (self (ex_state ∅)))).
Proof.
split; [reflexivity |].
apply (race_same_client ex_env claude_client_of (fun _ _ => eq_refl) 2 (ex_state ∅)
         ex_race 0);
  [discriminate | apply schedule_steps | reflexivity].
Defined.

Lemma race_constructs_twice_witness :
  ex_race.1 = [Returned (Ok (Some (claude_client_of (self (ex_state ∅)))));
               Returned (Ok (Some (claude_client_of (self (ex_state ∅)))))] /\
  calls (world ex_race.2) =
    calls (world (ex_state ∅))
      ++ [NewClient (claude_client_of (self (ex_state ∅)));
          NewClient (claude_client_of (self (ex_state ∅)))] /\
  constructed ex_env ex_race.2 = constructed ex_env (ex_state ∅) + 2 /\
  has_client ex_race.2 = 1.
Proof.
unfold ex_race.
apply (race_constructs_twice ex_env claude_client_of (ex_state ∅));
  [reflexivity | reflexivity | intros h; reflexivity].
Defined.

Lemma race_all_return_witness :
  Forall (fun t => running t = false) ex_race.1.
Proof.
apply (race_all_return ex_env claude_client_of 2 (ex_state ∅) racy_schedule).
intros [|[|i]] Hi; [vm_compute; lia | vm_compute; lia | lia].
Defined.
