(* ===== verification/Concurrent.v ===== *)
(** Calls of [summarize] on one instance that run at the same time.

    A call is at one of its statements: before the length test, inside a
    getter (at a statement of [Race]), before the request, before the
    [print] of the warning or of the error line, or done.  [call_step]
    runs one statement; the scheduler of [Sched] interleaves the calls on
    the one state they share.  The statements that touch nothing another
    call can change are run with the next that does: the length test,
    the rendering of the prompt and the test of the provider are the
    first step, the request and the reading of its response are one
    step.  A call that runs alone is [summarize]
    ([run_call_alone]).  Interleaved, every call returns, and with
    providers that keep no memory every call returns what it returns
    alone, the summary of its article, although two calls may both
    construct a client. *)

From Stdlib Require Import ZArith NArith String List Lia.
From stdpp Require Import base tactics option list numbers gmap strings relations.
From S2P Require Import Prelude Logic Sched PyStr Format Config Provider Summarize Batch.
From S2P Require Import Lifecycle Typing Spec Isolation Race.


(** ** Calls *)

(** The provider method a call is in. *)
Variant provider_kind : Type := KClaude | KOpenAI.

(** The client its getter constructs. *)
Definition getter_client (k : provider_kind) : Summarizer -> Client :=
  match k with
  | KClaude => claude_client_of
  | KOpenAI => openai_client_of
  end.

(** The provider method the configuration selects. *)
Definition kind_of (s : Summarizer) : option provider_kind :=
  if value_eqb (provider s) (lit "claude") then Some KClaude
  else if value_eqb (provider s) (lit "openai") then Some KOpenAI
  else None.

(** Where a call of [summarize] is:
    - [CStart a]: at its first statement;
    - [CGetter a prompt k g]: in the getter of the provider method [k], at
      the statement [g];
    - [CRequest a prompt k c]: the getter returned [c], before the request;
    - [CWarn a]: before the [print] of the warning for an unknown provider;
    - [CError a e]: in the [except] clause, before the [print];
    - [CDone a r]: the call returned or raised. *)
Inductive call : Type :=
| CStart (a : Article)
| CGetter (a : Article) (prompt : pystr) (k : provider_kind) (g : thread)
| CRequest (a : Article) (prompt : pystr) (k : provider_kind) (c : Client)
| CWarn (a : Article)
| CError (a : Article) (e : exn)
| CDone (a : Article) (r : outcome exn value).

Definition article_of (t : call) : Article :=
  match t with
  | CStart a | CGetter a _ _ _ | CRequest a _ _ _ | CWarn a | CError a _ | CDone a _ => a
  end.

Definition call_running (t : call) : bool :=
  match t with CDone _ _ => false | _ => true end.

(** The statements a call has left at most. *)
Definition call_remaining (t : call) : nat :=
  match t with
  | CStart _ => 8
  | CGetter _ _ _ g => match g with Returned _ => 3 | _ => remaining g + 2 end
  | CRequest _ _ _ _ => 2
  | CWarn _ => 2
  | CError _ _ => 1
  | CDone _ _ => 0
  end.

(** What a call may still add to a measure of the world: one request
    until it has sent it, one client until its getter is past the
    constructor, one line until it has returned. *)
Definition budget (mu : measure) (t : call) : nat :=
  match mu, t with
  | Requests, (CStart _ | CGetter _ _ _ _ | CRequest _ _ _ _) => 1
  | Clients, CStart _ => 1
  | Clients, CGetter _ _ _ g => may_construct g
  | Lines, CDone _ _ => 0
  | Lines, _ => 1
  | _, _ => 0
  end.

(** An exception inside the [try]: an [Exception] goes to the [except]
    clause, any other leaves the call. *)
Definition caught (a : Article) (e : exn) : call :=
  if is_Exception e then CError a e else CDone a (Raise e).

(** What [client.messages] or [client.chat] raises on [None]. *)
Definition no_client_error (k : provider_kind) : exn :=
  MkExn AttributeError
    (lit "'NoneType' object has no attribute '"
       ++ (match k with KClaude => lit "messages" | KOpenAI => lit "chat" end)
       ++ lit "'").

(** What holds of a getter whose client is [c0], whatever the providers
    answer: a client it constructed or returned is [c0]. *)
Definition getter_holds (c0 : Client) (g : thread) : Prop :=
  match g with
  | AtAssign c | Returned (Ok (Some c)) => c = c0
  | _ => True
  end.

(** What holds of a call on the instance [s], whatever the providers
    answer: the provider method it is in is the one [s] selects, and the
    client it holds is the client of [s]. *)
Definition call_holds (s : Summarizer) (t : call) : Prop :=
  match t with
  | CGetter _ _ k g => kind_of s = Some k /\ getter_holds (getter_client k s) g
  | CRequest _ _ k c => kind_of s = Some k /\ c = getter_client k s
  | _ => True
  end.

Section Calls.
Context {RT : PyRuntime} {FR : FieldRuntime} (env : Env).

(** The provider method after its getter returned [c]: the request and
    the summary taken from the response. *)
Definition request (k : provider_kind) (c : Client) (prompt : pystr) : M value :=
  match k with
  | KClaude =>
      mdl <- gets (fun st => model (self st)) ;;
      blocks <- messages_create env c mdl 500 (user_message prompt) ;;
      b <- index0 blocks ;;
      text <- block_text b ;;
      ret (VStr text)
  | KOpenAI =>
      mdl <- gets (fun st => openai_model (self st)) ;;
      response <- chat_completions_create env c mdl 500 (user_message prompt) ;;
      index0 (choices response)
  end.

(** The call after a statement of the [try] ran. *)
Definition after_try {A} (a : Article) (k : A -> call) (r : outcome exn A * State)
    : call * State :=
  match r with
  | (Ok x, st) => (k x, st)
  | (Raise e, st) => (caught a e, st)
  end.

(** The call after a statement of the getter: the getter returned a
    client, [None] (and the request raises), or raised, or is at its next
    statement. *)
Definition after_getter (a : Article) (prompt : pystr) (k : provider_kind) (g : thread)
    : call :=
  match g with
  | Returned (Ok (Some c)) => CRequest a prompt k c
  | Returned (Ok None) => caught a (no_client_error k)
  | Returned (Raise e) => caught a e
  | g' => CGetter a prompt k g'
  end.

(** One statement of a call. *)
Definition call_step (t : call) (st : State) : call * State :=
  match t with
  | CStart a =>
      if (py_len (content a) <? SHORT_CONTENT)%Z then
        (CDone a (Ok (VStr (if py_truthy (content a) then content a else NO_CONTENT))), st)
      else
        match render_prompt (prompt_template (self st)) a with
        | Raise e => (CDone a (Raise e), st)
        | Ok prompt =>
            match kind_of (self st) with
            | Some k => (CGetter a prompt k AtTest, st)
            | None => (CWarn a, st)
            end
        end
  | CGetter a prompt k g =>
      let r := thread_step env (getter_client k) g st in
      (after_getter a prompt k r.1, r.2)
  | CRequest a prompt k c =>
      after_try a (fun v => CDone a (Ok v)) (request k c prompt st)
  | CWarn a =>
      after_try a (fun _ => CDone a (Ok VNone))
        (print env (warning_line (provider (self st))) st)
  | CError a e =>
      match print env (error_line a e) st with
      | (Ok _, st') => (CDone a (Ok VNone), st')
      | (Raise e', st') => (CDone a (Raise e'), st')
      end
  | CDone a r => (CDone a r, st)
  end.

(** The rest of a getter from one of its statements, as a computation. *)
Definition getter_rest (k : provider_kind) (g : thread) : M Client :=
  let read_slot : M Client :=
    s <- gets self ;;
    match _client s with
    | Some c => ret c
    | None => raise (no_client_error k)
    end in
  let construct_rest : M Client :=
    s <- gets self ;;
    c <- new_client env (getter_client k s) ;;
    modify (with_self (set_client (Some c))) ;;
    read_slot in
  match g with
  | AtTest =>
      s <- gets self ;;
      match _client s with
      | Some c => ret c
      | None =>
          import_module env (sdk_module (getter_client k s)) ;;
          construct_rest
      end
  | AtImport =>
      s <- gets self ;;
      import_module env (sdk_module (getter_client k s)) ;;
      construct_rest
  | AtConstruct => construct_rest
  | AtAssign c => modify (with_self (set_client (Some c))) ;; read_slot
  | AtReturn => read_slot
  | Returned (Ok (Some c)) => ret c
  | Returned (Ok None) => raise (no_client_error k)
  | Returned (Raise e) => raise e
  end.

(** The rest of a call from one of its statements, as a computation. *)
Definition call_rest (t : call) : M value :=
  match t with
  | CStart a => summarize env a
  | CGetter a prompt k g =>
      try_except is_Exception (c <- getter_rest k g ;; request k c prompt) (on_error env a)
  | CRequest a prompt k c =>
      try_except is_Exception (request k c prompt) (on_error env a)
  | CWarn a =>
      try_except is_Exception
        (p <- gets (fun st => provider (self st)) ;;
         print env (warning_line p) ;; ret VNone)
        (on_error env a)
  | CError a e => on_error env a e
  | CDone a r => lift_outcome r
  end.

(** The getter of a provider method, as [Provider] has it. *)
Definition getter (k : provider_kind) : M Client :=
  match k with
  | KClaude => _get_claude_client env
  | KOpenAI => _get_openai_client env
  end.

(** The provider method of [Provider], with the conversion of its result
    that [dispatch] applies. *)
Definition provider_method (k : provider_kind) (prompt : pystr) : M value :=
  match k with
  | KClaude => text <- _summarize_with_claude env prompt ;; ret (VStr text)
  | KOpenAI => _summarize_with_openai env prompt
  end.

(** Calls of [summarize] as a machine. *)
#[export] Instance call_machine : Machine call State.
Proof.
refine (MkMachine _ _ call_step call_running call_remaining _ _ _).
- by intros [] st.
- intros t st Hr. destruct t as [a|a prompt k g|a prompt k c|a|a e|a r]; simpl.
  + repeat case_match; simpl; lia.
  + destruct g as [| | | | |r]; simpl;
      repeat case_match; simplify_eq/=; unfold caught; repeat case_match; simpl; lia.
  + unfold after_try, caught. repeat case_match; simpl; lia.
  + unfold after_try, caught. repeat case_match; simpl; lia.
  + repeat case_match; simpl; lia.
  + done.
- by intros [].
Defined.

(** A call that runs [n] statements without interruption. *)
Definition run_call (n : nat) (t : call) (st : State) : call * State :=
  mrun call_machine n t st.

(** ** What holds of the calls in every interleaving *)

(** The state has the configuration [cfg]. *)
Definition same_config (cfg : Summarizer) (st : State) : Prop :=
  set_client None (self st) = set_client None cfg.

(** A client in the slot stays in the slot. *)
Definition slot_kept (st st' : State) : Prop :=
  forall c, _client (self st) = Some c -> _client (self st') = Some c.

(** What holds of a getter whose client is [c0]: the import succeeded
    when it is past it, the client it assigns or returns is [c0], an
    exception it raises is the one that makes the backend unavailable. *)
Definition getter_ok (c0 : Client) (st : State) (g : thread) : Prop :=
  match g with
  | AtTest | AtImport => True
  | AtConstruct => env_import env (sdk_module c0) = None
  | AtAssign c => c = c0 /\ available env c0 = None
  | AtReturn => _client (self st) = Some c0
  | Returned (Ok r) => r = Some c0 /\ available env c0 = None
  | Returned (Raise e) => available env c0 = Some e
  end.

(** What holds of a call: inside a provider method, the method is the
    one of the configuration and the summary is what the exchange for its
    prompt gives; before a [print], the summary is [None]; returned, it
    returned the summary. *)
Definition call_ok (cfg : Summarizer) (st : State) (t : call) : Prop :=
  match t with
  | CStart _ => True
  | CGetter a prompt k g =>
      kind_of cfg = Some k /\ summary env cfg a = absorb (exchange env cfg prompt) /\
      getter_ok (getter_client k cfg) st g
  | CRequest a prompt k c =>
      kind_of cfg = Some k /\ summary env cfg a = absorb (exchange env cfg prompt) /\
      c = getter_client k cfg /\ available env c = None
  | CWarn a | CError a _ => summary env cfg a = Ok VNone
  | CDone a r => r = summary env cfg a
  end.

(** The invariant: the configuration, a usable slot, and every call in
    order. *)
Definition calls_inv (cfg : Summarizer) : pool (T:=call) (S:=State) -> Prop :=
  pool_inv (fun st => same_config cfg st /\ slot_ok env st) (call_ok cfg).
End Calls.

(** Three calls on a fresh instance: a long article twice and a short one,
    the two long ones racing for the client. *)
Definition ex_concurrent : list Article := [ex_long; ex_long; ex_short].

(** The two long calls take turns, so that both find the slot empty; the
    short call returns in between. *)
Definition ex_interleaving : list nat :=
  [0; 1; 0; 1; 0; 1; 0; 1; 0; 1; 0; 1; 2; 0; 1; 0; 1; 2; 2; 2; 2; 2; 2; 2].

(** The calls of [ex_concurrent] on a fresh instance with the defaults,
    interleaved by [ex_interleaving], with the providers of
    [ex_env_echo]. *)
Definition ex_pool : pool (T:=call) (S:=State) :=
  schedule (call_machine (RT:=ascii_runtime) (FR:=no_special) ex_env_echo)
    ex_interleaving (map CStart ex_concurrent, ex_state ∅).

(** ** The statements and the rest of a call *)

Section Alone.
Context {RT : PyRuntime} {FR : FieldRuntime} (env : Env).
Implicit Types (st : State) (t : call) (g : thread) (k : provider_kind).

(** The getter read from its first statement is the getter of
    [Provider]. *)
Lemma getter_rest_test k st : getter_rest env k AtTest st = getter env k st.
Proof.
destruct k; unfold getter_rest, getter, _get_claude_client, _get_openai_client,
  import_module, new_client; py_unfold; simpl;
  destruct (_client (self st)); simpl; [done | | done |];
  destruct (env_import env _); simpl; try done;
  by destruct (env_new_client env _ _).
Qed.

(** A statement of the getter leaves the rest of the getter. *)
Lemma getter_step_rest k g st :
  getter_rest env k (thread_step env (getter_client k) g st).1
    (thread_step env (getter_client k) g st).2 = getter_rest env k g st.
Proof.
destruct g as [| | |c| |r]; unfold getter_rest, import_module, new_client;
  py_unfold; simpl; try done.
- by destruct (_client (self st)) eqn:Hc; simpl; rewrite ?Hc.
- by destruct (env_import env _).
- by destruct (env_new_client env _ _).
Qed.

(** The provider method is its getter followed by the request. *)
Lemma provider_method_request k prompt st :
  provider_method env k prompt st =
    (c <- getter_rest env k AtTest ;; request env k c prompt) st.
Proof.
unfold bind at 1. rewrite getter_rest_test.
destruct k; unfold provider_method, request, _summarize_with_claude,
  _summarize_with_openai, getter; py_unfold;
  repeat (case_match; simplify_eq/=; try done).
Qed.

Lemma caught_article a e : article_of (caught a e) = a.
Proof. unfold caught. by destruct (is_Exception e). Qed.

(** A statement of a call is a statement of the call on the same
    article. *)
Lemma call_step_article t st : article_of (call_step env t st).1 = article_of t.
Proof.
destruct t as [a|a prompt k g|a prompt k c|a|a e|a r]; simpl;
  unfold after_try, after_getter; repeat case_match; simpl; by rewrite ?caught_article.
Qed.

(** What is left of a call whose [try] raised. *)
Lemma call_rest_caught a e st :
  call_rest env (caught a e) st = (if is_Exception e then on_error env a e st else (Raise e, st)).
Proof. unfold caught. by destruct (is_Exception e). Qed.

(** What is left of a call after a statement of its [try]. *)
Lemma call_rest_after_try {A} a (k : A -> call) (m : M A) (rest : A -> M value) st :
  (forall x st', call_rest env (k x) st' = try_except is_Exception (rest x) (on_error env a) st') ->
  call_rest env (after_try a k (m st)).1 (after_try a k (m st)).2
    = try_except is_Exception (x <- m ;; rest x) (on_error env a) st.
Proof.
intros Hk. unfold after_try, try_except, bind.
destruct (m st) as [[x|e] st']; simpl; [by rewrite Hk | apply call_rest_caught].
Qed.

(** The provider method the state selects, or the warning. *)
Lemma dispatch_kind prompt st :
  dispatch env prompt st =
    match kind_of (self st) with
    | Some k => provider_method env k prompt st
    | None => (print env (warning_line (provider (self st))) ;; ret VNone) st
    end.
Proof.
unfold dispatch, kind_of, bind at 1, gets. simpl.
by repeat case_match.
Qed.

Lemma try_except_at {A} (m m' : M A) h st :
  m st = m' st -> try_except is_Exception m h st = try_except is_Exception m' h st.
Proof. unfold try_except. by intros ->. Qed.

Lemma call_rest_after_getter a prompt k g st :
  call_rest env (after_getter a prompt k g) st = call_rest env (CGetter a prompt k g) st.
Proof.
destruct g as [| | | | |[[c|]|e]]; try done; simpl; rewrite call_rest_caught;
  unfold try_except, bind, raise; simpl; by destruct (is_Exception _).
Qed.

Lemma call_start_rest a st :
  call_rest env (call_step env (CStart a) st).1 (call_step env (CStart a) st).2
    = summarize env a st.
Proof.
unfold summarize. simpl. destruct (_ <? _)%Z; [done |].
unfold bind at 1, gets. unfold bind at 1, lift_outcome.
destruct (render_prompt _ _) as [prompt|e]; [|done].
unfold try_except at 1. rewrite dispatch_kind.
destruct (kind_of (self st)) as [k|]; simpl; [|done].
by rewrite provider_method_request.
Qed.

(** A statement of a call leaves the rest of the call. *)
Lemma call_step_rest t st :
  call_rest env (call_step env t st).1 (call_step env t st).2 = call_rest env t st.
Proof.
destruct t as [a|a prompt k g|a prompt k c|a|a e|a r]; [| | | | |done].
- apply call_start_rest.
- cbn [call_step fst snd]. rewrite call_rest_after_getter. simpl.
  unfold try_except, bind. by rewrite getter_step_rest.
- simpl. rewrite <- (try_except_at _ _ _ _ (bind_ret_r (request env k c prompt) st)).
  by apply call_rest_after_try.
- simpl. apply (call_rest_after_try a _ (print env _) (fun _ => ret VNone)). 
  intros [] st'. done.
- simpl. unfold on_error, bind. by destruct (print env _ st) as [[[]|e'] st'].
Qed.

(** A run of a call keeps its article and what is left of it. *)
Lemma run_call_rest n t st :
  article_of (run_call env n t st).1 = article_of t /\
  call_rest env (run_call env n t st).1 (run_call env n t st).2 = call_rest env t st.
Proof.
apply (mrun_invariant (call_machine env)
         (fun t' st' => article_of t' = article_of t /\
                        call_rest env t' st' = call_rest env t st)); [|done].
intros t' st' [Ha Hr]. simpl. by rewrite call_step_article, call_step_rest.
Qed.

(** A call that has returned is what was left of it. *)
Lemma call_done_rest t st :
  call_running t = false ->
  (t, st) = (CDone (article_of t) (call_rest env t st).1, (call_rest env t st).2).
Proof. by destruct t. Qed.
End Alone.

(** ** Measures of a pool of calls *)

Section Budget.
Context {RT : PyRuntime} {FR : FieldRuntime} (env : Env) (mu : measure).
Implicit Types (st : State) (t : call) (g : thread) (k : provider_kind) (a : Article).

Lemma request_costs k c prompt :
  costs (measure_of mu) (match mu with Requests => 1 | _ => 0 end) (request env k c prompt).
Proof. destruct k; unfold request; destruct mu; py_costs. Qed.

Lemma budget_caught a e : budget mu (caught a e) <= match mu with Lines => 1 | _ => 0 end.
Proof. unfold caught. destruct mu, (is_Exception e); simpl; lia. Qed.

Lemma budget_after_getter a prompt k g :
  budget mu (after_getter a prompt k g)
    <= match mu with Clients => may_construct g | _ => 1 end.
Proof.
pose proof (budget_caught a (no_client_error k)).
destruct g as [| | | | |[[c|]|e]]; try pose proof (budget_caught a e);
  destruct mu; simpl in *; lia.
Qed.

Lemma thread_step_measure mk g st :
  measure_of mu (thread_step env mk g st).2
    + match mu with Clients => may_construct (thread_step env mk g st).1 | _ => 0 end
    <= measure_of mu st + match mu with Clients => may_construct g | _ => 0 end.
Proof.
destruct mu, g; simpl; repeat case_match; simpl;
  unfold requests_made, clients_made, lines_printed; autorewrite with measure; simpl; lia.
Qed.

(** A statement of a call takes what it adds to the world from the
    budget of the call. *)
Lemma call_step_budget t st :
  measure_of mu (call_step env t st).2 + budget mu (call_step env t st).1
    <= measure_of mu st + budget mu t.
Proof.
destruct t as [a|a prompt k g|a prompt k c|a|a e|a r]; cbn [call_step fst snd].
- repeat case_match; destruct mu; simpl; lia.
- pose proof (thread_step_measure (getter_client k) g st).
  pose proof (budget_after_getter a prompt k (thread_step env (getter_client k) g st).1).
  destruct mu; simpl in *; lia.
- pose proof (request_costs k c prompt st). unfold after_try, caught.
  destruct (request env k c prompt st) as [[v|e'] st']; try destruct (is_Exception e');
    destruct mu; simpl in *; lia.
- unfold after_try, print, caught.
  destruct (env_print env _ _) as [e'|]; try destruct (is_Exception e');
    destruct mu; simpl; unfold requests_made, clients_made;
    autorewrite with measure; lia.
- unfold print.
  destruct (env_print env _ _) as [e'|]; destruct mu; simpl;
    unfold requests_made, clients_made; autorewrite with measure; lia.
- lia.
Qed.
End Budget.

(** ** The invariant of all interleavings *)

Section Invariant.
Context {RT : PyRuntime} {FR : FieldRuntime} (env : Env) (cfg : Summarizer).
Context (Hsl : stateless env) (Hw : writable env).
Implicit Types (st : State) (t : call) (g : thread) (k : provider_kind) (a : Article).

Lemma same_config_field {A} (f : Summarizer -> A) st :
  (forall s, f (set_client None s) = f s) -> same_config cfg st -> f (self st) = f cfg.
Proof. intros Hf Hc. by rewrite <- (Hf (self st)), Hc, Hf. Qed.

Lemma same_config_kind st : same_config cfg st -> kind_of (self st) = kind_of cfg.
Proof. by apply (same_config_field kind_of). Qed.

Lemma same_config_getter_client k st :
  same_config cfg st -> getter_client k (self st) = getter_client k cfg.
Proof. apply (same_config_field (getter_client k)). by destruct k. Qed.

(** The client of the configuration is the client of its provider
    method. *)
Lemma client_of_kind s k : kind_of s = Some k -> client_of s = Some (getter_client k s).
Proof. unfold kind_of, client_of. repeat case_match; naive_solver. Qed.

(** A state with the configuration and a usable slot is related to what
    it shows. *)
Lemma same_config_sim st : same_config cfg st -> slot_ok env st -> sim env cfg st (observe st).
Proof. by split. Qed.

(** The exchange of the configuration, from its provider method. *)
Lemma exchange_unknown prompt : kind_of cfg = None -> exchange env cfg prompt = Ok VNone.
Proof. unfold kind_of, exchange, backend_of. by repeat case_match. Qed.

Lemma exchange_unavailable k prompt e :
  kind_of cfg = Some k -> available env (getter_client k cfg) = Some e ->
  exchange env cfg prompt = Raise e.
Proof.
unfold kind_of, exchange, backend_of. intros Hk Hav.
repeat (destruct (value_eqb _ _)); simplify_eq/=;
  unfold claude_client_of, openai_client_of in Hav; by rewrite Hav.
Qed.

Lemma exchange_request k prompt st :
  same_config cfg st -> kind_of cfg = Some k -> available env (getter_client k cfg) = None ->
  (request env k (getter_client k cfg) prompt st).1 = exchange env cfg prompt.
Proof.
intros Hc Hk Hav. unfold exchange. revert Hk Hav. unfold kind_of, backend_of.
destruct Hsl as [_ Hm Hch].
repeat (destruct (value_eqb _ _)); intros Hk Hav; simplify_eq/=;
  unfold claude_client_of, openai_client_of in *; rewrite Hav; unfold bind, gets; simpl.
- rewrite (same_config_field model st (fun _ => eq_refl) Hc), Hm.
  unfold claude_client_of, user_message in *.
  destruct (env_messages_create _ _ _ _ _ _) as [[|[]]|]; simplify_eq/=; try done.
- rewrite (same_config_field openai_model st (fun _ => eq_refl) Hc), Hch.
  unfold openai_client_of, user_message in *.
  destruct (env_chat_create _ _ _ _ _ _) as [[[|]]|]; simplify_eq/=; try done.
Qed.

Lemma slot_kept_self st st' : self st' = self st -> slot_kept st st'.
Proof. intros Hs c. by rewrite Hs. Qed.

Lemma slot_kept_refl st : slot_kept st st.
Proof. by apply slot_kept_self. Qed.
#[local] Hint Extern 0 (slot_kept _ _) => solve [by apply slot_kept_self] : core.

(** A client in a usable slot is the client of the provider method. *)
Lemma slot_ok_client k st c :
  same_config cfg st -> slot_ok env st -> kind_of cfg = Some k ->
  _client (self st) = Some c -> c = getter_client k cfg /\ available env c = None.
Proof.
intros Hc Hslot Hk Hs. destruct (Hslot c Hs) as [Hcl Hav]. split; [|done].
rewrite <- (same_config_kind st Hc) in Hk.
rewrite (client_of_kind _ k Hk), (same_config_getter_client k st Hc) in Hcl. congruence.
Qed.

(** A statement of a getter keeps the configuration, a usable slot and a
    client in the slot, and leaves the getter in order. *)
Lemma getter_step_ok k g st :
  same_config cfg st -> slot_ok env st -> kind_of cfg = Some k ->
  getter_ok env (getter_client k cfg) st g ->
  let r := thread_step env (getter_client k) g st in
  (same_config cfg r.2 /\ slot_ok env r.2) /\
  getter_ok env (getter_client k cfg) r.2 r.1 /\ slot_kept st r.2.
Proof.
intros Hc Hslot Hk Hg. pose proof (slot_ok_client k st) as Hcl.
pose proof (same_config_getter_client k st Hc) as Hgc.
destruct Hsl as [Hnew _ _].
destruct g as [| | |c| |[r|e]]; simpl in *; rewrite ?Hgc.
- destruct (_client (self st)) as [c|] eqn:Hs; simpl; split_and!; try done.
  by destruct (Hcl c Hc Hslot Hk eq_refl) as [-> _].
- destruct (env_import env _) eqn:Him; simpl; unfold available; by rewrite ?Him.
- destruct (env_new_client env _ _) eqn:Hn; simpl; unfold available;
    rewrite Hnew in Hn; rewrite Hg; split_and!; done || by apply slot_kept_self.

- destruct Hg as [-> Hav]. split_and!; try done.
  + intros c [= <-]. split; [|done].
    change (client_of (self st) = Some (getter_client k cfg)).
    rewrite <- Hgc. apply client_of_kind. by rewrite same_config_kind.
  + intros c Hs. simpl. f_equal. symmetry. by apply Hcl.
- rewrite Hg. split_and!; try done. by apply (Hcl _ Hc Hslot Hk Hg).
- done.
- done.
Qed.

(** A change of the world keeps the configuration and the slot. *)
Lemma state_ok_self st st' :
  self st' = self st -> same_config cfg st /\ slot_ok env st ->
  (same_config cfg st' /\ slot_ok env st') /\ slot_kept st st'.
Proof.
unfold same_config, slot_ok. intros Hs [Hc Hslot].
split; [by rewrite Hs | by apply slot_kept_self].
Qed.

Lemma request_self k c prompt st : self (request env k c prompt st).2 = self st.
Proof.
assert (Hst : stable (fun st' => self st' = self st) (request env k c prompt)).
{ destruct k; unfold request;
    repeat (apply stable_bind; [|intros ?]);
    try apply stable_gets; try apply stable_ret;
    apply (stable_keeps_self (fun s => s = self st));
    auto using messages_create_keeps_self, chat_completions_create_keeps_self,
      index0_keeps_self, block_text_keeps_self. }
by apply Hst.
Qed.

Lemma call_ok_caught a e st :
  summary env cfg a = absorb (Raise e) -> call_ok env cfg st (caught a e).
Proof. unfold caught. simpl. by destruct (is_Exception e). Qed.

Lemma call_ok_after_getter a prompt k g st :
  kind_of cfg = Some k -> summary env cfg a = absorb (exchange env cfg prompt) ->
  getter_ok env (getter_client k cfg) st g ->
  call_ok env cfg st (after_getter a prompt k g).
Proof.
intros Hk Hsum Hg. destruct g as [| | | | |[[c|]|e]]; simpl in *; try done.
- by destruct Hg as [[= ->] Hav].
- by destruct Hg.
- apply call_ok_caught. by rewrite Hsum, (exchange_unavailable k prompt e).
Qed.

(** The statements of the other calls leave a call in order. *)
Lemma call_ok_stable st st' t :
  slot_kept st st' -> call_ok env cfg st t -> call_ok env cfg st' t.
Proof.
intros Hs. destruct t as [a|a prompt k g|a prompt k c|a|a e|a r]; try done.
simpl. intros (Hk & Hsum & Hg). split_and!; try done.
destruct g as [| | | | |[]]; simpl in *; auto.
Qed.

Lemma call_start_ok a st :
  same_config cfg st -> call_ok env cfg st (call_step env (CStart a) st).1.
Proof.
intros Hc. simpl.
rewrite (same_config_field prompt_template st (fun _ => eq_refl) Hc), (same_config_kind st Hc).
destruct (_ <? _)%Z eqn:Hlen; [simpl; unfold summary; by rewrite Hlen |].
destruct (render_prompt _ _) as [prompt|e] eqn:Hp;
  [|simpl; unfold summary; by rewrite Hlen, Hp].
destruct (kind_of cfg) as [k|] eqn:Hk; simpl; unfold summary; rewrite Hlen, Hp; [done |].
by rewrite (exchange_unknown prompt Hk).
Qed.

Lemma call_request_ok a prompt k st :
  same_config cfg st -> kind_of cfg = Some k ->
  summary env cfg a = absorb (exchange env cfg prompt) ->
  available env (getter_client k cfg) = None ->
  let r := request env k (getter_client k cfg) prompt st in
  call_ok env cfg r.2 (after_try a (fun v => CDone a (Ok v)) r).1.
Proof.
intros Hc Hk Hsum Hav. pose proof (exchange_request k prompt st Hc Hk Hav) as Hr.
rewrite <- Hr in Hsum. cbv zeta.
destruct (request env k _ prompt st) as [[v|e] st']; simpl in *; [done |].
by apply call_ok_caught.
Qed.

(** A statement of a call keeps the configuration, a usable slot and a
    client in the slot, and leaves the call in order. *)
Lemma call_step_ok t st :
  same_config cfg st /\ slot_ok env st -> call_ok env cfg st t ->
  (same_config cfg (call_step env t st).2 /\ slot_ok env (call_step env t st).2) /\
  call_ok env cfg (call_step env t st).2 (call_step env t st).1 /\
  slot_kept st (call_step env t st).2.
Proof.
intros [Hc Hslot] Ht. destruct t as [a|a prompt k g|a prompt k c|a|a e|a r].
- pose proof (call_start_ok a st Hc) as Hs. revert Hs. simpl.
  by repeat case_match.
- destruct Ht as (Hk & Hsum & Hg).
  destruct (getter_step_ok k g st Hc Hslot Hk Hg) as (Hst & Hg' & Hkept).
  cbn [call_step fst snd]. split; [done |]. split; [|done].
  by apply call_ok_after_getter.
- destruct Ht as (Hk & Hsum & -> & Hav).
  destruct (state_ok_self st _ (request_self k (getter_client k cfg) prompt st)
              (conj Hc Hslot)) as [Hst Hkept].
  pose proof (call_request_ok a prompt k st Hc Hk Hsum Hav) as Hr.
  cbn [call_step]. revert Hst Hkept Hr. cbv zeta. unfold after_try.
  by destruct (request env k _ prompt st) as [[v|e] st'].
- simpl. rewrite (print_run _ _ _ Hw). simpl in *. by split_and!.
- simpl. rewrite (print_run _ _ _ Hw). simpl in *. by split_and!.
- simpl. by split_and!.
Qed.
End Invariant.

(** ** Well-formed states *)

Section WellFormed.
Context {RT : PyRuntime} {FR : FieldRuntime} (env : Env).
Implicit Types (st : State) (t : call) (g : thread) (k : provider_kind) (a : Article)
  (s : Summarizer).

Lemma kind_of_provider s k :
  kind_of s = Some k ->
  provider s = VStr (match k with KClaude => lit "claude" | KOpenAI => lit "openai" end).
Proof.
unfold kind_of. destruct (value_eqb _ (lit "claude")) eqn:H1.
{ intros [= <-]. by apply value_eqb_true. }
destruct (value_eqb _ (lit "openai")) eqn:H2; [|done].
intros [= <-]. by apply value_eqb_true.
Qed.

(** A client in a well-formed slot is the client of the provider
    method. *)
Lemma client_ok_kind s k c :
  kind_of s = Some k -> client_ok s -> _client s = Some c -> c = getter_client k s.
Proof.
intros Hk Hok Hc. pose proof (proj1 (client_ok_client_of s) Hok c Hc) as Hof.
rewrite (client_of_kind s k Hk) in Hof. congruence.
Qed.

(** Filling the slot with the client of the provider method keeps it
    well formed. *)
Lemma client_ok_set s k :
  kind_of s = Some k -> client_ok (set_client (Some (getter_client k s)) s).
Proof.
intros Hk%kind_of_provider. unfold client_ok. simpl. destruct k; [by left | by right].
Qed.

Lemma call_holds_config s s' t :
  set_client None s' = set_client None s -> call_holds s t -> call_holds s' t.
Proof.
intros Hs. assert (Hf : forall {A} (f : Summarizer -> A),
  (forall x, f (set_client None x) = f x) -> f s' = f s).
{ intros A f Hf. by rewrite <- (Hf s'), Hs, Hf. }
destruct t as [|a prompt k g|a prompt k c| | |]; try done; simpl;
  rewrite (Hf _ kind_of (fun _ => eq_refl)), (Hf _ (getter_client k)); by destruct k.
Qed.

Lemma call_holds_caught s a e : call_holds s (caught a e).
Proof. unfold caught. by destruct (is_Exception e). Qed.

Lemma call_holds_after_getter s a prompt k g :
  kind_of s = Some k -> getter_holds (getter_client k s) g ->
  call_holds s (after_getter a prompt k g).
Proof.
intros Hk Hg. destruct g as [| | | | |[[c|]|e]]; try done; apply call_holds_caught.
Qed.

(** A change of the world keeps a state well formed when the calls it
    adds are calls of the instance. *)
Lemma wf_state_world st st' :
  self st' = self st -> history_ok st' -> wf_state st -> wf_state st'.
Proof. intros Hs Hh (Ht & Hok & _). unfold wf_state, calls_ok. by rewrite Hs. Qed.

Lemma wf_state_log_line line st : wf_state st -> wf_state (log_line line st).
Proof. intros Hwf. by apply (wf_state_world st); [| apply Hwf |]. Qed.

Lemma wf_state_record call st :
  call_wf (self st) call = true -> wf_state st -> wf_state (record_call call st).
Proof.
intros Hc Hwf. apply (wf_state_world st); [done | | done].
apply history_ok_record; [done | apply Hwf].
Qed.

Lemma wf_state_print line st : wf_state st -> wf_state (print env line st).2.
Proof. unfold print. destruct (env_print env _ _); [done | apply wf_state_log_line]. Qed.

Lemma wf_state_set_client k st :
  kind_of (self st) = Some k -> wf_state st ->
  wf_state (with_self (set_client (Some (getter_client k (self st)))) st).
Proof.
intros Hk (Ht & _ & Hh). split; [by rewrite <- Ht; apply instance_typed_set_client |].
split; [by apply client_ok_set |]. unfold history_ok in *. simpl.
eapply Forall_impl; [exact Hh |]. intros c. by rewrite call_wf_set_client.
Qed.

(** The request of a provider method through the client of the instance
    is a call of the instance. *)
Lemma request_wf k prompt st :
  kind_of (self st) = Some k -> wf_state st ->
  wf_state (request env k (getter_client k (self st)) prompt st).2.
Proof.
intros Hk Hwf. pose proof (kind_of_provider _ _ Hk) as Hp.
assert (Hrec : forall call o,
  call_wf (self st) call = true ->
  wf_state (o : outcome exn value, record_call call st).2).
{ intros call o Hc. by apply wf_state_record. }
destruct k; unfold request, bind, gets; simpl.
- destruct (env_messages_create env _ _ _ _ _) as [[|[t|cls] bs]|e]; apply Hrec;
    cbn [call_wf]; rewrite is_user_message_user, andb_true_r;
    by apply bool_decide_eq_true_2.
- destruct (env_chat_create env _ _ _ _ _) as [[[|v vs]]|e]; apply Hrec;
    cbn [call_wf]; rewrite is_user_message_user, andb_true_r;
    by apply bool_decide_eq_true_2.
Qed.

(** A statement of a getter keeps the state well formed and the
    configuration, and leaves the getter with the client of the
    instance. *)
Lemma getter_step_wf k g st :
  kind_of (self st) = Some k -> wf_state st ->
  getter_holds (getter_client k (self st)) g ->
  let r := thread_step env (getter_client k) g st in
  wf_state r.2 /\ same_config (self st) r.2 /\
  getter_holds (getter_client k (self st)) r.1.
Proof.
intros Hk Hwf Hg. destruct g as [| | |c| |r]; simpl in *.
- by destruct (_client (self st)).
- by destruct (env_import env _).
- assert (wf_state (record_call (NewClient (getter_client k (self st))) st)).
  { apply wf_state_record; [|done]. by apply bool_decide_eq_true_2, client_of_kind. }
  by destruct (env_new_client env _ _).
- subst c. split; [by apply wf_state_set_client | done].
- split; [done |]. split; [done |].
  destruct (_client (self st)) as [c|] eqn:Hc; [|done].
  apply (client_ok_kind _ k c Hk); [apply Hwf | done].
- done.
Qed.

(** A statement of a call keeps the state well formed and the
    configuration, and leaves the call with the client of the instance. *)
Lemma call_step_wf t st :
  wf_state st -> call_holds (self st) t ->
  wf_state (call_step env t st).2 /\ same_config (self st) (call_step env t st).2 /\
  call_holds (self (call_step env t st).2) (call_step env t st).1.
Proof.
intros Hwf Ht. destruct t as [a|a prompt k g|a prompt k c|a|a e|a r].
- simpl. repeat case_match; simpl; split_and!; try done.
- destruct Ht as [Hk Hg]. cbn [call_step fst snd].
  destruct (getter_step_wf k g st Hk Hwf Hg) as (Hwf' & Hc & Hg').
  split; [done |]. split; [done |].
  apply (call_holds_config (self st)); [done |]. by apply call_holds_after_getter.
- destruct Ht as [Hk ->]. pose proof (request_wf k prompt st Hk Hwf) as Hwf'.
  pose proof (request_self env k (getter_client k (self st)) prompt st) as Hs.
  cbn [call_step]. unfold after_try. unfold same_config.
  destruct (request env k _ prompt st) as [[v|e] st']; simpl in *; rewrite Hs;
    split_and!; try done. apply call_holds_caught.
- cbn [call_step]. pose proof (wf_state_print (warning_line (provider (self st))) st Hwf).
  pose proof (print_keeps_self env (warning_line (provider (self st))) st) as Hs.
  unfold after_try, same_config.
  destruct (print env _ st) as [[v|e'] st']; simpl in *; rewrite Hs;
    split_and!; try done. apply call_holds_caught.
- cbn [call_step]. pose proof (wf_state_print (error_line a e) st Hwf).
  pose proof (print_keeps_self env (error_line a e) st) as Hs. unfold same_config.
  by destruct (print env _ st) as [[v|e'] st']; simpl in *; rewrite Hs.
- done.
Qed.
End WellFormed.

(** ** Theorems on a call alone and on interleaved calls *)

Section CallTheorems.
Context {RT : PyRuntime} {FR : FieldRuntime} (env : Env).
Implicit Types (st : State) (t : call) (a : Article).

(** The statements of a call are the statements of [summarize]: a call
    that runs its eight statements without interruption has returned,
    with the outcome and in the state that [summarize] gives for its
    article. *)
Theorem run_call_alone a st :
  run_call env 8 (CStart a) st = (CDone a (summarize env a st).1, (summarize env a st).2).
Proof.
destruct (run_call_rest env 8 (CStart a) st) as [Ha Hr].
pose proof (mrun_done (call_machine env) 8 (CStart a) st (le_n 8)) as Hd.
fold (run_call env 8 (CStart a) st) in Hd.
destruct (run_call env 8 (CStart a) st) as [t st'].
rewrite (call_done_rest env t st' Hd). simpl in *. by rewrite Ha, Hr.
Qed.

(** Every interleaving keeps the invariant. *)
Lemma calls_steps_inv cfg sys sys' :
  stateless env -> writable env ->
  rtc (interleave (call_machine env)) sys sys' ->
  calls_inv env cfg sys -> calls_inv env cfg sys'.
Proof.
intros Hsl Hw. apply (interleave_pool_inv (call_machine env) _ _ slot_kept).
- intros t st. by apply call_step_ok.
- intros st st' t. apply call_ok_stable.
Qed.

Lemma calls_inv_init arts st :
  slot_ok env st -> calls_inv env (self st) (map CStart arts, st).
Proof. intros Hslot. split; [by split |]. simpl. by apply Forall_fmap, Forall_true. Qed.

(** The articles of the calls, in every interleaving. *)
Lemma calls_articles arts st sys :
  rtc (interleave (call_machine env)) (map CStart arts, st) sys ->
  map article_of sys.1 = arts.
Proof.
intros Hs%(interleave_map (call_machine env) article_of);
  [|intros t st'; apply call_step_article].
rewrite Hs. simpl. rewrite <- list_fmap_compose. apply list_fmap_id.
Qed.

(** A schedule that gives each call eight statements gives each what it
    has left. *)
Lemma start_remaining arts sch :
  (forall i, i < length arts -> 8 <= picks i sch) ->
  forall i t, map CStart arts !! i = Some t -> mremaining (call_machine env) t <= picks i sch.
Proof.
intros Hfair i t Hi. rewrite list_lookup_fmap in Hi.
destruct (arts !! i) as [a|] eqn:Ha; [|done]. injection Hi as <-.
apply Hfair. by eapply lookup_lt_Some.
Qed.

(** Calls of [summarize] that run at the same time on one instance do
    not disturb each other.  With providers that keep no memory and a
    standard output that takes every line, however the statements of the
    calls interleave, also when two of them both construct a client, a
    call that has returned was made for the article at its position and
    returned what [summarize] returns for this article alone in the state
    the calls started in: the summary of the article under the
    configuration. *)
Theorem calls_isolated arts st sys i a r :
  stateless env -> writable env -> slot_ok env st ->
  rtc (interleave (call_machine env)) (map CStart arts, st) sys ->
  sys.1 !! i = Some (CDone a r) ->
  arts !! i = Some a /\ r = (summarize env a st).1 /\ r = summary env (self st) a.
Proof.
intros Hsl Hw Hslot Hs Hi. split; [|split].
- rewrite <- (calls_articles arts st sys Hs), list_lookup_fmap. by rewrite Hi.
- destruct (calls_steps_inv _ _ _ Hsl Hw Hs (calls_inv_init arts st Hslot)) as [_ Hts].
  rewrite (summarize_summary env Hsl Hw (self st) a st (observe st)).
  + exact (Forall_lookup_1 _ _ _ _ Hts Hi).
  + by apply same_config_sim.
- destruct (calls_steps_inv _ _ _ Hsl Hw Hs (calls_inv_init arts st Hslot)) as [_ Hts].
  exact (Forall_lookup_1 _ _ _ _ Hts Hi).
Qed.

(** Every call returns: under a schedule that gives each call eight
    statements, however they are interleaved with those of the other
    calls, all calls have returned or raised. *)
Theorem calls_all_return arts st sch :
  (forall i, i < length arts -> 8 <= picks i sch) ->
  Forall (fun t => call_running t = false)
    (schedule (call_machine env) sch (map CStart arts, st)).1.
Proof.
intros Hfair. apply (schedule_all_done (call_machine env)), start_remaining, Hfair.
Qed.

(** Interleaved calls use no more of the world than calls in sequence:
    however the statements of [n] calls interleave, they send [n]
    requests at most, construct [n] clients at most and print [n] lines
    at most, and the interleaving has [8 n] steps at most. *)
Theorem calls_budget mu arts st k sys :
  nsteps (interleave (call_machine env)) k (map CStart arts, st) sys ->
  measure_of mu sys.2 <= measure_of mu st + length arts /\ k <= 8 * length arts.
Proof.
intros Hs. split.
- apply rtc_nsteps_2 in Hs.
  apply (interleave_steps_total (call_machine env) (budget mu) (measure_of mu)) in Hs;
    [|apply call_step_budget].
  simpl in Hs. etrans; [|etrans; [exact Hs |]]; [lia |].
  apply Nat.add_le_mono_l. clear. unfold total.
  induction arts as [|a arts IH]; simpl; [done |]. destruct mu; simpl in *; lia.
- apply (interleave_steps_bound (call_machine env)) in Hs. etrans; [exact Hs |].
  clear. unfold total. induction arts as [|a arts IH]; simpl in *; lia.
Qed.

(** Under a fair schedule the pool ends with the summaries of the
    articles, in the order of the calls. *)
Corollary calls_fair_summaries arts st sch :
  stateless env -> writable env -> slot_ok env st ->
  (forall i, i < length arts -> 8 <= picks i sch) ->
  (schedule (call_machine env) sch (map CStart arts, st)).1
    = map (fun a => CDone a (summary env (self st) a)) arts.
Proof.
intros Hsl Hw Hslot Hfair.
pose proof (schedule_steps (call_machine env) sch (map CStart arts, st)) as Hs.
pose proof (schedule_all_done (call_machine env) _ st sch
              (start_remaining arts sch Hfair)) as Hd.
pose proof (calls_articles arts st _ Hs) as Ha.
destruct (calls_steps_inv _ _ _ Hsl Hw Hs (calls_inv_init arts st Hslot)) as [_ Hts].
revert Hd Hts Ha. generalize (schedule (call_machine env) sch (map CStart arts, st)).
intros [ts st']. simpl. clear. revert arts.
induction ts as [|t ts IH]; intros [|a arts]; try done.
intros [Hr Hd]%Forall_cons [Ht Hts]%Forall_cons [= Ha Harts]. simpl.
f_equal; [|by apply IH]. destruct t; try done. simpl in *. by subst.
Qed.
End CallTheorems.

(** ** The theorems at a concrete interleaving *)

(** In [ex_pool] both long calls constructed a client, and both sent
    their request. *)
Example ex_pool_world :
  map call_running ex_pool.1 = [false; false; false] /\
  clients_made ex_pool.2 = 2 /\ requests_made ex_pool.2 = 2 /\ lines_printed ex_pool.2 = 0.
Proof. vm_compute. done. Qed.

Lemma ex_state_slot_ok env : slot_ok env (ex_state ∅).
Proof. by intros c. Qed.

Lemma calls_isolated_witness :
  ex_concurrent !! 1 = Some ex_long /\
  Ok (VStr (lit "261"))
    = (summarize (RT:=ascii_runtime) (FR:=no_special) ex_env_echo ex_long (ex_state ∅)).1 /\
  Ok (VStr (lit "261"))
    = summary (RT:=ascii_runtime) (FR:=no_special) ex_env_echo (self (ex_state ∅)) ex_long.
Proof.
apply (calls_isolated (RT:=ascii_runtime) (FR:=no_special) ex_env_echo ex_concurrent
         (ex_state ∅) ex_pool 1 ex_long (Ok (VStr (lit "261"))));
  [exact ex_env_echo_stateless | exact ex_env_echo_writable | apply ex_state_slot_ok
  | apply schedule_steps | vm_compute; reflexivity].
Defined.

Lemma calls_all_return_witness :
  Forall (fun t => call_running t = false) ex_pool.1.
Proof.
apply (calls_all_return (RT:=ascii_runtime) (FR:=no_special) ex_env_echo ex_concurrent
         (ex_state ∅) ex_interleaving).
intros [|[|[|i]]] Hi; [vm_compute; lia.. | simpl in Hi; lia].
Defined.

Lemma calls_budget_witness :
  measure_of Clients ex_pool.2 <= measure_of Clients (ex_state ∅) + length ex_concurrent.
Proof.
destruct (schedule_nsteps (call_machine (RT:=ascii_runtime) (FR:=no_special) ex_env_echo)
            ex_interleaving (map CStart ex_concurrent, ex_state ∅)) as (k & _ & Hs).
exact (proj1 (calls_budget (RT:=ascii_runtime) (FR:=no_special) ex_env_echo Clients
                ex_concurrent (ex_state ∅) k ex_pool Hs)).
Defined.
