(* ===== verification/Jobs.v ===== *)
(** Calls of the two public methods that run at the same time on one
    instance.

    A job is a call of [summarize] or of [summarize_batch] at one of its
    statements.  A batch is at the head of its loop, with the articles
    that are left and the results so far, or inside the call of
    [summarize] for an article, at a statement of that call
    ([Concurrent]).  [job_step] runs one statement; the scheduler of
    [Sched] interleaves the jobs on the one state they share.  A job that
    runs alone is the method ([job_alone]).  Interleaved, every job
    returns, the state stays well formed whatever the providers answer
    ([jobs_wf]), and with providers that keep no memory every job
    returns what it returns alone: the batches the summaries of their
    articles in order, whatever the other jobs do meanwhile. *)

From Stdlib Require Import ZArith NArith String List Lia.
From stdpp Require Import base tactics option list numbers gmap strings relations.
From S2P Require Import Prelude Logic Sched PyStr Format Config Provider Summarize Batch.
From S2P Require Import Lifecycle Typing Spec Isolation Race Concurrent.


(** ** Jobs *)

(** What a public method returns: a summary or the list of a batch. *)
Variant result : Type :=
| RSummary (v : value)
| RBatch (rs : list (Article * value)).

(** Where a call of a public method is:
    - [JCall t]: a call of [summarize], at [t];
    - [JLoop N n i rest results]: a batch at the head of its loop, [rest]
      the articles left of [articles[:max_articles]], [i] the index of
      the next, [N] the length of [articles] and [n] [max_articles];
    - [JItem N n i a rest results t]: in the round of [a], inside
      [self.summarize(article)] at [t];
    - [JReturned r]: the batch returned or raised. *)
Inductive job : Type :=
| JCall (t : call)
| JLoop (N n i : Z) (rest : list Article) (results : list (Article * value))
| JItem (N n i : Z) (a : Article) (rest : list Article)
    (results : list (Article * value)) (t : call)
| JReturned (r : outcome exn (list (Article * value))).

(** The first statement of a call. *)
Definition start_job (op : operation) : job :=
  match op with
  | OpSummarize a => JCall (CStart a)
  | OpBatch articles max_articles =>
      JLoop (py_len articles) max_articles 0 (py_slice_to articles max_articles) []
  end.

Definition job_running (j : job) : bool :=
  match j with
  | JCall t => call_running t
  | JReturned _ => false
  | _ => true
  end.

(** The statements a job has left at most: ten for a round of the loop,
    the progress line, the eight of the call and the append. *)
Definition job_remaining (j : job) : nat :=
  match j with
  | JCall t => call_remaining t
  | JLoop _ _ _ rest _ => 10 * length rest + 1
  | JItem _ _ _ _ rest _ t => call_remaining t + 10 * length rest + 2
  | JReturned _ => 0
  end.

(** What a job has returned, when it has. *)
Definition job_result (j : job) : option (outcome exn result) :=
  match j with
  | JCall (CDone _ r) => Some (outcome_map RSummary r)
  | JReturned r => Some (outcome_map RBatch r)
  | _ => None
  end.

(** What a job may still add to a measure of the world: for an article of
    a batch its progress line and what its call adds. *)
Definition job_budget (mu : measure) (j : job) : nat :=
  let round := match mu with Lines => 2 | _ => 1 end in
  match j with
  | JCall t => budget mu t
  | JLoop _ _ _ rest _ => round * length rest
  | JItem _ _ _ _ rest _ t => budget mu t + round * length rest
  | JReturned _ => 0
  end.

(** The round of [a] after a statement of its call: the call returned a
    summary, which is appended, or raised, which ends the batch, or is at
    its next statement. *)
Definition after_call (N n i : Z) (a : Article) (rest : list Article)
    (results : list (Article * value)) (t : call) : job :=
  match t with
  | CDone _ (Ok summary) => JLoop N n (i + 1) rest (results ++ [(a, summary)])
  | CDone _ (Raise e) => JReturned (Raise e)
  | t' => JItem N n i a rest results t'
  end.

(** What holds of a job on the instance [s], whatever the providers
    answer: its call of [summarize] holds the client of [s]. *)
Definition job_holds (s : Summarizer) (j : job) : Prop :=
  match j with
  | JCall t | JItem _ _ _ _ _ _ t => call_holds s t
  | _ => True
  end.

Section Jobs.
Context {RT : PyRuntime} {FR : FieldRuntime} (env : Env).

(** One statement of a job. *)
Definition job_step (j : job) (st : State) : job * State :=
  match j with
  | JCall t =>
      let r := call_step env t st in (JCall r.1, r.2)
  | JLoop N n i [] results => (JReturned (Ok results), st)
  | JLoop N n i (a :: rest) results =>
      match print env (progress_line i N n a) st with
      | (Ok _, st') => (JItem N n i a rest results (CStart a), st')
      | (Raise e, st') => (JReturned (Raise e), st')
      end
  | JItem N n i a rest results t =>
      let r := call_step env t st in (after_call N n i a rest results r.1, r.2)
  | JReturned r => (JReturned r, st)
  end.

(** A call of a public method, as a computation. *)
Definition perform (op : operation) : M result :=
  match op with
  | OpSummarize a => v <- summarize env a ;; ret (RSummary v)
  | OpBatch articles max_articles =>
      rs <- summarize_batch env articles max_articles ;; ret (RBatch rs)
  end.

(** The rest of a job from one of its statements, as a computation. *)
Definition job_rest (j : job) : M result :=
  match j with
  | JCall t => v <- call_rest env t ;; ret (RSummary v)
  | JLoop N n i rest results =>
      rs <- for_enumerate (batch_step env N n) i rest results ;; ret (RBatch rs)
  | JItem N n i a rest results t =>
      v <- call_rest env t ;;
      rs <- for_enumerate (batch_step env N n) (i + 1) rest (results ++ [(a, v)]) ;;
      ret (RBatch rs)
  | JReturned r => lift_outcome (outcome_map RBatch r)
  end.

(** What a job returns with providers that keep no memory: the summary of
    its article, the summaries of the articles of its batch. *)
Definition ideal (cfg : Summarizer) (op : operation) : outcome exn result :=
  match op with
  | OpSummarize a => outcome_map RSummary (summary env cfg a)
  | OpBatch articles max_articles =>
      outcome_map RBatch (summaries env cfg (py_slice_to articles max_articles))
  end.

(** What a job is going to return, from where it is. *)
Definition expected (cfg : Summarizer) (j : job) : outcome exn result :=
  match j with
  | JCall t => outcome_map RSummary (summary env cfg (article_of t))
  | JLoop _ _ _ rest results =>
      outcome_map (fun rs => RBatch (results ++ rs)) (summaries env cfg rest)
  | JItem _ _ _ a rest results _ =>
      outcome_map (fun rs => RBatch (results ++ rs)) (summaries env cfg (a :: rest))
  | JReturned r => outcome_map RBatch r
  end.

(** What holds of a job started for [op]: its call of [summarize] is in
    order and is the call for the article of the round, and the job is
    going to return what [op] returns. *)
Definition job_ok (cfg : Summarizer) (st : State) (op : operation) (j : job) : Prop :=
  expected cfg j = ideal cfg op /\
  match j with
  | JCall t => call_ok env cfg st t
  | JItem _ _ _ a _ _ t => call_ok env cfg st t /\ article_of t = a
  | _ => True
  end.

(** Jobs as a machine. *)
#[export] Instance job_machine : Machine job State.
Proof.
refine (MkMachine _ _ job_step job_running job_remaining _ _ _).
- intros [t| | |r] st; simpl; try done.
  intros Hr. by destruct t.
- intros [t|N n i [|a rest] rs|N n i a rest rs t|r] st Hr; simpl in *; try done.
  + exact (mstep_remaining (Machine:=call_machine env) t st Hr).
  + lia.
  + destruct (print env _ st) as [[[]|e] st']; simpl; lia.
  + destruct (call_running t) eqn:Ht.
    * pose proof (mstep_remaining (Machine:=call_machine env) t st Ht) as Hlt.
      simpl in Hlt. unfold after_call.
      destruct (call_step env t st).1 as [| | | | |a' [v|e]]; simpl in *; lia.
    * destruct t as [| | | | |a' [v|e]]; try done; simpl; lia.
- intros [t| | |r]; simpl; try done. apply (mremaining_running (Machine:=call_machine env)).
Defined.

(** The invariant of a pool of jobs started for [ops]. *)
Definition jobs_inv (cfg : Summarizer) (ops : list operation)
    : pool (T:=job) (S:=State) -> Prop :=
  pool_rel (fun st => same_config cfg st /\ slot_ok env st) (job_ok cfg) ops.
End Jobs.

(** A call of [summarize] and two batches on a fresh instance. *)
Definition ex_ops : list operation :=
  [OpBatch [ex_long; ex_short] 10; OpSummarize ex_long; OpBatch [ex_empty; ex_long] 1].

(** The jobs take turns, one statement at a time, twenty each. *)
Definition ex_turns : list nat := concat (replicate 21 [0; 1; 2]).

(** The jobs of [ex_ops] on a fresh instance with the defaults,
    interleaved by [ex_turns], with the providers of [ex_env_echo]. *)
Definition ex_jobs : pool (T:=job) (S:=State) :=
  schedule (job_machine (RT:=ascii_runtime) (FR:=no_special) ex_env_echo)
    ex_turns (map start_job ex_ops, ex_state ∅).

(** ** The statements and the rest of a job *)

Section Alone.
Context {RT : PyRuntime} {FR : FieldRuntime} (env : Env).
Implicit Types (st : State) (j : job) (t : call) (a : Article) (op : operation).

(** The rest of a round whose call is at a returned statement. *)
Lemma job_rest_after_call N n i a rest rs t st :
  job_rest env (after_call N n i a rest rs t) st = job_rest env (JItem N n i a rest rs t) st.
Proof. by destruct t as [| | | | |a' [v|e]]. Qed.

(** A round of the loop: the progress line, then the call and the rest
    of the loop. *)
Lemma loop_round N n i a rest rs st :
  (rs' <- for_enumerate (batch_step env N n) i (a :: rest) rs ;; ret (RBatch rs')) st =
    match print env (progress_line i N n a) st with
    | (Ok _, st') =>
        (v <- summarize env a ;;
         rs' <- for_enumerate (batch_step env N n) (i + 1) rest (rs ++ [(a, v)]) ;;
         ret (RBatch rs')) st'
    | (Raise e, st') => (Raise e, st')
    end.
Proof.
cbn [for_enumerate]. unfold bind at 1 2. rewrite batch_step_run. unfold print.
destruct (env_print env _ _); [done |]. unfold bind.
by destruct (summarize env a _) as [[v|e] st'].
Qed.

(** A statement of a job leaves the rest of the job. *)
Lemma job_step_rest j st :
  job_rest env (job_step env j st).1 (job_step env j st).2 = job_rest env j st.
Proof.
destruct j as [t|N n i [|a rest] rs|N n i a rest rs t|r]; cbn [job_step fst snd]; try done.
- simpl. unfold bind. by rewrite call_step_rest.
- etrans; [|symmetry; apply loop_round]. by destruct (print env _ st) as [[[]|e] st'].
- rewrite job_rest_after_call. simpl. unfold bind at 1 3. by rewrite call_step_rest.
Qed.

(** A job that has returned is what was left of it. *)
Lemma job_done_rest j st :
  job_running j = false ->
  job_result j = Some (job_rest env j st).1 /\ st = (job_rest env j st).2.
Proof.
destruct j as [[| | | | |a [v|e]]| | |[rs|e]]; try done.
Qed.

(** The rest of a job at its first statement is the method. *)
Lemma job_rest_start op st : job_rest env (start_job op) st = perform env op st.
Proof. by destruct op. Qed.

(** A run of a job keeps what is left of it. *)
Lemma run_job_rest k j st :
  job_rest env (mrun (job_machine env) k j st).1 (mrun (job_machine env) k j st).2
    = job_rest env j st.
Proof.
apply (mrun_invariant (job_machine env)
         (fun j' st' => job_rest env j' st' = job_rest env j st)); [|done].
intros j' st' <-. apply job_step_rest.
Qed.

(** The state a method leaves is the state [run] gives. *)
Lemma perform_run op st : (perform env op st).2 = run env op st.
Proof.
destruct op as [a|arts n]; simpl; unfold bind.
- by destruct (summarize env a st) as [[]].
- by destruct (summarize_batch env arts n st) as [[]].
Qed.
(** A job that runs alone leaves the state of the method. *)
Lemma run_job_state op st :
  (mrun (job_machine env) (job_remaining (start_job op)) (start_job op) st).2
    = run env op st.
Proof.
rewrite <- perform_run, <- job_rest_start.
rewrite <- (run_job_rest (job_remaining (start_job op)) (start_job op) st).
apply job_done_rest, (mrun_done (job_machine env)). simpl. lia.
Qed.

(** Jobs that run one after the other leave the state of the session. *)
Lemma run_all_jobs ops st :
  (mrun_all (job_machine env) (map start_job ops) st).2 = run_all env ops st.
Proof.
revert st. induction ops as [|op ops IH]; intros st; simpl; [done |].
by rewrite IH, <- run_job_state.
Qed.

(** A session is an interleaving: the calls made one after the other are
    the jobs under the serial schedule. *)
Lemma session_interleaving ops st :
  exists js, rtc (interleave (job_machine env)) (map start_job ops, st) (js, run_all env ops st)
             /\ Forall (fun j => job_running j = false) js.
Proof.
exists (mrun_all (job_machine env) (map start_job ops) st).1. split.
- rewrite <- run_all_jobs, <- surjective_pairing. apply mrun_all_steps.
- apply (mrun_all_done (job_machine env)).
Qed.
End Alone.

(** ** The invariant of all interleavings *)

Section Invariant.
Context {RT : PyRuntime} {FR : FieldRuntime} (env : Env) (cfg : Summarizer).
Context (Hsl : stateless env) (Hw : writable env).
Implicit Types (st : State) (j : job) (t : call) (a : Article) (op : operation).

#[local] Hint Extern 0 (slot_kept _ _) => solve [by apply slot_kept_self] : core.

(** The outcome of a method, from the outcome of its body. *)
Lemma bind_ret_outcome {A} (m : M A) (f : A -> result) st :
  ((x <- m ;; ret (f x)) st).1 = outcome_map f (m st).1.
Proof. unfold bind. by destruct (m st) as [[x|e] st']. Qed.

(** A method returns what it is meant to, in a state with the
    configuration and a usable slot. *)
Lemma perform_ideal op st :
  same_config cfg st -> slot_ok env st -> (perform env op st).1 = ideal env cfg op.
Proof.
intros Hc Hslot. pose proof (same_config_sim env cfg st Hc Hslot) as Hsim.
destruct op as [a|arts n]; simpl; rewrite bind_ret_outcome.
- by rewrite (summarize_summary env Hsl Hw cfg a st _ Hsim).
- by rewrite (batch_summaries env Hsl Hw cfg arts n st _ Hsim).
Qed.

(** A job that has returned in order returned what it was started for. *)
Lemma job_result_ideal st op j o :
  job_ok env cfg st op j -> job_result j = Some o -> o = ideal env cfg op.
Proof.
intros [He Hj]. destruct j as [[| | | | |a r]| | |r]; try done; simpl in *.
- intros [= <-]. by rewrite Hj.
- by intros [= <-].
Qed.

Lemma job_ok_start st op : job_ok env cfg st op (start_job op).
Proof.
by destruct op; split. Qed.

(** The statements of the other jobs leave a job in order. *)
Lemma job_ok_stable st st' op j :
  slot_kept st st' -> job_ok env cfg st op j -> job_ok env cfg st' op j.
Proof.
intros Hk [He Hj]. split; [done |].
destruct j as [t| |N n i a rest rs t|r]; try done.
- by apply (call_ok_stable env cfg st).
- destruct Hj as [Ht Ha]. split; [|done]. by apply (call_ok_stable env cfg st).
Qed.

(** The round of an article after a statement of its call. *)
Lemma job_ok_after_call N n i a rest rs t st op :
  expected env cfg (JItem N n i a rest rs t) = ideal env cfg op ->
  call_ok env cfg st t -> article_of t = a ->
  job_ok env cfg st op (after_call N n i a rest rs t).
Proof.
intros He Ht Ha. destruct t as [| | | | |a' [v|e]]; try done; simpl in *; subst a';
  (split; [|done]); rewrite <- He, <- Ht; simpl; [|done].
rewrite outcome_map_map. apply outcome_map_ext. intros rs'. by rewrite <- app_assoc.
Qed.

(** A statement of a job keeps the configuration, a usable slot and a
    client in the slot, and leaves the job in order. *)
Lemma job_step_ok op j st :
  same_config cfg st /\ slot_ok env st -> job_ok env cfg st op j ->
  (same_config cfg (job_step env j st).2 /\ slot_ok env (job_step env j st).2) /\
  job_ok env cfg (job_step env j st).2 op (job_step env j st).1 /\
  slot_kept st (job_step env j st).2.
Proof.
intros HP [He Hj].
destruct j as [t|N n i [|a rest] rs|N n i a rest rs t|r]; cbn [job_step fst snd].
- destruct (call_step_ok env cfg Hsl Hw t st HP Hj) as (HP' & Ht' & Hk).
  split; [done |]. split; [|done]. split; [|done].
  simpl in *. by rewrite call_step_article.
- split; [done |]. split; [|done]. split; [|done]. simpl in *. by rewrite app_nil_r in He.
- rewrite (print_run _ _ _ Hw).
  destruct (state_ok_self env cfg st (log_line (progress_line i N n a) st) eq_refl HP)
    as [HP' Hk].
  by split.
- destruct Hj as [Ht Ha].
  destruct (call_step_ok env cfg Hsl Hw t st HP Ht) as (HP' & Ht' & Hk).
  split; [done |]. split; [|done].
  apply job_ok_after_call; [done | done | by rewrite call_step_article].
- by split.
Qed.
End Invariant.

(** ** Well-formed states *)

Section WellFormed.
Context {RT : PyRuntime} {FR : FieldRuntime} (env : Env).
Implicit Types (st : State) (j : job) (t : call) (a : Article) (s : Summarizer).

Lemma job_holds_after_call s N n i a rest rs t :
  call_holds s t -> job_holds s (after_call N n i a rest rs t).
Proof. by destruct t as [| | | | |a' [v|e]]. Qed.

Lemma job_holds_config s s' j :
  set_client None s' = set_client None s -> job_holds s j -> job_holds s' j.
Proof. intros Hs. destruct j; try done; by apply call_holds_config. Qed.

(** A statement of a job keeps the state well formed and the
    configuration, and leaves the job with the client of the instance. *)
Lemma job_step_wf j st :
  wf_state st -> job_holds (self st) j ->
  wf_state (job_step env j st).2 /\ job_holds (self (job_step env j st).2) (job_step env j st).1
  /\ same_config (self st) (job_step env j st).2.
Proof.
intros Hwf Hj.
destruct j as [t|N n i [|a rest] rs|N n i a rest rs t|r]; cbn [job_step fst snd]; try done.
- destruct (call_step_wf env t st Hwf Hj) as (Hwf' & Hc & Ht'). by split_and!.
- pose proof (wf_state_print env (progress_line i N n a) st Hwf).
  pose proof (print_keeps_self env (progress_line i N n a) st) as Hs. unfold same_config.
  by destruct (print env _ st) as [[v|e'] st']; simpl in *; rewrite Hs.
- destruct (call_step_wf env t st Hwf Hj) as (Hwf' & Hc & Ht').
  split; [done |]. split; [|done]. by apply job_holds_after_call.
Qed.
End WellFormed.

(** ** Measures of a pool of jobs *)

Section Budget.
Context {RT : PyRuntime} {FR : FieldRuntime} (env : Env) (mu : measure).
Implicit Types (st : State) (j : job) (t : call) (a : Article).

Lemma job_budget_after_call N n i a rest rs t :
  job_budget mu (after_call N n i a rest rs t) <= job_budget mu (JItem N n i a rest rs t).
Proof. destruct t as [| | | | |a' [v|e]]; simpl; lia. Qed.

(** A statement of a job takes what it adds to the world from the budget
    of the job. *)
Lemma job_step_budget j st :
  measure_of mu (job_step env j st).2 + job_budget mu (job_step env j st).1
    <= measure_of mu st + job_budget mu j.
Proof.
destruct j as [t|N n i [|a rest] rs|N n i a rest rs t|r]; cbn [job_step fst snd].
- apply call_step_budget.
- simpl. lia.
- unfold print. destruct (env_print env _ _); destruct mu; simpl;
    unfold requests_made, clients_made; autorewrite with measure; lia.
- pose proof (call_step_budget env mu t st).
  pose proof (job_budget_after_call N n i a rest rs (call_step env t st).1).
  simpl in *. lia.
- lia.
Qed.
End Budget.

(** ** Theorems on a job alone and on interleaved jobs *)

Section JobTheorems.
Context {RT : PyRuntime} {FR : FieldRuntime} (env : Env).
Implicit Types (st : State) (j : job) (op : operation) (ops : list operation).

(** C27. The statements of a job are the statements of the method: a call of
    [summarize] or of [summarize_batch] that runs the statements it has
    left without interruption has returned, with the outcome the method
    gives and in the state it leaves. *)
Theorem job_alone op st :
  let r := mrun (job_machine env) (job_remaining (start_job op)) (start_job op) st in
  job_result r.1 = Some (perform env op st).1 /\ r.2 = run env op st.
Proof.
cbv zeta. rewrite <- perform_run, <- job_rest_start.
rewrite <- (run_job_rest env (job_remaining (start_job op)) (start_job op) st).
apply job_done_rest, (mrun_done (job_machine env)). simpl. lia.
Qed.

(** Every interleaving keeps the invariant. *)
Lemma jobs_steps_inv cfg ops sys sys' :
  stateless env -> writable env ->
  rtc (interleave (job_machine env)) sys sys' ->
  jobs_inv env cfg ops sys -> jobs_inv env cfg ops sys'.
Proof.
intros Hsl Hw. apply (interleave_pool_rel (job_machine env) _ _ slot_kept).
- intros op j st. by apply job_step_ok.
- intros st st' op j. apply job_ok_stable.
Qed.

Lemma jobs_inv_init ops st :
  slot_ok env st -> jobs_inv env (self st) ops (map start_job ops, st).
Proof.
intros Hslot. split; [by split |]. simpl.
apply Forall2_fmap_r, Forall_Forall2_diag, Forall_forall. intros op _. apply job_ok_start.
Qed.

(** C23. Calls of the public methods that run at the same time on one
    instance do not disturb each other.  With providers that keep no
    memory and a standard output that takes every line, however the
    statements of the jobs interleave, a job that has returned was
    started for the call at its position and returned what the method
    returns alone in the state the jobs started in: [summarize] the
    summary of its article, [summarize_batch] the summaries of
    [articles[:max_articles]] in order, or the exception of the first
    article whose summary raises. *)
Theorem jobs_isolated ops st sys i j o :
  stateless env -> writable env -> slot_ok env st ->
  rtc (interleave (job_machine env)) (map start_job ops, st) sys ->
  sys.1 !! i = Some j -> job_result j = Some o ->
  exists op, ops !! i = Some op /\
    o = (perform env op st).1 /\ o = ideal env (self st) op.
Proof.
intros Hsl Hw Hslot Hs Hi Ho.
destruct (jobs_steps_inv _ ops _ _ Hsl Hw Hs (jobs_inv_init ops st Hslot)) as [_ Hjs].
destruct (Forall2_lookup_r _ _ _ _ _ Hjs Hi) as (op & Hop & Hok).
exists op. split; [done |].
rewrite (perform_ideal env (self st) Hsl Hw) by done.
split; by apply (job_result_ideal env (self st) sys.2 op j).
Qed.

(** C25. Well-formedness is an invariant of every interleaving.  When calls
    of the public methods run at the same time on a well-formed
    instance, whatever the providers answer and however the statements
    interleave, the attributes keep their types, the slot is empty or
    holds the client of the configured provider, and every call made is
    a call of this instance, the construction of that client or a
    request through it with the configured model, [max_tokens] 500 and
    one user message: a client constructed twice is constructed twice
    from the same credentials, and no request goes through another
    client. *)
Theorem jobs_wf ops st sys :
  wf_state st ->
  rtc (interleave (job_machine env)) (map start_job ops, st) sys ->
  wf_state sys.2 /\ Forall (fun call => call_typed call = true) (calls (world sys.2)).
Proof.
intros Hwf Hs.
assert (Hinv : pool_inv wf_state (fun st j => job_holds (self st) j) sys).
{ eapply (interleave_pool_inv (job_machine env) _ _
            (fun st st' => same_config (self st) st')); [| |exact Hs |].
  - intros j st'. apply job_step_wf.
  - intros st1 st2 j. apply job_holds_config.
  - split; [done |]. simpl. apply Forall_fmap, Forall_true. by intros []. }
destruct Hinv as [Hwf' _]. split; [done |]. destruct Hwf' as (Hty & _ & Hh).
eapply Forall_impl; [exact Hh |]. intros call. by apply call_wf_typed.
Qed.

(** After every interleaving the instance is as usable as before: a
    further call of [summarize] returns the summary of its article. *)
Corollary jobs_then_summarize ops st sys a :
  stateless env -> writable env -> slot_ok env st ->
  rtc (interleave (job_machine env)) (map start_job ops, st) sys ->
  (summarize env a sys.2).1 = summary env (self st) a.
Proof.
intros Hsl Hw Hslot Hs.
destruct (jobs_steps_inv _ ops _ _ Hsl Hw Hs (jobs_inv_init ops st Hslot)) as [[Hc Hslot'] _].
apply (summarize_summary env Hsl Hw _ a sys.2 (observe sys.2)).
by apply same_config_sim.
Qed.

(** A schedule that gives each job the statements it has left. *)
Lemma start_job_remaining ops sch :
  (forall i op, ops !! i = Some op -> job_remaining (start_job op) <= picks i sch) ->
  forall i j, map start_job ops !! i = Some j -> mremaining (job_machine env) j <= picks i sch.
Proof.
intros Hfair i j Hi. rewrite list_lookup_fmap in Hi.
destruct (ops !! i) as [op|] eqn:Hop; [|done]. injection Hi as <-. by apply Hfair.
Qed.


(** C28. Interleaved jobs use no more of the world than jobs in sequence:
    however their statements interleave, what they add to the requests
    sent, to the clients constructed and to the lines printed is within
    the budgets they start with, one request and one client for a call
    of [summarize] and for each article of a batch, one line for a call
    and two for each article of a batch; and the interleaving has no more
    steps than the jobs have statements. *)
Theorem jobs_budget mu ops st k sys :
  nsteps (interleave (job_machine env)) k (map start_job ops, st) sys ->
  measure_of mu sys.2 <= measure_of mu st + total (job_budget mu) (map start_job ops) /\
  k <= total job_remaining (map start_job ops).
Proof.
intros Hs. split.
- apply rtc_nsteps_2 in Hs.
  apply (interleave_steps_total (job_machine env) (job_budget mu) (measure_of mu)) in Hs;
    [|apply job_step_budget].
  simpl in Hs. lia.
- by apply (interleave_steps_bound (job_machine env)) in Hs.
Qed.
End JobTheorems.

(** ** The theorems at a concrete interleaving *)

(** In [ex_jobs] the first batch and the call both constructed a client;
    the three progress lines are all that was printed. *)
Example ex_jobs_world :
  map job_running ex_jobs.1 = [false; false; false] /\
  clients_made ex_jobs.2 = 2 /\ requests_made ex_jobs.2 = 2 /\ lines_printed ex_jobs.2 = 3.
Proof. vm_compute. done. Qed.

Lemma jobs_isolated_witness :
  exists op, ex_ops !! 0 = Some op /\
    Ok (RBatch [(ex_long, VStr (lit "261")); (ex_short, VStr (content ex_short))])
      = (perform (RT:=ascii_runtime) (FR:=no_special) ex_env_echo op (ex_state ∅)).1 /\
    Ok (RBatch [(ex_long, VStr (lit "261")); (ex_short, VStr (content ex_short))])
      = ideal (RT:=ascii_runtime) (FR:=no_special) ex_env_echo (self (ex_state ∅)) op.
Proof.
apply (jobs_isolated (RT:=ascii_runtime) (FR:=no_special) ex_env_echo ex_ops
         (ex_state ∅) ex_jobs 0
         (JReturned (Ok [(ex_long, VStr (lit "261")); (ex_short, VStr (content ex_short))])));
  [exact ex_env_echo_stateless | exact ex_env_echo_writable | apply ex_state_slot_ok
  | apply schedule_steps | vm_compute; reflexivity | reflexivity].
Defined.


Lemma jobs_budget_witness :
  measure_of Lines ex_jobs.2
    <= measure_of Lines (ex_state ∅) + total (job_budget Lines) (map start_job ex_ops).
Proof.
destruct (schedule_nsteps (job_machine (RT:=ascii_runtime) (FR:=no_special) ex_env_echo)
            ex_turns (map start_job ex_ops, ex_state ∅)) as (k & _ & Hs).
exact (proj1 (jobs_budget (RT:=ascii_runtime) (FR:=no_special) ex_env_echo Lines
                ex_ops (ex_state ∅) k ex_jobs Hs)).
Defined.

Lemma jobs_wf_witness :
  wf_state ex_jobs.2 /\ Forall (fun call => call_typed call = true) (calls (world ex_jobs.2)).
Proof.
apply (jobs_wf (RT:=ascii_runtime) (FR:=no_special) ex_env_echo ex_ops (ex_state ∅) ex_jobs);
  [by apply (init_wf ∅ []) | apply schedule_steps].
Defined.
