(* ===== verification/Linear.v ===== *)
(** What concurrent calls print and send.

    The world keeps the lines printed and the requests sent in the order
    in which they were made.  With providers that keep no memory, a call
    of a public method prints and sends the same whenever it runs: its
    trace, a function of the configuration and of its arguments
    ([op_trace]).  A job has a trace left at each of its statements
    ([job_trace]), and a statement adds to the world what it takes from
    the front of it.  So what the calls of an interleaving print is a
    merge of what each of them prints alone, and what they send a merge
    of what each of them sends alone ([jobs_merge]): the lines and the
    requests of a call stay in their order, none is lost and none is
    added, whatever the other calls do meanwhile. *)

From Stdlib Require Import ZArith NArith String List Lia.
From stdpp Require Import base tactics option list numbers gmap strings relations.
From S2P Require Import Prelude Logic Sched Merge PyStr Format Config Provider Summarize Batch.
From S2P Require Import Lifecycle Typing Spec Isolation Race Concurrent Jobs.


(** ** Journals as logs *)

(** Nothing printed, nothing sent. *)
Definition jempty : Journal := MkJournal [] [].

(** A journal followed by another. *)
Definition jappend (j d : Journal) : Journal :=
  MkJournal (printed j ++ printed d) (sent j ++ sent d).

(** The error line of the [except] clause, for an outcome of the [try]. *)
Definition error_lines {RT : PyRuntime} (a : Article) (o : outcome exn value) : list pystr :=
  match o with
  | Raise e => if is_Exception e then [error_line a e] else []
  | Ok _ => []
  end.

(** The request a provider method sends for a prompt. *)
Definition request_call (k : provider_kind) (s : Summarizer) (prompt : pystr) : Call :=
  match k with
  | KClaude => MessagesCreate (claude_client_of s) (model s) 500 (user_message prompt)
  | KOpenAI =>
      ChatCompletionsCreate (openai_client_of s) (openai_model s) 500 (user_message prompt)
  end.

Section Traces.
Context {RT : PyRuntime} {FR : FieldRuntime} (env : Env).

(** What a request adds to the world: the request, and the error line
    when its answer is an [Exception]. *)
Definition request_trace (a : Article) (req : Call) : Journal :=
  MkJournal (error_lines a (answer env [] req)) [req].

(** What the [try] of [summarize] adds: the warning for an unknown
    provider, the error line of a backend that is not available, or the
    request. *)
Definition exchange_trace (cfg : Summarizer) (a : Article) (prompt : pystr) : Journal :=
  match backend_call (backend_of cfg) prompt with
  | None => MkJournal [warning_line (provider cfg)] []
  | Some (c, req) =>
      match available env c with
      | Some e => MkJournal (error_lines a (Raise e)) []
      | None => request_trace a req
      end
  end.

(** What a call of [summarize] adds. *)
Definition summary_trace (cfg : Summarizer) (a : Article) : Journal :=
  if (py_len (content a) <? SHORT_CONTENT)%Z then jempty
  else
    match render_prompt (prompt_template cfg) a with
    | Raise _ => jempty
    | Ok prompt => exchange_trace cfg a prompt
    end.

(** What the loop of a batch adds from the article of index [i] on: for
    each article its progress line and what its call adds, up to the
    first article whose summary raises. *)
Fixpoint batch_trace (cfg : Summarizer) (N n i : Z) (l : list Article) : Journal :=
  match l with
  | [] => jempty
  | a :: l' =>
      jappend (MkJournal [progress_line i N n a] [])
        (jappend (summary_trace cfg a)
           (if is_ok (summary env cfg a) then batch_trace cfg N n (i + 1) l' else jempty))
  end.

(** What a call of a public method adds. *)
Definition op_trace (cfg : Summarizer) (op : operation) : Journal :=
  match op with
  | OpSummarize a => summary_trace cfg a
  | OpBatch articles max_articles =>
      batch_trace cfg (py_len articles) max_articles 0 (py_slice_to articles max_articles)
  end.

(** What a call of [summarize] has left to add, from where it is. *)
Definition call_trace (cfg : Summarizer) (t : call) : Journal :=
  match t with
  | CStart a => summary_trace cfg a
  | CGetter a prompt _ _ => exchange_trace cfg a prompt
  | CRequest a prompt k _ => request_trace a (request_call k cfg prompt)
  | CWarn _ => MkJournal [warning_line (provider cfg)] []
  | CError a e => MkJournal [error_line a e] []
  | CDone _ _ => jempty
  end.

(** What a job has left to add, from where it is. *)
Definition job_trace (cfg : Summarizer) (j : job) : Journal :=
  match j with
  | JCall t => call_trace cfg t
  | JLoop N n i rest _ => batch_trace cfg N n i rest
  | JItem N n i a rest _ t =>
      jappend (call_trace cfg t)
        (if is_ok (summary env cfg a) then batch_trace cfg N n (i + 1) rest else jempty)
  | JReturned _ => jempty
  end.

(** What a call prints and what it sends when it runs alone from [st]. *)
Definition printed_by (op : operation) (st : State) : list pystr :=
  drop (length (stdout (world st))) (stdout (world (run env op st))).

Definition sent_by (op : operation) (st : State) : list Call :=
  drop (length (requests_of st)) (requests_of (run env op st)).
End Traces.

(** ** Lemmas on journals *)

Lemma jappend_empty_l j : jappend jempty j = j.
Proof. by destruct j. Qed.

Lemma jappend_empty_r j : jappend j jempty = j.
Proof. destruct j. unfold jappend. simpl. by rewrite !app_nil_r. Qed.

Lemma jappend_assoc j1 j2 j3 : jappend (jappend j1 j2) j3 = jappend j1 (jappend j2 j3).
Proof. unfold jappend. simpl. by rewrite !app_assoc. Qed.

Lemma observe_log_line line st :
  observe (log_line line st) = jappend (observe st) (MkJournal [line] []).
Proof. unfold observe, jappend. simpl. by rewrite app_nil_r. Qed.

Lemma observe_record_call c st :
  observe (record_call c st)
    = jappend (observe st) (MkJournal [] (if is_request c then [c] else [])).
Proof. unfold observe, jappend. by rewrite requests_of_record_call, app_nil_r. Qed.

Lemma observe_with_self f st : observe (with_self f st) = observe st.
Proof. done. Qed.

Create Rewrite HintDb journal.
#[export] Hint Rewrite jappend_empty_l jappend_empty_r observe_log_line observe_record_call
  observe_with_self : journal.

(** ** A statement takes what it adds from the trace of its job *)

Section Steps.
Context {RT : PyRuntime} {FR : FieldRuntime} (env : Env) (cfg : Summarizer).
Context (Hsl : stateless env) (Hw : writable env).
Implicit Types (st : State) (j : job) (t : call) (g : thread) (k : provider_kind)
  (a : Article) (op : operation).

Lemma backend_call_kind k prompt :
  kind_of cfg = Some k ->
  backend_call (backend_of cfg) prompt = Some (getter_client k cfg, request_call k cfg prompt).
Proof.
unfold kind_of, backend_of. repeat (destruct (value_eqb _ _)); by intros [= <-].
Qed.

Lemma backend_call_unknown prompt :
  kind_of cfg = None -> backend_call (backend_of cfg) prompt = None.
Proof. unfold kind_of, backend_of. by repeat (destruct (value_eqb _ _)). Qed.

(** The request of a provider method through the client of the
    configuration: the call recorded and its answer. *)
Lemma request_run k prompt st :
  same_config cfg st ->
  request env k (getter_client k cfg) prompt st
    = (answer env (calls (world st)) (request_call k cfg prompt),
       record_call (request_call k cfg prompt) st).
Proof.
intros Hc. destruct k; unfold request, bind, gets; simpl.
- rewrite (same_config_field cfg model st (fun _ => eq_refl) Hc).
  by destruct (env_messages_create env _ _ _ _ _) as [[|[t|cls] bs]|e].
- rewrite (same_config_field cfg openai_model st (fun _ => eq_refl) Hc).
  by destruct (env_chat_create env _ _ _ _ _) as [[[|v vs]]|e].
Qed.

Lemma is_request_request_call k s prompt : is_request (request_call k s prompt) = true.
Proof. by destruct k. Qed.

(** A statement of a getter prints nothing and sends nothing. *)
Lemma thread_step_observe mk g st : observe (thread_step env mk g st).2 = observe st.
Proof.
destruct g; simpl; repeat case_match; simpl; autorewrite with journal; try done;
  by rewrite jappend_empty_r.
Qed.

Lemma call_trace_caught a e :
  call_trace env cfg (caught a e) = MkJournal (error_lines a (Raise e)) [].
Proof. unfold caught. simpl. by destruct (is_Exception e). Qed.

Lemma call_trace_after_getter a prompt k g st :
  kind_of cfg = Some k -> getter_ok env (getter_client k cfg) st g ->
  call_trace env cfg (after_getter a prompt k g) = exchange_trace env cfg a prompt.
Proof.
intros Hk Hg. destruct g as [| | | | |[r|e]]; try done; simpl in Hg;
  unfold exchange_trace; rewrite (backend_call_kind k prompt Hk).
- destruct Hg as [-> Hav]. by rewrite Hav.
- simpl. by rewrite Hg, call_trace_caught.
Qed.

(** The first statement of a call adds nothing. *)
Lemma call_start_trace a st :
  same_config cfg st ->
  call_trace env cfg (call_step env (CStart a) st).1 = summary_trace env cfg a.
Proof.
intros Hc. simpl. unfold summary_trace.
rewrite (same_config_field cfg prompt_template st (fun _ => eq_refl) Hc),
        (same_config_kind cfg st Hc).
destruct (_ <? _)%Z; [done |]. destruct (render_prompt _ _) as [prompt|e]; [|done].
destruct (kind_of cfg) as [k|] eqn:Hk; [done |].
simpl. unfold exchange_trace. by rewrite (backend_call_unknown prompt Hk).
Qed.

(** The request adds itself, and leaves the error line of its answer. *)
Lemma call_request_trace a prompt k st :
  same_config cfg st ->
  let r := after_try a (fun v => CDone a (Ok v))
             (request env k (getter_client k cfg) prompt st) in
  observe r.2 = jappend (observe st) (MkJournal [] [request_call k cfg prompt]) /\
  request_trace env a (request_call k cfg prompt)
    = jappend (MkJournal [] [request_call k cfg prompt]) (call_trace env cfg r.1).
Proof.
intros Hc. cbv zeta. rewrite (request_run k prompt st Hc).
unfold request_trace. rewrite (answer_stateless env Hsl (calls (world st))).
destruct (answer env [] _) as [v|e]; simpl;
  rewrite observe_record_call, is_request_request_call, ?call_trace_caught; by split.
Qed.

(** A statement of a call adds to the world what it takes from the front
    of the trace of the call. *)
Lemma call_step_trace t st :
  same_config cfg st /\ slot_ok env st -> call_ok env cfg st t ->
  exists d, observe (call_step env t st).2 = jappend (observe st) d /\
            call_trace env cfg t = jappend d (call_trace env cfg (call_step env t st).1).
Proof.
intros [Hc Hslot] Ht. destruct t as [a|a prompt k g|a prompt k c|a|a e|a r].
- exists jempty. rewrite jappend_empty_r, jappend_empty_l, (call_start_trace a st Hc).
  split; [|done]. simpl. by repeat case_match.
- exists jempty. rewrite jappend_empty_r, jappend_empty_l. cbn [call_step fst snd].
  split; [apply thread_step_observe |]. destruct Ht as (Hk & _ & Hg).
  destruct (getter_step_ok env cfg Hsl k g st Hc Hslot Hk Hg) as (_ & Hg' & _).
  by rewrite (call_trace_after_getter a prompt k _ _ Hk Hg').
- destruct Ht as (Hk & _ & -> & _). eexists. by apply call_request_trace.
- exists (MkJournal [warning_line (provider cfg)] []). simpl.
  rewrite (print_run _ _ _ Hw), (same_config_field cfg provider st (fun _ => eq_refl) Hc).
  simpl. by rewrite observe_log_line, jappend_empty_r.
- exists (MkJournal [error_line a e] []). simpl. rewrite (print_run _ _ _ Hw). simpl.
  by rewrite observe_log_line, jappend_empty_r.
- exists jempty. by rewrite jappend_empty_r.
Qed.

(** What the loop has left after the call of a round. *)
Lemma job_trace_after_call N n i a rest rs t st :
  call_ok env cfg st t -> article_of t = a -> call_running t = false ->
  job_trace env cfg (after_call N n i a rest rs t)
    = (if is_ok (summary env cfg a) then batch_trace env cfg N n (i + 1) rest else jempty).
Proof.
intros Ht Ha Hr. destruct t as [| | | | |a' [v|e]]; try done; simpl in *; subst a';
  by rewrite <- Ht.
Qed.

Lemma job_trace_in_call N n i a rest rs t :
  call_running t = true ->
  job_trace env cfg (after_call N n i a rest rs t)
    = job_trace env cfg (JItem N n i a rest rs t).
Proof. by destruct t. Qed.

(** A statement of a job adds to the world what it takes from the front
    of the trace of the job. *)
Lemma job_step_trace op j st :
  same_config cfg st /\ slot_ok env st -> job_ok env cfg st op j ->
  exists d, observe (job_step env j st).2 = jappend (observe st) d /\
            job_trace env cfg j = jappend d (job_trace env cfg (job_step env j st).1).
Proof.
intros HP [_ Hj].
destruct j as [t|N n i [|a rest] rs|N n i a rest rs t|r]; cbn [job_step fst snd].
- by apply call_step_trace.
- exists jempty. by rewrite jappend_empty_r.
- exists (MkJournal [progress_line i N n a] []). rewrite (print_run _ _ _ Hw).
  cbn [fst snd]. by rewrite observe_log_line.
- destruct Hj as [Ht Ha].
  destruct (call_step_trace t st HP Ht) as (d & Hobs & Htr).
  destruct (call_step_ok env cfg Hsl Hw t st HP Ht) as (_ & Ht' & _).
  pose proof (call_step_article env t st) as Ha'. rewrite Ha in Ha'.
  exists d. split; [done |]. simpl. rewrite Htr, jappend_assoc. f_equal.
  destruct (call_running (call_step env t st).1) eqn:Hr.
  + by rewrite job_trace_in_call.
  + rewrite (job_trace_after_call N n i a rest rs _ _ Ht' Ha' Hr).
    destruct (call_step env t st).1; try done. by rewrite jappend_empty_l.
- exists jempty. by rewrite jappend_empty_r.
Qed.

(** A job that has returned has nothing left to add. *)
Lemma job_trace_done j : job_running j = false -> job_trace env cfg j = jempty.
Proof. by destruct j as [[]| | |]. Qed.

Lemma job_trace_start op : job_trace env cfg (start_job op) = op_trace env cfg op.
Proof. by destruct op. Qed.
End Steps.

(** ** The world of an interleaving *)

Section Logs.
Context {RT : PyRuntime} {FR : FieldRuntime} (env : Env).
Context {A : Type} (f : Journal -> list A).
Context (Hf : forall j d, f (jappend j d) = f j ++ f d) (Hf0 : f jempty = []).
Context (Hsl : stateless env) (Hw : writable env).
Implicit Types (st : State) (j : job) (op : operation) (ops : list operation).

(** For a part [f] of the journal, the lines or the requests: when the
    jobs of an interleaving have returned, what it added is a merge of
    the traces the jobs had left. *)
Lemma jobs_log cfg ops sys sys' :
  rtc (interleave (job_machine env)) sys sys' -> jobs_inv env cfg ops sys ->
  Forall (fun j => job_running j = false) sys'.1 ->
  exists d, f (observe sys'.2) = f (observe sys.2) ++ d /\
            merges (map (fun j => f (job_trace env cfg j)) sys.1) d.
Proof.
intros Hs Hinv Hdone.
apply (interleave_merges_done (job_machine env) (fun st => f (observe st))
         (fun j => f (job_trace env cfg j)) (jobs_inv env cfg ops)); try done.
- intros sys1 sys2 Hstep. apply (jobs_steps_inv env cfg ops _ _ Hsl Hw). by apply rtc_once.
- intros ts st i t [HP Hjs] Hi.
  destruct (Forall2_lookup_r _ _ _ _ _ Hjs Hi) as (op & _ & Hok).
  destruct (job_step_trace env cfg Hsl Hw op t st HP Hok) as (d & Hobs & Htr).
  exists (f d). simpl. by rewrite Hobs, Htr, !Hf.
- intros t Ht. by rewrite job_trace_done.
Qed.

(** What a call adds alone is its trace. *)
Lemma op_alone_log op st :
  slot_ok env st ->
  f (observe (run env op st)) = f (observe st) ++ f (op_trace env (self st) op).
Proof.
intros Hslot. set (n := job_remaining (start_job op)).
pose proof (schedule_steps (job_machine env) (replicate n 0) ([start_job op], st)) as Hs.
rewrite schedule_alone in Hs.
destruct (jobs_log (self st) [op] _ _ Hs (jobs_inv_init env [op] st Hslot)) as (d & Hobs & Hm).
{ repeat constructor. simpl. by apply (mrun_done (job_machine env)). }
simpl in Hobs, Hm. apply merges_single_inv in Hm. subst n.
by rewrite <- (run_job_state env op st), Hobs, Hm, job_trace_start.
Qed.

(** The traces of the calls are what they add alone. *)
Lemma op_traces_alone ops st :
  slot_ok env st ->
  map (fun j => f (job_trace env (self st) j)) (map start_job ops)
    = map (fun op => drop (length (f (observe st))) (f (observe (run env op st)))) ops.
Proof.
intros Hslot. rewrite <- list_fmap_compose. apply list_fmap_ext. intros _ op _. simpl.
by rewrite job_trace_start, (op_alone_log op st Hslot), drop_app_length.
Qed.

(** When the jobs of an interleaving have returned, what it added is a
    merge of what the calls add alone. *)
Lemma jobs_log_alone ops st sys :
  slot_ok env st ->
  rtc (interleave (job_machine env)) (map start_job ops, st) sys ->
  Forall (fun j => job_running j = false) sys.1 ->
  exists d, f (observe sys.2) = f (observe st) ++ d /\
    merges (map (fun op => drop (length (f (observe st))) (f (observe (run env op st)))) ops) d.
Proof.
intros Hslot Hs Hdone. rewrite <- (op_traces_alone ops st Hslot).
apply (jobs_log (self st) ops _ _ Hs (jobs_inv_init env ops st Hslot) Hdone).
Qed.

(** An interleaving adds what the same calls add in sequence, in another
    order. *)
Lemma jobs_log_perm ops st sys :
  slot_ok env st ->
  rtc (interleave (job_machine env)) (map start_job ops, st) sys ->
  Forall (fun j => job_running j = false) sys.1 ->
  f (observe sys.2) ≡ₚ f (observe (run_all env ops st)).
Proof.
intros Hslot Hs Hdone.
destruct (jobs_log_alone ops st sys Hslot Hs Hdone) as (d & -> & Hm).
destruct (session_interleaving env ops st) as (js & Hs' & Hdone').
destruct (jobs_log_alone ops st _ Hslot Hs' Hdone') as (d' & Hobs & Hm').
simpl in Hobs. rewrite Hobs. apply Permutation_app_head.
by rewrite (merges_Permutation _ _ Hm), (merges_Permutation _ _ Hm').
Qed.

(** What a call adds alone is in the world, in its order. *)
Lemma jobs_log_order ops st sys i op :
  slot_ok env st ->
  rtc (interleave (job_machine env)) (map start_job ops, st) sys ->
  Forall (fun j => job_running j = false) sys.1 ->
  ops !! i = Some op ->
  drop (length (f (observe st))) (f (observe (run env op st))) `sublist_of` f (observe sys.2).
Proof.
intros Hslot Hs Hdone Hi.
destruct (jobs_log_alone ops st sys Hslot Hs Hdone) as (d & -> & Hm).
etrans; [|apply sublist_inserts_l, reflexivity].
apply (merges_sublist _ _ i _ Hm). by rewrite list_lookup_fmap, Hi.
Qed.
End Logs.

(** ** Theorems *)

Section LinearTheorems.
Context {RT : PyRuntime} {FR : FieldRuntime} (env : Env).
Implicit Types (st : State) (j : job) (op : operation) (ops : list operation).

(** C24. What concurrent calls print and send is a merge of what they print
    and send alone.  With providers that keep no memory and a standard
    output that takes every line, when calls of the public methods have
    run at the same time on one instance and returned, however their
    statements interleaved, the lines the world shows after those it
    showed before are a merge of the lines each call prints when it runs
    alone from the state the calls started in, and the requests a merge
    of the requests each call sends alone: every line and request of a
    call is there, in the order of the call, and nothing else. *)
Theorem jobs_merge ops st sys :
  stateless env -> writable env -> slot_ok env st ->
  rtc (interleave (job_machine env)) (map start_job ops, st) sys ->
  Forall (fun j => job_running j = false) sys.1 ->
  exists lines requests,
    stdout (world sys.2) = stdout (world st) ++ lines /\
    requests_of sys.2 = requests_of st ++ requests /\
    merges (map (fun op => printed_by env op st) ops) lines /\
    merges (map (fun op => sent_by env op st) ops) requests.
Proof.
intros Hsl Hw Hslot Hs Hdone.
destruct (jobs_log_alone env printed (fun _ _ => eq_refl) eq_refl Hsl Hw ops st sys)
  as (lines & Hl & Hml); [done.. |].
destruct (jobs_log_alone env sent (fun _ _ => eq_refl) eq_refl Hsl Hw ops st sys)
  as (reqs & Hr & Hmr); [done.. |].
by exists lines, reqs.
Qed.

(** The lines and the requests of each call are in the world in the
    order of the call. *)
Corollary jobs_merge_order ops st sys i op :
  stateless env -> writable env -> slot_ok env st ->
  rtc (interleave (job_machine env)) (map start_job ops, st) sys ->
  Forall (fun j => job_running j = false) sys.1 ->
  ops !! i = Some op ->
  printed_by env op st `sublist_of` stdout (world sys.2) /\
  sent_by env op st `sublist_of` requests_of sys.2.
Proof.
intros Hsl Hw Hslot Hs Hdone Hi.
split; [apply (jobs_log_order env printed (fun _ _ => eq_refl) eq_refl Hsl Hw ops st sys i)
       |apply (jobs_log_order env sent (fun _ _ => eq_refl) eq_refl Hsl Hw ops st sys i)];
  done.
Qed.

(** An interleaving prints the lines and sends the requests of the same
    calls made in sequence, in another order. *)
Corollary jobs_session ops st sys :
  stateless env -> writable env -> slot_ok env st ->
  rtc (interleave (job_machine env)) (map start_job ops, st) sys ->
  Forall (fun j => job_running j = false) sys.1 ->
  stdout (world sys.2) ≡ₚ stdout (world (run_all env ops st)) /\
  requests_of sys.2 ≡ₚ requests_of (run_all env ops st).
Proof.
intros Hsl Hw Hslot Hs Hdone.
split; [apply (jobs_log_perm env printed (fun _ _ => eq_refl) eq_refl Hsl Hw ops st sys)
       |apply (jobs_log_perm env sent (fun _ _ => eq_refl) eq_refl Hsl Hw ops st sys)];
  done.
Qed.
End LinearTheorems.

(** ** The theorem at a concrete interleaving *)

(** The lines of [ex_jobs] are a merge of the lines of its calls alone,
    and not the lines of the calls one after the other. *)
Example ex_jobs_lines :
  let alone :=
    map (fun op => printed_by (RT:=ascii_runtime) (FR:=no_special) ex_env_echo op (ex_state ∅))
      ex_ops in
  is_merge alone (stdout (world ex_jobs.2)) = true /\
  stdout (world ex_jobs.2) <> concat alone.
Proof. vm_compute. split; [done | discriminate]. Qed.

Lemma jobs_merge_witness :
  exists lines requests,
    stdout (world ex_jobs.2) = stdout (world (ex_state ∅)) ++ lines /\
    requests_of ex_jobs.2 = requests_of (ex_state ∅) ++ requests /\
    merges
      (map (fun op => printed_by (RT:=ascii_runtime) (FR:=no_special) ex_env_echo op
                        (ex_state ∅)) ex_ops) lines /\
    merges
      (map (fun op => sent_by (RT:=ascii_runtime) (FR:=no_special) ex_env_echo op
                        (ex_state ∅)) ex_ops) requests.
Proof.
apply (jobs_merge (RT:=ascii_runtime) (FR:=no_special) ex_env_echo ex_ops (ex_state ∅) ex_jobs);
  [exact ex_env_echo_stateless | exact ex_env_echo_writable | apply ex_state_slot_ok
  | apply schedule_steps | vm_compute; by repeat constructor].
Defined.
