(* ===== verification/Reconfigure.v ===== *)
(** Attributes assigned between calls.

    [Summarizer] is a plain class: [__init__] stores the configuration in
    seven public attributes and nothing stops a caller from assigning to
    them afterwards ([s.provider = "openai"]).  The methods read the
    attributes at each call, except for the credentials, which they read
    once, when the client is constructed.  This file says what an
    assignment does to the calls that follow it:

    - the attributes a call reads ([reads]) and the lemmas that a call
      depends on nothing else of the instance ([summarize_agree],
      [perform_agree]), so that an assignment to an attribute that is not
      read commutes with every call ([assign_commutes]): credentials
      assigned once the client is cached are ignored;
    - sessions of calls and assignments in which every call finds the slot
      empty or holding the client of the provider configured at the time
      ([calls_fit], which tidy sessions satisfy, [tidy_calls_fit]): they
      refine the contract of the configuration as assigned
      ([reconfigure_refines]), so an assignment to the model or to the
      template is honoured by the next call ([reconfigured_result]);
    - the state a change of provider with a client in the slot leaves
      ([stale]): no request is sent from it again, whatever is called
      ([run_all_stale], [switch_provider_stale]), until the slot is
      emptied. *)

From Stdlib Require Import ZArith NArith String List Lia.
From stdpp Require Import base tactics option list numbers gmap strings relations.
From S2P Require Import Prelude Logic PyStr Format Config Provider Summarize Batch.
From S2P Require Import Lifecycle Spec Isolation Sched Race Concurrent Jobs.

#[local] Open Scope string_scope.

(** ** Attributes *)

(** The public attributes of an instance, in the order of [__init__]. *)
Inductive attribute : Type :=
| AProvider | AModel | AApiKey | AOpenAIKey | AOpenAIBase | AOpenAIModel | ATemplate.

#[export] Instance attribute_eq_dec : EqDecision attribute.
Proof. solve_decision. Defined.

(** The configuration key [__init__] reads an attribute from, and the
    default it takes when the key is absent. *)
Definition key_of (x : attribute) : string :=
  match x with
  | AProvider => "provider"
  | AModel => "model"
  | AApiKey => "api_key"
  | AOpenAIKey => "openai_api_key"
  | AOpenAIBase => "openai_api_base"
  | AOpenAIModel => "openai_model"
  | ATemplate => "summary_prompt"
  end.

Definition default_of (x : attribute) : value :=
  match x with
  | AProvider => VStr (lit "claude")
  | AModel => VStr (lit "claude-sonnet-4-20250514")
  | AApiKey => VNone
  | AOpenAIKey => VNone
  | AOpenAIBase => VStr (lit "https://api.openai.com/v1")
  | AOpenAIModel => VStr (lit "gpt-4o-mini")
  | ATemplate => VStr _default_prompt
  end.

(** [s.x] *)
Definition get_attr (x : attribute) (s : Summarizer) : value :=
  match x with
  | AProvider => provider s
  | AModel => model s
  | AApiKey => api_key s
  | AOpenAIKey => openai_api_key s
  | AOpenAIBase => openai_api_base s
  | AOpenAIModel => openai_model s
  | ATemplate => prompt_template s
  end.

(** [s.x = v] *)
Definition set_attr (x : attribute) (v : value) (s : Summarizer) : Summarizer :=
  match x with
  | AProvider =>
      MkSummarizer v (model s) (api_key s) (openai_api_key s) (openai_api_base s)
        (openai_model s) (prompt_template s) (_client s)
  | AModel =>
      MkSummarizer (provider s) v (api_key s) (openai_api_key s) (openai_api_base s)
        (openai_model s) (prompt_template s) (_client s)
  | AApiKey =>
      MkSummarizer (provider s) (model s) v (openai_api_key s) (openai_api_base s)
        (openai_model s) (prompt_template s) (_client s)
  | AOpenAIKey =>
      MkSummarizer (provider s) (model s) (api_key s) v (openai_api_base s)
        (openai_model s) (prompt_template s) (_client s)
  | AOpenAIBase =>
      MkSummarizer (provider s) (model s) (api_key s) (openai_api_key s) v
        (openai_model s) (prompt_template s) (_client s)
  | AOpenAIModel =>
      MkSummarizer (provider s) (model s) (api_key s) (openai_api_key s) (openai_api_base s)
        v (prompt_template s) (_client s)
  | ATemplate =>
      MkSummarizer (provider s) (model s) (api_key s) (openai_api_key s) (openai_api_base s)
        (openai_model s) v (_client s)
  end.

(** ** What a call reads *)

(** The attributes a call of a public method may read in a state of the
    instance: the provider and the template, the model of the configured
    provider, and the credentials of the configured provider as long as
    the slot is empty. *)
Definition reads (s : Summarizer) (x : attribute) : bool :=
  match x with
  | AProvider | ATemplate => true
  | AModel => value_eqb (provider s) (lit "claude")
  | AOpenAIModel => value_eqb (provider s) (lit "openai")
  | AApiKey => value_eqb (provider s) (lit "claude") && bool_decide (_client s = None)
  | AOpenAIKey | AOpenAIBase =>
      value_eqb (provider s) (lit "openai") && bool_decide (_client s = None)
  end.

(** Two states that a call cannot tell apart: the same world, the same
    slot, and the same value of every attribute a call reads. *)
Record agree (st1 st2 : State) : Prop := MkAgree {
  ag_world : world st1 = world st2;
  ag_client : _client (self st1) = _client (self st2);
  ag_attr : forall x, reads (self st1) x = true -> get_attr x (self st1) = get_attr x (self st2);
}.

(** ** Sessions with assignments *)

(** What a caller does with an instance between its construction and its
    end: a call of a public method, an assignment to a public attribute,
    or [s._client = None]. *)
Inductive action : Type :=
| ACall (op : operation)
| AAssign (x : attribute) (v : value)
| AForget.

(** The slot holds a client that is not of the class the configured
    provider needs: what a change of provider with a client in the slot
    leaves. *)
Definition stale (s : Summarizer) : bool :=
  match _client s with
  | Some (AnthropicClient _) => value_eqb (provider s) (lit "openai")
  | Some (OpenAIClient _ _) => value_eqb (provider s) (lit "claude")
  | None => false
  end.

(** The exception of a request through the client in the slot when it is
    of the other class. *)
Definition stale_error (s : Summarizer) : exn :=
  match _client s with
  | Some (OpenAIClient _ _) =>
      MkExn AttributeError (lit "'OpenAI' object has no attribute 'messages'")
  | _ => MkExn AttributeError (lit "'Anthropic' object has no attribute 'chat'")
  end.

Section Actions.
Context {RT : PyRuntime} {FR : FieldRuntime} (env : Env).

(** The state an action leaves. *)
Definition act (a : action) (st : State) : State :=
  match a with
  | ACall op => run env op st
  | AAssign x v => with_self (set_attr x v) st
  | AForget => with_self (set_client None) st
  end.

Definition act_all (acts : list action) (st : State) : State :=
  foldl (fun st a => act a st) st acts.

(** The same on the contract: a call adds to the journal what the
    contract says, an assignment changes the configuration. *)
Definition act_spec (a : action) (cj : Summarizer * Journal) : Summarizer * Journal :=
  match a with
  | ACall op => (cj.1, run_spec env cj.1 op cj.2)
  | AAssign x v => (set_attr x v cj.1, cj.2)
  | AForget => cj
  end.

Definition act_all_spec (acts : list action) (cj : Summarizer * Journal)
    : Summarizer * Journal :=
  foldl (fun cj a => act_spec a cj) cj acts.

(** Every call of a session is made with a slot that is empty or holds
    the client of the provider configured at the time. *)
Fixpoint calls_fit (acts : list action) (st : State) : Prop :=
  match acts with
  | [] => True
  | a :: acts' =>
      match a with
      | ACall _ => client_ok (self st)
      | _ => True
      end /\ calls_fit acts' (act a st)
  end.

(** What relates the instance to the contract between the calls of such
    a session: the configuration, a client in the slot through which its
    backend is available, and the journal. *)
Record tracks (cfg : Summarizer) (st : State) (j : Journal) : Prop := MkTracks {
  tr_config : set_client None (self st) = set_client None cfg;
  tr_client : forall c, _client (self st) = Some c -> available env c = None;
  tr_observe : observe st = j;
}.
End Actions.

(** The attributes that can be assigned at any time: those a call reads
    afresh and that no client is built from. *)
Definition assignable (x : attribute) : bool :=
  match x with
  | AModel | AOpenAIModel | ATemplate => true
  | AProvider | AApiKey | AOpenAIKey | AOpenAIBase => false
  end.

(** A session in which the provider and the credentials are assigned
    only while the slot is known to be empty: before the first call, or
    after [s._client = None] with no call in between.  [empty] says
    whether the slot is known to be empty where the session starts. *)
Fixpoint tidy (empty : bool) (acts : list action) : bool :=
  match acts with
  | [] => true
  | ACall _ :: acts' => tidy false acts'
  | AAssign x _ :: acts' => (empty || assignable x) && tidy empty acts'
  | AForget :: acts' => tidy true acts'
  end.

(** The configuration after the assignments of a session. *)
Definition assigned (acts : list action) (config : gmap string value) : gmap string value :=
  foldl (fun config a =>
           match a with
           | AAssign x v => <[key_of x := v]> config
           | _ => config
           end) config acts.

(** ** Concrete sessions *)

(** A call, then another model and another template, then a call. *)
Definition ex_retune : list action :=
  [ACall (OpSummarize ex_long);
   AAssign AModel (VStr (lit "claude-3-5-haiku-latest"));
   AAssign ATemplate (VStr (lit "{title}"))].

(** A call to Claude, then the provider is changed to OpenAI and two more
    calls are made. *)
Definition ex_switch : list action :=
  [ACall (OpSummarize ex_long); AAssign AProvider (VStr (lit "openai"))].

(** ** Lemmas on attributes *)

Lemma get_set_attr x v s : get_attr x (set_attr x v s) = v.
Proof. by destruct x. Qed.

Lemma get_set_attr_ne x y v s : x <> y -> get_attr y (set_attr x v s) = get_attr y s.
Proof. by destruct x, y. Qed.

Lemma set_get_attr x s : set_attr x (get_attr x s) s = s.
Proof. by destruct x, s. Qed.

Lemma set_set_attr x v w s : set_attr x v (set_attr x w s) = set_attr x v s.
Proof. by destruct x. Qed.

Lemma set_attr_comm x y v w s :
  x <> y -> set_attr x v (set_attr y w s) = set_attr y w (set_attr x v s).
Proof. by destruct x, y. Qed.

Lemma set_attr_client x v s : _client (set_attr x v s) = _client s.
Proof. by destruct x. Qed.

Lemma set_attr_set_client x v c s :
  set_attr x v (set_client c s) = set_client c (set_attr x v s).
Proof. by destruct x. Qed.

(** An instance is its attributes and its slot. *)
Lemma summarizer_eq s1 s2 :
  set_client None s1 = set_client None s2 -> _client s1 = _client s2 -> s1 = s2.
Proof. destruct s1, s2. unfold set_client. simpl. by intros [= -> -> -> -> -> -> ->] ->. Qed.

Lemma key_of_inj : Inj (=) (=) key_of.
Proof. intros x y. by destruct x, y. Qed.

Lemma get_attr_init x config :
  get_attr x (__init__ config) = dict_get config (key_of x) (default_of x).
Proof. by destruct x. Qed.

Lemma summarizer_ext s1 s2 :
  (forall x, get_attr x s1 = get_attr x s2) -> _client s1 = _client s2 -> s1 = s2.
Proof.
intros H Hc. destruct s1, s2. simpl in Hc. subst.
pose proof (H AProvider). pose proof (H AModel). pose proof (H AApiKey).
pose proof (H AOpenAIKey). pose proof (H AOpenAIBase). pose proof (H AOpenAIModel).
pose proof (H ATemplate). simpl in *. by subst.
Qed.

Lemma assigned_app acts1 acts2 config :
  assigned (acts1 ++ acts2) config = assigned acts2 (assigned acts1 config).
Proof. apply foldl_app. Qed.

(** ** What a call reads: lemmas *)

Section Footprint.
Context {RT : PyRuntime} {FR : FieldRuntime} (env : Env).
Implicit Types (st : State) (a : Article) (prompt : pystr).

(** A slot that is filled makes a call read less. *)
Lemma reads_set_client c s x : reads (set_client (Some c) s) x = true -> reads s x = true.
Proof. destruct x; simpl; try done; by rewrite andb_false_r. Qed.

(** With a client in the slot the credentials are not read. *)
Lemma reads_credentials s x :
  _client s <> None -> x = AApiKey \/ x = AOpenAIKey \/ x = AOpenAIBase -> reads s x = false.
Proof.
intros Hc [->|[->| ->]]; simpl; by rewrite bool_decide_eq_false_2, andb_false_r.
Qed.

Lemma agree_provider st1 st2 : agree st1 st2 -> provider (self st1) = provider (self st2).
Proof. intros Ha. exact (ag_attr _ _ Ha AProvider eq_refl). Qed.

Lemma agree_template st1 st2 :
  agree st1 st2 -> prompt_template (self st1) = prompt_template (self st2).
Proof. intros Ha. exact (ag_attr _ _ Ha ATemplate eq_refl). Qed.

Lemma agree_model st1 st2 :
  agree st1 st2 -> provider (self st1) = VStr (lit "claude") ->
  model (self st1) = model (self st2).
Proof. intros Ha Hp. apply (ag_attr _ _ Ha AModel). simpl. by apply value_eqb_true. Qed.

Lemma agree_openai_model st1 st2 :
  agree st1 st2 -> provider (self st1) = VStr (lit "openai") ->
  openai_model (self st1) = openai_model (self st2).
Proof. intros Ha Hp. apply (ag_attr _ _ Ha AOpenAIModel). simpl. by apply value_eqb_true. Qed.

Lemma agree_claude_client st1 st2 :
  agree st1 st2 -> provider (self st1) = VStr (lit "claude") -> _client (self st1) = None ->
  claude_client_of (self st1) = claude_client_of (self st2).
Proof.
intros Ha Hp Hc. unfold claude_client_of. f_equal. apply (ag_attr _ _ Ha AApiKey). simpl.
by rewrite (proj2 (value_eqb_true _ _) Hp), Hc.
Qed.

Lemma agree_openai_client st1 st2 :
  agree st1 st2 -> provider (self st1) = VStr (lit "openai") -> _client (self st1) = None ->
  openai_client_of (self st1) = openai_client_of (self st2).
Proof.
intros Ha Hp Hc. unfold openai_client_of.
f_equal; [apply (ag_attr _ _ Ha AOpenAIKey) | apply (ag_attr _ _ Ha AOpenAIBase)]; simpl;
  by rewrite (proj2 (value_eqb_true _ _) Hp), Hc.
Qed.

(** The relation is kept by what a call does to the state. *)
Lemma agree_world st1 st2 w :
  agree st1 st2 -> agree (MkState (self st1) w) (MkState (self st2) w).
Proof. intros [H1 H2 H3]. by split. Qed.

Lemma agree_log_line line st1 st2 :
  agree st1 st2 -> agree (log_line line st1) (log_line line st2).
Proof. intros Ha. unfold log_line. rewrite (ag_world _ _ Ha). by apply agree_world. Qed.

Lemma agree_record_call call st1 st2 :
  agree st1 st2 -> agree (record_call call st1) (record_call call st2).
Proof. intros Ha. unfold record_call. rewrite (ag_world _ _ Ha). by apply agree_world. Qed.

Lemma agree_set_client c st1 st2 :
  agree st1 st2 ->
  agree (with_self (set_client (Some c)) st1) (with_self (set_client (Some c)) st2).
Proof.
intros [H1 H2 H3]. split; [done | done |]. intros x Hx%reads_set_client.
specialize (H3 x Hx). by destruct x.
Qed.

(** An assignment to an attribute that is not read cannot be told. *)
Lemma agree_assign x v st :
  reads (self st) x = false -> agree st (with_self (set_attr x v) st).
Proof.
intros Hx. split; simpl; [done | by rewrite set_attr_client |].
intros y Hy. rewrite get_set_attr_ne; [done | congruence].
Qed.

(** *** The steps *)

Lemma print_agree line : refines agree (print env line) (print env line).
Proof.
intros st1 st2 Ha. unfold print. rewrite <- (ag_world _ _ Ha).
destruct (env_print _ _ _); [by split | split; [done | by apply agree_log_line]].
Qed.

Lemma on_error_agree a e : refines agree (on_error env a e) (on_error env a e).
Proof. apply refines_bind; [apply print_agree | intros _; apply refines_ret]. Qed.

Lemma construct_agree c st1 st2 :
  agree st1 st2 ->
  (construct env c st1).1 = (construct env c st2).1 /\
  agree (construct env c st1).2 (construct env c st2).2.
Proof.
intros Ha. unfold construct. rewrite <- (ag_world _ _ Ha).
destruct (env_import _ _); [by split | split; [done | by apply agree_record_call]].
Qed.

(** With a client in the slot, the provider methods read the model. *)
Lemma claude_cached_agree prompt st1 st2 c :
  agree st1 st2 -> provider (self st1) = VStr (lit "claude") -> _client (self st1) = Some c ->
  (_summarize_with_claude env prompt st1).1 = (_summarize_with_claude env prompt st2).1 /\
  agree (_summarize_with_claude env prompt st1).2 (_summarize_with_claude env prompt st2).2.
Proof.
intros Ha Hp Hc. pose proof Hc as Hc2. rewrite (ag_client _ _ Ha) in Hc2. destruct c as [k|k b].
- rewrite (summarize_with_claude_cached _ _ _ _ Hc), (summarize_with_claude_cached _ _ _ _ Hc2).
  rewrite <- (agree_model _ _ Ha Hp), <- (ag_world _ _ Ha).
  split; [done | by apply agree_record_call].
- by rewrite (summarize_with_claude_stale _ _ _ _ _ Hc),
             (summarize_with_claude_stale _ _ _ _ _ Hc2).
Qed.

Lemma openai_cached_agree prompt st1 st2 c :
  agree st1 st2 -> provider (self st1) = VStr (lit "openai") -> _client (self st1) = Some c ->
  (_summarize_with_openai env prompt st1).1 = (_summarize_with_openai env prompt st2).1 /\
  agree (_summarize_with_openai env prompt st1).2 (_summarize_with_openai env prompt st2).2.
Proof.
intros Ha Hp Hc. pose proof Hc as Hc2. rewrite (ag_client _ _ Ha) in Hc2. destruct c as [k|k b].
- by rewrite (summarize_with_openai_stale _ _ _ _ Hc),
             (summarize_with_openai_stale _ _ _ _ Hc2).
- rewrite (summarize_with_openai_cached _ _ _ _ _ Hc),
          (summarize_with_openai_cached _ _ _ _ _ Hc2).
  rewrite <- (agree_openai_model _ _ Ha Hp), <- (ag_world _ _ Ha).
  split; [done | by apply agree_record_call].
Qed.

(** With an empty slot, they read the credentials of their provider too. *)
Lemma claude_agree prompt st1 st2 :
  agree st1 st2 -> provider (self st1) = VStr (lit "claude") ->
  (_summarize_with_claude env prompt st1).1 = (_summarize_with_claude env prompt st2).1 /\
  agree (_summarize_with_claude env prompt st1).2 (_summarize_with_claude env prompt st2).2.
Proof.
intros Ha Hp. destruct (_client (self st1)) as [c|] eqn:Hc; [by eapply claude_cached_agree |].
pose proof Hc as Hc2. rewrite (ag_client _ _ Ha) in Hc2.
rewrite (summarize_with_claude_construct _ _ _ Hc), (summarize_with_claude_construct _ _ _ Hc2).
rewrite <- (agree_claude_client _ _ Ha Hp Hc).
destruct (construct_agree (claude_client_of (self st1)) _ _ Ha) as [He Ha1].
pose proof (construct_self env (claude_client_of (self st1)) st1) as Hs1.
destruct (construct _ _ st1) as [[e|] st1'], (construct _ _ st2) as [[e'|] st2'];
  simplify_eq/=; [done |].
eapply claude_cached_agree; [by apply agree_set_client | by simpl; rewrite Hs1 | done].
Qed.

Lemma openai_agree prompt st1 st2 :
  agree st1 st2 -> provider (self st1) = VStr (lit "openai") ->
  (_summarize_with_openai env prompt st1).1 = (_summarize_with_openai env prompt st2).1 /\
  agree (_summarize_with_openai env prompt st1).2 (_summarize_with_openai env prompt st2).2.
Proof.
intros Ha Hp. destruct (_client (self st1)) as [c|] eqn:Hc; [by eapply openai_cached_agree |].
pose proof Hc as Hc2. rewrite (ag_client _ _ Ha) in Hc2.
rewrite (summarize_with_openai_construct _ _ _ Hc), (summarize_with_openai_construct _ _ _ Hc2).
rewrite <- (agree_openai_client _ _ Ha Hp Hc).
destruct (construct_agree (openai_client_of (self st1)) _ _ Ha) as [He Ha1].
pose proof (construct_self env (openai_client_of (self st1)) st1) as Hs1.
destruct (construct _ _ st1) as [[e|] st1'], (construct _ _ st2) as [[e'|] st2'];
  simplify_eq/=; [done |].
eapply openai_cached_agree; [by apply agree_set_client | by simpl; rewrite Hs1 | done].
Qed.

(** *** The methods *)

Lemma dispatch_agree prompt : refines agree (dispatch env prompt) (dispatch env prompt).
Proof.
intros st1 st2 Ha. pose proof (agree_provider _ _ Ha) as Hp.
destruct (provider_cases st1) as [Hp1|[Hp1|[Hc Ho]]].
- rewrite !dispatch_claude by congruence.
  apply refines_bind_at; [by apply claude_agree | intros t; apply refines_ret].
- rewrite !dispatch_openai by congruence. by apply openai_agree.
- rewrite !dispatch_unknown_bind by congruence. rewrite <- Hp.
  apply refines_bind_at; [by apply print_agree | intros _; apply refines_ret].
Qed.

Lemma summarize_agree a : refines agree (summarize env a) (summarize env a).
Proof.
unfold summarize. destruct (_ <? _)%Z; [apply refines_ret |].
apply refines_bind; [apply refines_gets, agree_template | intros t].
apply refines_bind; [apply refines_lift_outcome | intros prompt].
apply refines_try_except; [apply dispatch_agree | apply on_error_agree].
Qed.

Lemma batch_agree arts n :
  refines agree (summarize_batch env arts n) (summarize_batch env arts n).
Proof.
apply refines_for_enumerate. intros i a acc.
apply refines_bind; [apply print_agree | intros _].
apply refines_bind; [apply summarize_agree | intros v; apply refines_ret].
Qed.

Lemma perform_agree op : refines agree (perform env op) (perform env op).
Proof.
destruct op as [a|arts n]; (apply refines_bind; [| intros r; apply refines_ret]);
  [apply summarize_agree | apply batch_agree].
Qed.

(** Two states that agree and have the same attributes up to the slot
    are equal. *)
Lemma agree_eq st1 st2 :
  agree st1 st2 -> set_client None (self st1) = set_client None (self st2) -> st1 = st2.
Proof.
intros [Hw Hc _] Hs. destruct st1 as [s1 w1], st2 as [s2 w2]. simpl in *.
f_equal; [by apply summarizer_eq | done].
Qed.

(** The same when the attributes differ by an assignment. *)
Lemma agree_assigned x v st1 st2 :
  agree st1 st2 -> set_client None (self st2) = set_attr x v (set_client None (self st1)) ->
  st2 = with_self (set_attr x v) st1.
Proof.
intros [Hw Hc _] Hs. destruct st1 as [s1 w1], st2 as [s2 w2]. unfold with_self. simpl in *.
f_equal; [| done]. apply summarizer_eq; [by rewrite <- set_attr_set_client |].
by rewrite set_attr_client.
Qed.

(** What a call has read, it has read in the state it started from: the
    attributes stay as they are. *)
Lemma perform_attrs op st :
  set_client None (self (perform env op st).2) = set_client None (self st).
Proof. rewrite perform_run. symmetry. apply (ev_config _ _ (run_evolves env op st)). Qed.
End Footprint.

(** ** Sessions with assignments: lemmas *)

Section Sessions.
Context {RT : PyRuntime} {FR : FieldRuntime} (env : Env) (Hrd : request_driven env).
Implicit Types (st : State) (cfg : Summarizer) (j : Journal).

(** At a call whose slot fits, the instance is related to the contract as
    the refinement of the methods needs it, and it is again after the
    call. *)
Lemma tracks_sim cfg st j : tracks env cfg st j -> client_ok (self st) -> sim env cfg st j.
Proof.
intros [Hc Hav <-] Hok. split; [done | | done | done].
intros c Hcl. split; [by apply client_ok_client_of | by apply Hav].
Qed.

Lemma sim_tracks cfg st j : sim env cfg st j -> tracks env cfg st j.
Proof.
intros Hs. split; [apply (sim_config _ _ _ _ Hs) | | by apply (sim_observe env cfg)].
intros c Hc. by destruct (sim_client _ _ _ _ Hs c Hc).
Qed.

Lemma tracks_assign x v cfg st j :
  tracks env cfg st j -> tracks env (set_attr x v cfg) (with_self (set_attr x v) st) j.
Proof.
intros [Hc Hav Ho]. split; simpl; [| by rewrite set_attr_client | done].
by rewrite <- !set_attr_set_client, Hc.
Qed.

Lemma tracks_forget cfg st j : tracks env cfg st j -> tracks env cfg (with_self (set_client None) st) j.
Proof. intros [Hc Hav Ho]. by split. Qed.

(** One action of a session. *)
Lemma act_tracks a cfg st j :
  tracks env cfg st j -> calls_fit env [a] st ->
  tracks env (act_spec env a (cfg, j)).1 (act env a st) (act_spec env a (cfg, j)).2.
Proof.
intros Ht [Hok _]. destruct a as [op|x v|]; simpl.
- by apply sim_tracks, run_refines, tracks_sim.
- by apply tracks_assign.
- by apply tracks_forget.
Qed.

(** The configuration of the contract after a session that starts at the
    construction is the instance constructed from the configuration as
    assigned. *)
Lemma assign_init x v config :
  set_attr x v (__init__ config) = __init__ (<[key_of x := v]> config).
Proof.
apply summarizer_ext; [| by rewrite set_attr_client]. intros y.
rewrite (get_attr_init y). destruct (decide (x = y)) as [<-|Hne].
- by rewrite get_set_attr, dict_get_insert.
- rewrite get_set_attr_ne, get_attr_init, dict_get_insert_ne; [done | | done].
  intros He. by apply Hne, key_of_inj.
Qed.

Lemma act_all_spec_config acts config j :
  (act_all_spec env acts (__init__ config, j)).1 = __init__ (assigned acts config).
Proof.
revert config j. induction acts as [|a acts IH]; intros config j; [done |].
destruct a as [op|x v|]; simpl; [apply IH | | apply IH]. rewrite assign_init. apply IH.
Qed.

(** Assignments that keep the slot fitting: the model and the template
    always, anything while the slot is empty. *)
Lemma assign_client_ok x v s :
  client_ok s -> x = AModel \/ x = AOpenAIModel \/ x = ATemplate \/ _client s = None ->
  client_ok (set_attr x v s).
Proof.
unfold client_ok. rewrite set_attr_client. intros Hok Hx.
destruct (_client s) as [c|]; [| done].
by destruct Hx as [->|[->|[->|?]]].
Qed.

End Sessions.

(** ** A client of the other provider in the slot: lemmas *)

Section Stale.
Context {RT : PyRuntime} {FR : FieldRuntime} (env : Env).
Implicit Types (st : State) (a : Article) (prompt : pystr) (s : Summarizer).

Lemma stale_error_Exception s : is_Exception (stale_error s) = true.
Proof. unfold stale_error. by repeat case_match. Qed.

(** The request is never sent: the dispatch raises the [AttributeError]
    of the missing attribute and leaves the state as it is. *)
Lemma dispatch_stale prompt st :
  stale (self st) = true -> dispatch env prompt st = (Raise (stale_error (self st)), st).
Proof.
unfold stale, stale_error. destruct (_client (self st)) as [[k|k b]|] eqn:Hc; [| | done].
- intros Hp%value_eqb_true. rewrite (dispatch_openai _ _ _ Hp).
  by apply (summarize_with_openai_stale _ _ k).
- intros Hp%value_eqb_true. rewrite (dispatch_claude _ _ _ Hp). unfold bind.
  by rewrite (summarize_with_claude_stale _ _ _ _ _ Hc).
Qed.

(** So a call of [summarize] prints at most the error line. *)
Lemma summarize_stale_run a st :
  stale (self st) = true ->
  exists out, (summarize env a st).2 = MkState (self st) (MkWorld out (calls (world st))).
Proof.
intros Hs. destruct (Z.ltb_spec (py_len (content a)) SHORT_CONTENT) as [Hlt|Hge].
{ unfold summarize. rewrite (proj2 (Z.ltb_lt _ _) Hlt). exists (stdout (world st)).
  by destruct st as [s []]. }
rewrite (summarize_long _ _ _ Hge).
destruct (render_prompt _ _) as [prompt|e]; [| exists (stdout (world st)); by destruct st as [s []]].
unfold try_except. rewrite (dispatch_stale _ _ Hs), stale_error_Exception.
unfold on_error, bind, print. destruct (env_print _ _ _); simpl; eauto.
exists (stdout (world st)). by destruct st as [s []].
Qed.

(** The instance and the requests sent, as an invariant of the calls. *)
Lemma summarize_stale_stable s r a :
  stale s = true -> stable (fun st => self st = s /\ requests_of st = r) (summarize env a).
Proof.
intros Hs st [<- <-]. destruct (summarize_stale_run a st Hs) as [out ->]. by split.
Qed.

Lemma print_requests_stable s r line :
  stable (fun st => self st = s /\ requests_of st = r) (print env line).
Proof. intros st H. unfold print. by destruct (env_print _ _ _). Qed.

Lemma run_stale s r op st :
  stale s = true -> self st = s /\ requests_of st = r ->
  self (run env op st) = s /\ requests_of (run env op st) = r.
Proof.
intros Hs. destruct op as [a|arts n]; [apply (summarize_stale_stable s r a Hs) |].
apply (stable_for_enumerate (fun st => self st = s /\ requests_of st = r)). intros i a acc.
apply stable_bind; [apply print_requests_stable | intros _].
apply stable_bind; [by apply summarize_stale_stable | intros v; apply stable_ret].
Qed.

Lemma run_all_stale ops st :
  stale (self st) = true ->
  self (run_all env ops st) = self st /\ requests_of (run_all env ops st) = requests_of st.
Proof.
intros Hs.
apply (steps_invariant env (fun st' => self st' = self st /\ requests_of st' = requests_of st) st);
  [| apply run_all_steps | done].
intros op st1. by apply run_stale.
Qed.

(** The provider changed to the other known provider, with the client of
    the old one in the slot. *)
Lemma switch_stale s c v :
  _client s = Some c -> client_of s = Some c ->
  v = VStr (lit "claude") \/ v = VStr (lit "openai") -> v <> provider s ->
  stale (set_attr AProvider v s) = true.
Proof.
intros Hc Hof Hv Hne. unfold stale. simpl. rewrite Hc.
apply client_of_Some in Hof as [[Hp ->]|[Hp ->]]; simpl;
  destruct Hv as [->| ->]; try done; congruence.
Qed.
End Stale.

(** ** Tidy sessions: lemmas *)

Section Tidy.
Context {RT : PyRuntime} {FR : FieldRuntime} (env : Env).
Implicit Types (st : State) (acts : list action).

(** In a tidy session every call finds a slot that fits. *)
Lemma tidy_calls_fit empty acts st :
  tidy empty acts = true -> (empty = true -> _client (self st) = None) ->
  client_ok (self st) -> calls_fit env acts st.
Proof.
revert empty st. induction acts as [|a acts IH]; intros empty st Ht He Hok; [done |].
destruct a as [op|x v|]; cbn [tidy calls_fit act] in *.
- split; [done |]. apply (IH false); [done | done | by apply run_client_ok].
- apply andb_prop in Ht as [Hx Ht]. split; [done |].
  apply (IH empty); cbn [self with_self]; [done | by rewrite set_attr_client |].
  apply assign_client_ok; [done |]. destruct empty; [by auto |]. by destruct x; auto.
- split; [done |]. by apply (IH true).
Qed.

Lemma calls_fit_app acts1 acts2 st :
  calls_fit env (acts1 ++ acts2) st <->
  calls_fit env acts1 st /\ calls_fit env acts2 (act_all env acts1 st).
Proof.
revert st. induction acts1 as [|a acts1 IH]; intros st; simpl; [tauto |].
rewrite IH. tauto.
Qed.

(** The contract of a session, one action after the other. *)
Lemma act_all_tracks (Hrd : request_driven env) acts cfg st j :
  tracks env cfg st j -> calls_fit env acts st ->
  tracks env (act_all_spec env acts (cfg, j)).1 (act_all env acts st)
    (act_all_spec env acts (cfg, j)).2.
Proof.
revert cfg st j. induction acts as [|a acts IH]; intros cfg st j Ht Hf; [done |].
destruct Hf as [Ha Hf]. simpl.
pose proof (act_tracks env Hrd a cfg st j Ht (conj Ha I)) as Ht'.
destruct (act_spec env a (cfg, j)) as [cfg' j']. by apply IH.
Qed.

Lemma init_tracks config w :
  tracks env (__init__ config) (init_state config w) (observe (init_state config w)).
Proof. by split. Qed.
End Tidy.

(** ** Theorems *)

Section ReconfigureTheorems.
Context {RT : PyRuntime} {FR : FieldRuntime} (env : Env).
Implicit Types (st : State) (acts : list action).

(** C30. An assignment to an attribute that a call does not read commutes
    with the call: the call returns or raises the same, prints and sends
    the same, and leaves the instance it would have left, with the
    attribute assigned.  The attributes read are the provider, the
    template, the model of the configured provider and, while the slot is
    empty, the credentials of the configured provider; so credentials
    assigned once the client is cached are ignored by every later call. *)
Theorem assign_commutes op x v st :
  reads (self st) x = false ->
  perform env op (act env (AAssign x v) st) =
    ((perform env op st).1, act env (AAssign x v) (perform env op st).2).
Proof.
intros Hx. destruct (perform_agree env op _ _ (agree_assign x v st Hx)) as [Ho Ha].
rewrite (surjective_pairing (perform env op (act _ _ _))). f_equal; [done |].
apply agree_assigned; [done |].
rewrite !perform_attrs. apply eq_sym, set_attr_set_client.
Qed.

(** C32. A session with assignments implements the contract of the
    configuration as assigned.  From the construction on, when the
    provider and the credentials are assigned only while the slot is
    empty (before the first call, or after the slot was emptied and before
    the next call) and the model and the template at any time, the
    instance prints the lines and sends the requests that the contract
    prescribes for each call under the configuration of the moment, and
    its attributes are those of an instance constructed from the
    configuration with the assignments made. *)
Theorem reconfigure_refines acts config w :
  request_driven env -> tidy true acts = true ->
  tracks env (__init__ (assigned acts config)) (act_all env acts (init_state config w))
    (act_all_spec env acts (__init__ config, observe (init_state config w))).2.
Proof.
intros Hrd Ht. rewrite <- (act_all_spec_config env acts config (observe (init_state config w))).
apply (act_all_tracks env Hrd), (tidy_calls_fit env true); by try apply init_tracks.
Qed.

(** C29. Assignments take effect as a new construction would: after a tidy
    session, with providers that keep no memory and a standard output that
    takes every line, a call returns what the method returns on a fresh
    instance constructed from the configuration with the assignments
    made, whatever was called before. *)
Theorem reconfigured_result acts op config w :
  stateless env -> writable env -> tidy true (acts ++ [ACall op]) = true ->
  (perform env op (act_all env acts (init_state config w))).1 =
    ideal env (__init__ (assigned acts config)) op.
Proof.
intros Hsl Hw Ht.
pose proof (tidy_calls_fit env true _ (init_state config w) Ht (fun _ => eq_refl) I) as Hf.
apply calls_fit_app in Hf as [Hf [Hok _]].
pose proof (act_all_tracks env (stateless_request_driven env Hsl) acts _ _ _
              (init_tracks env config w) Hf) as Htr.
rewrite act_all_spec_config in Htr.
pose proof (tracks_sim env _ _ _ Htr Hok) as Hs.
apply (perform_ideal env _ Hsl Hw); [exact (sim_config _ _ _ _ Hs) | exact (sim_client _ _ _ _ Hs)].
Qed.

(** C31. A change of provider with a client in the slot disables the
    instance.  When the slot holds the client of the configured provider
    and [provider] is assigned the other known provider, the getter of
    the new provider returns the client of the old one: whatever is called
    afterwards, no request is sent and the instance stays as it is, for
    as long as the slot is not emptied. *)
Theorem switch_provider_stale ops st c v :
  _client (self st) = Some c -> client_of (self st) = Some c ->
  v = VStr (lit "claude") \/ v = VStr (lit "openai") -> v <> provider (self st) ->
  let st' := act env (AAssign AProvider v) st in
  self (run_all env ops st') = self st' /\
  requests_of (run_all env ops st') = requests_of st.
Proof.
intros Hc Hof Hv Hne st'. apply (run_all_stale env ops st'). by apply (switch_stale _ c).
Qed.

(** In that state a long article gets no summary: [summarize] gives
    [None] and prints the [AttributeError] of the missing attribute. *)
Theorem summarize_stale a st prompt :
  writable env -> (SHORT_CONTENT <= py_len (content a))%Z ->
  render_prompt (prompt_template (self st)) a = Ok prompt ->
  stale (self st) = true ->
  summarize env a st = (Ok VNone, log_line (error_line a (stale_error (self st))) st).
Proof.
intros Hw Hlen Hr Hs. rewrite (summarize_rendered _ _ _ _ Hlen Hr). unfold try_except.
rewrite (dispatch_stale _ _ _ Hs), stale_error_Exception. by apply on_error_run.
Qed.

End ReconfigureTheorems.

(** ** The theorems at concrete sessions *)

(** After the model and the template were assigned, the next call sends
    the new model and the prompt of the new template: the echo answers
    with the length of the title. *)
Example ex_retune_takes_effect :
  (perform (RT:=ascii_runtime) (FR:=no_special) ex_env_echo (OpSummarize ex_long)
     (act_all (RT:=ascii_runtime) (FR:=no_special) ex_env_echo ex_retune (ex_state ∅))).1
  = Ok (RSummary (VStr (lit "1"))) /\
  last (requests_of
          (act_all (RT:=ascii_runtime) (FR:=no_special) ex_env_echo
             (ex_retune ++ [ACall (OpSummarize ex_long)]) (ex_state ∅)))
  = Some (MessagesCreate (AnthropicClient VNone) (VStr (lit "claude-3-5-haiku-latest")) 500
            (user_message (lit "C"))).
Proof. vm_compute. done. Qed.

(** After the provider was changed with the client of Claude in the slot,
    a call gives [None] and sends nothing: the one request is that of the
    call made before the change. *)
Example ex_switch_fails :
  (perform (RT:=ascii_runtime) (FR:=no_special) ex_env (OpSummarize ex_long)
     (act_all (RT:=ascii_runtime) (FR:=no_special) ex_env ex_switch (ex_state ∅))).1
  = Ok (RSummary VNone) /\
  length (requests_of
            (act_all (RT:=ascii_runtime) (FR:=no_special) ex_env
               (ex_switch ++ [ACall (OpSummarize ex_long)]) (ex_state ∅))) = 1.
Proof. vm_compute. done. Qed.

Lemma assign_commutes_witness :
  perform (RT:=ascii_runtime) (FR:=no_special) ex_env (OpSummarize ex_long)
    (act (RT:=ascii_runtime) (FR:=no_special) ex_env (AAssign AApiKey (VStr (lit "sk-2")))
       ex_warm)
  = ((perform (RT:=ascii_runtime) (FR:=no_special) ex_env (OpSummarize ex_long) ex_warm).1,
     act (RT:=ascii_runtime) (FR:=no_special) ex_env (AAssign AApiKey (VStr (lit "sk-2")))
       (perform (RT:=ascii_runtime) (FR:=no_special) ex_env (OpSummarize ex_long) ex_warm).2).
Proof.
apply (assign_commutes (RT:=ascii_runtime) (FR:=no_special) ex_env (OpSummarize ex_long)
         AApiKey (VStr (lit "sk-2")) ex_warm).
reflexivity.
Defined.

Lemma reconfigure_refines_witness :
  tracks ex_env (__init__ (assigned ex_retune ∅))
    (act_all (RT:=ascii_runtime) (FR:=no_special) ex_env ex_retune
       (init_state ∅ (MkWorld [] [])))
    (act_all_spec (RT:=ascii_runtime) (FR:=no_special) ex_env ex_retune
       (__init__ ∅, observe (init_state ∅ (MkWorld [] [])))).2.
Proof.
apply (reconfigure_refines (RT:=ascii_runtime) (FR:=no_special) ex_env ex_retune ∅
         (MkWorld [] []));
  [exact ex_env_request_driven | reflexivity].
Defined.

Lemma reconfigured_result_witness :
  (perform (RT:=ascii_runtime) (FR:=no_special) ex_env_echo (OpSummarize ex_long)
     (act_all (RT:=ascii_runtime) (FR:=no_special) ex_env_echo ex_retune
        (init_state ∅ (MkWorld [] [])))).1
  = ideal (RT:=ascii_runtime) (FR:=no_special) ex_env_echo (__init__ (assigned ex_retune ∅))
      (OpSummarize ex_long).
Proof.
apply (reconfigured_result (RT:=ascii_runtime) (FR:=no_special) ex_env_echo ex_retune
         (OpSummarize ex_long) ∅ (MkWorld [] []));
  [exact ex_env_echo_stateless | exact ex_env_echo_writable | reflexivity].
Defined.

Lemma switch_provider_stale_witness :
  let st' := act (RT:=ascii_runtime) (FR:=no_special) ex_env
               (AAssign AProvider (VStr (lit "openai"))) ex_warm in
  self (run_all (RT:=ascii_runtime) (FR:=no_special) ex_env
          [OpSummarize ex_long; OpSummarize ex_long] st') = self st' /\
  requests_of (run_all (RT:=ascii_runtime) (FR:=no_special) ex_env
                 [OpSummarize ex_long; OpSummarize ex_long] st') = requests_of ex_warm.
Proof.
apply (switch_provider_stale (RT:=ascii_runtime) (FR:=no_special) ex_env
         [OpSummarize ex_long; OpSummarize ex_long] ex_warm (AnthropicClient VNone)
         (VStr (lit "openai")));
  [reflexivity | vm_compute; reflexivity | by right | vm_compute; discriminate].
Defined.
