(* ===== verification/Imports.v ===== *)
(** Loading the module, and the imports of a session.

    [import rss_reader.summarizer] runs the two imports at the top of the
    module and the class statement, which evaluates the annotations of the
    methods; the SDKs are imported later, inside the getters, when a
    client is first needed.  [load_module] is the load, [session] a
    sequence of calls with the result of each, [program] a load followed
    by a construction and a session.  The theorem of the file says that a
    program needs the SDK of the configured provider only
    ([program_one_sdk]): whether the other SDK can be imported changes
    nothing of what the program returns, prints and sends; and that it
    needs that one ([session_without_sdk]). *)

From Stdlib Require Import ZArith NArith String List Lia.
From stdpp Require Import base tactics option list numbers gmap strings relations.
From S2P Require Import Prelude Logic PyStr Format Config Provider Summarize Batch.
From S2P Require Import Lifecycle Sched Race Concurrent Jobs.

#[local] Open Scope string_scope.

(** ** The load *)

(** The version of Python from which [list[Article]] and [tuple[...]] can
    be evaluated: before 3.9 the built-in classes are not subscriptable. *)
Definition GENERIC_BUILTINS : nat := 9.

(** [import rss_reader.summarizer] under Python 3.[minor]: [from typing
    import Optional], [from .fetcher import Article], then the class
    statement, whose [def] statements evaluate their annotations. *)
Definition load_module (env : Env) (minor : nat) : outcome exn unit :=
  match env_import env "typing" with
  | Some e => Raise e
  | None =>
      match env_import env "rss_reader.fetcher" with
      | Some e => Raise e
      | None =>
          if (GENERIC_BUILTINS <=? minor)%nat then Ok tt
          else Raise (MkExn TypeError (lit "'type' object is not subscriptable"))
      end
  end.

(** The SDK a call on an instance imports when it needs a client: that of
    the configured provider, none for an unknown provider. *)
Definition sdk_needed (s : Summarizer) : option string := sdk_module <$> client_of s.

(** Two environments that differ at most in whether the module [name]
    can be imported. *)
Record same_but (name : string) (env1 env2 : Env) : Prop := MkSameBut {
  sb_import : forall n, n <> name -> env_import env1 n = env_import env2 n;
  sb_new_client : forall h c, env_new_client env1 h c = env_new_client env2 h c;
  sb_messages : forall h c m k ms,
    env_messages_create env1 h c m k ms = env_messages_create env2 h c m k ms;
  sb_chat : forall h c m k ms, env_chat_create env1 h c m k ms = env_chat_create env2 h c m k ms;
  sb_print : forall out line, env_print env1 out line = env_print env2 out line;
}.

(** The same state, on an instance whose provider does not need the
    module [name]. *)
Definition unneeded (name : string) (st1 st2 : State) : Prop :=
  st1 = st2 /\ sdk_needed (self st1) <> Some name.

Section Program.
Context {RT : PyRuntime} {FR : FieldRuntime} (env : Env).

(** A sequence of calls by a caller that goes on after an exception: what
    each call returned or raised, and the state the last one leaves. *)
Fixpoint session (ops : list operation) (st : State) : list (outcome exn result) * State :=
  match ops with
  | [] => ([], st)
  | op :: ops' =>
      let r := perform env op st in
      let rs := session ops' r.2 in
      (r.1 :: rs.1, rs.2)
  end.

(** A program: the load of the module, the construction of an instance
    from a configuration, a session on it.  An exception of the load ends
    the program. *)
Definition program (minor : nat) (config : gmap string value) (ops : list operation)
    (w : World) : outcome exn (list (outcome exn result) * State) :=
  match load_module env minor with
  | Raise e => Raise e
  | Ok _ => Ok (session ops (init_state config w))
  end.
End Program.

(** ** Concrete environments *)

(** [ex_env] on a machine without the SDK of OpenAI. *)
Definition ex_env_no_openai : Env := {|
  env_import name :=
    if decide (name = "openai") then Some (MkExn ImportError (lit "No module named 'openai'"))
    else None;
  env_new_client := env_new_client ex_env;
  env_messages_create := env_messages_create ex_env;
  env_chat_create := env_chat_create ex_env;
  env_print := env_print ex_env;
|}.

(** ** Lemmas *)

Lemma load_module_ok env minor :
  load_module env minor = Ok tt <->
  env_import env "typing" = None /\ env_import env "rss_reader.fetcher" = None /\
  GENERIC_BUILTINS <= minor.
Proof.
unfold load_module. destruct (env_import env "typing"); [by split; [| intros (? & _)] |].
destruct (env_import env "rss_reader.fetcher"); [by split; [| intros (_ & ? & _)] |].
destruct (Nat.leb_spec GENERIC_BUILTINS minor); [done |].
split; [done | intros (_ & _ & ?); lia].
Qed.

Lemma sdk_needed_claude s : provider s = VStr (lit "claude") -> sdk_needed s = Some "anthropic".
Proof. intros Hp. unfold sdk_needed. by rewrite (client_of_claude _ Hp). Qed.

Lemma sdk_needed_openai s : provider s = VStr (lit "openai") -> sdk_needed s = Some "openai".
Proof. intros Hp. unfold sdk_needed. by rewrite (client_of_openai _ Hp). Qed.

Lemma sdk_needed_evolves st st' :
  evolves st st' -> sdk_needed (self st') = sdk_needed (self st).
Proof.
intros [Hc _ _ _].
assert (H : forall s, sdk_needed (set_client None s) = sdk_needed s) by done.
by rewrite <- (H (self st')), <- Hc, H.
Qed.

Section SameBut.
Context {RT : PyRuntime} {FR : FieldRuntime} (name : string) (env1 env2 : Env).
Context (Hsb : same_but name env1 env2).
Implicit Types (st : State) (a : Article) (prompt : pystr).

(** Computations that are equal where the module is not needed, and
    that keep the configuration, are related. *)
Lemma refines_unneeded {A} (m1 m2 : M A) :
  (forall st, sdk_needed (self st) <> Some name -> m1 st = m2 st) ->
  extends evolves m2 -> refines (unneeded name) m1 m2.
Proof.
intros He Hm st ? [<- Hn]. rewrite (He st Hn). split; [done |]. split; [done |].
by rewrite (sdk_needed_evolves _ _ (Hm st)).
Qed.

Lemma print_same line st : print env1 line st = print env2 line st.
Proof. unfold print. by rewrite (sb_print _ _ _ Hsb). Qed.

Lemma on_error_same a e st : on_error env1 a e st = on_error env2 a e st.
Proof. unfold on_error, bind. by rewrite print_same. Qed.

(** With a client in the slot nothing is imported. *)
Lemma claude_cached_same prompt st c :
  _client (self st) = Some c ->
  _summarize_with_claude env1 prompt st = _summarize_with_claude env2 prompt st.
Proof.
intros Hc. destruct c as [k|k b].
- rewrite !(summarize_with_claude_cached _ _ _ _ Hc). by rewrite (sb_messages _ _ _ Hsb).
- by rewrite !(summarize_with_claude_stale _ _ _ _ _ Hc).
Qed.

Lemma openai_cached_same prompt st c :
  _client (self st) = Some c ->
  _summarize_with_openai env1 prompt st = _summarize_with_openai env2 prompt st.
Proof.
intros Hc. destruct c as [k|k b].
- by rewrite !(summarize_with_openai_stale _ _ _ _ Hc).
- rewrite !(summarize_with_openai_cached _ _ _ _ _ Hc). by rewrite (sb_chat _ _ _ Hsb).
Qed.

(** With an empty slot the SDK of the provider is imported, and no
    other. *)
Lemma claude_same prompt st :
  "anthropic" <> name ->
  _summarize_with_claude env1 prompt st = _summarize_with_claude env2 prompt st.
Proof.
intros Hn. destruct (_client (self st)) as [c|] eqn:Hc; [by eapply claude_cached_same |].
rewrite !(summarize_with_claude_fresh _ _ _ Hc).
rewrite (sb_import _ _ _ Hsb _ Hn). destruct (env_import env2 "anthropic"); [done |].
cbv zeta. rewrite (sb_new_client _ _ _ Hsb). destruct (env_new_client env2 _ _); [done |]. by eapply claude_cached_same.
Qed.

Lemma openai_same prompt st :
  "openai" <> name ->
  _summarize_with_openai env1 prompt st = _summarize_with_openai env2 prompt st.
Proof.
intros Hn. destruct (_client (self st)) as [c|] eqn:Hc; [by eapply openai_cached_same |].
rewrite !(summarize_with_openai_fresh _ _ _ Hc).
rewrite (sb_import _ _ _ Hsb _ Hn). destruct (env_import env2 "openai"); [done |].
cbv zeta. rewrite (sb_new_client _ _ _ Hsb). destruct (env_new_client env2 _ _); [done |]. by eapply openai_cached_same.
Qed.

Lemma dispatch_same prompt st :
  sdk_needed (self st) <> Some name -> dispatch env1 prompt st = dispatch env2 prompt st.
Proof.
intros Hn. destruct (provider_cases st) as [Hp|[Hp|[Hc Ho]]].
- rewrite !(dispatch_claude _ _ _ Hp). unfold bind. rewrite claude_same; [done |].
  intros <-. by rewrite (sdk_needed_claude _ Hp) in Hn.
- rewrite !(dispatch_openai _ _ _ Hp). apply openai_same.
  intros <-. by rewrite (sdk_needed_openai _ Hp) in Hn.
- rewrite !(dispatch_unknown_bind _ _ _ Hc Ho). unfold bind. by rewrite print_same.
Qed.

Lemma summarize_same a st :
  sdk_needed (self st) <> Some name -> summarize env1 a st = summarize env2 a st.
Proof.
intros Hn. destruct (Z.ltb_spec (py_len (content a)) SHORT_CONTENT) as [Hlt|Hge].
{ unfold summarize. by rewrite (proj2 (Z.ltb_lt _ _) Hlt). }
rewrite !(summarize_long _ _ _ Hge). destruct (render_prompt _ _) as [prompt|e]; [| done].
unfold try_except. rewrite (dispatch_same _ _ Hn).
destruct (dispatch env2 prompt st) as [[v|e] st']; [done |].
destruct (is_Exception e); [apply on_error_same | done].
Qed.

Lemma summarize_unneeded a : refines (unneeded name) (summarize env1 a) (summarize env2 a).
Proof. apply refines_unneeded; [apply summarize_same | apply summarize_extends]. Qed.

Lemma batch_unneeded arts n :
  refines (unneeded name) (summarize_batch env1 arts n) (summarize_batch env2 arts n).
Proof.
apply refines_for_enumerate. intros i a acc.
apply refines_bind; [| intros _].
{ apply refines_unneeded; [intros st _; apply print_same | apply print_extends]. }
apply refines_bind; [apply summarize_unneeded | intros v; apply refines_ret].
Qed.

Lemma perform_unneeded op : refines (unneeded name) (perform env1 op) (perform env2 op).
Proof.
destruct op as [a|arts n]; (apply refines_bind; [| intros r; apply refines_ret]);
  [apply summarize_unneeded | apply batch_unneeded].
Qed.

Lemma session_same ops st :
  sdk_needed (self st) <> Some name -> session env1 ops st = session env2 ops st.
Proof.
revert st. induction ops as [|op ops IH]; intros st Hn; [done |]. simpl.
destruct (perform_unneeded op st st (conj eq_refl Hn)) as [Ho [Hs Hn']].
by rewrite <- Ho, <- Hs, (IH _ Hn').
Qed.
End SameBut.

Section ProgramLemmas.
Context {RT : PyRuntime} {FR : FieldRuntime} (env : Env).

(** The state a session leaves is the state its calls leave. *)
Lemma session_run_all ops st : (session env ops st).2 = run_all env ops st.
Proof.
revert st. induction ops as [|op ops IH]; intros st; [done |].
simpl. by rewrite IH, perform_run.
Qed.

End ProgramLemmas.

(** ** A session without the SDK it needs *)

Section Missing.
Context {RT : PyRuntime} {FR : FieldRuntime} (env : Env) (name : string) (e : exn).
Context (Himp : env_import env name = Some e).
Implicit Types (st : State) (s : Summarizer) (h : list Call).

(** The provider path raises the exception of the import and leaves the
    state as it is. *)
Lemma dispatch_missing prompt st :
  sdk_needed (self st) = Some name -> _client (self st) = None ->
  dispatch env prompt st = (Raise e, st).
Proof.
intros Hn Hc. destruct (provider_cases st) as [Hp|[Hp|[Hpc Hpo]]].
- rewrite (sdk_needed_claude _ Hp) in Hn. injection Hn as <-.
  rewrite (dispatch_claude _ _ _ Hp). unfold bind.
  by rewrite (summarize_with_claude_fresh _ _ _ Hc), Himp.
- rewrite (sdk_needed_openai _ Hp) in Hn. injection Hn as <-.
  rewrite (dispatch_openai _ _ _ Hp).
  by rewrite (summarize_with_openai_fresh _ _ _ Hc), Himp.
- unfold sdk_needed, client_of in Hn.
  by rewrite (proj2 (value_eqb_false _ _) Hpc), (proj2 (value_eqb_false _ _) Hpo) in Hn.
Qed.

(** The instance and the calls made, as an invariant of the calls. *)
Lemma summarize_missing s h a :
  sdk_needed s = Some name -> _client s = None ->
  stable (fun st => self st = s /\ calls (world st) = h) (summarize env a).
Proof.
intros Hn Hc st [<- <-]. destruct (Z.ltb_spec (py_len (content a)) SHORT_CONTENT) as [Hlt|Hge].
{ unfold summarize. by rewrite (proj2 (Z.ltb_lt _ _) Hlt). }
rewrite (summarize_long _ _ _ Hge). destruct (render_prompt _ _) as [prompt|e0]; [| done].
unfold try_except. rewrite (dispatch_missing _ _ Hn Hc).
destruct (is_Exception e); [| done]. unfold on_error, bind, print.
by destruct (env_print _ _ _).
Qed.

Lemma print_calls_stable s h line :
  stable (fun st => self st = s /\ calls (world st) = h) (print env line).
Proof. intros st H. unfold print. by destruct (env_print _ _ _). Qed.

Lemma run_missing s h op st :
  sdk_needed s = Some name -> _client s = None ->
  self st = s /\ calls (world st) = h ->
  self (run env op st) = s /\ calls (world (run env op st)) = h.
Proof.
intros Hn Hc. destruct op as [a|arts n]; [by apply summarize_missing |].
apply (stable_for_enumerate (fun st => self st = s /\ calls (world st) = h)). intros i a acc.
apply stable_bind; [apply print_calls_stable | intros _].
apply stable_bind; [by apply summarize_missing | intros v; apply stable_ret].
Qed.
End Missing.

(** ** Theorems *)

Section ImportsTheorems.
Context {RT : PyRuntime} {FR : FieldRuntime}.

(** C33. A program needs the SDK of the configured provider only.  The
    module imports [typing] and [rss_reader.fetcher] when it is loaded and
    an SDK only inside the getter of the configured provider, so two
    environments that differ in whether another module can be imported,
    the SDK of the other provider for one, give the same program: the same
    exception of the load or the same results of the calls, the same
    lines printed, the same calls made to the SDK. *)
Theorem program_one_sdk name env1 env2 minor config ops w :
  same_but name env1 env2 ->
  name <> "typing" -> name <> "rss_reader.fetcher" ->
  sdk_needed (__init__ config) <> Some name ->
  program env1 minor config ops w = program env2 minor config ops w.
Proof.
intros Hsb Ht Hf Hn. unfold program, load_module.
rewrite !(sb_import _ _ _ Hsb) by done.
by rewrite (session_same name env1 env2 Hsb ops (init_state config w) Hn).
Qed.

(** The SDK of the configured provider is needed: when it cannot be
    imported, no call of a session constructs a client or sends a request,
    and the instance stays as it was constructed, so every call tries the
    import again. *)
Theorem session_without_sdk env name e config ops w :
  sdk_needed (__init__ config) = Some name -> env_import env name = Some e ->
  self (run_all env ops (init_state config w)) = __init__ config /\
  calls (world (run_all env ops (init_state config w))) = calls w.
Proof.
intros Hn Himp.
apply (steps_invariant env
         (fun st => self st = __init__ config /\ calls (world st) = calls w)
         (init_state config w)); [| apply run_all_steps | done].
intros op st. by apply (run_missing env name e Himp).
Qed.
End ImportsTheorems.

(** ** The theorem at a concrete program *)

Lemma ex_env_no_openai_same : same_but "openai" ex_env ex_env_no_openai.
Proof. split; try done. intros n Hn. simpl. by rewrite decide_False. Qed.

Lemma program_one_sdk_witness :
  program (RT:=ascii_runtime) (FR:=no_special) ex_env 11 ∅ ex_session (MkWorld [] [])
  = program (RT:=ascii_runtime) (FR:=no_special) ex_env_no_openai 11 ∅ ex_session
      (MkWorld [] []).
Proof.
apply (program_one_sdk (RT:=ascii_runtime) (FR:=no_special) "openai" ex_env ex_env_no_openai
         11 ∅ ex_session (MkWorld [] []));
  [exact ex_env_no_openai_same | done | done | vm_compute; discriminate].
Defined.

Lemma session_without_sdk_witness :
  self (run_all (RT:=ascii_runtime) (FR:=no_special) ex_env_no_openai ex_session
          (init_state ex_openai (MkWorld [] []))) = __init__ ex_openai /\
  calls (world (run_all (RT:=ascii_runtime) (FR:=no_special) ex_env_no_openai ex_session
                  (init_state ex_openai (MkWorld [] [])))) = [].
Proof.
apply (session_without_sdk (RT:=ascii_runtime) (FR:=no_special) ex_env_no_openai "openai"
         (MkExn ImportError (lit "No module named 'openai'")) ex_openai ex_session
         (MkWorld [] []));
  [vm_compute; reflexivity | reflexivity].
Defined.

(** Under Python 3.8 the class statement raises: no instance is ever
    constructed. *)
Example ex_load_38 :
  program (RT:=ascii_runtime) (FR:=no_special) ex_env 8 ∅ ex_session (MkWorld [] [])
  = Raise (MkExn TypeError (lit "'type' object is not subscriptable")).
Proof. reflexivity. Qed.
