(* ===== verification/EndToEnd.v ===== *)
(** The program, end to end.

    A deployment is an interpreter, an environment and a configuration.
    [deployable] is the check a deployment can make before it runs: the
    module loads, the configuration has the types of the defaults and the
    template passes the check of [Template].  The theorem of the file
    puts the components together ([program_correct]): a deployable
    program whose providers keep no memory returns, for every call of a
    session, the summary the configuration prescribes, raises nothing,
    prints and sends what the contract says and leaves a well-formed
    instance. *)

From Stdlib Require Import ZArith NArith String List Lia.
From stdpp Require Import base tactics option list numbers gmap strings relations.
From S2P Require Import Prelude Logic PyStr Format Config Provider Summarize Batch.
From S2P Require Import Lifecycle Typing Template Spec Isolation Sched Race Concurrent Jobs.
From S2P Require Import Imports.

(** ** Deployments *)

Section Deployment.
Context {RT : PyRuntime} {FR : FieldRuntime} (env : Env).

(** The module loads under Python 3.[minor], the values of the
    configuration have the types of the defaults, and the template renders
    for every article, fields that pad to a width apart. *)
Definition deployable (minor : nat) (config : gmap string value) : bool :=
  is_ok (load_module env minor)
  && config_typed config
  && bool_decide (check_config false config = Renders).

(** What the calls of a session return under a configuration when the
    providers keep no memory. *)
Definition expected_results (config : gmap string value) (ops : list operation)
    : list (outcome exn result) :=
  map (ideal env (__init__ config)) ops.
End Deployment.

(** ** Lemmas *)

Section SessionLemmas.
Context {RT : PyRuntime} {FR : FieldRuntime} (env : Env).
Context (Hsl : stateless env) (Hw : writable env).
Implicit Types (st : State) (cfg : Summarizer) (j : Journal).

(** A call on an instance that is related to the contract returns the
    summary of the configuration and leaves the instance related. *)
Lemma perform_sim cfg op st j :
  sim env cfg st j ->
  (perform env op st).1 = ideal env cfg op /\
  sim env cfg (perform env op st).2 (run_spec env cfg op j).
Proof.
intros Hs. split.
- apply (perform_ideal env cfg Hsl Hw); [exact (sim_config _ _ _ _ Hs) | exact (sim_client _ _ _ _ Hs)].
- rewrite perform_run. by apply run_refines; [apply stateless_request_driven |].
Qed.

(** The results of a session are those of its calls, each as on a fresh
    instance. *)
Lemma session_ideal cfg ops st j :
  sim env cfg st j -> (session env ops st).1 = map (ideal env cfg) ops.
Proof.
revert st j. induction ops as [|op ops IH]; intros st j Hs; [done |].
destruct (perform_sim cfg op st j Hs) as [Ho Hs']. simpl. by rewrite Ho, (IH _ _ Hs').
Qed.

(** What a call that returns in the first state returns in every state:
    its summary is no exception. *)
Lemma ideal_returns cfg op st j :
  sim env cfg st j -> returns env op st = true -> is_ok (ideal env cfg op) = true.
Proof.
intros Hs Hr. rewrite <- (proj1 (perform_sim cfg op st j Hs)).
destruct op as [a|arts n]; simpl in *; rewrite bind_ret_outcome;
  by destruct (_ : outcome exn _).
Qed.
End SessionLemmas.

Section DeployLemmas.
Context {RT : PyRuntime} {FR : FieldRuntime} (env : Env).

(** A session on the instance of a typed configuration leaves it well
    formed, with typed calls only. *)
Lemma session_wf config out ops :
  config_typed config = true ->
  wf_state (run_all env ops (init_state config (MkWorld out []))) /\
  Forall (fun call => call_typed call = true)
    (calls (world (run_all env ops (init_state config (MkWorld out []))))).
Proof.
intros Hty.
pose proof (steps_invariant env wf_state _ _ (run_wf env) (run_all_steps env ops _)
              (init_wf config out Hty)) as Hwf.
split; [done |]. destruct Hwf as [Hinst [_ Hh]].
eapply Forall_impl; [exact Hh |]. intros call. by apply call_wf_typed.
Qed.

Lemma deployable_spec minor config :
  deployable env minor config = true <->
  load_module env minor = Ok tt /\ config_typed config = true /\
  check_config false config = Renders.
Proof.
unfold deployable. rewrite !andb_true_iff, bool_decide_eq_true.
destruct (load_module env minor) as [[]|e]; simpl; [tauto |].
split; [by intros [[? _] _] | by intros [? _]].
Qed.
End DeployLemmas.

(** ** Theorems *)

Section EndToEndTheorems.
Context {RT : PyRuntime} {FR : FieldRuntime} (env : Env).

(** C17. The program is correct, end to end.  For a deployment that passes
    the check, providers that keep no memory and raise only [Exception]s,
    and a standard output that takes every line: the module loads, and a
    session of calls on the instance constructed from the configuration
    returns for each call the summary the configuration prescribes
    ([summarize] the summary of its article, [summarize_batch] the
    summaries of [articles[:max_articles]] in order), no call raises, the
    lines printed and the requests sent are those of the contract, and
    the instance it leaves is well formed, every call made to an SDK
    carrying arguments of the documented types. *)
Theorem program_correct minor config ops out :
  stateless env -> env_catchable env -> writable env ->
  deployable env minor config = true ->
  exists st,
    program env minor config ops (MkWorld out []) = Ok (expected_results env config ops, st) /\
    Forall (fun r => is_ok r = true) (expected_results env config ops) /\
    observe st = run_all_spec env (__init__ config) ops (MkJournal out []) /\
    wf_state st /\ Forall (fun call => call_typed call = true) (calls (world st)).
Proof.
intros Hsl Hcatch Hw (Hload & Hty & Hck)%deployable_spec.
set (st0 := init_state config (MkWorld out [])).
pose proof (sim_init env config (MkWorld out [])) as Hs0.
exists (session env ops st0).2. unfold program. rewrite Hload. split_and!.
- rewrite (surjective_pairing (session env ops st0)). do 2 f_equal.
  by apply (session_ideal env Hsl Hw _ _ _ _ Hs0).
- unfold expected_results. rewrite List.Forall_map. apply Forall_forall. intros op _.
  apply (ideal_returns env Hsl Hw _ op st0 _ Hs0).
  by apply (checked_returns env false).
- rewrite session_run_all. apply (sim_observe env (__init__ config)).
  by apply run_all_refines; [apply stateless_request_driven |].
- rewrite session_run_all. by apply session_wf.
- rewrite session_run_all. by apply session_wf.
Qed.
End EndToEndTheorems.

(** ** The theorem at a concrete program *)

Lemma ex_env_echo_catchable : env_catchable ex_env_echo.
Proof. split; try done; intros; simplify_eq/=; done. Qed.

Lemma program_correct_witness :
  exists st,
    program (RT:=ascii_runtime) (FR:=no_special) ex_env_echo 11 ∅ ex_session (MkWorld [] [])
      = Ok (expected_results (RT:=ascii_runtime) (FR:=no_special) ex_env_echo ∅ ex_session, st) /\
    Forall (fun r => is_ok r = true)
      (expected_results (RT:=ascii_runtime) (FR:=no_special) ex_env_echo ∅ ex_session) /\
    observe st = run_all_spec (RT:=ascii_runtime) (FR:=no_special) ex_env_echo (__init__ ∅)
                   ex_session (MkJournal [] []) /\
    wf_state st /\ Forall (fun call => call_typed call = true) (calls (world st)).
Proof.
apply (program_correct (RT:=ascii_runtime) (FR:=no_special) ex_env_echo 11 ∅ ex_session []);
  [exact ex_env_echo_stateless | exact ex_env_echo_catchable | exact ex_env_echo_writable
  | vm_compute; reflexivity].
Defined.

(** The session of the examples returns the content of the short
    article, the echo of Claude for the long one, and the pairs of the
    batch. *)
Example ex_session_results :
  (expected_results (RT:=ascii_runtime) (FR:=no_special) ex_env_echo ∅ ex_session) !! 1
  = Some (Ok (RSummary (VStr (lit "261")))).
Proof. vm_compute. reflexivity. Qed.
